(* ===== verification/_CoqProject ===== *)
-Q . S2P
Prelude.v
PyValue.v
PyNum.v
Cleaner.v
Schema.v
Admin.v
Random.v
Store.v
Json.v
Importer.v
Generator.v
ImportRun.v
Exporter.v
RoundTrip.v
Pipeline.v
EndToEnd.v
