(* ===== verification/Prelude.v ===== *)
(** * A verification development of the library-catalog data pipeline

    The repository is a small Django application (src/myapp/models.py,
    src/myapp/admin.py) and a stand-alone script,
    src/data_import_export.py, whose [main] generates fake catalogue
    records with Faker, "cleans" them, bulk-inserts them through the ORM
    and exports the database to a JSON file.  The script is the only part
    with behaviour; models.py declares the schema the ORM enforces.

    ** How the program is modelled

    The script is Python, so the development models the part of the
    Python runtime and of the libraries the script relies on, and then
    translates each function of the script statement by statement on
    top of it.  Every Python statement runs in one state-and-exception
    monad whose state is a heap of mutable objects plus an environment
    (the database, the random state, the files).

    - [Prelude] (this file): the monad [PM] (a Python exception does not
      undo the writes before it, so the state is returned on both paths),
      its notations ([x <- c ;; k], in [pm_scope]), [pm_iter] / [pm_map]
      for [for] loops, [pm_zoom] to run a computation on a part of the
      state, the tactics [pm_run] / [pm_step] that run a program one
      computation at a time, the hint databases [pm] and [pm_rw]; the
      predicate [raises_only P c] (every exception [c] can raise
      satisfies [P]) with its rules and the tactic [raises_tac]; the
      frame condition [within Rel c] (every run ends in a state
      [Rel]-related to its start, for a preorder [Rel]) with the tactic
      [within_tac]; [PyValue.ext_rel] lifts a relation on environments
      to worlds, so heap operations stay within it.
    - [PyValue]: Python values ([val]: None, bool, int as [Z], float,
      str, datetime.date, Decimal, references) and the heap of dicts
      (insertion-ordered association lists), lists and model instances,
      with the built-ins the script uses ([iter], [in], [x[k]],
      [x[k] = v], [append], [str.isdigit], [''.join(filter(...))]);
      closedness of a heap and the frame lemmas of allocation (hint
      database [heap]).  Objects are shared by reference, so the
      aliasing of the script is modelled.
    - [PyNum]: [int(x)], [float(x)] and [round(x, n)]: the literal
      grammar, truncation, OverflowError and the 4300-digit limit;
      [two_places lo hi]: the floats [round(x, 2)] returns.
      Floats are exact decimals; overflow to infinity and underflow to
      zero are modelled, rounding to 53 bits is not.
    - [Cleaner]: [clean_raw_data] (lines 20-43) with a heap-free
      specification [clean_dict] and the refinement between them.
    - [Schema]: models.py as Python reads it (module [Layout]: the
      tokenizer's INDENT/DEDENT stack and the execution of the class
      statements) and the fields the store enforces (module [Fields]).
    - [Admin]: admin.py as Python's tokenizer reads it (module [Lexer]),
      the configuration it declares (module [Config]: the inline and
      the three [ModelAdmin]s with their [@admin.register]) and Django's
      admin system checks for the options it uses (module [Checks], a
      library modelled from its documentation); [admin_import] composes
      them with the import of models.py.
    - [Random]: CPython 3.11's [random.choice], [randint], [uniform] and
      [sample] (pool and set algorithms) over the class [RandomSource],
      an injectable generator; a concrete instance [lcg_source].
    - [Store]: the Django ORM as the script uses it (a library): tables
      with auto-increment keys, NOT NULL / unique / foreign-key checks on
      each INSERT, the many-to-many relation, [Model( **d)],
      [bulk_create], [objects.all()], [objects.create], [books.set];
      the invariant [db_ok] and [keeps I c] ([preserves] for [db_ok]),
      with the hint database [store] and the tactic [keeps_tac]; the
      invariant [rel_bounded] (a publisher is related to at most 10
      books, and to no more than the table holds) and the type
      invariant [db_typed] (stored rows have their model's column types,
      kept by every INSERT).
    - [Json]: [json.dump(.., indent=2, ensure_ascii=False)] chunk by
      chunk, escapes, float repr, circularity check; JSON trees [jv],
      the reference printer [jprint] and the relation [repr] between a
      heap value and a tree.
    - [Importer], [Generator] (Faker as the class [Faker]),
      [Exporter] and [Pipeline]: lines 90-122, 45-88, 124-167 and
      169-188 of the script; [Pipeline] also models standard output
      and the module body around [main] (lines 3-18 and 190-191: the
      imports, the settings module, [django.setup()], the import of the
      models and the [__main__] guard) over a process of environment
      variables, [sys.path] and installed modules.
    - [ImportRun]: the success path of [import_to_database] phase by
      phase: [import_authors], [import_books] (a loop whose invariant
      [books_inv] tracks the instances, the mutated input dicts and the
      random state) and [import_publishers] run to their end on input of
      the generator's shape ([import_input], [import_allowed]), each
      inserting one row per record in order, and the composed run
      [import_to_database_run] that returns the counts dict.
    - [RoundTrip]: the importer followed by the exporter's document: for
      the authors ([import_authors] on author dicts of the generator's
      shape always succeeds, and the later phases never write the
      authors table: [keeps] with an INSERT closed per table), for the
      books and for the publishers.
    - [EndToEnd]: the same order for every input size and random
      source: the generator's dicts are the importer's input records
      ([gen_import_input]), the imported rows are rows the exporter can
      print ([import_export_ok]).

    ** What is proved (per group)

    - Pipeline: the script as this repository has it never reaches
      [main]: ModuleNotFoundError at line 14 (the placeholder settings
      module) or line 16 ([your_app.models]); with both provided it runs
      [main], which raises TypeError at the import step.  [main] raises
      TypeError at the import step for every
      random source, Faker and seed; nothing is stored, no file is
      written, and standard output holds the first three progress lines.
    - Cleaner: refinement of the monadic code by [clean_dict]; the ISBN
      afterwards holds only digits and is a subsequence of the input;
      price and pages are coerced with the documented defaults; keys and
      order are kept; records are mutated in place and the result list
      aliases them; exactly when it raises (it is not total); on a dict
      it returns the list of keys.
    - Generator: the shape and bounds of the records (n, n, min(5, n);
      genres; pages in [100, 800]; valid dates; a price is a multiple of
      0.01 in [5.99, 99.99]).
    - Exporter: refinement: on a consistent database whose rows it can
      print, the file holds [jprint 0 (export_doc d)] and the sizes are
      returned; safety: on every path it keeps
      the database and the random state and changes no file but its
      argument; equivalence: the chunk-by-chunk [json.dump] writes the
      text of the reference printer [jprint] of the tree a value
      represents.
    - Importer: given a list it raises TypeError; with no author it
      raises IndexError before storing a book; every publisher keeps at
      most 10 related books, and no more than the table holds.
    - ImportRun: liveness: on well-formed input (storable books, new
      distinct isbns, an author when there is a book, at most 85 books
      in the end so [random.sample] takes its pool branch)
      [import_to_database] returns the dict of the input list lengths
      and each table grows by exactly that many rows; error: when an
      ISBN repeats in the input or is already stored, it raises
      IntegrityError at the books' [bulk_create], with the authors
      stored and no book or publisher.
    - RoundTrip: after [import_to_database(data)], returning or raising,
      the 'authors' entry of the exported document is the old one
      followed by the input authors, in order, dates in ISO format (so
      the exported arrays also hold the rows stored before the import);
      after a successful import the 'books' entry is the old
      one followed by the input books in order, each with its fields,
      its date in ISO format, its price back as the same float through
      the DecimalField(6, 2) and [float()], and as author the name of
      an author stored before or of the input; the 'publishers' entry
      is the old one followed by the input publishers in order, each
      with a 'books' list of exactly [min(10, B)] titles of stored
      books ([B] books stored), which [sampled_books] records: fewer
      than the 5 to 10 of the comment of line 113 when [B < 5].
    - EndToEnd: from an empty store, [generate_sample_data(n)] for
      [n <= 85], then [import_to_database], then [export_from_database]
      (the calls of [main] without the cleaner that breaks it): when the
      generated ISBNs are distinct, both return the counts [n], [n],
      [min(5, n)] and the file holds the JSON text of the store.
    - Admin: importing admin.py raises SyntaxError at line 2 (the
      Markdown fence); without the fences it fails on models.py's
      NameError; with both files as intended the admins register and
      the system checks pass.
    - Schema: Book is nested in Author; importing models.py raises
      NameError at line 24.
    - Libraries: [random.sample] returns [k] elements drawn without
      replacement (a sub-multiset), its pool algorithm always ends;
      [choice], [randint], [uniform] stay in range; every ORM call keeps
      [db_ok].

    ** Bounds and fuel

    [random.sample]'s set algorithm (more than 85 books for k = 10)
    redraws until it finds an unselected index, which ends only with
    probability one: the model allows [sample_fuel = 1000] redraws per
    element and raises the marker [OutOfFuel] beyond; the pool
    algorithm, used up to 85 books, needs no fuel.  [json_dump] is given
    the number of heap objects plus one as depth, which a path without
    repeated containers cannot exceed; [Json] proves that this depth
    never runs out ([Json.json_dump_no_fuel_error]).
    [round] strips trailing zeros with fuel [log2 |m| + 1], more than
    the number of decimal digits of [m].

    ** Not modelled

    the admin's views (the framework's code; admin.py only configures
    them), what [django.setup()] does beyond importing the settings
    module, the contents of the directories on [sys.path] (a parameter
    of the bootstrap model), file-system failures,
    the Mersenne Twister and Faker's data, binary rounding of floats,
    non-ASCII characters in strings.
*)

From stdpp Require Export base list strings gmap.
From Stdlib Require Export ZArith Ascii Lia.

(** ** The state-and-exception monad *)

(** [PM E S A]: a computation over a state [S] that either raises an
    exception of type [E] or returns an [A]; the state reached is kept in
    both cases, as in Python where an exception does not roll back the
    mutations already performed. *)
Definition PM (E S A : Type) : Type := S -> (E + A) * S.

Section Monad.
Context {E S : Type}.

Definition pm_ret {A} (a : A) : PM E S A := fun s => (inr a, s).

Definition pm_bind {A B} (c : PM E S A) (k : A -> PM E S B) : PM E S B :=
  fun s => match c s with
           | (inl e, s') => (inl e, s')
           | (inr a, s') => k a s'
           end.

Definition pm_raise {A} (e : E) : PM E S A := fun s => (inl e, s).

(** [try: c except h] where the handler decides which exceptions it
    catches by re-raising the others. *)
Definition pm_catch {A} (c : PM E S A) (h : E -> PM E S A) : PM E S A :=
  fun s => match c s with
           | (inl e, s') => h e s'
           | (inr a, s') => (inr a, s')
           end.

Definition pm_get : PM E S S := fun s => (inr s, s).
Definition pm_put (s : S) : PM E S unit := fun _ => (inr tt, s).
Definition pm_modify (f : S -> S) : PM E S unit := fun s => (inr tt, f s).

(** An already computed result, error or value. *)
Definition pm_lift {A} (r : E + A) : PM E S A := fun s => (r, s).

(** Run a computation on a component [T] of the state. *)
Definition pm_zoom {T A} (get : S -> T) (set : T -> S -> S) (c : PM E T A) : PM E S A :=
  fun s => let '(r, t) := c (get s) in (r, set t s).
End Monad.

Declare Scope pm_scope.
Delimit Scope pm_scope with pm.
Notation "x <- c1 ;; c2" := (pm_bind c1 (fun x => c2))
  (at level 100, c1 at next level, right associativity) : pm_scope.
Notation "c1 ;; c2" := (pm_bind c1 (fun _ : unit => c2))
  (at level 100, right associativity) : pm_scope.
Open Scope pm_scope.

(** ** Python [for] loops *)

Section Loops.
Context {E S : Type}.

(** [for x in l: body(x)] *)
Fixpoint pm_iter {A} (body : A -> PM E S unit) (l : list A) : PM E S unit :=
  match l with
  | [] => pm_ret tt
  | x :: l' => body x ;; pm_iter body l'
  end.

(** [[f(x) for x in l]], or a loop that appends [f(x)] to a list. *)
Fixpoint pm_map {A B} (f : A -> PM E S B) (l : list A) : PM E S (list B) :=
  match l with
  | [] => pm_ret []
  | x :: l' => y <- f x ;; ys <- pm_map f l' ;; pm_ret (y :: ys)
  end.
End Loops.

(** ** Running a computation *)

Section Run.
Context {E S : Type}.

(** The two unfolding equations, to rewrite the outermost bind or
    catch of a goal and expose the run of its first computation. *)
Lemma pm_bind_run {A B} (c : PM E S A) (k : A -> PM E S B) s :
  pm_bind c k s = match c s with
                  | (inl e, s') => (inl e, s')
                  | (inr a, s') => k a s'
                  end.
Proof. reflexivity. Qed.

Lemma pm_catch_run {A} (c : PM E S A) h s :
  pm_catch c h s = match c s with
                   | (inl e, s') => h e s'
                   | (inr a, s') => (inr a, s')
                   end.
Proof. reflexivity. Qed.

Lemma pm_bind_inr {A B} (c : PM E S A) (k : A -> PM E S B) s a s' :
  c s = (inr a, s') -> pm_bind c k s = k a s'.
Proof. intros H. unfold pm_bind. by rewrite H. Qed.

Lemma pm_bind_inl {A B} (c : PM E S A) (k : A -> PM E S B) s e s' :
  c s = (inl e, s') -> pm_bind c k s = (inl e, s').
Proof. intros H. unfold pm_bind. by rewrite H. Qed.

Lemma pm_catch_inr {A} (c : PM E S A) h s a s' :
  c s = (inr a, s') -> pm_catch c h s = (inr a, s').
Proof. intros H. unfold pm_catch. by rewrite H. Qed.

Lemma pm_catch_inl {A} (c : PM E S A) h s e s' :
  c s = (inl e, s') -> pm_catch c h s = h e s'.
Proof. intros H. unfold pm_catch. by rewrite H. Qed.

Lemma pm_bind_ret {A B} (a : A) (k : A -> PM E S B) s :
  pm_bind (pm_ret a) k s = k a s.
Proof. reflexivity. Qed.

Lemma pm_bind_assoc {A B C} (c : PM E S A) (f : A -> PM E S B)
      (g : B -> PM E S C) s :
  pm_bind (pm_bind c f) g s = pm_bind c (fun a => pm_bind (f a) g) s.
Proof. unfold pm_bind. by destruct (c s) as [[e|a] s']. Qed.

(** A loop over [l1 ++ l2] runs over [l1], then over [l2]. *)
Lemma pm_iter_app {A} (body : A -> PM E S unit) l1 l2 s :
  pm_iter body (l1 ++ l2) s = pm_bind (pm_iter body l1) (fun _ => pm_iter body l2) s.
Proof.
  revert s. induction l1 as [|x l1 IH]; intros s; [done|].
  simpl. rewrite pm_bind_assoc. unfold pm_bind.
  destruct (body x s) as [[e|[]] s']; [done|]. apply IH.
Qed.

(** A loop whose every iteration succeeds and preserves an invariant
    [I] succeeds and ends in a state satisfying [I]. *)
Lemma pm_iter_invariant {A} (I : S -> Prop) (body : A -> PM E S unit) l s :
  I s ->
  (forall x s1, x ∈ l -> I s1 -> exists s2, body x s1 = (inr tt, s2) /\ I s2) ->
  exists s', pm_iter body l s = (inr tt, s') /\ I s'.
Proof.
  revert s. induction l as [|x l IH]; intros s HI Hbody; [by exists s|].
  destruct (Hbody x s) as (s2 & Hrun & HI2); [set_solver|done|].
  simpl. rewrite (pm_bind_inr _ _ _ _ _ Hrun).
  apply IH; [done|]. intros y s1 Hy. apply Hbody. set_solver.
Qed.
(** A loop over [xs], related pointwise to [ys], whose iteration on
    [x] extends an invariant of the processed [ys] by the [y] of [x]. *)
Lemma pm_iter_forall2 {A B} (P : A -> B -> Prop) (I : list B -> S -> Prop) (body : A -> PM E S unit) xs ys s :
  Forall2 P xs ys -> I [] s ->
  (forall pre x y s1, P x y -> I pre s1 -> exists s2, body x s1 = (inr tt, s2) /\ I (pre ++ [y]) s2) ->
  exists s', pm_iter body xs s = (inr tt, s') /\ I ys s'.
Proof.
  intros HP H0 Hbody. cut (forall pre s, I pre s -> exists s', pm_iter body xs s = (inr tt, s') /\ I (pre ++ ys) s').
  { intros Hc. by apply (Hc []). }
  induction HP as [|x y xs ys Hxy HP IH]; intros pre s1 HI.
  - exists s1. by rewrite app_nil_r.
  - destruct (Hbody pre x y s1 Hxy HI) as (s2 & Hrun & HI2). simpl. rewrite (pm_bind_inr _ _ _ _ _ Hrun).
    destruct (IH _ _ HI2) as (s' & Hs' & HI'). exists s'. by rewrite <-app_assoc in HI'.
Qed.

(** A map over [xs], related pointwise to [ys], whose call on [x]
    returns [g y] and leaves the state alone. *)
Lemma pm_map_forall2 {A B C} (P : A -> B -> Prop) (f : A -> PM E S C) (g : B -> C) xs ys s :
  Forall2 P xs ys -> (forall x y, P x y -> f x s = (inr (g y), s)) -> pm_map f xs s = (inr (g <$> ys), s).
Proof.
  intros HP Hf. induction HP as [|x y xs ys Hxy HP IH]; [done|]. simpl.
  by rewrite (pm_bind_inr _ _ _ _ _ (Hf x y Hxy)), pm_bind_run, IH.
Qed.
End Run.

Create HintDb pm discriminated.
Create Rewrite HintDb pm_rw.
#[export] Hint Rewrite @pm_bind_ret @pm_bind_assoc @pm_iter_app : pm_rw.

(** [pm_run H] rewrites the first bind of the goal with the run [H] of
    its first computation; the last case finds the bind under binders
    (in an existential statement about the run). *)
Ltac pm_run H :=
  first [ rewrite (pm_bind_inr _ _ _ _ _ H)
        | rewrite (pm_bind_inl _ _ _ _ _ H)
        | rewrite (pm_catch_inr _ _ _ _ _ H)
        | rewrite (pm_catch_inl _ _ _ _ _ H)
        | lazymatch type of H with
          | ?c ?s = (inr ?a, ?s') =>
              match goal with |- context [pm_bind c ?k s] => rewrite (pm_bind_inr c k s a s' H) end
          | ?c ?s = (inl ?e, ?s') =>
              match goal with |- context [pm_bind c ?k s] => rewrite (pm_bind_inl c k s e s' H) end
          end ].

(** [pm_step H]: the same after re-associating the binds of the goal
    and running its leading [pm_ret]s, so that the computation [H] runs
    is the first one. *)
Ltac pm_step H :=
  repeat (rewrite pm_bind_assoc || (rewrite pm_bind_ret; cbv beta)); pm_run H.

(** ** Shared list lemmas *)

Section Lists.
Context {A : Type}.

(** [filter] keeps a subsequence of its argument. *)
Lemma filter_sublist (P : A -> Prop) `{!forall x, Decision (P x)} (l : list A) :
  sublist (filter P l) l.
Proof.
  induction l as [|x l IH]; [constructor|].
  rewrite filter_cons. case_decide; by constructor.
Qed.

Lemma Forall_filter_self (P : A -> Prop) `{!forall x, Decision (P x)} (l : list A) :
  Forall P (filter P l).
Proof. apply Forall_forall. intros x Hx. by apply list_elem_of_filter in Hx as [? _]. Qed.
End Lists.

#[export] Hint Resolve filter_sublist Forall_filter_self : pm.

(** Prove a decidable proposition on concrete data by evaluating its
    decision procedure. *)
Ltac decide_by_compute :=
  match goal with |- ?P => apply (bool_decide_eq_true_1 P); vm_compute; reflexivity end.

(** ** Error results *)

(** Map a fallible function over a list; the first error wins. *)
Fixpoint mapE {E A B} (f : A -> E + B) (l : list A) : E + list B :=
  match l with
  | [] => inr []
  | x :: l' =>
      match f x with
      | inl e => inl e
      | inr y => match mapE f l' with inl e => inl e | inr ys => inr (y :: ys) end
      end
  end.

Lemma mapE_length {E A B} (f : A -> E + B) l ys : mapE f l = inr ys -> length ys = length l.
Proof.
  revert ys. induction l as [|x l IH]; intros ys; simpl; [by intros [= <-]|].
  destruct (f x); [done|]. destruct (mapE f l) eqn:Hm; [done|]. intros [= <-]. simpl. by rewrite (IH _ eq_refl).
Qed.

(** [mapE] succeeds when every call does. *)
Lemma mapE_Forall2 {E A B} (f : A -> E + B) l ys : Forall2 (fun x y => f x = inr y) l ys -> mapE f l = inr ys.
Proof. induction 1 as [|x y l ys Hxy _ IH]; [done|]. simpl. by rewrite Hxy, IH. Qed.

(** [mapE] succeeds when every call does, with results satisfying [P]. *)
Lemma mapE_Forall_exists {E A B} (P : B -> Prop) (f : A -> E + B) l :
  Forall (fun x => exists y, f x = inr y /\ P y) l -> exists ys, mapE f l = inr ys /\ Forall P ys.
Proof.
  induction 1 as [|x l (y & Hy & HP) _ (ys & Hys & HPs)]; [by exists []|].
  exists (y :: ys). simpl. rewrite Hy, Hys. by split; [|constructor].
Qed.

(** What every call of [f] guarantees of its result holds of the list. *)
Lemma mapE_Forall_inr {E A B} (P : B -> Prop) (f : A -> E + B) l ys :
  (forall x y, f x = inr y -> P y) -> mapE f l = inr ys -> Forall P ys.
Proof.
  intros Hf. revert ys. induction l as [|x l IH]; intros ys; simpl; [by intros [= <-]|].
  destruct (f x) eqn:Hx; [done|]. destruct (mapE f l) eqn:Hm; [done|]. intros [= <-].
  constructor; [by eapply Hf|by apply IH].
Qed.

(** ** Sizes of finite sets *)

Section SetSizes.
Context `{Countable A}.

Lemma size_list_to_set_le (l : list A) : size (list_to_set (C := gset A) l) <= length l.
Proof.
  induction l as [|x l IH]; [vm_compute; lia|]. simpl.
  rewrite size_union_alt, size_singleton.
  pose proof (subseteq_size (list_to_set (C := gset A) l ∖ {[x]}) (list_to_set (C := gset A) l) ltac:(set_solver)).
  lia.
Qed.

End SetSizes.

Lemma size_set_map_le `{Countable A, Countable B} (f : A -> B) (X : gset A) :
  size (set_map (D := gset B) f X) <= size X.
Proof.
  unfold set_map. pose proof (size_list_to_set_le (f <$> elements X)) as Hle.
  rewrite length_fmap in Hle. exact Hle.
Qed.

(** ** Strings *)

Lemma str_app_assoc (s1 s2 s3 : string) : ((s1 +:+ s2) +:+ s3 = s1 +:+ s2 +:+ s3)%string.
Proof. induction s1 as [|c s1 IH]; [done|]. exact (f_equal (String c) IH). Qed.

Lemma str_app_nil_r (s : string) : (s +:+ "")%string = s.
Proof. induction s as [|c s IH]; [done|]. exact (f_equal (String c) IH). Qed.

Create Rewrite HintDb str_rw.
#[export] Hint Rewrite str_app_assoc str_app_nil_r : str_rw.

(** ** Lists related pointwise *)

Lemma Forall2_zip_elem {A B} (P : A -> B -> Prop) xs ys x y :
  Forall2 P xs ys -> (x, y) ∈ zip xs ys -> P x y.
Proof.
  induction 1 as [|x' y' xs ys Hxy _ IH]; simpl; [by intros ?%elem_of_nil|].
  by intros [[= -> ->]|Hin]%elem_of_cons; [|apply IH].
Qed.

Lemma Forall2_impl2 {A B} (P Q S : A -> B -> Prop) xs ys :
  Forall2 P xs ys -> Forall2 Q xs ys -> (forall x y, P x y -> Q x y -> S x y) -> Forall2 S xs ys.
Proof. intros HP HQ HS. induction HP; inversion HQ; subst; constructor; auto. Qed.

Lemma Forall2_Forall_r {A B} (P : A -> B -> Prop) (Q : B -> Prop) xs ys :
  Forall2 P xs ys -> Forall Q ys -> Forall2 (fun x y => P x y /\ Q y) xs ys.
Proof. intros HP HQ. induction HP; inversion HQ; subst; constructor; auto. Qed.

(** A sub-multiset of the left list of [Forall2] has its partners in a
    sub-multiset of the right list. *)
Lemma Forall2_submseteq_l {A B} (P : A -> B -> Prop) xs' xs ys :
  xs' ⊆+ xs -> Forall2 P xs ys -> exists ys', Forall2 P xs' ys' /\ ys' ⊆+ ys.
Proof.
  intros Hs. revert ys. induction Hs as [|x l1 l2 _ IH|x y l|x l1 l2 _ IH|l1 l2 l3 _ IH1 _ IH2]; intros ys Hf.
  - exists []. split; [done|apply submseteq_nil_l].
  - inversion Hf as [|? y ? ys2 Hxy Hf2]; subst. destruct (IH _ Hf2) as (ys1 & H1 & Hs1).
    exists (y :: ys1). split; [by constructor|by apply submseteq_skip].
  - inversion Hf as [|? a ? ys1 Ha Hf1]; subst. inversion Hf1 as [|? b ? ys0 Hb Hf0]; subst.
    exists (b :: a :: ys0). split; [by repeat constructor|apply submseteq_swap].
  - inversion Hf as [|? y ? ys2 Hxy Hf2]; subst. destruct (IH _ Hf2) as (ys1 & H1 & Hs1).
    exists ys1. split; [done|by apply submseteq_cons].
  - destruct (IH2 _ Hf) as (ys2 & H2 & Hs2). destruct (IH1 _ H2) as (ys1 & H1 & Hs1).
    exists ys1. split; [done|by etrans].
Qed.

Lemma NoDup_submseteq_inv {A} (l1 l2 : list A) : l1 ⊆+ l2 -> NoDup l2 -> NoDup l1.
Proof. intros (k & Hp)%submseteq_Permutation Hnd. rewrite Hp in Hnd. by apply NoDup_app in Hnd as []. Qed.

Lemma Forall2_elem_l {A B} (P : A -> B -> Prop) xs ys x :
  Forall2 P xs ys -> x ∈ xs -> exists y, y ∈ ys /\ P x y.
Proof.
  induction 1 as [|x' y xs ys Hxy _ IH]; [by intros ?%elem_of_nil|].
  intros [->|Hx]%elem_of_cons; [exists y; split; [left|done]|].
  destruct (IH Hx) as (y' & Hy' & HP). exists y'. split; [by right|done].
Qed.

Lemma Forall2_Forall_r_impl {A B} (P : B -> Prop) (R R' : A -> B -> Prop) xs ys :
  Forall P ys -> Forall2 R xs ys -> (forall x y, P y -> R x y -> R' x y) -> Forall2 R' xs ys.
Proof. intros HP HR Himp. induction HR; inversion HP; constructor; auto. Qed.

(** ** The exceptions a computation may raise

    [raises_only P c]: whatever the state, [c] either returns or raises
    an exception satisfying [P]. *)
Section Raises.
Context {E S : Type} (P : E -> Prop).

Definition raises_only {A} (c : PM E S A) : Prop :=
  forall s, match (c s).1 with inl e => P e | inr _ => True end.

Lemma raises_only_ret {A} (a : A) : raises_only (pm_ret a).
Proof. by intros s. Qed.

Lemma raises_only_raise {A} e : P e -> raises_only (pm_raise (A := A) e).
Proof. by intros He s. Qed.

Lemma raises_only_bind {A B} (c : PM E S A) (k : A -> PM E S B) :
  raises_only c -> (forall a, raises_only (k a)) -> raises_only (pm_bind c k).
Proof.
  intros Hc Hk s. specialize (Hc s). unfold pm_bind. destruct (c s) as [[e|a] s']; [done|]. apply Hk.
Qed.

Lemma raises_only_iter {A} (body : A -> PM E S unit) l :
  (forall x, raises_only (body x)) -> raises_only (pm_iter body l).
Proof. intros Hb. induction l; simpl; [apply raises_only_ret|by apply raises_only_bind]. Qed.

Lemma raises_only_map {A B} (f : A -> PM E S B) l :
  (forall x, raises_only (f x)) -> raises_only (pm_map f l).
Proof.
  intros Hf. induction l; simpl; [apply raises_only_ret|].
  apply raises_only_bind; [done|]. intros. apply raises_only_bind; [done|]. intros. apply raises_only_ret.
Qed.

Lemma raises_only_state {A} (f : S -> A * S) : raises_only (fun s => (inr (f s).1, (f s).2)).
Proof. by intros s. Qed.
End Raises.

Create HintDb raises discriminated.
#[export] Hint Resolve raises_only_ret raises_only_raise : raises.

(** Decompose a program into the steps [raises_only] is known for. *)
Ltac raises_tac :=
  repeat match goal with
  | |- forall _, _ => intros ?
  | |- raises_only _ (pm_bind _ _) => apply raises_only_bind
  | |- raises_only _ (pm_iter _ _) => apply raises_only_iter
  | |- raises_only _ (pm_map _ _) => apply raises_only_map
  | |- raises_only _ _ => first [solve [eauto with raises] | case_match]
  end.

(** ** Frame conditions: how far a computation moves the state

    [within Rel c]: every run of [c], returning or raising, ends in a
    state [Rel]-related to the one it started from.  [Rel] is a preorder
    (a computation that does nothing stays within it, and two steps
    within it compose), so the property is proved step by step. *)
Section Within.
Context {E S : Type} (Rel : relation S) `{!PreOrder Rel}.

Definition within {A} (c : PM E S A) : Prop := forall s, Rel s (c s).2.

Lemma within_ret {A} (a : A) : within (pm_ret a).
Proof. intros s. simpl. reflexivity. Qed.

Lemma within_raise {A} e : within (pm_raise (A := A) e).
Proof. intros s. simpl. reflexivity. Qed.

Lemma within_lift {A} (r : E + A) : within (pm_lift r).
Proof. intros s. simpl. reflexivity. Qed.

Lemma within_bind {A B} (c : PM E S A) (k : A -> PM E S B) :
  within c -> (forall a, within (k a)) -> within (pm_bind c k).
Proof.
  intros Hc Hk s. specialize (Hc s). unfold pm_bind.
  destruct (c s) as [[e|a] s']; simpl in *; [done|]. by etrans; [|apply Hk].
Qed.

Lemma within_iter {A} (body : A -> PM E S unit) l :
  (forall x, within (body x)) -> within (pm_iter body l).
Proof. intros Hb. induction l; simpl; [apply within_ret|by apply within_bind]. Qed.

Lemma within_map {A B} (f : A -> PM E S B) l :
  (forall x, within (f x)) -> within (pm_map f l).
Proof.
  intros Hf. induction l; simpl; [apply within_ret|].
  apply within_bind; [done|]. intros. apply within_bind; [done|]. intros. apply within_ret.
Qed.
End Within.

Create HintDb within discriminated.
#[export] Hint Resolve within_ret within_raise within_lift : within.

(** Decompose a program into the steps [within] is known for. *)
Ltac within_tac :=
  repeat match goal with
  | |- forall _, _ => intros ?
  | |- within _ (pm_bind _ _) => apply within_bind
  | |- within _ (pm_iter _ _) => apply within_iter
  | |- within _ (pm_map _ _) => apply within_map
  | |- PreOrder _ => typeclasses eauto
  | |- within _ _ => first [solve [eauto with within typeclass_instances] | case_match]
  end.
