(* ===== verification/PyValue.v ===== *)
(** * Python values, the heap of mutable objects, and the built-ins the
    script relies on

    A Python value is immutable ([None], [bool], [int], [float], [str],
    [datetime.date]) or a reference to a mutable object of the heap
    (a [dict], a [list], an instance of a model class).  Dicts keep their
    insertion order, which [json.dump] and iteration observe.  Every
    operation is an interpretation in the monad [PyM] over a [world]
    whose heap is shared by all components; the rest of the world
    ([w_ext]: the database, the random source) is left abstract here. *)

From S2P Require Import Prelude.

(** ** Exceptions the script can raise *)

Inductive exn :=
  | TypeError | ValueError | OverflowError | KeyError | IndexError
  | AttributeError | NameError | IntegrityError | DataError
  | ValidationError | InvalidOperation
  (** [Model.DoesNotExist], raised by following a dangling foreign key *)
  | DoesNotExist
  (** a reference to a location that is not allocated; unreachable from
      a well-formed heap, where Python has no dangling references *)
  | Dangling
  (** not a Python exception: a loop that Python would still be running
      has used up the fuel the model gives it *)
  | OutOfFuel.

#[export] Instance exn_eq_dec : EqDecision exn.
Proof. solve_decision. Defined.

(** ** Values *)

Record date := mkDate { year : Z; month : Z; day : Z }.

#[export] Instance date_eq_dec : EqDecision date.
Proof. solve_decision. Defined.

(** A finite float is the exact decimal [m * 10^e]; [PyNum.dnorm]
    keeps it in the canonical form where [m] has no trailing zero. *)
Inductive pyfloat := PFin (m e : Z) | PInf (neg : bool) | PNaN.

#[export] Instance pyfloat_eq_dec : EqDecision pyfloat.
Proof. solve_decision. Defined.

Abbreviation loc := positive.

Inductive val :=
  | VNone
  | VBool (b : bool)
  | VInt (z : Z)
  | VFloat (f : pyfloat)
  | VStr (s : string)
  | VDate (d : date)
  (** a [decimal.Decimal] with coefficient [m] and exponent [e], kept as
      Python keeps it (Decimal('12.50') is (1250, -2)) *)
  | VDecimal (m e : Z)
  | VRef (l : loc).

#[export] Instance val_eq_dec : EqDecision val.
Proof. solve_decision. Defined.

(** Mutable objects.  Dict keys are strings: every dict of the script
    is keyed by field names. *)
Inductive obj :=
  | ODict (kvs : list (string * val))
  | OList (xs : list val)
  | OInst (cls : string) (attrs : list (string * val)).

Record heap := mkHeap { hmap : gmap positive obj; hnext : positive }.

Record world (X : Type) := mkWorld { w_heap : heap; w_ext : X }.
Arguments mkWorld {X} _ _.
Arguments w_heap {X} _.
Arguments w_ext {X} _.

Abbreviation PyM X A := (PM exn (world X) A).

(** ** Association lists: the contents of a dict *)

Section Assoc.
Context {V : Type}.

Fixpoint assoc_lookup (k : string) (kvs : list (string * V)) : option V :=
  match kvs with
  | [] => None
  | (k', v) :: kvs' => if String.eqb k k' then Some v else assoc_lookup k kvs'
  end.

(** [d[k] = v]: an existing key keeps its position, a new key goes last. *)
Fixpoint assoc_set (k : string) (v : V) (kvs : list (string * V)) : list (string * V) :=
  match kvs with
  | [] => [(k, v)]
  | (k', v') :: kvs' =>
      if String.eqb k k' then (k', v) :: kvs' else (k', v') :: assoc_set k v kvs'
  end.
End Assoc.

(** ** The heap *)

Definition heap_get (h : heap) (l : loc) : option obj := hmap h !! l.

Definition heap_set (h : heap) (l : loc) (o : obj) : heap :=
  mkHeap (<[l := o]> (hmap h)) (hnext h).

Definition heap_alloc (h : heap) (o : obj) : loc * heap :=
  (hnext h, mkHeap (<[hnext h := o]> (hmap h)) (Pos.succ (hnext h))).

Lemma heap_set_id h l o : heap_get h l = Some o -> heap_set h l o = h.
Proof. destruct h as [m n]. unfold heap_get, heap_set. simpl. intros H. f_equal. by apply insert_id. Qed.

Lemma heap_set_set h l o1 o2 : heap_set (heap_set h l o1) l o2 = heap_set h l o2.
Proof. unfold heap_set. simpl. f_equal. apply insert_insert_eq. Qed.

Lemma heap_get_set_eq h l o : heap_get (heap_set h l o) l = Some o.
Proof. apply lookup_insert_eq. Qed.

Lemma heap_get_set_ne h l l' o : l <> l' -> heap_get (heap_set h l o) l' = heap_get h l'.
Proof. intros Hne. by apply lookup_insert_ne. Qed.

#[export] Hint Rewrite heap_set_set heap_get_set_eq : pm_rw.

(** Every allocated location is below the allocation pointer. *)
Definition heap_wf (h : heap) : Prop :=
  forall l, is_Some (hmap h !! l) -> (l < hnext h)%positive.

Section Ops.
Context {X : Type}.

Definition py_load (l : loc) : PyM X obj :=
  fun w => match heap_get (w_heap w) l with
           | Some o => (inr o, w)
           | None => (inl Dangling, w)
           end.

Definition py_store (l : loc) (o : obj) : PyM X unit :=
  fun w => (inr tt, mkWorld (heap_set (w_heap w) l o) (w_ext w)).

Definition py_alloc (o : obj) : PyM X loc :=
  fun w => let '(l, h) := heap_alloc (w_heap w) o in (inr l, mkWorld h (w_ext w)).

(** [iter(v)], consumed eagerly: a dict yields its keys, a list its
    elements, a str its one-character strings. *)
Definition py_iter (v : val) : PyM X (list val) :=
  match v with
  | VStr s => pm_ret (map (fun c => VStr (String c EmptyString)) (String.list_ascii_of_string s))
  | VRef l =>
      o <- py_load l ;;
      match o with
      | ODict kvs => pm_ret (map (fun kv => VStr kv.1) kvs)
      | OList xs => pm_ret xs
      | OInst _ _ => pm_raise TypeError
      end
  | _ => pm_raise TypeError
  end.
End Ops.

(** ** Strings *)

Fixpoint str_prefix (p s : string) : bool :=
  match p, s with
  | EmptyString, _ => true
  | String c p', String d s' => Ascii.eqb c d && str_prefix p' s'
  | String _ _, EmptyString => false
  end.

(** [needle in s] for two strings: a contiguous occurrence. *)
Fixpoint str_contains (needle s : string) : bool :=
  str_prefix needle s ||
  match s with
  | EmptyString => false
  | String _ s' => str_contains needle s'
  end.

Definition is_ascii_digit (c : ascii) : bool :=
  let n := nat_of_ascii c in (48 <=? n) && (n <=? 57).

(** [str.isdigit()] on an ASCII string: non-empty and all digits. *)
Definition str_isdigit (s : string) : bool :=
  negb (String.eqb s EmptyString) && forallb is_ascii_digit (String.list_ascii_of_string s).

(** Raising the exception of a built-in that returned one. *)
Definition py_lift {X A} (r : exn + A) : PyM X A :=
  match r with inl e => pm_raise e | inr a => pm_ret a end.

Section Builtins.
Context {X : Type}.

(** [needle in v] for a string literal [needle]. *)
Definition py_contains (needle : string) (v : val) : PyM X bool :=
  match v with
  | VStr s => pm_ret (str_contains needle s)
  | VRef l =>
      o <- py_load l ;;
      match o with
      | ODict kvs => pm_ret (bool_decide (is_Some (assoc_lookup needle kvs)))
      | OList xs => pm_ret (bool_decide (VStr needle ∈ xs))
      | OInst _ _ => pm_raise TypeError
      end
  | _ => pm_raise TypeError
  end.

(** [v[k]] for a string key [k]. *)
Definition py_getitem (v : val) (k : string) : PyM X val :=
  match v with
  | VRef l =>
      o <- py_load l ;;
      match o with
      | ODict kvs =>
          match assoc_lookup k kvs with
          | Some x => pm_ret x
          | None => pm_raise KeyError
          end
      | _ => pm_raise TypeError
      end
  | _ => pm_raise TypeError
  end.

(** [v[k] = x] for a string key [k]. *)
Definition py_setitem (v : val) (k : string) (x : val) : PyM X unit :=
  match v with
  | VRef l =>
      o <- py_load l ;;
      match o with
      | ODict kvs => py_store l (ODict (assoc_set k x kvs))
      | _ => pm_raise TypeError
      end
  | _ => pm_raise TypeError
  end.

(** [xs.append(x)] *)
Definition py_append (v : val) (x : val) : PyM X unit :=
  match v with
  | VRef l =>
      o <- py_load l ;;
      match o with
      | OList xs => py_store l (OList (xs ++ [x]))
      | _ => pm_raise AttributeError
      end
  | _ => pm_raise AttributeError
  end.

(** [str.isdigit(e)] called as a function: [e] must be a str. *)
Definition py_str_isdigit (e : val) : PyM X bool :=
  match e with
  | VStr s => pm_ret (str_isdigit s)
  | _ => pm_raise TypeError
  end.

(** [''.join(filter(str.isdigit, v))]: [filter] pulls the elements of
    [iter(v)] one by one, calls [str.isdigit] on each (a TypeError for
    a non-str), and [join] concatenates those it keeps. *)
Definition py_join_isdigit (v : val) : PyM X string :=
  es <- py_iter v ;;
  keep <- pm_map (fun e => b <- py_str_isdigit e ;;
                           pm_ret (if b then match e with VStr s => s | _ => "" end
                                   else ""%string)) es ;;
  pm_ret (foldr String.append ""%string keep).
End Builtins.

Arguments py_load : simpl never.
Arguments py_store : simpl never.
Arguments py_alloc : simpl never.
Arguments py_iter : simpl never.
Arguments py_contains : simpl never.
Arguments py_getitem : simpl never.
Arguments py_setitem : simpl never.
Arguments py_append : simpl never.
Arguments py_join_isdigit : simpl never.

(** ** Read-only built-ins as functions of the heap *)

Definition iter_h (h : heap) (v : val) : exn + list val :=
  match v with
  | VStr s => inr (map (fun c => VStr (String c EmptyString)) (String.list_ascii_of_string s))
  | VRef l =>
      match heap_get h l with
      | Some (ODict kvs) => inr (map (fun kv => VStr kv.1) kvs)
      | Some (OList xs) => inr xs
      | Some (OInst _ _) => inl TypeError
      | None => inl Dangling
      end
  | _ => inl TypeError
  end.

(** What [filter(str.isdigit, ...)] keeps of a sequence, joined. *)
Fixpoint keep_digits (es : list val) : exn + string :=
  match es with
  | [] => inr ""%string
  | VStr s :: es' =>
      match keep_digits es' with
      | inr r => inr ((if str_isdigit s then s else "") +:+ r)%string
      | inl e => inl e
      end
  | _ :: _ => inl TypeError
  end.

Definition join_isdigit_h (h : heap) (v : val) : exn + string :=
  match iter_h h v with
  | inl e => inl e
  | inr es => keep_digits es
  end.

(** The ASCII digits of a string, in order. *)
Definition digits_of (s : string) : string :=
  String.string_of_list_ascii (filter (fun c => is_ascii_digit c = true) (String.list_ascii_of_string s)).

Definition all_digits (s : string) : Prop :=
  Forall (fun c => is_ascii_digit c = true) (String.list_ascii_of_string s).

(** ** Runs of the built-ins *)

Section Runs.
Context {X : Type}.
Implicit Types (w : world X) (h : heap).

Lemma py_load_run l w o :
  heap_get (w_heap w) l = Some o -> py_load l w = (inr o, w).
Proof. unfold py_load. by intros ->. Qed.

Lemma py_iter_run v w : py_iter v w = (iter_h (w_heap w) v, w).
Proof.
  destruct v; try done. unfold py_iter, iter_h, pm_bind, py_load.
  destruct (heap_get (w_heap w) l) as [[]|]; done.
Qed.

Lemma pm_map_keep_digits es w :
  pm_map (fun e => b <- py_str_isdigit e ;;
                   pm_ret (if b then match e with VStr s => s | _ => "" end else ""%string)) es w
  = (match keep_digits es with
     | inl e => inl e
     | inr _ => inr (map (fun e => match e with
                                  | VStr s => if str_isdigit s then s else ""%string
                                  | _ => ""%string end) es)
     end, w).
Proof.
  induction es as [|[] es IH]; try done. cbn [pm_map keep_digits].
  rewrite (pm_bind_inr _ _ w (if str_isdigit s then s else ""%string) w);
    [|reflexivity].
  destruct (keep_digits es) eqn:E.
  - by rewrite (pm_bind_inl _ _ _ _ _ IH).
  - by rewrite (pm_bind_inr _ _ _ _ _ IH).
Qed.

Lemma keep_digits_concat es r :
  keep_digits es = inr r ->
  foldr String.append ""%string (map (fun e => match e with
                                  | VStr s => if str_isdigit s then s else ""%string
                                  | _ => ""%string end) es) = r.
Proof.
  revert r. induction es as [|[] es IH]; intros r H; simpl in *; try by simplify_eq.
  destruct (keep_digits es) eqn:E; simplify_eq. f_equal. by apply IH.
Qed.

(** [''.join(filter(str.isdigit, v))] only reads the heap. *)
Lemma py_join_isdigit_run v w : py_join_isdigit v w = (join_isdigit_h (w_heap w) v, w).
Proof.
  unfold py_join_isdigit. unfold pm_bind at 1.
  rewrite py_iter_run. unfold join_isdigit_h.
  destruct (iter_h (w_heap w) v) as [e|es]; [done|].
  unfold pm_bind. rewrite pm_map_keep_digits.
  destruct (keep_digits es) eqn:E; [done|]. unfold pm_ret. by rewrite (keep_digits_concat _ _ E).
Qed.

Lemma py_contains_dict needle l kvs w :
  heap_get (w_heap w) l = Some (ODict kvs) ->
  py_contains needle (VRef l) w = (inr (bool_decide (is_Some (assoc_lookup needle kvs))), w).
Proof. intros H. unfold py_contains, pm_bind. by rewrite (py_load_run _ _ _ H). Qed.

Lemma py_getitem_dict k l kvs x w :
  heap_get (w_heap w) l = Some (ODict kvs) -> assoc_lookup k kvs = Some x ->
  py_getitem (VRef l) k w = (inr x, w).
Proof. intros H Hk. unfold py_getitem, pm_bind. rewrite (py_load_run _ _ _ H). by rewrite Hk. Qed.

Lemma py_setitem_dict k l kvs x w :
  heap_get (w_heap w) l = Some (ODict kvs) ->
  py_setitem (VRef l) k x w
  = (inr tt, mkWorld (heap_set (w_heap w) l (ODict (assoc_set k x kvs))) (w_ext w)).
Proof. intros H. unfold py_setitem, pm_bind. by rewrite (py_load_run _ _ _ H). Qed.
End Runs.

#[export] Hint Rewrite @py_iter_run @py_join_isdigit_run : pm_rw.

(** ** ISBN digits *)

Lemma str_isdigit_char c : str_isdigit (String c EmptyString) = is_ascii_digit c.
Proof. unfold str_isdigit. simpl. by destruct (is_ascii_digit c). Qed.

Lemma digits_of_cons c s :
  digits_of (String c s) = if is_ascii_digit c then String c (digits_of s) else digits_of s.
Proof. unfold digits_of. simpl. rewrite filter_cons. by destruct (is_ascii_digit c). Qed.

(** Iterating a str and keeping what [str.isdigit] accepts yields its digits. *)
Lemma join_isdigit_str h s : join_isdigit_h h (VStr s) = inr (digits_of s).
Proof.
  unfold join_isdigit_h. simpl. induction s as [|c s IH]; [done|].
  simpl. rewrite IH, str_isdigit_char, digits_of_cons. by destruct (is_ascii_digit c).
Qed.

Lemma digits_of_all_digits s : all_digits (digits_of s).
Proof.
  unfold all_digits, digits_of. rewrite String.list_ascii_of_string_of_list_ascii.
  apply (Forall_filter_self (fun c => is_ascii_digit c = true)).
Qed.

Lemma digits_of_sublist s :
  sublist (String.list_ascii_of_string (digits_of s)) (String.list_ascii_of_string s).
Proof.
  unfold digits_of. rewrite String.list_ascii_of_string_of_list_ascii.
  apply (filter_sublist (fun c => is_ascii_digit c = true)).
Qed.

(** A string of digits is its own digits. *)
Lemma digits_of_id s : all_digits s -> digits_of s = s.
Proof.
  unfold all_digits. induction s as [|c s IH]; [done|]. simpl. intros Hf.
  apply Forall_cons in Hf as [Hc Hs]. rewrite digits_of_cons, Hc. f_equal. by apply IH.
Qed.

#[export] Hint Resolve digits_of_all_digits digits_of_sublist : pm.
#[export] Hint Rewrite join_isdigit_str : pm_rw.

(** ** References and framing *)

Definition val_refs (v : val) : list loc := match v with VRef l => [l] | _ => [] end.

Definition kv_refs (kvs : list (string * val)) : list loc := concat (map (fun kv => val_refs kv.2) kvs).

Definition obj_refs (o : obj) : list loc :=
  match o with
  | ODict kvs | OInst _ kvs => kv_refs kvs
  | OList xs => concat (map val_refs xs)
  end.

(** A value of the program points to an allocated (or at least already
    handed-out) location. *)
Definition val_ok (h : heap) (v : val) : Prop := Forall (fun r => (r < hnext h)%positive) (val_refs v).

(** A heap a Python program can be in: allocated locations and every
    reference stored in an object are below the allocation pointer. *)
Definition heap_closed (h : heap) : Prop :=
  map_Forall (fun l o => (l < hnext h)%positive /\ Forall (fun r => (r < hnext h)%positive) (obj_refs o))
             (hmap h).

#[export] Instance val_ok_dec h v : Decision (val_ok h v).
Proof. unfold val_ok. apply _. Defined.

#[export] Instance heap_closed_dec h : Decision (heap_closed h).
Proof. unfold heap_closed. apply _. Defined.

Lemma heap_closed_refs h l o r :
  heap_closed h -> hmap h !! l = Some o -> r ∈ obj_refs o -> (r < hnext h)%positive.
Proof. intros Hcl Hl Hr. destruct (Hcl l o Hl) as [_ Hf]. by apply (proj1 (Forall_forall _ _) Hf). Qed.

(** No object of [h] points to [c]. *)
Definition fresh_in (c : loc) (h : heap) : Prop :=
  forall l o, hmap h !! l = Some o -> c ∉ obj_refs o.

(** [h] extended with the object [o] at [c], the allocation pointer
    after [c]. *)
Definition with_obj (h : heap) (c : loc) (o : obj) : heap :=
  mkHeap (<[c := o]> (hmap h)) (Pos.succ c).

Lemma heap_alloc_with_obj h o : heap_alloc h o = (hnext h, with_obj h (hnext h) o).
Proof. reflexivity. Qed.

Lemma heap_get_with_obj_ne h c o l : l <> c -> heap_get (with_obj h c o) l = heap_get h l.
Proof. intros Hne. unfold heap_get, with_obj. simpl. by rewrite lookup_insert_ne. Qed.

Lemma heap_get_with_obj_eq h c o : heap_get (with_obj h c o) c = Some o.
Proof. unfold heap_get, with_obj. simpl. by rewrite lookup_insert_eq. Qed.

Lemma heap_set_with_obj_ne h c o l o' :
  l <> c -> heap_set (with_obj h c o) l o' = with_obj (heap_set h l o') c o.
Proof. intros Hne. unfold heap_set, with_obj. simpl. f_equal. by apply insert_insert_ne. Qed.

Lemma heap_set_with_obj_eq h c o o' : heap_set (with_obj h c o) c o' = with_obj h c o'.
Proof. unfold heap_set, with_obj. simpl. f_equal. apply insert_insert_eq. Qed.

Lemma assoc_lookup_refs k kvs v :
  assoc_lookup k kvs = Some v -> forall r, r ∈ val_refs v -> r ∈ kv_refs kvs.
Proof.
  induction kvs as [|[k' v'] kvs IH]; [done|]. unfold kv_refs. simpl.
  destruct (String.eqb k k'); intros H r Hr; simplify_eq; apply elem_of_app; [by left|].
  right. by apply IH.
Qed.

Lemma assoc_set_refs k v kvs r :
  r ∈ kv_refs (assoc_set k v kvs) -> r ∈ kv_refs kvs \/ r ∈ val_refs v.
Proof.
  induction kvs as [|[k' v'] kvs IH]; unfold kv_refs; simpl.
  - rewrite app_nil_r. by right.
  - destruct (String.eqb k k'); simpl; rewrite !elem_of_app; [tauto|].
    intros [H|H]; [tauto|]. destruct (IH H); tauto.
Qed.

(** Framing: the read-only built-ins do not see an object at [c] when
    they are not given a reference to it. *)
Lemma iter_h_with_obj h c o v :
  c ∉ val_refs v -> iter_h (with_obj h c o) v = iter_h h v.
Proof.
  destruct v; try done. intros Hc. simpl. rewrite heap_get_with_obj_ne; [done|].
  intros ->. apply Hc. simpl. set_solver.
Qed.

Lemma join_isdigit_h_with_obj h c o v :
  c ∉ val_refs v -> join_isdigit_h (with_obj h c o) v = join_isdigit_h h v.
Proof. intros Hc. unfold join_isdigit_h. by rewrite iter_h_with_obj. Qed.

Lemma fresh_in_closed h : heap_closed h -> fresh_in (hnext h) h.
Proof. intros Hcl l o Hl Hin. pose proof (heap_closed_refs h l o _ Hcl Hl Hin). lia. Qed.

Lemma not_ref_ok h v : val_ok h v -> hnext h ∉ val_refs v.
Proof. intros Hv Hin. eapply Forall_forall in Hv; [|done]. lia. Qed.

(** What [iter] yields from a closed heap points below the allocation
    pointer. *)
Lemma iter_h_ok h v items :
  heap_closed h -> iter_h h v = inr items -> forall x, x ∈ items -> val_ok h x.
Proof.
  intros Hcl Hit x Hx. apply Forall_forall. intros r Hr. destruct v; simplify_eq/=.
  - apply list_elem_of_In, in_map_iff in Hx as (c & <- & _). set_solver.
  - destruct (heap_get h l) as [[kvs|xs|? ?]|] eqn:Hl; simplify_eq.
    + apply list_elem_of_In, in_map_iff in Hx as (kv & <- & _). set_solver.
    + match goal with H : heap_get h l = Some ?o |- _ => apply (heap_closed_refs h l o _ Hcl H) end.
      simpl. apply list_elem_of_In, in_concat.
      exists (val_refs x). split; [apply in_map, list_elem_of_In; done|by apply list_elem_of_In].
Qed.

Section AllocRuns.
Context {X : Type}.

Lemma py_alloc_run o h (x : X) :
  py_alloc o (mkWorld h x) = (inr (hnext h), mkWorld (with_obj h (hnext h) o) x).
Proof. reflexivity. Qed.

Lemma py_append_with_obj h c xs v (x : X) :
  py_append (VRef c) v (mkWorld (with_obj h c (OList xs)) x)
  = (inr tt, mkWorld (with_obj h c (OList (xs ++ [v]))) x).
Proof.
  unfold py_append, pm_bind, py_load, py_store. simpl.
  rewrite heap_get_with_obj_eq. simpl. by rewrite heap_set_with_obj_eq.
Qed.
End AllocRuns.

(** ** Dict updates *)

Section AssocLemmas.
Context {V : Type}.
Implicit Types (kvs : list (string * V)).

Lemma assoc_lookup_set_eq k v kvs : assoc_lookup k (assoc_set k v kvs) = Some v.
Proof.
  induction kvs as [|[k' v'] kvs IH]; simpl; [by rewrite String.eqb_refl|].
  destruct (String.eqb k k') eqn:E; simpl; [by rewrite E|]. by rewrite E.
Qed.

Lemma assoc_lookup_set_ne k k' v kvs :
  k <> k' -> assoc_lookup k' (assoc_set k v kvs) = assoc_lookup k' kvs.
Proof.
  intros Hne. induction kvs as [|[k'' v'] kvs IH]; simpl.
  - destruct (String.eqb_spec k' k); congruence.
  - destruct (String.eqb_spec k k''); simpl; [|by rewrite IH].
    subst. destruct (String.eqb_spec k' k''); congruence.
Qed.

(** Setting a key that is present keeps the keys and their order. *)
Lemma assoc_set_keys k v kvs :
  is_Some (assoc_lookup k kvs) -> map fst (assoc_set k v kvs) = map fst kvs.
Proof.
  induction kvs as [|[k' v'] kvs IH]; simpl; [by intros []|].
  destruct (String.eqb k k'); simpl; [done|]. intros H. by rewrite IH.
Qed.
End AssocLemmas.

Lemma all_digits_append s1 s2 : all_digits s1 -> all_digits s2 -> all_digits (s1 +:+ s2).
Proof.
  unfold all_digits. induction s1 as [|c s1 IH]; simpl; [done|].
  intros H1 H2. apply Forall_cons in H1 as [??]. constructor; auto.
Qed.

(** Whatever [filter(str.isdigit, ...)] keeps joins into digits only. *)
Lemma keep_digits_all_digits es r : keep_digits es = inr r -> all_digits r.
Proof.
  revert r. induction es as [|[] es IH]; intros r H; simpl in H; try discriminate.
  - injection H as <-. constructor.
  - destruct (keep_digits es) eqn:E; [discriminate|]. injection H as <-.
    apply all_digits_append; [|by apply IH].
    destruct (str_isdigit s) eqn:Hs; [|constructor].
    unfold str_isdigit in Hs. apply andb_prop in Hs as [_ Hs].
    apply Forall_forall. intros c Hc. apply (proj1 (forallb_forall _ _) Hs). by apply list_elem_of_In.
Qed.

Lemma join_isdigit_all_digits h v s : join_isdigit_h h v = inr s -> all_digits s.
Proof. unfold join_isdigit_h. destruct (iter_h h v); [done|]. apply keep_digits_all_digits. Qed.

Lemma assoc_set_id {V} k (v : V) kvs : assoc_lookup k kvs = Some v -> assoc_set k v kvs = kvs.
Proof.
  induction kvs as [|[k' v'] kvs IH]; simpl; [done|].
  destruct (String.eqb_spec k k'); [by intros [= ->]; subst|]. intros H. by rewrite IH.
Qed.

(** Two dicts with the same keys lack the same keys. *)
Lemma assoc_lookup_None_keys {V W} k (a : list (string * V)) (b : list (string * W)) :
  map fst a = map fst b -> assoc_lookup k a = None -> assoc_lookup k b = None.
Proof.
  revert b. induction a as [|[ka va] a IH]; intros [|[kb vb] b]; simpl; try done.
  intros [= -> Hab]. destruct (String.eqb k kb); [done|]. by apply IH.
Qed.

Lemma heap_closed_ok h l o : heap_closed h -> heap_get h l = Some o -> val_ok h (VRef l).
Proof. intros Hcl Hl. destruct (Hcl l o Hl). by constructor. Qed.

Lemma heap_closed_fresh h : heap_closed h -> heap_get h (hnext h) = None.
Proof.
  intros Hcl. destruct (heap_get h (hnext h)) as [o|] eqn:E; [|done].
  destruct (Hcl _ o E). lia.
Qed.

(** A heap holding the given objects at locations 1, 2, ... *)
Definition heap_of (objs : list obj) : heap :=
  foldl (fun h o => (heap_alloc h o).2) (mkHeap ∅ 1%positive) objs.

(** ** datetime.date *)

Definition is_leap (y : Z) : bool :=
  ((Z.rem y 4 =? 0)%Z && negb (Z.rem y 100 =? 0)%Z) || (Z.rem y 400 =? 0)%Z.

Definition days_in_month (y m : Z) : Z :=
  if (m =? 2)%Z then (if is_leap y then 29 else 28)%Z
  else if ((m =? 4) || (m =? 6) || (m =? 9) || (m =? 11))%Z then 30%Z else 31%Z.

(** What [datetime.date(y, m, d)] accepts. *)
Definition date_valid (d : date) : bool :=
  ((1 <=? year d) && (year d <=? 9999) && (1 <=? month d) && (month d <=? 12) &&
   (1 <=? day d) && (day d <=? days_in_month (year d) (month d)))%Z.

(** ** Allocation keeps what was there *)

Create HintDb heap discriminated.

Lemma heap_closed_wf h : heap_closed h -> heap_wf h.
Proof. intros Hcl l [o Ho]. by destruct (Hcl l o Ho). Qed.

Lemma heap_wf_with_obj h o : heap_wf h -> heap_wf (with_obj h (hnext h) o).
Proof.
  intros Hwf l [o' Ho']. simpl in *. destruct (decide (l = hnext h)) as [->|Hne]; [lia|].
  rewrite lookup_insert_ne in Ho' by done. pose proof (Hwf l (mk_is_Some _ _ Ho')). lia.
Qed.

Lemma heap_get_alloc_old h o l o' :
  heap_wf h -> heap_get h l = Some o' -> heap_get (with_obj h (hnext h) o) l = Some o'.
Proof.
  intros Hwf Hl. rewrite heap_get_with_obj_ne; [done|]. intros ->.
  pose proof (Hwf (hnext h) (mk_is_Some _ _ Hl)). lia.
Qed.

#[export] Hint Resolve heap_closed_wf heap_wf_with_obj heap_get_alloc_old heap_get_with_obj_eq : heap.

Section MoreRuns.
Context {X : Type}.
Implicit Types (w : world X).

Lemma py_iter_list l xs w : heap_get (w_heap w) l = Some (OList xs) -> py_iter (VRef l) w = (inr xs, w).
Proof. intros Hl. unfold py_iter, pm_bind. by rewrite (py_load_run _ _ _ Hl). Qed.

(** [v[k]] on a list with a str key is a TypeError. *)
Lemma py_getitem_list l xs k w :
  heap_get (w_heap w) l = Some (OList xs) -> py_getitem (VRef l) k w = (inl TypeError, w).
Proof. intros Hl. unfold py_getitem, pm_bind. by rewrite (py_load_run _ _ _ Hl). Qed.
End MoreRuns.

(** ** Growing a closed heap *)

Lemma heap_closed_alloc h o :
  heap_closed h -> Forall (fun r => (r < hnext h)%positive) (obj_refs o) ->
  heap_closed (with_obj h (hnext h) o).
Proof.
  intros Hcl Ho l o' Hl. simpl in *. destruct (decide (l = hnext h)) as [->|Hne].
  - rewrite lookup_insert_eq in Hl. injection Hl as <-. split; [lia|].
    eapply Forall_impl; [exact Ho|]. simpl. lia.
  - rewrite lookup_insert_ne in Hl by done. destruct (Hcl l o' Hl) as [Hlt Hf]. split; [lia|].
    eapply Forall_impl; [exact Hf|]. simpl. lia.
Qed.

Lemma heap_closed_set h l o o' :
  heap_closed h -> heap_get h l = Some o' -> Forall (fun r => (r < hnext h)%positive) (obj_refs o) ->
  heap_closed (heap_set h l o).
Proof.
  intros Hcl Hl Ho l2 o2 Hl2. unfold heap_set in *. simpl in *.
  destruct (decide (l2 = l)) as [->|Hne].
  - rewrite lookup_insert_eq in Hl2. injection Hl2 as <-. split; [|done]. by destruct (Hcl l o' Hl).
  - rewrite lookup_insert_ne in Hl2 by done. by apply Hcl.
Qed.

(** The dicts of [h] are still there, unchanged, in [h']. *)
Definition dicts_kept (h h' : heap) : Prop :=
  forall l kvs, heap_get h l = Some (ODict kvs) -> heap_get h' l = Some (ODict kvs).

Lemma dicts_kept_refl h : dicts_kept h h.
Proof. by intros l kvs. Qed.

Lemma dicts_kept_trans h1 h2 h3 : dicts_kept h1 h2 -> dicts_kept h2 h3 -> dicts_kept h1 h3.
Proof. intros H12 H23 l kvs Hl. by apply H23, H12. Qed.

Lemma dicts_kept_alloc h o : heap_wf h -> dicts_kept h (with_obj h (hnext h) o).
Proof. intros Hwf l kvs Hl. by apply heap_get_alloc_old. Qed.

Lemma dicts_kept_set_list h l xs o : heap_get h l = Some (OList xs) -> dicts_kept h (heap_set h l o).
Proof.
  intros Hl l' kvs Hl'. rewrite heap_get_set_ne; [done|]. intros ->. congruence.
Qed.

#[export] Hint Resolve heap_closed_alloc heap_closed_set dicts_kept_refl dicts_kept_alloc
  dicts_kept_set_list : heap.

Lemma py_append_run {X} l xs v h (x : X) :
  heap_get h l = Some (OList xs) ->
  py_append (VRef l) v (mkWorld h x) = (inr tt, mkWorld (heap_set h l (OList (xs ++ [v]))) x).
Proof. intros Hl. unfold py_append, pm_bind. by rewrite (py_load_run l (mkWorld h x) _ Hl). Qed.

Lemma obj_refs_list_app xs ys : obj_refs (OList (xs ++ ys)) = obj_refs (OList xs) ++ obj_refs (OList ys).
Proof. simpl. by rewrite map_app, concat_app. Qed.

(** [a = <new object o>; xs.append(a)] for an object [o] holding no
    reference: the new object lands at [hnext h], the list at [l] gets it
    at its end, and nothing else changes. *)
Lemma alloc_append_run {X} l xs o h (x : X) :
  heap_closed h -> heap_get h l = Some (OList xs) -> obj_refs o = [] ->
  let h' := heap_set (with_obj h (hnext h) o) l (OList (xs ++ [VRef (hnext h)])) in
  (a <- py_alloc o ;; py_append (VRef l) (VRef a)) (mkWorld h x) = (inr tt, mkWorld h' x) /\
  heap_closed h' /\ heap_get h' l = Some (OList (xs ++ [VRef (hnext h)])) /\
  heap_get h' (hnext h) = Some o /\ dicts_kept h h' /\
  (forall l' ys, l' <> l -> heap_get h l' = Some (OList ys) -> heap_get h' l' = Some (OList ys)).
Proof.
  intros Hcl Hl Ho h'. pose proof (heap_closed_wf _ Hcl) as Hwf.
  assert (Hl1 : heap_get (with_obj h (hnext h) o) l = Some (OList xs)) by eauto with heap.
  assert (Hne : l <> hnext h) by (intros ->; by rewrite heap_closed_fresh in Hl).
  split_and!.
  - pm_run (py_alloc_run o h x). by rewrite (py_append_run _ _ _ _ _ Hl1).
  - eapply heap_closed_set; [apply heap_closed_alloc; [done|by rewrite Ho]|exact Hl1|].
    rewrite obj_refs_list_app. apply Forall_app. split.
    + destruct (Hcl l _ Hl) as [_ Hf]. eapply Forall_impl; [exact Hf|]. simpl. lia.
    + simpl. repeat constructor. simpl. lia.
  - apply heap_get_set_eq.
  - unfold h'. rewrite heap_get_set_ne by done. apply heap_get_with_obj_eq.
  - eapply dicts_kept_trans; [apply dicts_kept_alloc, Hwf|]. eapply dicts_kept_set_list, Hl1.
  - intros l' ys Hl' Hys. unfold h'. rewrite heap_get_set_ne by done. eauto with heap.
Qed.

(** ** Extending a heap

    [heap_ext M h h']: [h'] is well formed and keeps every object of [h]
    outside the locations [M] (the objects a computation may mutate);
    allocation extends a heap for every [M]. *)
Definition heap_ext (M : gset loc) (h h' : heap) : Prop :=
  heap_wf h' /\ forall l o, l ∉ M -> heap_get h l = Some o -> heap_get h' l = Some o.

Section HeapExt.
Implicit Types (M : gset loc) (h : heap).

Lemma heap_ext_refl M h : heap_wf h -> heap_ext M h h.
Proof. by split. Qed.

Lemma heap_ext_trans M h1 h2 h3 : heap_ext M h1 h2 -> heap_ext M h2 h3 -> heap_ext M h1 h3.
Proof. intros [_ H12] [Hwf H23]. split; [done|]. intros l o Hl Ho. by apply H23, H12. Qed.

Lemma heap_ext_mono M M' h h' : M ⊆ M' -> heap_ext M h h' -> heap_ext M' h h'.
Proof. intros HM [Hwf H]. split; [done|]. intros l o Hl. apply H. set_solver. Qed.

Lemma heap_ext_alloc M h o : heap_wf h -> heap_ext M h (with_obj h (hnext h) o).
Proof. intros Hwf. split; [by apply heap_wf_with_obj|]. intros l o' _. by apply heap_get_alloc_old. Qed.

Lemma heap_ext_set M h l o o' : heap_wf h -> l ∈ M -> heap_get h l = Some o' -> heap_ext M h (heap_set h l o).
Proof.
  intros Hwf HM Hl. split.
  - intros l' [o2 Ho2]. simpl in Ho2. destruct (decide (l' = l)) as [->|Hne].
    + apply (Hwf l). by exists o'.
    + rewrite lookup_insert_ne in Ho2 by done. apply (Hwf l'). by exists o2.
  - intros l' o2 Hl' Ho2. rewrite heap_get_set_ne; [done|]. set_solver.
Qed.

Lemma heap_ext_wf M h h' : heap_ext M h h' -> heap_wf h'.
Proof. by intros [? _]. Qed.

(** A location of [h] is below its allocation pointer. *)
Lemma heap_wf_lt h l o : heap_wf h -> heap_get h l = Some o -> (l < hnext h)%positive.
Proof. intros Hwf Hl. apply Hwf. by exists o. Qed.

Lemma heap_wf_fresh h : heap_wf h -> heap_get h (hnext h) = None.
Proof. intros Hwf. destruct (heap_get h (hnext h)) as [o|] eqn:Ho; [|done]. apply heap_wf_lt in Ho; [lia|done]. Qed.
(** The next location is none of the allocated ones. *)
Lemma heap_wf_next_notin h (M : gset loc) : heap_wf h -> M ⊆ dom (hmap h) -> hnext h ∉ M.
Proof.
  intros Hwf HM Hin. apply HM, elem_of_dom in Hin as [o Ho].
  pose proof (heap_wf_lt h _ o Hwf Ho). lia.
Qed.

Lemma heap_ext_dom M h h' : heap_ext M h h' -> dom (hmap h) ∖ M ⊆ dom (hmap h').
Proof.
  intros [_ Hext] l [[o Hl]%elem_of_dom Hn]%elem_of_difference. apply elem_of_dom. exists o. by apply Hext.
Qed.

(** A computation that mutates, besides [N], only objects allocated
    after [h] keeps every object of [h] outside [N]. *)
Lemma heap_ext_new N M h h1 h2 :
  heap_ext N h h1 -> heap_ext M h1 h2 -> (forall l, l ∈ M -> l ∈ N \/ heap_get h l = None) -> heap_ext N h h2.
Proof.
  intros [_ H1] [Hwf2 H2] HM. split; [done|]. intros l o HlN Hl. apply H2; [|by apply H1].
  intros HlM. destruct (HM l HlM) as [?|Hn]; [done|congruence].
Qed.
End HeapExt.

#[export] Hint Resolve heap_ext_refl heap_ext_alloc heap_ext_wf : heap.

(** ** Python's own exceptions

    [OutOfFuel] is the model's marker of an exhausted bound, not a
    Python exception; [python_raises c]: [c] returns or raises a Python
    exception. *)
Definition python_exn (e : exn) : Prop := e <> OutOfFuel.
Abbreviation python_raises := (raises_only python_exn).

#[export] Hint Extern 1 (python_exn _) => (unfold python_exn; discriminate) : raises.

Section PythonRaises.
Context {X : Type}.

Lemma python_raises_lift {A} (r : exn + A) : (forall e, r = inl e -> python_exn e) -> python_raises (py_lift (X := X) r).
Proof. intros Hr w. destruct r as [e|a]; simpl; [by apply Hr|done]. Qed.

Lemma python_raises_load l : python_raises (py_load (X := X) l).
Proof. intros w. unfold py_load. destruct (heap_get (w_heap w) l); simpl; [done|by unfold python_exn]. Qed.

Lemma python_raises_store l o : python_raises (py_store (X := X) l o).
Proof. by intros w. Qed.

Lemma python_raises_alloc o : python_raises (py_alloc (X := X) o).
Proof. intros w. unfold py_alloc. by destruct (heap_alloc _ _). Qed.
End PythonRaises.

#[export] Hint Resolve python_raises_load python_raises_store python_raises_alloc : raises.

Lemma python_raises_iter {X} v : python_raises (py_iter (X := X) v).
Proof. unfold py_iter. raises_tac. Qed.

Lemma python_raises_getitem {X} v k : python_raises (py_getitem (X := X) v k).
Proof. unfold py_getitem. raises_tac. Qed.

Lemma python_raises_append {X} v x : python_raises (py_append (X := X) v x).
Proof. unfold py_append. raises_tac. Qed.

#[export] Hint Resolve python_raises_iter python_raises_getitem python_raises_append : raises.

(** ** Frame conditions on the environment

    [ext_rel RX] relates two worlds whose environments are [RX]-related,
    whatever happened to the heap: heap operations stay within it. *)
Definition ext_rel {X} (RX : relation X) : relation (world X) := fun w w' => RX (w_ext w) (w_ext w').

#[export] Instance ext_rel_preorder {X} (RX : relation X) `{!PreOrder RX} : PreOrder (ext_rel RX).
Proof. split; [intros w; red; reflexivity|intros w1 w2 w3 ? ?; red; by etrans]. Qed.

Section ExtWithin.
Context {X : Type} (RX : relation X) `{!PreOrder RX}.

Lemma within_py_lift {A} (r : exn + A) : within (ext_rel RX) (py_lift (X := X) r).
Proof. destruct r; [apply within_raise|apply within_ret]; apply _. Qed.

Lemma within_load l : within (ext_rel RX) (py_load (X := X) l).
Proof. intros w. unfold py_load. destruct (heap_get (w_heap w) l); red; simpl; reflexivity. Qed.

Lemma within_store l o : within (ext_rel RX) (py_store (X := X) l o).
Proof. intros w. red. simpl. reflexivity. Qed.

Lemma within_alloc o : within (ext_rel RX) (py_alloc (X := X) o).
Proof. intros w. unfold py_alloc. destruct (heap_alloc _ _). red. simpl. reflexivity. Qed.
End ExtWithin.

#[export] Hint Resolve within_py_lift within_load within_store within_alloc : within.

Lemma within_iter_py {X} (RX : relation X) `{!PreOrder RX} v : within (ext_rel RX) (py_iter (X := X) v).
Proof. unfold py_iter. within_tac. Qed.

Lemma within_getitem {X} (RX : relation X) `{!PreOrder RX} v k : within (ext_rel RX) (py_getitem (X := X) v k).
Proof. unfold py_getitem. within_tac. Qed.

Lemma within_append {X} (RX : relation X) `{!PreOrder RX} v x : within (ext_rel RX) (py_append (X := X) v x).
Proof. unfold py_append. within_tac. Qed.

#[export] Hint Resolve within_iter_py within_getitem within_append : within.
