(* ===== verification/PyNum.v ===== *)
(** * The numeric built-ins [int(x)] and [float(x)]

    [clean_raw_data] coerces prices with [float(...)] and page counts
    with [int(...)].  This file models what CPython does for each kind of
    value the script can hold:
    - from a str, the literal grammar (after stripping whitespace,
      including \x1c-\x1f): an optional sign, digits with single
      underscores between them, for floats an optional fraction and
      exponent or one of inf / infinity / nan in any case; [int(str)]
      refuses more than 4300 digits (CPython 3.11's
      [sys.int_info.default_max_str_digits]);
    - from a bool or an int, [float] raises OverflowError when the value
      rounds beyond the largest double, i.e. when
      [|n| >= 2^1024 - 2^970];
    - from a float, [int] truncates towards zero, raises OverflowError on
      an infinity and ValueError on a NaN;
    - anything else is a TypeError.
    A finite float is the exact decimal of the literal; values at or
    beyond 2^1024 - 2^970 become infinite and values at or below 2^-1075
    become 0.0, as binary64 rounding makes them; rounding within range is
    not modelled, and neither is the sign of zero. *)

From S2P Require Import Prelude PyValue.

Local Open Scope Z_scope.

(** ** Characters *)

(** [Py_UNICODE_ISSPACE] on the ASCII range. *)
Definition is_py_space (c : ascii) : bool :=
  let n := nat_of_ascii c in
  ((n =? 32) || ((9 <=? n) && (n <=? 13)) || ((28 <=? n) && (n <=? 31)))%nat.

Fixpoint drop_ws (cs : list ascii) : list ascii :=
  match cs with
  | c :: cs' => if is_py_space c then drop_ws cs' else cs
  | [] => []
  end.

Definition strip (cs : list ascii) : list ascii := reverse (drop_ws (reverse (drop_ws cs))).

Definition digit_val (c : ascii) : option Z :=
  if is_ascii_digit c then Some (Z.of_nat (nat_of_ascii c) - 48)%Z else None.

Definition to_lower (c : ascii) : ascii :=
  let n := nat_of_ascii c in
  if ((65 <=? n) && (n <=? 90))%nat then ascii_of_nat (n + 32)%nat else c.

(** ** Digit groups: [digit (["_"] digit)*] *)

(** The digits after the first one, and the unconsumed rest. *)
Fixpoint digits_tail (cs : list ascii) : list Z * list ascii :=
  match cs with
  | [] => ([], [])
  | c :: cs' =>
      match digit_val c with
      | Some d => let '(ds, r) := digits_tail cs' in (d :: ds, r)
      | None =>
          if Ascii.eqb c "_" then
            match cs' with
            | c2 :: cs'' =>
                match digit_val c2 with
                | Some d => let '(ds, r) := digits_tail cs'' in (d :: ds, r)
                | None => ([], cs)
                end
            | [] => ([], cs)
            end
          else ([], cs)
      end
  end.

Definition digitpart (cs : list ascii) : option (list Z * list ascii) :=
  match cs with
  | c :: cs' =>
      match digit_val c with
      | Some d => let '(ds, r) := digits_tail cs' in Some (d :: ds, r)
      | None => None
      end
  | [] => None
  end.

Definition digits_value (ds : list Z) : Z := foldl (fun acc d => acc * 10 + d) 0 ds.

Definition take_sign (cs : list ascii) : Z * list ascii :=
  match cs with
  | "+"%char :: r => (1, r)
  | "-"%char :: r => (-1, r)
  | _ => (1, cs)
  end.

(** ** [int(str)] *)

Definition max_str_digits : nat := 4300%nat.

Definition parse_int (s : string) : option Z :=
  let '(sg, r) := take_sign (strip (String.list_ascii_of_string s)) in
  match digitpart r with
  | Some (ds, []) => if (length ds <=? max_str_digits)%nat then Some (sg * digits_value ds) else None
  | _ => None
  end.

(** ** Decimal floats *)

(** Beyond this magnitude a double rounds to infinity. *)
Definition float_overflow_bound : Z := 2 ^ 1024 - 2 ^ 970.

(** Remove the trailing zeros of the mantissa; [|m|] has fewer than
    [log2 |m| + 1] of them. *)
Fixpoint dnorm_fuel (n : nat) (m e : Z) : pyfloat :=
  match n with
  | O => PFin m e
  | S n' =>
      if m =? 0 then PFin 0 0
      else if Z.rem m 10 =? 0 then dnorm_fuel n' (Z.quot m 10) (e + 1) else PFin m e
  end.

Definition dnorm (m e : Z) : pyfloat := dnorm_fuel (S (Z.to_nat (Z.log2 (Z.abs m)))) m e.

(** [am * 10^e >= float_overflow_bound] for [am > 0], without computing
    powers of ten beyond what the comparison needs. *)
Definition dec_big (am e : Z) : bool :=
  if 400 <? e then true
  else if 0 <=? e then float_overflow_bound <=? am * 10 ^ e
  else if Z.log2 am + 1100 <? - e then false
  else float_overflow_bound * 10 ^ (- e) <=? am.

(** [am * 10^e <= 2^-1075] for [am > 0]: rounds to zero. *)
Definition dec_tiny (am e : Z) : bool :=
  if 0 <=? e then false
  else if Z.log2 am + 1100 <? - e then true
  else am * 2 ^ 1075 <=? 10 ^ (- e).

Definition round_dec (m e : Z) : pyfloat :=
  if m =? 0 then PFin 0 0
  else if dec_big (Z.abs m) e then PInf (m <? 0)
  else if dec_tiny (Z.abs m) e then PFin 0 0
  else dnorm m e.

(** ** [float(str)] *)

Inductive fnum := FNum (m e : Z) | FInf | FNaN.

Definition exp_part (ip fp : list Z) (r : list ascii) : option fnum :=
  let m := digits_value (ip ++ fp) in
  let shift := Z.of_nat (length fp) in
  match r with
  | [] => Some (FNum m (- shift))
  | c :: r' =>
      if Ascii.eqb c "e" || Ascii.eqb c "E" then
        let '(sg, r'') := take_sign r' in
        match digitpart r'' with
        | Some (ep, []) => Some (FNum m (sg * digits_value ep - shift))
        | _ => None
        end
      else None
  end.

(** [digitpart ["." [digitpart]] [exponent] | "." digitpart [exponent]] *)
Definition numeric (r : list ascii) : option fnum :=
  match digitpart r with
  | Some (ip, "."%char :: r2) =>
      match digitpart r2 with
      | Some (fp, r3) => exp_part ip fp r3
      | None => exp_part ip [] r2
      end
  | Some (ip, r1) => exp_part ip [] r1
  | None =>
      match r with
      | "."%char :: r2 =>
          match digitpart r2 with
          | Some (fp, r3) => exp_part [] fp r3
          | None => None
          end
      | _ => None
      end
  end.

Definition float_body (r : list ascii) : option fnum :=
  let lw := map to_lower r in
  if bool_decide (lw = String.list_ascii_of_string "inf")
     || bool_decide (lw = String.list_ascii_of_string "infinity") then Some FInf
  else if bool_decide (lw = String.list_ascii_of_string "nan") then Some FNaN
  else numeric r.

Definition parse_float (s : string) : option pyfloat :=
  let '(sg, r) := take_sign (strip (String.list_ascii_of_string s)) in
  match float_body r with
  | Some (FNum m e) => Some (round_dec (sg * m) e)
  | Some FInf => Some (PInf (sg <? 0))
  | Some FNaN => Some PNaN
  | None => None
  end.

(** ** The built-ins *)

Definition float_of_int (z : Z) : exn + pyfloat :=
  if float_overflow_bound <=? Z.abs z then inl OverflowError else inr (dnorm z 0).

(** [float(v)] *)
Definition py_float (v : val) : exn + pyfloat :=
  match v with
  | VBool b => inr (if b then PFin 1 0 else PFin 0 0)
  | VInt z => float_of_int z
  | VFloat f => inr f
  | VStr s => match parse_float s with Some f => inr f | None => inl ValueError end
  | VDecimal m e => inr (round_dec m e)
  | _ => inl TypeError
  end.

(** Truncation of a finite float towards zero. *)
Definition trunc_dec (m e : Z) : Z :=
  if 0 <=? e then m * 10 ^ e else Z.quot m (10 ^ (- e)).

(** [int(v)] *)
Definition py_int (v : val) : exn + Z :=
  match v with
  | VBool b => inr (if b then 1 else 0)
  | VInt z => inr z
  | VFloat (PFin m e) => inr (trunc_dec m e)
  | VFloat (PInf _) => inl OverflowError
  | VFloat PNaN => inl ValueError
  | VStr s => match parse_int s with Some z => inr z | None => inl ValueError end
  | VDecimal m e => inr (trunc_dec m e)
  | _ => inl TypeError
  end.

(** 0.0 *)
Definition float_zero : pyfloat := PFin 0 0.

(** ** Behaviour on literals *)

Example parse_float_examples :
  parse_float " 12.50 " = Some (PFin 125 (-1)) /\
  parse_float "1_000" = Some (PFin 1 3) /\
  parse_float "-.5e1" = Some (PFin (-5) 0) /\
  parse_float "1e400" = Some (PInf false) /\
  parse_float "1e-400" = Some (PFin 0 0) /\
  parse_float "-Infinity" = Some (PInf true) /\
  parse_float "N/A" = None /\ parse_float "1__0" = None /\ parse_float "." = None.
Proof. vm_compute. repeat split. Qed.

Example parse_int_examples :
  parse_int " -007 " = Some (-7) /\ parse_int "1_000" = Some 1000 /\
  parse_int "12.5" = None /\ parse_int "twelve" = None /\ parse_int "_1" = None.
Proof. vm_compute. repeat split. Qed.

(** ** The exceptions of the coercions *)

Lemma py_float_exn v e : py_float v = inl e -> e = TypeError \/ e = ValueError \/ e = OverflowError.
Proof.
  destruct v; simpl; try (intros [= <-]; auto).
  - unfold float_of_int. case_match; intros [= <-]; auto.
  - case_match; intros [= <-]; auto.
Qed.

Lemma py_int_exn v e : py_int v = inl e -> e = TypeError \/ e = ValueError \/ e = OverflowError.
Proof.
  destruct v as [| | |[]| | | |]; simpl; try (intros [= <-]; auto).
  case_match; intros [= <-]; auto.
Qed.

(** ** Decimal rounding (Python's [decimal] module, ROUND_HALF_EVEN) *)

(** The integer nearest to [num / den], ties to even ([den > 0]). *)
Definition round_half_even (num den : Z) : Z :=
  let q := num / den in
  let r := num mod den in
  if den <? 2 * r then q + 1
  else if 2 * r <? den then q
  else if Z.even q then q else q + 1.

(** Number of decimal digits of [|m|] (1 for 0). *)
Fixpoint ndigits_fuel (fuel : nat) (m : Z) : Z :=
  match fuel with
  | O => 1
  | S f => if Z.abs m <? 10 then 1 else 1 + ndigits_fuel f (Z.quot m 10)
  end.

Definition ndigits (m : Z) : Z := ndigits_fuel (S (Z.to_nat (Z.log2 (Z.abs m)))) m.

(** [m * 10^e] rounded to [p] places after the point, as the integer
    [n] with value [n * 10^-p]. *)
Definition round_places (m e p : Z) : Z :=
  if - p <=? e then m * 10 ^ (e + p) else round_half_even m (10 ^ (- p - e)).

(** [m * 10^e] rounded to [prec] significant digits: a new [(m', e')]. *)
Definition round_sig (m e prec : Z) : Z * Z :=
  let k := ndigits m in
  if k <=? prec then (m, e) else (round_half_even m (10 ^ (k - prec)), e + k - prec).

(** [round(x, nd)] of a float: the nearest multiple of [10^-nd], ties
    to even; infinities and NaN are returned unchanged. *)
Definition py_round (f : pyfloat) (nd : Z) : pyfloat :=
  match f with
  | PFin m e => dnorm (round_places m e nd) (- nd)
  | _ => f
  end.

(** A float that [round(x, 2)] returns for [x] between [lo / 100] and
    [hi / 100]: the normal form of [q * 10^-2] for some [q] in between. *)
Definition two_places (lo hi : Z) (f : pyfloat) : Prop := exists q, lo <= q <= hi /\ f = dnorm q (-2).

Example rounding_examples :
  round_half_even 5 2 = 2 /\ round_half_even 7 2 = 4 /\ round_half_even (-5) 2 = -2 /\
  round_places 12345 (-3) 2 = 1234 /\ round_places 12355 (-3) 2 = 1236 /\
  round_sig 12349999 (-7) 6 = (123500, -5) /\ ndigits 0 = 1 /\ ndigits (-999) = 3.
Proof. vm_compute. split_and!; reflexivity. Qed.

Lemma py_float_python v e : py_float v = inl e -> python_exn e.
Proof. destruct v; simpl; unfold float_of_int; repeat case_match; intros Heq; simplify_eq; by unfold python_exn. Qed.

(** ** Values of decimal floats *)

(** Dropping trailing zeros keeps the value [m * 10^e]. *)
Lemma dnorm_fuel_value n : forall m e, m <> 0 ->
  exists m' e', dnorm_fuel n m e = PFin m' e' /\ e <= e' /\ m = m' * 10 ^ (e' - e).
Proof.
  induction n as [|n IH]; intros m e Hm; simpl.
  - exists m, e. rewrite Z.sub_diag. split_and!; [done|lia|lia].
  - rewrite (proj2 (Z.eqb_neq _ _) Hm). destruct (Z.eqb_spec (Z.rem m 10) 0) as [H0|H0].
    + assert (Hq : m = Z.quot m 10 * 10) by (pose proof (Z.quot_rem' m 10); lia).
      destruct (IH (Z.quot m 10) (e + 1)) as (m' & e' & Hd & He & Hv); [lia|].
      exists m', e'. split_and!; [done|lia|]. rewrite Hq, Hv.
      replace (e' - e) with (Z.succ (e' - (e + 1))) by lia. rewrite Z.pow_succ_r by lia. ring.
    + exists m, e. rewrite Z.sub_diag. split_and!; [done|lia|lia].
Qed.

Lemma dnorm_value m e : m <> 0 -> exists m' e', dnorm m e = PFin m' e' /\ e <= e' /\ m = m' * 10 ^ (e' - e).
Proof. apply dnorm_fuel_value. Qed.

(** Rounding to a multiple stays between multiples. *)
Lemma round_half_even_between a b num d :
  0 < d -> a * d <= num <= b * d -> a <= round_half_even num d <= b.
Proof.
  intros Hd Hn. unfold round_half_even.
  pose proof (Z.div_mod num d ltac:(lia)) as Hdm. pose proof (Z.mod_pos_bound num d Hd) as Hr.
  set (q := num / d) in *. set (r := num mod d) in *.
  assert (a <= q) by nia. assert (q <= b) by nia.
  destruct (Z.ltb_spec d (2 * r)); [assert (q < b) by nia; lia|].
  destruct (Z.ltb_spec (2 * r) d); [lia|].
  destruct (Z.even q); [lia|]. assert (q < b) by nia. lia.
Qed.

(** [ndigits] is the number of decimal digits: below [10^k] it is at most [k]. *)
Lemma ndigits_fuel_le f : forall m k, 1 <= k -> Z.abs m < 10 ^ k -> ndigits_fuel f m <= k.
Proof.
  induction f as [|f IH]; intros m k Hk Hm; simpl; [lia|].
  destruct (Z.ltb_spec (Z.abs m) 10); [lia|].
  assert (2 <= k) by (destruct (Z.leb_spec k 1); [assert (10 ^ k <= 10 ^ 1) by (apply Z.pow_le_mono_r; lia); lia|lia]).
  enough (ndigits_fuel f (Z.quot m 10) <= k - 1) by lia. apply IH; [lia|].
  rewrite <-Z.quot_abs by lia. change (Z.abs 10) with 10. apply Z.quot_lt_upper_bound; [lia|lia|].
  replace k with (Z.succ (k - 1)) in Hm by lia. rewrite Z.pow_succ_r in Hm by lia. lia.
Qed.

Lemma ndigits_le m k : 1 <= k -> Z.abs m < 10 ^ k -> ndigits m <= k.
Proof. apply ndigits_fuel_le. Qed.

(** [float(Decimal(q * 10^-2))] for a positive [q] of at most six digits:
    the two-place float itself, neither overflowing nor rounding to zero. *)
Lemma round_dec_two_places q : 0 < q < 10 ^ 6 -> round_dec q (-2) = dnorm q (-2).
Proof.
  intros Hq. unfold round_dec, dec_big, dec_tiny. rewrite (proj2 (Z.eqb_neq q 0)) by lia. rewrite Z.abs_eq by lia.
  change (- -2) with 2. simpl. assert (Hl : Z.log2 q < 20) by (apply Z.log2_lt_pow2; simpl; lia).
  rewrite (proj2 (Z.ltb_ge (Z.log2 q + 1100) 2)) by (pose proof (Z.log2_nonneg q); lia).
  assert (Hb : 10 ^ 6 <= float_overflow_bound * 100) by (vm_compute; discriminate).
  rewrite (proj2 (Z.leb_gt _ _)) by lia.
  assert (Ht : 100 < 2 ^ 1075) by (vm_compute; reflexivity).
  rewrite (proj2 (Z.leb_gt _ _)) by nia. done.
Qed.

(** A two-place float in the range of [two_places]: [m * 10^e] with
    [e >= -2] and [m * 10^(e+2)] its number of hundredths. *)
Lemma two_places_value lo hi f :
  0 < lo -> two_places lo hi f -> exists q m e, f = PFin m e /\ f = dnorm q (-2) /\ -2 <= e /\
    q = m * 10 ^ (e + 2) /\ lo <= q <= hi.
Proof.
  intros Hlo (q & Hq & ->). destruct (dnorm_value q (-2)) as (m & e & Hd & He & Hv); [lia|].
  exists q, m, e. rewrite Hd. split_and!; try done; try lia.
Qed.
