(* ===== verification/Cleaner.v ===== *)
(** * The data cleaner: [clean_raw_data] (data_import_export.py, lines 20-43)

    [clean_item] is the body of the [for] loop, one definition per [if]
    block of the source, and [clean_raw_data] the whole function: it
    allocates [cleaned], iterates [raw_data], cleans each item in place and
    appends it.  [clean_dict] is the heap-free specification of what the
    loop body does to a dict, and [clean_item_h] extends it to every value
    an item can be (a str or a list only raises when a field name occurs
    in it, any other non-dict raises TypeError at [in]).  [clean_all] is
    the specification of the loop.  The theorems show that the monadic
    definitions refine these specifications, then prove the properties of
    the cleaned records on the specifications. *)

From S2P Require Import Prelude PyValue PyNum.

(** [except (TypeError, ValueError): handler] around [body]. *)
Definition except_type_value {X A} (body handler : PyM X A) : PyM X A :=
  pm_catch body (fun e => match e with
                          | TypeError | ValueError => handler
                          | _ => pm_raise e
                          end).

Section Cleaner.
Context {X : Type}.

(** [if 'isbn' in item: item['isbn'] = ''.join(filter(str.isdigit, item['isbn']))] *)
Definition clean_isbn (item : val) : PyM X unit :=
  b <- py_contains "isbn" item ;;
  if b then
    v <- py_getitem item "isbn" ;;
    s <- py_join_isdigit v ;;
    py_setitem item "isbn" (VStr s)
  else pm_ret tt.

(** [if k in item: try: item[k] = conv(item[k])
    except (TypeError, ValueError): item[k] = dflt], the block the
    source writes twice. *)
Definition coerce_field {A} (k : string) (conv : val -> exn + A) (inj : A -> val)
           (dflt : A) (item : val) : PyM X unit :=
  b <- py_contains k item ;;
  if b then
    except_type_value
      (v <- py_getitem item k ;;
       a <- py_lift (conv v) ;;
       py_setitem item k (inj a))
      (py_setitem item k (inj dflt))
  else pm_ret tt.

(** [if 'price' in item: try: item['price'] = float(item['price'])
    except (TypeError, ValueError): item['price'] = 0.0] *)
Definition clean_price (item : val) : PyM X unit :=
  coerce_field "price" py_float VFloat float_zero item.

(** [if 'pages' in item: try: item['pages'] = int(item['pages'])
    except (TypeError, ValueError): item['pages'] = 0] *)
Definition clean_pages (item : val) : PyM X unit :=
  coerce_field "pages" py_int VInt 0%Z item.

Definition clean_item (item : val) : PyM X unit :=
  clean_isbn item ;; clean_price item ;; clean_pages item.

(** [cleaned = []; for item in raw_data: ...; cleaned.append(item);
    return cleaned] *)
Definition clean_raw_data (raw_data : val) : PyM X val :=
  cl <- py_alloc (OList []) ;;
  items <- py_iter raw_data ;;
  pm_iter (fun item => clean_item item ;; py_append (VRef cl) item) items ;;
  pm_ret (VRef cl).
End Cleaner.

(** ** The specification of one record *)

(** The outcome of [except (TypeError, ValueError)] around a built-in. *)
Definition or_default {A} (r : exn + A) (dflt : A) : exn + A :=
  match r with
  | inl TypeError | inl ValueError => inr dflt
  | _ => r
  end.

Definition clean_isbn_f (h : heap) (kvs : list (string * val)) : exn + list (string * val) :=
  match assoc_lookup "isbn" kvs with
  | Some v =>
      match join_isdigit_h h v with
      | inr s => inr (assoc_set "isbn" (VStr s) kvs)
      | inl e => inl e
      end
  | None => inr kvs
  end.

Definition coerce_f {A} (k : string) (conv : val -> exn + A) (inj : A -> val) (dflt : A)
           (kvs : list (string * val)) : exn + list (string * val) :=
  match assoc_lookup k kvs with
  | Some v =>
      match or_default (conv v) dflt with
      | inr a => inr (assoc_set k (inj a) kvs)
      | inl e => inl e
      end
  | None => inr kvs
  end.

Definition clean_price_f := coerce_f "price" py_float VFloat float_zero.
Definition clean_pages_f := coerce_f "pages" py_int VInt 0%Z.

(** The exception raised, if any, and the contents of the dict when the
    loop body returned or raised. *)
Definition clean_dict (h : heap) (kvs : list (string * val)) : option exn * list (string * val) :=
  match clean_isbn_f h kvs with
  | inl e => (Some e, kvs)
  | inr k1 =>
      match clean_price_f k1 with
      | inl e => (Some e, k1)
      | inr k2 =>
          match clean_pages_f k2 with
          | inl e => (Some e, k2)
          | inr k3 => (None, k3)
          end
      end
  end.

Definition field_names : list string := ["isbn"; "price"; "pages"].

(** The loop body on any value: only a dict is changed. *)
Definition clean_item_h (h : heap) (v : val) : option exn * heap :=
  match v with
  | VStr s =>
      (if existsb (fun k => str_contains k s) field_names then Some TypeError else None, h)
  | VRef l =>
      match heap_get h l with
      | Some (ODict kvs) => let '(oe, kvs') := clean_dict h kvs in (oe, heap_set h l (ODict kvs'))
      | Some (OList xs) =>
          (if existsb (fun k => bool_decide (VStr k ∈ xs)) field_names then Some TypeError
           else None, h)
      | Some (OInst _ _) => (Some TypeError, h)
      | None => (Some Dangling, h)
      end
  | _ => (Some TypeError, h)
  end.

(** The loop: the error if any, the items appended to [cleaned], the
    heap of the items. *)
Fixpoint clean_all (h : heap) (items : list val) : option exn * list val * heap :=
  match items with
  | [] => (None, [], h)
  | v :: rest =>
      match clean_item_h h v with
      | (Some e, h1) => (Some e, [], h1)
      | (None, h1) => let '(oe, done, h2) := clean_all h1 rest in (oe, v :: done, h2)
      end
  end.

Definition to_result {A} (oe : option exn) (a : A) : exn + A :=
  match oe with Some e => inl e | None => inr a end.

(** ** The loop body refines [clean_item_h] *)

Section Refinement.
Context {X : Type}.
Implicit Types (h : heap) (x : X).

Lemma clean_isbn_dict h x l kvs :
  heap_get h l = Some (ODict kvs) ->
  clean_isbn (VRef l) (mkWorld h x) =
    match clean_isbn_f h kvs with
    | inl e => (inl e, mkWorld h x)
    | inr k1 => (inr tt, mkWorld (heap_set h l (ODict k1)) x)
    end.
Proof.
  intros H. unfold clean_isbn. rewrite pm_bind_run, (py_contains_dict _ _ _ (mkWorld h x) H).
  unfold clean_isbn_f. destruct (assoc_lookup "isbn" kvs) as [v|] eqn:E.
  - rewrite bool_decide_eq_true_2 by done.
    rewrite pm_bind_run, (py_getitem_dict _ _ _ _ (mkWorld h x) H E), pm_bind_run, py_join_isdigit_run.
    simpl. destruct (join_isdigit_h h v); [done|]. by rewrite (py_setitem_dict _ _ _ _ (mkWorld h x) H).
  - rewrite bool_decide_eq_false_2 by (intros [? ?]; done).
    by rewrite heap_set_id.
Qed.

Lemma coerce_field_dict {A} k (conv : val -> exn + A) inj dflt h x l kvs :
  heap_get h l = Some (ODict kvs) ->
  coerce_field k conv inj dflt (VRef l) (mkWorld h x) =
    match coerce_f k conv inj dflt kvs with
    | inl e => (inl e, mkWorld h x)
    | inr k1 => (inr tt, mkWorld (heap_set h l (ODict k1)) x)
    end.
Proof.
  intros H. unfold coerce_field. rewrite pm_bind_run, (py_contains_dict _ _ _ (mkWorld h x) H).
  unfold coerce_f. destruct (assoc_lookup k kvs) as [v|] eqn:E.
  - rewrite bool_decide_eq_true_2 by done. unfold except_type_value.
    rewrite pm_catch_run, pm_bind_run, (py_getitem_dict _ _ _ _ (mkWorld h x) H E), pm_bind_run.
    destruct (conv v) as [e|a]; simpl.
    + destruct e; simpl; try done; by rewrite (py_setitem_dict _ _ _ _ (mkWorld h x) H).
    + by rewrite (py_setitem_dict _ _ _ _ (mkWorld h x) H).
  - rewrite bool_decide_eq_false_2 by (intros [? ?]; done).
    by rewrite heap_set_id.
Qed.

(** Refinement for a dict: the body of the loop does to the dict what
    [clean_dict] says, and nothing else to the heap. *)
Lemma clean_item_dict h x l kvs :
  heap_get h l = Some (ODict kvs) ->
  clean_item (VRef l) (mkWorld h x) =
    (to_result (clean_dict h kvs).1 tt, mkWorld (heap_set h l (ODict (clean_dict h kvs).2)) x).
Proof.
  intros H. unfold clean_item, clean_price, clean_pages, clean_dict.
  rewrite pm_bind_run, (clean_isbn_dict _ _ _ _ H).
  destruct (clean_isbn_f h kvs) as [e|k1]; [by rewrite heap_set_id|].
  rewrite pm_bind_run, (coerce_field_dict _ _ _ _ _ _ _ _ (heap_get_set_eq h l _)).
  unfold clean_price_f. destruct (coerce_f "price" _ _ _ k1) as [e|k2]; [done|].
  rewrite heap_set_set, (coerce_field_dict _ _ _ _ _ _ _ _ (heap_get_set_eq h l _)).
  unfold clean_pages_f. destruct (coerce_f "pages" _ _ _ k2) as [e|k3]; [done|].
  by rewrite heap_set_set.
Qed.
End Refinement.

Ltac clean_unfold :=
  unfold clean_item, clean_isbn, clean_price, clean_pages, coerce_field, except_type_value,
    py_contains, py_getitem, py_setitem, py_load, pm_bind, pm_catch, pm_ret, pm_raise; cbn.

Ltac rewrite_get H :=
  repeat (cbn; rewrite H); cbn.

Section RefinementAll.
Context {X : Type}.
Implicit Types (h : heap) (x : X).

Lemma clean_item_spec h x v :
  clean_item v (mkWorld h x) = (to_result (clean_item_h h v).1 tt, mkWorld (clean_item_h h v).2 x).
Proof.
  destruct v as [| | | |s| | |l]; try by clean_unfold.
  - clean_unfold. unfold field_names. simpl.
    destruct (str_contains "isbn" s); [done|].
    destruct (str_contains "price" s); [done|].
    by destruct (str_contains "pages" s).
  - destruct (heap_get h l) as [[kvs|xs|c a]|] eqn:Hl.
    + rewrite (clean_item_dict _ _ _ _ Hl). simpl. rewrite Hl.
      by destruct (clean_dict h kvs).
    + clean_unfold. rewrite_get Hl. unfold field_names. simpl.
      destruct (bool_decide (VStr "isbn" ∈ xs)); rewrite_get Hl; [done|].
      destruct (bool_decide (VStr "price" ∈ xs)); rewrite_get Hl; [done|].
      by destruct (bool_decide (VStr "pages" ∈ xs)); rewrite_get Hl.
    + clean_unfold. by rewrite_get Hl.
    + clean_unfold. by rewrite_get Hl.
Qed.

(** C30. Refinement of the loop body: on every value an item can be (a
    dict, a list, a str, a number, None, ...) the three [if] blocks
    raise what [clean_item_h] says and leave the heap it computes. *)
Theorem clean_item_run h x v :
  clean_item v (mkWorld h x) = (to_result (clean_item_h h v).1 tt, mkWorld (clean_item_h h v).2 x).
Proof. intros; eapply clean_item_spec; eassumption. Qed.
End RefinementAll.

(** ** Framing the [cleaned] list *)

Lemma coerce_f_refs {A} k (conv : val -> exn + A) inj dflt kvs kvs' r :
  (forall a, val_refs (inj a) = []) ->
  coerce_f k conv inj dflt kvs = inr kvs' -> r ∈ kv_refs kvs' -> r ∈ kv_refs kvs.
Proof.
  intros Hinj. unfold coerce_f. destruct (assoc_lookup k kvs); [|by intros [= ->]].
  destruct (or_default (conv v) dflt) as [e|a]; [done|]. intros [= <-] Hr.
  destruct (assoc_set_refs _ _ _ _ Hr) as [?|Hv]; [done|]. rewrite Hinj in Hv. set_solver.
Qed.

(** Cleaning stores no new reference in a record. *)
Lemma clean_dict_refs h kvs r : r ∈ kv_refs (clean_dict h kvs).2 -> r ∈ kv_refs kvs.
Proof.
  unfold clean_dict, clean_isbn_f.
  assert (forall k1, clean_isbn_f h kvs = inr k1 -> r ∈ kv_refs k1 -> r ∈ kv_refs kvs) as Hi.
  { unfold clean_isbn_f. intros k1. destruct (assoc_lookup "isbn" kvs); [|by intros [= ->]].
    destruct (join_isdigit_h h v); [done|]. intros [= <-] Hr.
    destruct (assoc_set_refs _ _ _ _ Hr) as [?|Hv]; [done|]. set_solver. }
  fold (clean_isbn_f h kvs). destruct (clean_isbn_f h kvs) as [e|k1] eqn:E1; [done|].
  unfold clean_price_f, clean_pages_f.
  destruct (coerce_f "price" _ _ _ k1) as [e|k2] eqn:E2; [by apply Hi|].
  pose proof (coerce_f_refs "price" py_float VFloat float_zero k1 k2 r (fun _ => eq_refl) E2).
  destruct (coerce_f "pages" _ _ _ k2) as [e|k3] eqn:E3; intros Hr; apply (Hi k1 eq_refl); auto.
  pose proof (coerce_f_refs "pages" py_int VInt 0%Z k2 k3 r (fun _ => eq_refl) E3). auto.
Qed.

Lemma clean_dict_with_obj h c o kvs :
  c ∉ kv_refs kvs -> clean_dict (with_obj h c o) kvs = clean_dict h kvs.
Proof.
  intros Hc. unfold clean_dict, clean_isbn_f.
  destruct (assoc_lookup "isbn" kvs) as [v|] eqn:E; [|done].
  rewrite join_isdigit_h_with_obj; [done|]. intros Hv. by apply Hc, (assoc_lookup_refs _ _ _ E).
Qed.

Lemma clean_item_h_with_obj h c o v :
  fresh_in c h -> c ∉ val_refs v ->
  clean_item_h (with_obj h c o) v = ((clean_item_h h v).1, with_obj (clean_item_h h v).2 c o).
Proof.
  intros Hf Hc. destruct v as [| | | | | | |l]; try done. simpl.
  assert (l <> c) as Hne by (intros ->; apply Hc; simpl; set_solver).
  rewrite heap_get_with_obj_ne by done.
  destruct (heap_get h l) as [[kvs|xs|? ?]|] eqn:Hl; try done.
  rewrite clean_dict_with_obj by exact (Hf l (ODict kvs) Hl).
  destruct (clean_dict h kvs). simpl. by rewrite heap_set_with_obj_ne.
Qed.

Lemma clean_item_h_fresh h c v : fresh_in c h -> fresh_in c (clean_item_h h v).2.
Proof.
  intros Hf. destruct v as [| | | | | | |l]; try done. simpl.
  destruct (heap_get h l) as [[kvs|xs|? ?]|] eqn:Hl; try done.
  destruct (clean_dict h kvs) as [oe kvs'] eqn:Ed. simpl.
  intros l' o'. unfold heap_set. simpl. rewrite lookup_insert.
  case_decide; [|apply Hf]. intros [= <-] Hin. apply (Hf l (ODict kvs) Hl).
  simpl. apply (clean_dict_refs h). by rewrite Ed.
Qed.

(** ** The whole function refines [clean_all] *)

Section Loop.
Context {X : Type}.
Implicit Types (h : heap) (x : X).

Lemma clean_loop_run h x c pre items :
  fresh_in c h -> (forall v, v ∈ items -> c ∉ val_refs v) ->
  pm_iter (fun item => clean_item item ;; py_append (VRef c) item) items
          (mkWorld (with_obj h c (OList pre)) x)
  = let '(oe, done, h') := clean_all h items in
    (to_result oe tt, mkWorld (with_obj h' c (OList (pre ++ done))) x).
Proof.
  revert h pre. induction items as [|v items IH]; intros h pre Hf Hitems.
  - simpl. by rewrite app_nil_r.
  - cbn [pm_iter clean_all]. rewrite pm_bind_run, pm_bind_run, clean_item_spec.
    rewrite clean_item_h_with_obj by (done || (apply Hitems; set_solver)).
    pose proof (clean_item_h_fresh h c v Hf) as Hf1.
    destruct (clean_item_h h v) as [[e|] h1]; simpl in *; [by rewrite app_nil_r|].
    rewrite py_append_with_obj, IH by (done || (intros; apply Hitems; set_solver)).
    destruct (clean_all h1 items) as [[oe dn] h2]. by rewrite <-app_assoc.
Qed.
End Loop.

Lemma clean_raw_data_run {X} h (x : X) raw :
  heap_closed h -> val_ok h raw ->
  clean_raw_data raw (mkWorld h x) =
    match iter_h h raw with
    | inl e => (inl e, mkWorld (with_obj h (hnext h) (OList [])) x)
    | inr items =>
        let '(oe, done, h') := clean_all h items in
        (to_result oe (VRef (hnext h)), mkWorld (with_obj h' (hnext h) (OList done)) x)
    end.
Proof.
  intros Hcl Hraw. unfold clean_raw_data.
  rewrite pm_bind_run, py_alloc_run, pm_bind_run, py_iter_run. simpl.
  rewrite iter_h_with_obj by (by apply not_ref_ok).
  destruct (iter_h h raw) as [e|items] eqn:Ei; [done|].
  rewrite pm_bind_run, (clean_loop_run h x (hnext h) [] items).
  - destruct (clean_all h items) as [[[e|] dn] h']; done.
  - by apply fresh_in_closed.
  - intros v Hv. by apply not_ref_ok, (iter_h_ok h raw items).
Qed.

(** C5. Refinement of [clean_raw_data]: from a heap a Python program can
    be in, the function allocates the list [cleaned] at the next free
    location, raises what [iter(raw_data)] raises, and otherwise behaves as
    the specification [clean_all] of its loop says: the error of the first
    item that raises, the items appended to [cleaned] before it, and the
    heap with every item cleaned as [clean_item_h] prescribes. *)
Theorem clean_raw_data_refines {X} h (x : X) raw :
  heap_closed h -> val_ok h raw ->
  clean_raw_data raw (mkWorld h x) =
    match iter_h h raw with
    | inl e => (inl e, mkWorld (with_obj h (hnext h) (OList [])) x)
    | inr items =>
        let '(oe, done, h') := clean_all h items in
        (to_result oe (VRef (hnext h)), mkWorld (with_obj h' (hnext h) (OList done)) x)
    end.
Proof. intros; eapply clean_raw_data_run; eassumption. Qed.

(** ** Properties of a cleaned record *)

(** The value a coercion stores: its result, or the default when it
    raised TypeError or ValueError. *)
Definition value_or {A} (r : exn + A) (d : A) : A := match r with inr a => a | inl _ => d end.

(** What one step of the body does to the other keys: nothing. *)
Definition step_frame (k : string) (kvs kvs' : list (string * val)) : Prop :=
  map fst kvs' = map fst kvs /\ forall k', k <> k' -> assoc_lookup k' kvs' = assoc_lookup k' kvs.

Lemma step_frame_set k v kvs :
  is_Some (assoc_lookup k kvs) -> step_frame k kvs (assoc_set k v kvs).
Proof. intros H. split; [by apply assoc_set_keys|]. intros. by apply assoc_lookup_set_ne. Qed.

Lemma step_frame_refl k kvs : step_frame k kvs kvs.
Proof. by split. Qed.

Lemma coerce_f_frame {A} k conv inj (dflt : A) kvs kvs' :
  coerce_f k conv inj dflt kvs = inr kvs' -> step_frame k kvs kvs'.
Proof.
  unfold coerce_f. destruct (assoc_lookup k kvs) eqn:E; [|intros [= ->]; apply step_frame_refl].
  destruct (or_default (conv v) dflt); [done|]. intros [= <-]. apply step_frame_set. by rewrite E.
Qed.

Lemma coerce_f_lookup {A} k conv inj (dflt : A) kvs kvs' v :
  coerce_f k conv inj dflt kvs = inr kvs' -> assoc_lookup k kvs = Some v ->
  assoc_lookup k kvs' = Some (inj (value_or (conv v) dflt)).
Proof.
  unfold coerce_f. intros H E. rewrite E in H.
  destruct (conv v) as [[]|a] eqn:Ec; simplify_eq/=; by rewrite assoc_lookup_set_eq.
Qed.

Lemma clean_isbn_f_frame h kvs kvs' : clean_isbn_f h kvs = inr kvs' -> step_frame "isbn" kvs kvs'.
Proof.
  unfold clean_isbn_f. destruct (assoc_lookup "isbn" kvs) eqn:E; [|intros [= ->]; apply step_frame_refl].
  destruct (join_isdigit_h h v); [done|]. intros [= <-]. apply step_frame_set. by rewrite E.
Qed.

Lemma clean_isbn_f_lookup h kvs kvs' v :
  clean_isbn_f h kvs = inr kvs' -> assoc_lookup "isbn" kvs = Some v ->
  exists s, join_isdigit_h h v = inr s /\ assoc_lookup "isbn" kvs' = Some (VStr s).
Proof.
  unfold clean_isbn_f. intros H E. rewrite E in H.
  destruct (join_isdigit_h h v) as [|s]; [done|]. injection H as <-.
  exists s. by rewrite assoc_lookup_set_eq.
Qed.

Lemma step_frame_trans k1 k2 kvs1 kvs2 kvs3 k :
  step_frame k1 kvs1 kvs2 -> step_frame k2 kvs2 kvs3 -> k1 <> k -> k2 <> k ->
  assoc_lookup k kvs3 = assoc_lookup k kvs1.
Proof. intros [_ H1] [_ H2] ??. by rewrite H2, H1. Qed.

(** The three steps of a body that returned normally. *)
Lemma clean_dict_inv h kvs kvs' :
  clean_dict h kvs = (None, kvs') ->
  exists k1 k2, clean_isbn_f h kvs = inr k1 /\ clean_price_f k1 = inr k2 /\ clean_pages_f k2 = inr kvs'.
Proof.
  unfold clean_dict. intros Hc. destruct (clean_isbn_f h kvs) as [|k1] eqn:E1; [done|].
  destruct (clean_price_f k1) as [|k2] eqn:E2; [done|].
  destruct (clean_pages_f k2) as [|k3] eqn:E3; [done|]. injection Hc as <-. eauto.
Qed.

Lemma clean_dict_isbn_spec h kvs kvs' v :
  clean_dict h kvs = (None, kvs') -> assoc_lookup "isbn" kvs = Some v ->
  exists s, assoc_lookup "isbn" kvs' = Some (VStr s) /\ all_digits s /\
    (forall s0, v = VStr s0 ->
       s = digits_of s0 /\ sublist (String.list_ascii_of_string s) (String.list_ascii_of_string s0)).
Proof.
  intros Hc Hv. destruct (clean_dict_inv _ _ _ Hc) as (k1 & k2 & E1 & E2 & E3).
  destruct (clean_isbn_f_lookup _ _ _ _ E1 Hv) as (s & Hj & Hs).
  exists s. split; [|split].
  - rewrite (step_frame_trans "price" "pages" k1 k2 kvs' "isbn"); try done.
    + by apply (coerce_f_frame _ _ _ _ _ _ E2).
    + by apply (coerce_f_frame _ _ _ _ _ _ E3).
  - by apply (join_isdigit_all_digits h v).
  - intros s0 ->. rewrite join_isdigit_str in Hj. injection Hj as <-. auto with pm.
Qed.

(** C23. After cleaning, the ISBN field of a record holds only ASCII
    digits; when it was a str, it holds exactly the digits of that str,
    in order: a subsequence of the input obtained by deleting
    characters. *)
Theorem clean_dict_isbn h kvs kvs' v :
  clean_dict h kvs = (None, kvs') -> assoc_lookup "isbn" kvs = Some v ->
  exists s, assoc_lookup "isbn" kvs' = Some (VStr s) /\ all_digits s /\
    (forall s0, v = VStr s0 ->
       s = digits_of s0 /\ sublist (String.list_ascii_of_string s) (String.list_ascii_of_string s0)).
Proof. intros; eapply clean_dict_isbn_spec; eassumption. Qed.

Lemma clean_dict_coerce_spec h kvs kvs' :
  clean_dict h kvs = (None, kvs') ->
  (forall v, assoc_lookup "price" kvs = Some v ->
     assoc_lookup "price" kvs' = Some (VFloat (value_or (py_float v) float_zero))) /\
  (forall v, assoc_lookup "pages" kvs = Some v ->
     assoc_lookup "pages" kvs' = Some (VInt (value_or (py_int v) 0%Z))).
Proof.
  intros Hc. destruct (clean_dict_inv _ _ _ Hc) as (k1 & k2 & E1 & E2 & E3).
  pose proof (clean_isbn_f_frame _ _ _ E1) as [_ F1].
  pose proof (coerce_f_frame _ _ _ _ _ _ E2) as [_ F2].
  pose proof (coerce_f_frame _ _ _ _ _ _ E3) as [_ F3].
  split; intros v Hv.
  - rewrite F3 by done. apply (coerce_f_lookup _ _ _ _ _ _ _ E2). by rewrite F1.
  - apply (coerce_f_lookup _ _ _ _ _ _ _ E3). by rewrite F2, F1.
Qed.

(** C24. After cleaning, a present [price] holds a float and a present
    [pages] an int: the result of [float(...)] / [int(...)] on the
    original value, or 0.0 / 0 when that raised TypeError or
    ValueError. *)
Theorem clean_dict_coerce h kvs kvs' :
  clean_dict h kvs = (None, kvs') ->
  (forall v, assoc_lookup "price" kvs = Some v ->
     assoc_lookup "price" kvs' = Some (VFloat (value_or (py_float v) float_zero))) /\
  (forall v, assoc_lookup "pages" kvs = Some v ->
     assoc_lookup "pages" kvs' = Some (VInt (value_or (py_int v) 0%Z))).
Proof. intros; eapply clean_dict_coerce_spec; eassumption. Qed.

(** The keys are those of [a], in order, and only field values changed. *)
Definition same_shape (a b : list (string * val)) : Prop :=
  map fst b = map fst a /\ forall k, k ∉ field_names -> assoc_lookup k b = assoc_lookup k a.

Lemma same_shape_step k a b c :
  k ∈ field_names -> same_shape a b -> step_frame k b c -> same_shape a c.
Proof.
  intros Hk [Hb Lb] [Hc Lc]. split; [congruence|].
  intros k' Hk'. rewrite Lc, Lb; [done..|]. intros ->. contradiction.
Qed.

Lemma same_shape_refl a : same_shape a a.
Proof. by split. Qed.

Lemma clean_dict_shape_spec h kvs oe kvs' :
  clean_dict h kvs = (oe, kvs') -> same_shape kvs kvs'.
Proof.
  unfold clean_dict. intros Hc.
  destruct (clean_isbn_f h kvs) as [e|k1] eqn:E1.
  { injection Hc as _ <-. apply same_shape_refl. }
  assert (same_shape kvs k1) as S1.
  { apply (same_shape_step "isbn" kvs kvs); [set_solver|apply same_shape_refl|].
    by apply (clean_isbn_f_frame h). }
  destruct (clean_price_f k1) as [e|k2] eqn:E2; [by injection Hc as _ <-|].
  assert (same_shape kvs k2) as S2.
  { apply (same_shape_step "price" kvs k1); [set_solver|done|]. by apply (coerce_f_frame _ _ _ _ _ _ E2). }
  destruct (clean_pages_f k2) as [e|k3] eqn:E3; injection Hc as _ <-; [done|].
  apply (same_shape_step "pages" kvs k2); [set_solver|done|]. by apply (coerce_f_frame _ _ _ _ _ _ E3).
Qed.

(** C28. Whether it returns or raises, the loop body keeps the keys of a
    record and their order (so no field is added), and leaves every
    value other than isbn, price and pages as it was. *)
Theorem clean_dict_shape h kvs oe kvs' :
  clean_dict h kvs = (oe, kvs') -> same_shape kvs kvs'.
Proof. intros; eapply clean_dict_shape_spec; eassumption. Qed.

(** A step that finds the value it would store leaves the record as is. *)
Lemma coerce_f_fixed {A} k conv inj (dflt : A) kvs :
  (forall v, assoc_lookup k kvs = Some v -> exists a, v = inj a /\ conv v = inr a) ->
  coerce_f k conv inj dflt kvs = inr kvs.
Proof.
  intros H. unfold coerce_f. destruct (assoc_lookup k kvs) as [v|] eqn:E; [|done].
  destruct (H v eq_refl) as (a & -> & Hc). rewrite Hc. simpl. by rewrite assoc_set_id.
Qed.

(** C29. Cleaning is idempotent: a record the loop body cleaned without
    raising is left unchanged by a second pass, on any heap.  So an item
    listed twice in [raw_data] ends as if it were listed once. *)
Theorem clean_dict_idem h h' kvs kvs' :
  clean_dict h kvs = (None, kvs') -> clean_dict h' kvs' = (None, kvs').
Proof.
  intros Hc. destruct (clean_dict_shape_spec _ _ _ _ Hc) as [Hk _].
  destruct (clean_dict_coerce_spec _ _ _ Hc) as [Hp Hg].
  assert (clean_isbn_f h' kvs' = inr kvs') as Hi.
  { unfold clean_isbn_f. destruct (assoc_lookup "isbn" kvs') as [v'|] eqn:E'; [|done].
    destruct (assoc_lookup "isbn" kvs) as [v|] eqn:E.
    - destruct (clean_dict_isbn_spec _ _ _ _ Hc E) as (s & Hs & Hd & _).
      rewrite E' in Hs. injection Hs as ->. rewrite join_isdigit_str, digits_of_id by done.
      by rewrite assoc_set_id.
    - by rewrite (assoc_lookup_None_keys _ _ _ (eq_sym Hk) E) in E'. }
  assert (forall k v, assoc_lookup k kvs' = Some v -> exists v0, assoc_lookup k kvs = Some v0) as Hpres.
  { intros k v Hv. destruct (assoc_lookup k kvs) eqn:E; [eauto|].
    by rewrite (assoc_lookup_None_keys _ _ _ (eq_sym Hk) E) in Hv. }
  unfold clean_dict, clean_price_f, clean_pages_f. rewrite Hi.
  rewrite !coerce_f_fixed; [done| |].
  - intros v Hv. destruct (Hpres _ _ Hv) as [v0 Hv0]. rewrite (Hg _ Hv0) in Hv.
    injection Hv as <-. eauto.
  - intros v Hv. destruct (Hpres _ _ Hv) as [v0 Hv0]. rewrite (Hp _ Hv0) in Hv.
    injection Hv as <-. eauto.
Qed.

Lemma coerce_f_ok {A} k conv inj (dflt : A) kvs :
  (forall v e, conv v = inl e -> e = TypeError \/ e = ValueError \/ e = OverflowError) ->
  (exists kvs', coerce_f k conv inj dflt kvs = inr kvs') <->
  (forall v, assoc_lookup k kvs = Some v -> conv v <> inl OverflowError).
Proof.
  intros Hx. unfold coerce_f. destruct (assoc_lookup k kvs) as [v|]; [|split; [done|eauto]].
  destruct (conv v) as [e|a] eqn:E; simpl.
  - destruct (Hx v e E) as [ -> | [ -> | -> ] ]; simpl.
    + split; [intros _ v' [= <-]; by rewrite E|eauto].
    + split; [intros _ v' [= <-]; by rewrite E|eauto].
    + split; [by intros [? ?]|]. intros H. by destruct (H v eq_refl).
  - split; [intros _ v' [= <-]; by rewrite E|eauto].
Qed.

(** C22. Exactly when the cleaner raises: the loop body returns normally
    on a record if and only if joining the digits of its isbn raises
    nothing, [float(price)] does not raise OverflowError and [int(pages)]
    does not raise OverflowError.  Only TypeError and ValueError are
    caught, so the spec's claim that the cleaner never fails does not
    hold. *)
Theorem clean_dict_ok_iff h kvs :
  (clean_dict h kvs).1 = None <->
  (forall v, assoc_lookup "isbn" kvs = Some v -> exists s, join_isdigit_h h v = inr s) /\
  (forall v, assoc_lookup "price" kvs = Some v -> py_float v <> inl OverflowError) /\
  (forall v, assoc_lookup "pages" kvs = Some v -> py_int v <> inl OverflowError).
Proof.
  pose proof (coerce_f_ok "price" py_float VFloat float_zero) as Cp.
  pose proof (coerce_f_ok "pages" py_int VInt 0%Z) as Cg.
  split.
  - destruct (clean_dict h kvs) as [oe kvs'] eqn:Hc. simpl. intros ->.
    destruct (clean_dict_inv _ _ _ Hc) as (k1 & k2 & E1 & E2 & E3).
    pose proof (clean_isbn_f_frame _ _ _ E1) as [_ F1].
    pose proof (coerce_f_frame _ _ _ _ _ _ E2) as [_ F2].
    split; [|split]; intros v Hv.
    + destruct (clean_isbn_f_lookup _ _ _ _ E1 Hv) as (s & ? & _). eauto.
    + apply (proj1 (Cp k1 py_float_exn) (ex_intro _ _ E2)). by rewrite F1.
    + apply (proj1 (Cg k2 py_int_exn) (ex_intro _ _ E3)). by rewrite F2, F1.
  - intros (Hi & Hp & Hg). unfold clean_dict.
    assert (exists k1, clean_isbn_f h kvs = inr k1) as [k1 E1].
    { unfold clean_isbn_f. destruct (assoc_lookup "isbn" kvs) as [v|] eqn:E; [|eauto].
      destruct (Hi v eq_refl) as [s ->]. eauto. }
    pose proof (clean_isbn_f_frame _ _ _ E1) as [_ F1].
    destruct (proj2 (Cp k1 py_float_exn)) as [k2 E2].
    { intros v Hv. apply Hp. by rewrite <-F1. }
    pose proof (coerce_f_frame _ _ _ _ _ _ E2) as [_ F2].
    destruct (proj2 (Cg k2 py_int_exn)) as [k3 E3].
    { intros v Hv. apply Hg. by rewrite <-F1, <-F2. }
    unfold clean_price_f, clean_pages_f. by rewrite E1, E2, E3.
Qed.

(** ** What the whole function returns and leaves *)

Lemma clean_all_done h items dn h' : clean_all h items = (None, dn, h') -> dn = items.
Proof.
  revert h dn. induction items as [|v items IH]; intros h dn; simpl; [congruence|].
  destruct (clean_item_h h v) as [[e|] h1]; [congruence|].
  destruct (clean_all h1 items) as [[oe dn'] h2] eqn:E. intros [= -> <- ->]. f_equal. eauto.
Qed.

(** C26. The list [clean_raw_data] returns on a list is a new list object
    (at a location that was free) holding the very same item values as
    the input, in the same order: the records are shared with
    [raw_data], not copied. *)
Theorem clean_raw_data_aliases {X} h (x : X) l items r w' :
  heap_closed h -> heap_get h l = Some (OList items) ->
  clean_raw_data (VRef l) (mkWorld h x) = (inr r, w') ->
  r = VRef (hnext h) /\ heap_get h (hnext h) = None /\
  heap_get (w_heap w') (hnext h) = Some (OList items).
Proof.
  intros Hcl Hl. rewrite clean_raw_data_run by eauto using heap_closed_ok.
  simpl. rewrite Hl. destruct (clean_all h items) as [[[e|] dn] h'] eqn:E; [done|].
  intros [= <- <-]. rewrite (clean_all_done _ _ _ _ E).
  split_and!; [done|by apply heap_closed_fresh|apply heap_get_with_obj_eq].
Qed.

Lemma clean_all_keys h (ks : list string) :
  Forall (fun k => existsb (fun f => str_contains f k) field_names = false) ks ->
  clean_all h (map VStr ks) = (None, map VStr ks, h).
Proof.
  induction 1 as [|k ks Hk _ IH]; [done|]. cbn [map clean_all]. unfold clean_item_h.
  rewrite Hk, IH. done.
Qed.

Lemma clean_raw_data_dict_run {X} h (x : X) l kvs :
  heap_closed h -> heap_get h l = Some (ODict kvs) ->
  Forall (fun k => existsb (fun f => str_contains f k) field_names = false) (map fst kvs) ->
  clean_raw_data (VRef l) (mkWorld h x) =
    (inr (VRef (hnext h)), mkWorld (with_obj h (hnext h) (OList (map (fun kv => VStr kv.1) kvs))) x).
Proof.
  intros Hcl Hl Hk. rewrite clean_raw_data_run by eauto using heap_closed_ok.
  simpl. rewrite Hl. replace (map (fun kv => VStr kv.1) kvs) with (map VStr (map fst kvs)).
  - by rewrite clean_all_keys.
  - by rewrite map_map.
Qed.

(** C6. Given a dict, as [main] passes it, [clean_raw_data] iterates its
    keys: when no key contains "isbn", "price" or "pages" it returns a
    new list of the key strings and leaves every object of the heap, the
    dict included, untouched; no record is cleaned. *)
Theorem clean_raw_data_dict {X} h (x : X) l kvs :
  heap_closed h -> heap_get h l = Some (ODict kvs) ->
  Forall (fun k => existsb (fun f => str_contains f k) field_names = false) (map fst kvs) ->
  clean_raw_data (VRef l) (mkWorld h x) =
    (inr (VRef (hnext h)), mkWorld (with_obj h (hnext h) (OList (map (fun kv => VStr kv.1) kvs))) x).
Proof. intros; eapply clean_raw_data_dict_run; eassumption. Qed.

(** ** Records are cleaned in place *)

(** The isbn of a record is not a reference (a str, as Faker makes it, a
    number, None, ...): cleaning it reads nothing from the heap. *)
Definition isbn_plain (kvs : list (string * val)) : Prop :=
  forall v, assoc_lookup "isbn" kvs = Some v -> val_refs v = [].

(** An item of [raw_data] that is a dict with such an isbn. *)
Definition dict_item (h : heap) (v : val) : Prop :=
  exists l kvs, v = VRef l /\ heap_get h l = Some (ODict kvs) /\ isbn_plain kvs.

Lemma clean_dict_plain h h' kvs : isbn_plain kvs -> clean_dict h kvs = clean_dict h' kvs.
Proof.
  intros Hp. unfold clean_dict, clean_isbn_f.
  destruct (assoc_lookup "isbn" kvs) as [v|] eqn:E; [|done].
  specialize (Hp v E). by destruct v.
Qed.

Lemma clean_dict_plain_out h kvs kvs' : clean_dict h kvs = (None, kvs') -> isbn_plain kvs'.
Proof.
  intros Hc v Hv. destruct (clean_dict_shape_spec _ _ _ _ Hc) as [Hk _].
  destruct (assoc_lookup "isbn" kvs) as [v0|] eqn:E.
  - destruct (clean_dict_isbn_spec _ _ _ _ Hc E) as (s & Hs & _). rewrite Hs in Hv. by injection Hv as <-.
  - by rewrite (assoc_lookup_None_keys _ _ _ (eq_sym Hk) E) in Hv.
Qed.

Lemma dict_item_plain h items l kvs :
  Forall (dict_item h) items -> VRef l ∈ items -> heap_get h l = Some (ODict kvs) -> isbn_plain kvs.
Proof.
  intros Hall Hin Hl. eapply Forall_forall in Hall as (l' & kvs' & Heq & Hl' & Hp); [|done].
  injection Heq as <-. rewrite Hl in Hl'. by injection Hl' as ->.
Qed.

Lemma dict_item_step h items l0 k0 :
  isbn_plain k0 -> Forall (dict_item h) items -> Forall (dict_item (heap_set h l0 (ODict k0))) items.
Proof.
  intros Hp0 Hall. eapply Forall_impl; [exact Hall|]. intros v (l & kvs & -> & Hl & Hp).
  destruct (decide (l0 = l)) as [<-|Hne].
  - exists l0, k0. by rewrite heap_get_set_eq.
  - exists l, kvs. by rewrite heap_get_set_ne.
Qed.

(** The loop cleans every dict item once, in place, and touches nothing
    else. *)
Lemma clean_all_dicts h items dn h' :
  clean_all h items = (None, dn, h') -> Forall (dict_item h) items ->
  (forall l kvs, VRef l ∈ items -> heap_get h l = Some (ODict kvs) ->
     heap_get h' l = Some (ODict (clean_dict h kvs).2)) /\
  (forall l, VRef l ∉ items -> heap_get h' l = heap_get h l).
Proof.
  revert h dn. induction items as [|v items IH]; intros h dn Hc Hall.
  { injection Hc as _ <-. split; [intros ?? Hin; inversion Hin|done]. }
  pose proof Hall as Hall'. apply Forall_cons in Hall' as [(l0 & kvs0 & -> & Hl0 & Hp0) Hrest].
  simpl in Hc. rewrite Hl0 in Hc. destruct (clean_dict h kvs0) as [[e|] k0] eqn:Hd; [done|].
  simpl in Hc. destruct (clean_all _ items) as [[oe dn'] h2] eqn:Hc'. injection Hc as -> _ ->.
  pose proof (clean_dict_plain_out _ _ _ Hd) as Hp0'.
  destruct (IH _ _ Hc' (dict_item_step _ _ _ _ Hp0' Hrest)) as [IH1 IH2].
  split.
  - intros l kvs Hin Hl. destruct (decide (l = l0)) as [->|Hne].
    + rewrite Hl0 in Hl. injection Hl as <-. rewrite Hd. simpl.
      destruct (decide (VRef l0 ∈ items)) as [Hin'|Hnin].
      * rewrite (IH1 l0 k0 Hin' (heap_get_set_eq _ _ _)).
        by rewrite (clean_dict_idem h _ kvs0 k0 Hd).
      * rewrite IH2 by done. apply heap_get_set_eq.
    + assert (VRef l ∈ items) as Hin' by (apply elem_of_cons in Hin as [[= ?]|?]; done).
      rewrite (IH1 l kvs Hin'); [|by rewrite heap_get_set_ne].
      by rewrite (clean_dict_plain _ h kvs (dict_item_plain h items l kvs Hrest Hin' Hl)).
  - intros l Hnin. rewrite IH2 by set_solver. apply heap_get_set_ne. intros ->. set_solver.
Qed.

(** C25. [clean_raw_data] mutates its argument: when every item is a dict
    (with an isbn that is not a reference), after it returns each of
    those dict objects, still reachable from [raw_data], holds the
    cleaned record, while the list [raw_data] itself is unchanged.  The
    spec presents the cleaner as returning a new sequence; the caller's
    data are changed as well. *)
Theorem clean_raw_data_in_place {X} h (x : X) l items r w' :
  heap_closed h -> heap_get h l = Some (OList items) -> Forall (dict_item h) items ->
  clean_raw_data (VRef l) (mkWorld h x) = (inr r, w') ->
  heap_get (w_heap w') l = Some (OList items) /\
  forall l' kvs, VRef l' ∈ items -> heap_get h l' = Some (ODict kvs) ->
    heap_get (w_heap w') l' = Some (ODict (clean_dict h kvs).2).
Proof.
  intros Hcl Hl Hall. rewrite clean_raw_data_run by eauto using heap_closed_ok.
  simpl. rewrite Hl. destruct (clean_all h items) as [[[e|] dn] h'] eqn:E; [done|].
  intros [= _ <-]. simpl. destruct (clean_all_dicts _ _ _ _ E Hall) as [H1 H2].
  assert (forall l' o, heap_get h l' = Some o -> l' <> hnext h) as Hne.
  { intros l' o Hl' ->. by rewrite heap_closed_fresh in Hl'. }
  split.
  - rewrite heap_get_with_obj_ne by eauto. rewrite H2; [done|].
    intros Hin. eapply Forall_forall in Hall as (l1 & kvs1 & Heq & Hd & _); [|exact Hin].
    injection Heq as <-. congruence.
  - intros l' kvs Hin Hl'. rewrite heap_get_with_obj_ne by eauto. by apply H1.
Qed.

(** ** Concrete runs *)

(** The record of the spec's scenario, in a list. *)
Definition scenario_record : list (string * val) :=
  [("isbn", VStr "978-0-13-468599-1"); ("price", VStr "N/A"); ("pages", VStr "twelve")].

Definition scenario_heap : heap := heap_of [ODict scenario_record; OList [VRef 1]].

(** ** Witnesses *)

Definition scenario_cleaned : list (string * val) :=
  [("isbn", VStr "9780134685991"); ("price", VFloat float_zero); ("pages", VInt 0%Z)].

Definition scenario_world : world unit :=
  Eval vm_compute in (clean_raw_data (VRef 2) (mkWorld scenario_heap tt)).2.

Lemma scenario_heap_closed : heap_closed scenario_heap.
Proof. decide_by_compute. Qed.

Lemma clean_raw_data_refines_witness :
  heap_closed scenario_heap /\ val_ok scenario_heap (VRef 2) /\
  clean_raw_data (VRef 2) (mkWorld scenario_heap tt) =
    match iter_h scenario_heap (VRef 2) with
    | inl e => (inl e, mkWorld (with_obj scenario_heap (hnext scenario_heap) (OList [])) tt)
    | inr items =>
        let '(oe, done, h') := clean_all scenario_heap items in
        (to_result oe (VRef (hnext scenario_heap)),
         mkWorld (with_obj h' (hnext scenario_heap) (OList done)) tt)
    end.
Proof.
  assert (Hok : val_ok scenario_heap (VRef 2)) by (decide_by_compute).
  split; [exact scenario_heap_closed|]. split; [exact Hok|].
  apply (clean_raw_data_refines scenario_heap tt (VRef 2) scenario_heap_closed Hok).
Defined.

Lemma clean_dict_isbn_witness :
  clean_dict scenario_heap scenario_record = (None, scenario_cleaned) /\
  assoc_lookup "isbn" scenario_record = Some (VStr "978-0-13-468599-1") /\
  exists s, assoc_lookup "isbn" scenario_cleaned = Some (VStr s) /\ all_digits s /\
    (forall s0, VStr "978-0-13-468599-1" = VStr s0 ->
       s = digits_of s0 /\ sublist (String.list_ascii_of_string s) (String.list_ascii_of_string s0)).
Proof.
  split; [vm_compute; reflexivity|]. split; [reflexivity|].
  apply (clean_dict_isbn scenario_heap scenario_record); vm_compute; reflexivity.
Defined.

Lemma clean_dict_coerce_witness :
  clean_dict scenario_heap scenario_record = (None, scenario_cleaned) /\
  (forall v, assoc_lookup "price" scenario_record = Some v ->
     assoc_lookup "price" scenario_cleaned = Some (VFloat (value_or (py_float v) float_zero))) /\
  (forall v, assoc_lookup "pages" scenario_record = Some v ->
     assoc_lookup "pages" scenario_cleaned = Some (VInt (value_or (py_int v) 0%Z))).
Proof.
  split; [vm_compute; reflexivity|].
  apply (clean_dict_coerce scenario_heap scenario_record scenario_cleaned). vm_compute. reflexivity.
Defined.

Lemma clean_dict_shape_witness :
  clean_dict scenario_heap scenario_record = (None, scenario_cleaned) /\
  same_shape scenario_record scenario_cleaned.
Proof.
  split; [vm_compute; reflexivity|].
  apply (clean_dict_shape scenario_heap scenario_record None). vm_compute. reflexivity.
Defined.

Lemma clean_dict_idem_witness :
  clean_dict scenario_heap scenario_record = (None, scenario_cleaned) /\
  clean_dict (heap_of []) scenario_cleaned = (None, scenario_cleaned).
Proof.
  split; [vm_compute; reflexivity|].
  apply (clean_dict_idem scenario_heap (heap_of []) scenario_record scenario_cleaned).
  vm_compute. reflexivity.
Defined.

Lemma clean_raw_data_aliases_witness :
  heap_closed scenario_heap /\ heap_get scenario_heap 2 = Some (OList [VRef 1]) /\
  clean_raw_data (VRef 2) (mkWorld scenario_heap tt) = (inr (VRef 3), scenario_world) /\
  VRef 3 = VRef (hnext scenario_heap) /\ heap_get scenario_heap (hnext scenario_heap) = None /\
  heap_get (w_heap scenario_world) (hnext scenario_heap) = Some (OList [VRef 1]).
Proof.
  assert (Hrun : clean_raw_data (VRef 2) (mkWorld scenario_heap tt) = (inr (VRef 3), scenario_world))
    by (vm_compute; reflexivity).
  split; [exact scenario_heap_closed|]. split; [reflexivity|]. split; [exact Hrun|].
  apply (clean_raw_data_aliases scenario_heap tt 2 [VRef 1] (VRef 3) scenario_world
           scenario_heap_closed eq_refl Hrun).
Defined.

(** The dict [main] passes: keys "authors", "books", "publishers". *)
Definition main_like_kvs : list (string * val) :=
  [("authors", VNone); ("books", VNone); ("publishers", VNone)].

Definition main_like_heap : heap := heap_of [ODict main_like_kvs].

Lemma clean_raw_data_dict_witness :
  heap_closed main_like_heap /\ heap_get main_like_heap 1 = Some (ODict main_like_kvs) /\
  Forall (fun k => existsb (fun f => str_contains f k) field_names = false) (map fst main_like_kvs) /\
  clean_raw_data (VRef 1) (mkWorld main_like_heap tt) =
    (inr (VRef (hnext main_like_heap)),
     mkWorld (with_obj main_like_heap (hnext main_like_heap)
                (OList (map (fun kv => VStr kv.1) main_like_kvs))) tt).
Proof.
  assert (Hc : heap_closed main_like_heap) by decide_by_compute.
  assert (Hk : Forall (fun k => existsb (fun f => str_contains f k) field_names = false)
                      (map fst main_like_kvs)) by (repeat constructor).
  split; [exact Hc|]. split; [reflexivity|]. split; [exact Hk|].
  exact (clean_raw_data_dict main_like_heap tt 1 main_like_kvs Hc eq_refl Hk).
Defined.

Lemma clean_raw_data_in_place_witness :
  heap_closed scenario_heap /\ Forall (dict_item scenario_heap) [VRef 1] /\
  heap_get (w_heap scenario_world) 2 = Some (OList [VRef 1]) /\
  heap_get (w_heap scenario_world) 1 = Some (ODict (clean_dict scenario_heap scenario_record).2).
Proof.
  assert (Hd : Forall (dict_item scenario_heap) [VRef 1]).
  { constructor; [|constructor]. exists 1%positive, scenario_record.
    split_and!; [reflexivity|reflexivity|]. intros v Hv. vm_compute in Hv. by injection Hv as <-. }
  assert (Hrun : clean_raw_data (VRef 2) (mkWorld scenario_heap tt) = (inr (VRef 3), scenario_world))
    by (vm_compute; reflexivity).
  destruct (clean_raw_data_in_place scenario_heap tt 2 [VRef 1] _ _ scenario_heap_closed eq_refl Hd Hrun)
    as [H1 H2].
  split; [exact scenario_heap_closed|]. split; [exact Hd|]. split; [exact H1|].
  apply H2; [by constructor|reflexivity].
Defined.
