(* ===== verification/Schema.v ===== *)
(** * The record schema: src/myapp/models.py

    Two views of the file.

    - [Layout]: the file as Python reads it.  Its logical lines, with
      their indentation, are transcribed in [models_py]; [blocks] is the
      tokenizer's INDENT/DEDENT algorithm (a stack of indentation
      widths), which gives every statement the chain of classes whose
      body it belongs to; [exec_module] runs the class statements the way
      CPython does (a class body is executed in its own namespace, names
      are looked up in it, then in the module, and the class name is bound
      only when its body has finished).  The theorems show that [Book] is
      nested in [Author], that its only statement is [GENRE_CHOICES], that
      the Book fields land in [Author]'s body, and that importing the
      module raises NameError at line 24.
    - [Fields]: the schema the rest of the repository expects (the
      spec's reading of the file: three top-level models), field by
      field with the Django field types and options the file declares;
      the store ([Store]) enforces what the database enforces of them. *)

From S2P Require Import Prelude.

(** ** The file as Python reads it *)

Module Layout.

(** What a logical line of models.py does, as far as binding names goes. *)
Inductive stmt :=
  | SImport (name : string)                    (** [from django.db import models] *)
  | SClass (name : string) (bases : list string)  (** [class C(bases):] *)
  | SAssign (target : string) (uses : list string) (** [x = e], [e] reading [uses] *)
  | SDef (name : string).                      (** [def f(...):] and its body *)

(** A logical line: its first physical line, indentation width, statement.
    A [def] stands for its header and indented body together. *)
Record line := mkLine { ln_no : nat; ln_indent : nat; ln_stmt : stmt }.

Definition models_py : list line :=
  [ mkLine 3 0 (SImport "models");
    mkLine 5 0 (SClass "Author" ["models"]);
    mkLine 6 4 (SAssign "name" ["models"]);
    mkLine 7 4 (SAssign "birth_date" ["models"]);
    mkLine 8 4 (SAssign "country" ["models"]);
    mkLine 9 4 (SAssign "biography" ["models"]);
    mkLine 11 4 (SDef "__str__");
    mkLine 14 4 (SClass "Book" ["models"]);
    mkLine 15 5 (SAssign "GENRE_CHOICES" []);
    mkLine 23 4 (SAssign "title" ["models"]);
    mkLine 24 4 (SAssign "author" ["models"; "Author"]);
    mkLine 25 4 (SAssign "publication_date" ["models"]);
    mkLine 26 4 (SAssign "genre" ["models"; "GENRE_CHOICES"]);
    mkLine 27 4 (SAssign "isbn" ["models"]);
    mkLine 28 4 (SAssign "pages" ["models"]);
    mkLine 29 4 (SAssign "price" ["models"]);
    mkLine 31 4 (SDef "__str__");
    mkLine 34 0 (SClass "Publisher" ["models"]);
    mkLine 35 4 (SAssign "name" ["models"]);
    mkLine 36 4 (SAssign "address" ["models"]);
    mkLine 37 4 (SAssign "website" ["models"]);
    mkLine 38 4 (SAssign "contact_email" ["models"]);
    mkLine 39 4 (SAssign "books" ["models"; "Book"]);
    mkLine 41 4 (SDef "__str__") ].

Inductive layout_error := UnexpectedIndent (no : nat) | BadDedent (no : nat) | ExpectedBlock (no : nat).

Definition is_header (s : stmt) : option string :=
  match s with SClass c _ => Some c | _ => None end.

Fixpoint pop_deeper (w : nat) (st : list (nat * option string)) : list (nat * option string) :=
  match st with
  | (i, c) :: st' => if w <? i then pop_deeper w st' else st
  | [] => []
  end.

(** The tokenizer's stack: indentation widths with the class whose body
    each opened (None for the module).  A line indented deeper than the
    top opens the body of the class header just before it; a shallower
    line pops until it meets an equal width.  The result gives each line
    its chain of enclosing classes, innermost first. *)
Fixpoint blocks_from (stack : list (nat * option string)) (prev : option string)
         (ls : list line) : layout_error + list (nat * list string) :=
  match ls with
  | [] => inr []
  | l :: ls' =>
      let top := default 0 (head (map fst stack)) in
      let stack' :=
        if top <? ln_indent l then
          match prev with
          | Some c => inr ((ln_indent l, Some c) :: stack)
          | None => inl (UnexpectedIndent (ln_no l))
          end
        else match prev with
          | Some _ => inl (ExpectedBlock (ln_no l))
          | None =>
              let st := pop_deeper (ln_indent l) stack in
              if default 0 (head (map fst st)) =? ln_indent l then inr st
              else inl (BadDedent (ln_no l))
          end in
      match stack' with
      | inl e => inl e
      | inr st =>
          match blocks_from st (is_header (ln_stmt l)) ls' with
          | inl e => inl e
          | inr rest => inr ((ln_no l, omap snd st) :: rest)
          end
      end
  end.

Definition module_blocks : layout_error + list (nat * list string) :=
  blocks_from [(0, None)] None models_py.

(** ** Running the class statements *)

(** An open class body: its name and the names bound in it so far. *)
Record frame := mkFrame { fr_class : string; fr_names : list string }.

Definition bind_name (open : list frame) (module : list string) (x : string)
  : list frame * list string :=
  match open with
  | f :: fs => (mkFrame (fr_class f) (x :: fr_names f) :: fs, module)
  | [] => ([], x :: module)
  end.

(** Finish the innermost class body: bind its name where it was opened. *)
Definition close_one (st : list frame * list string) : list frame * list string :=
  match st.1 with
  | f :: fs => bind_name fs st.2 (fr_class f)
  | [] => st
  end.

Definition close_to (n : nat) (st : list frame * list string) : list frame * list string :=
  Nat.iter (length st.1 - n) close_one st.

(** A class body sees its own names and the module's, not those of an
    enclosing class. *)
Definition visible (open : list frame) (module : list string) (x : string) : bool :=
  bool_decide (x ∈ match open with f :: _ => fr_names f | [] => [] end) || bool_decide (x ∈ module).

Inductive exec_result :=
  | Imported (module : list string)
  | RaisesNameError (no : nat) (name : string)
  | Unparsable (e : layout_error).

Definition first_unbound (open : list frame) (module : list string) (uses : list string) : option string :=
  find (fun x => negb (visible open module x)) uses.

Fixpoint exec_lines (st : list frame * list string) (ls : list (line * list string)) : exec_result :=
  match ls with
  | [] => Imported (close_to 0 st).2
  | (l, chain) :: ls' =>
      let '(open, module) := close_to (length chain) st in
      match ln_stmt l with
      | SImport x => exec_lines (bind_name open module x) ls'
      | SDef f => exec_lines (bind_name open module f) ls'
      | SClass c bases =>
          match first_unbound open module bases with
          | Some x => RaisesNameError (ln_no l) x
          | None => exec_lines (mkFrame c [] :: open, module) ls'
          end
      | SAssign x uses =>
          match first_unbound open module uses with
          | Some y => RaisesNameError (ln_no l) y
          | None => exec_lines (bind_name open module x) ls'
          end
      end
  end.

(** [import myapp.models] *)
Definition exec_module (ls : list line) : exec_result :=
  match blocks_from [(0, None)] None ls with
  | inl e => Unparsable e
  | inr chains => exec_lines ([], []) (zip ls (map snd chains))
  end.

(** The file as the spec reads it: [class Book] at the top level, its
    body (lines 15-31) one level in. *)
Definition models_py_intended : list line :=
  map (fun l => if bool_decide (14 <= ln_no l <= 31)%nat then
                  mkLine (ln_no l) (if bool_decide (ln_no l = 14%nat) then 0 else 4) (ln_stmt l)
                else l) models_py.

(** The chain of classes enclosing the statement that starts on line [n]. *)
Definition chain_of (n : nat) : option (list string) :=
  match module_blocks with
  | inr chains => snd <$> find (fun c => c.1 =? n) chains
  | inl _ => None
  end.

(** C27. How Python nests models.py: [class Book] (line 14) is a
    statement of [Author]'s body, its body is the single statement
    [GENRE_CHOICES] (line 15, indented by 5), and the Book fields of lines
    23-29 and the second [__str__] (line 31), indented by 4 again, belong
    to [Author]. *)
Theorem models_py_nesting :
  chain_of 14 = Some ["Author"] /\ chain_of 15 = Some ["Book"; "Author"] /\
  Forall (fun n => chain_of n = Some ["Author"]) [23; 24; 25; 26; 27; 28; 29; 31]%nat /\
  (forall c, c ∈ (match module_blocks with inr cs => cs | inl _ => [] end) ->
     head c.2 = Some "Book" -> c.1 = 15%nat).
Proof.
  vm_compute. split_and!; try reflexivity.
  - repeat constructor.
  - intros c Hc. repeat (apply elem_of_cons in Hc as [->|Hc]; [try discriminate; done|]).
    by apply elem_of_nil in Hc.
Qed.

(** C16. Importing models.py raises NameError: line 24, executed in the
    body of class [Author], reads the name [Author], which is bound only
    once that body has finished. *)
Theorem models_py_import_fails : exec_module models_py = RaisesNameError 24 "Author".
Proof. vm_compute. reflexivity. Qed.

End Layout.

(** ** The schema the repository expects *)

Module Fields.

Inductive model := MAuthor | MBook | MPublisher.

#[export] Instance model_eq_dec : EqDecision model.
Proof. solve_decision. Defined.

(** Django field classes, with the options the database sees.  URLField
    and EmailField are CharFields of 200 and 254 characters. *)
Inductive ftype :=
  | FChar (max_length : Z)
  | FText
  | FDate
  | FPosInt
  | FDecimal (max_digits decimal_places : Z)
  | FForeignKey (target : model).

Record field := mkField { f_name : string; f_type : ftype; f_unique : bool }.

(** [class Author] (lines 5-9) *)
Definition author_fields : list field :=
  [ mkField "name" (FChar 100) false;
    mkField "birth_date" FDate false;
    mkField "country" (FChar 50) false;
    mkField "biography" FText false ].

(** [GENRE_CHOICES] (lines 15-21): the stored code and its label. *)
Definition genre_choices : list (string * string) :=
  [("FIC", "小说"); ("SCI", "科幻"); ("HIS", "历史"); ("BIO", "传记"); ("EDU", "教育")].

(** The Book fields (lines 23-29) *)
Definition book_fields : list field :=
  [ mkField "title" (FChar 200) false;
    mkField "author" (FForeignKey MAuthor) false;
    mkField "publication_date" FDate false;
    mkField "genre" (FChar 3) false;
    mkField "isbn" (FChar 13) true;
    mkField "pages" FPosInt false;
    mkField "price" (FDecimal 6 2) false ].

(** [class Publisher] (lines 34-38); [books] (line 39) is a
    many-to-many relation, not a column. *)
Definition publisher_fields : list field :=
  [ mkField "name" (FChar 100) false;
    mkField "address" (FChar 200) false;
    mkField "website" (FChar 200) false;
    mkField "contact_email" (FChar 254) false ].

Definition model_fields (m : model) : list field :=
  match m with
  | MAuthor => author_fields
  | MBook => book_fields
  | MPublisher => publisher_fields
  end.

Definition field_names (m : model) : list string := f_name <$> model_fields m.

End Fields.
