(* ===== verification/Admin.v ===== *)
(** * The admin configuration: src/myapp/admin.py

    admin.py registers a [ModelAdmin] for each of the three models, with
    an inline of an author's books.  Three views of the file.

    - [Lexer]: the file as Python's tokenizer reads it.  Its physical
      lines are transcribed in [admin_py]; [lex_line] is the part of the
      tokenizer that decides whether a line is made of Python tokens
      (names, numbers, operators and delimiters, string literals, a
      comment to the end of the line).  Line 1 is a Markdown heading,
      which Python reads as a comment; line 2 is a Markdown fence whose
      backquotes are no Python token, so importing the module is a
      SyntaxError there.
    - [Config]: the configuration lines 3-31 declare, as data: for each
      registered model its [list_display], [search_fields],
      [list_filter], [inlines], [autocomplete_fields], [date_hierarchy]
      and [filter_horizontal]; for the inline its model, [extra],
      [fields] and [readonly_fields].
    - [Checks]: the system checks Django runs on a registered
      [ModelAdmin] (django/contrib/admin/checks.py, a library the file
      only configures), for the options the file uses, against the
      fields the models declare ([Schema.Fields] and the many-to-many
      [Publisher.books] of models.py line 39); [admin_import] composes
      the tokenizer, the import of [.models] ([Schema.Layout]) and the
      registrations. *)

From S2P Require Import Prelude Schema.
Import Fields.

(** ** The file as Python's tokenizer reads it *)

Module Lexer.

(** admin.py, one string per physical line (lines 1-32). *)
Definition admin_py : list string :=
  [ "### 3. Django管理面板配置 (admin.py)";
    "```python";
    "from django.contrib import admin";
    "from .models import Author, Book, Publisher";
    "";
    "class BookInline(admin.TabularInline):";
    "    model = Book";
    "    extra = 0";
    "    fields = ['title', 'publication_date', 'genre', 'price']";
    "    readonly_fields = ['publication_date']";
    "";
    "@admin.register(Author)";
    "class AuthorAdmin(admin.ModelAdmin):";
    "    list_display = ['name', 'country', 'birth_date']";
    "    search_fields = ['name', 'country']";
    "    list_filter = ['country']";
    "    inlines = [BookInline]";
    "";
    "@admin.register(Book)";
    "class BookAdmin(admin.ModelAdmin):";
    "    list_display = ['title', 'author', 'genre', 'publication_date', 'price']";
    "    list_filter = ['genre', 'publication_date']";
    "    search_fields = ['title', 'isbn']";
    "    autocomplete_fields = ['author']";
    "    date_hierarchy = 'publication_date'";
    "";
    "@admin.register(Publisher)";
    "class PublisherAdmin(admin.ModelAdmin):";
    "    list_display = ['name', 'contact_email', 'website']";
    "    filter_horizontal = ['books']";
    "    search_fields = ['name', 'contact_email']";
    "```" ].

Definition dquote : ascii := ascii_of_nat 34.
Definition squote : ascii := ascii_of_nat 39.

(** A character that starts or continues a token outside strings: ASCII
    letters, digits and [_], white space, the operator and delimiter
    characters, and any non-ASCII byte (identifiers may be Unicode).
    [`], [$] and [?] are not Python 3 tokens. *)
Definition token_char (c : ascii) : bool :=
  let n := nat_of_ascii c in
  (48 <=? n) && (n <=? 57) || (65 <=? n) && (n <=? 90) || (97 <=? n) && (n <=? 122) || (128 <=? n) ||
  bool_decide (c ∈ String.list_ascii_of_string " _()[]{}@=.,:;+-*/%&|^~<>!").

(** The tokens of one line: [q] is the quote of the string literal being
    read, if any; a backslash in a string escapes the next character;
    [#] outside a string starts a comment.  A string must end on its
    line (admin.py has no triple-quoted string). *)
Fixpoint lex_chars (q : option ascii) (cs : list ascii) : bool :=
  match cs, q with
  | [], None => true
  | [], Some _ => false
  | c :: cs', Some q' =>
      if bool_decide (c = "\"%char) then (match cs' with _ :: cs'' => lex_chars q cs'' | [] => false end)
      else if bool_decide (c = q') then lex_chars None cs' else lex_chars q cs'
  | c :: cs', None =>
      if bool_decide (c = "#"%char) then true
      else if bool_decide (c = squote \/ c = dquote) then lex_chars (Some c) cs'
      else token_char c && lex_chars None cs'
  end.

Definition lex_line (s : string) : bool := lex_chars None (String.list_ascii_of_string s).

(** The number of the first line the tokenizer rejects, counting from [n]. *)
Fixpoint first_bad_line (n : nat) (ls : list string) : option nat :=
  match ls with
  | [] => None
  | l :: ls' => if lex_line l then first_bad_line (S n) ls' else Some n
  end.

End Lexer.

(** ** The configuration the file declares *)

Module Config.

(** [class ...(admin.TabularInline)]: the model shown inline, [extra],
    [fields] and [readonly_fields]. *)
Record inline := mkInline { in_model : model; in_extra : Z; in_fields : list string; in_readonly : list string }.

(** [class ...(admin.ModelAdmin)]: the options admin.py sets; an option
    it leaves out has Django's default (empty, or None for
    [date_hierarchy]). *)
Record model_admin := mkAdmin {
  ad_list_display : list string; ad_search_fields : list string; ad_list_filter : list string;
  ad_inlines : list inline; ad_autocomplete : list string; ad_date_hierarchy : option string;
  ad_filter_horizontal : list string }.

(** [class BookInline] (lines 6-10) *)
Definition book_inline : inline :=
  mkInline MBook 0 ["title"; "publication_date"; "genre"; "price"] ["publication_date"].

(** [class AuthorAdmin] (lines 12-17) *)
Definition author_admin : model_admin :=
  mkAdmin ["name"; "country"; "birth_date"] ["name"; "country"] ["country"] [book_inline] [] None [].

(** [class BookAdmin] (lines 19-25) *)
Definition book_admin : model_admin :=
  mkAdmin ["title"; "author"; "genre"; "publication_date"; "price"] ["title"; "isbn"] ["genre"; "publication_date"]
          [] ["author"] (Some "publication_date") [].

(** [class PublisherAdmin] (lines 27-31) *)
Definition publisher_admin : model_admin :=
  mkAdmin ["name"; "contact_email"; "website"] ["name"; "contact_email"] [] [] [] None ["books"].

(** The [@admin.register(...)] decorators of lines 12, 19 and 27, in
    the order the module runs them. *)
Definition registrations : list (model * model_admin) :=
  [(MAuthor, author_admin); (MBook, book_admin); (MPublisher, publisher_admin)].

End Config.

(** ** Django's admin system checks *)

Module Checks.
Import Config.

(** What a name of a model resolves to: a column of [model_fields], or
    the many-to-many [books] of [Publisher] (models.py line 39), which
    is no column. *)
Inductive fkind := KColumn (t : ftype) | KM2M (target : model).

Definition m2m_fields (m : model) : list (string * model) :=
  match m with MPublisher => [("books", MBook)] | _ => [] end.

Definition get_field (m : model) (x : string) : option fkind :=
  match find (fun f => String.eqb (f_name f) x) (model_fields m) with
  | Some f => Some (KColumn (f_type f))
  | None => (fun p => KM2M p.2) <$> find (fun p => String.eqb p.1 x) (m2m_fields m)
  end.

(** The check identifiers of django/contrib/admin/checks.py, with the
    option value they name; [ESearch] is the FieldError a search on an
    unknown field raises when the change list is searched, and
    [EInlineField] the FieldError of an inline form over an unknown
    field. *)
Inductive check_error :=
  | E108 (x : string) | E109 (x : string) | E116 (x : string)
  | E019 (x : string) | E020 (x : string)
  | E037 (x : string) | E038 (x : string) | E039 (x : string) | E040 (x : string)
  | E127 (x : string) | E128 (x : string)
  | E035 (x : string) | E202 (m : model)
  | ESearch (x : string) | EInlineField (x : string).

Definition is_fk (k : option fkind) : option model :=
  match k with Some (KColumn (FForeignKey t)) => Some t | Some (KM2M t) => Some t | _ => None end.

(** [list_display]: a field, not a many-to-many one. *)
Definition check_list_display (m : model) (x : string) : list check_error :=
  match get_field m x with None => [E108 x] | Some (KM2M _) => [E109 x] | Some _ => [] end.

Definition check_list_filter (m : model) (x : string) : list check_error :=
  match get_field m x with None => [E116 x] | Some _ => [] end.

Definition check_filter_horizontal (m : model) (x : string) : list check_error :=
  match get_field m x with None => [E019 x] | Some (KM2M _) => [] | Some _ => [E020 x] end.

(** [autocomplete_fields]: a foreign key or many-to-many field whose
    model is registered with an admin that has [search_fields]. *)
Definition check_autocomplete (reg : list (model * model_admin)) (m : model) (x : string) : list check_error :=
  match get_field m x with
  | None => [E037 x]
  | k => match is_fk k with
         | None => [E038 x]
         | Some t => match snd <$> find (fun p => bool_decide (p.1 = t)) reg with
                     | None => [E039 x]
                     | Some a => if bool_decide (ad_search_fields a = []) then [E040 x] else []
                     end
         end
  end.

Definition check_date_hierarchy (m : model) (x : string) : list check_error :=
  match get_field m x with None => [E127 x] | Some (KColumn FDate) => [] | Some _ => [E128 x] end.

Definition check_search (m : model) (x : string) : list check_error :=
  match get_field m x with None => [ESearch x] | Some _ => [] end.

(** An inline needs a foreign key to the model of its parent admin, and
    its [fields] and [readonly_fields] must be fields of its model. *)
Definition check_inline (parent : model) (i : inline) : list check_error :=
  (if existsb (fun f => match f_type f with FForeignKey t => bool_decide (t = parent) | _ => false end)
               (model_fields (in_model i)) then []
   else [E202 (in_model i)]) ++
  concat ((fun x => match get_field (in_model i) x with None => [EInlineField x] | Some _ => [] end) <$> in_fields i) ++
  concat ((fun x => match get_field (in_model i) x with None => [E035 x] | Some _ => [] end) <$> in_readonly i).

Definition check_admin (reg : list (model * model_admin)) (m : model) (a : model_admin) : list check_error :=
  concat (check_list_display m <$> ad_list_display a) ++ concat (check_list_filter m <$> ad_list_filter a) ++
  concat (check_search m <$> ad_search_fields a) ++ concat (check_autocomplete reg m <$> ad_autocomplete a) ++
  concat (check_filter_horizontal m <$> ad_filter_horizontal a) ++
  from_option (check_date_hierarchy m) [] (ad_date_hierarchy a) ++
  concat (check_inline m <$> ad_inlines a).

(** [manage.py check] over the registry. *)
Definition check_registry (reg : list (model * model_admin)) : list (model * check_error) :=
  concat ((fun p => pair p.1 <$> check_admin reg p.1 p.2) <$> reg).

End Checks.

(** ** Importing the module *)

Import Config Checks.

(** What [import myapp.admin] ends with. *)
Inductive admin_result :=
  | ASyntaxError (line : nat)                    (** the tokenizer rejects the line *)
  | AModelsError (r : Layout.exec_result)        (** [from .models import ...] (line 4) fails *)
  | AAlreadyRegistered (m : model)               (** [admin.register] of a model twice *)
  | ARegistered (reg : list (model * model_admin)).

(** The [@admin.register(M)] decorators in order: Django's registry
    refuses a model registered twice. *)
Fixpoint register (reg : list (model * model_admin)) (rs : list (model * model_admin)) : admin_result :=
  match rs with
  | [] => ARegistered reg
  | (m, a) :: rs' => if existsb (fun p => bool_decide (p.1 = m)) reg then AAlreadyRegistered m else register (reg ++ [(m, a)]) rs'
  end.

(** The module's source is tokenized first; line 4 then imports
    models.py, which must bind the three model classes; then the
    decorated classes register. *)
Definition admin_import (src : list string) (models : list Layout.line) (rs : list (model * model_admin)) : admin_result :=
  match Lexer.first_bad_line 1 src with
  | Some n => ASyntaxError n
  | None =>
      match Layout.exec_module models with
      | Layout.Imported names =>
          if forallb (fun x => bool_decide (x ∈ names)) ["Author"; "Book"; "Publisher"] then register [] rs
          else AModelsError (Layout.Imported names)
      | r => AModelsError r
      end
  end.

(** C17. Importing admin.py, and what each fix would change: as written,
    the tokenizer rejects line 2, the Markdown fence; without the fences
    (lines 3-31 alone) line 4 imports models.py, whose nesting of [Book]
    in [Author] raises NameError at its line 24; with models.py laid out
    as intended as well, the three admins register, and [manage.py
    check] finds nothing: every option names a field of its model of the
    kind Django requires (no many-to-many column in [list_display], a
    DateField for [date_hierarchy], a many-to-many field for
    [filter_horizontal], a foreign key to a model registered with
    [search_fields] for [autocomplete_fields], an inline model with a
    foreign key to [Author]). *)
Theorem admin_import_outcomes :
  admin_import Lexer.admin_py Layout.models_py registrations = ASyntaxError 2 /\
  admin_import (take 29 (drop 2 Lexer.admin_py)) Layout.models_py registrations
    = AModelsError (Layout.RaisesNameError 24 "Author") /\
  admin_import (take 29 (drop 2 Lexer.admin_py)) Layout.models_py_intended registrations = ARegistered registrations /\
  check_registry registrations = [].
Proof. vm_compute. split_and!; reflexivity. Qed.
