(* ===== verification/Random.v ===== *)
(** * Python's [random] module over an injectable source

    The script draws with [random.choice] (a genre, a book's author),
    [random.randint] (page counts), [random.uniform] (prices) and
    [random.sample] (each publisher's books).  These are library
    functions; what they do is fixed by CPython 3.11's Lib/random.py,
    which this file follows statement by statement.  The generator
    underneath (Mersenne Twister) is abstracted as the class
    [RandomSource]: a state [R], [_randbelow(n)] and [random()] (a
    53-bit integer [k], the float being [k * 2^-53]), with the ranges
    they promise.  Every theorem is proved for every source, so it holds
    for every seed.

    [random.sample] has two algorithms.  For a population no larger than
    [setsize] it permutes a copy of the population ([pool_loop]); this
    always ends.  Otherwise it redraws indices until it hits one not yet
    selected ([set_loop]); that [while] loop ends only with probability
    one, so the model gives it [fuel] redraws per element and reports
    [OutOfFuel] when they are spent. *)

From S2P Require Import Prelude PyValue PyNum.

Local Open Scope Z_scope.

(** ** The source *)

Class RandomSource (R : Type) := {
  randbelow : Z -> R -> Z * R;
  random53 : R -> Z * R;
  randbelow_range n r : 0 < n -> 0 <= (randbelow n r).1 < n;
  random53_range r : 0 <= (random53 r).1 < 2 ^ 53
}.

(** ** Python sequences *)

(** [seq[i]], negative indices counting from the end. *)
Definition py_index {A} (l : list A) (i : Z) : exn + A :=
  let i' := if i <? 0 then i + Z.of_nat (length l) else i in
  if 0 <=? i' then match l !! Z.to_nat i' with Some x => inr x | None => inl IndexError end
  else inl IndexError.

(** [seq[i] = x] on a list. *)
Definition py_list_set {A} (l : list A) (i : Z) (x : A) : exn + list A :=
  let i' := if i <? 0 then i + Z.of_nat (length l) else i in
  if (0 <=? i') && (i' <? Z.of_nat (length l)) then inr (<[Z.to_nat i' := x]> l)
  else inl IndexError.

Section Module.
Context `{RandomSource R}.

Definition rand_below (n : Z) : PM exn R Z := fun r => let '(j, r') := randbelow n r in (inr j, r').

Definition rand_random : PM exn R Z := fun r => let '(k, r') := random53 r in (inr k, r').

(** [random.choice(seq)] *)
Definition choice {A} (seq : list A) : PM exn R A :=
  if bool_decide (seq = []) then pm_raise IndexError
  else j <- rand_below (Z.of_nat (length seq)) ;; pm_lift (py_index seq j).

(** [random.randrange(start, stop)] *)
Definition randrange (start stop : Z) : PM exn R Z :=
  let width := stop - start in
  if 0 <? width then j <- rand_below width ;; pm_ret (start + j)
  else pm_raise ValueError.

(** [random.randint(a, b)] *)
Definition randint (a b : Z) : PM exn R Z := randrange a (b + 1).

(** [random.uniform(a, b)], i.e. [a + (b - a) * random()], for finite
    [a = ma * 10^ea] and [b = mb * 10^eb] with [ea, eb <= 0]: the exact
    value, as the decimal [m * 10^e] with [e = min ea eb - 53]
    ([2^-53 = 5^53 * 10^-53]). *)
Definition uniform_dec (ma ea mb eb : Z) : PM exn R (Z * Z) :=
  k <- rand_random ;;
  let e := Z.min ea eb in
  let a := ma * 10 ^ (ea - e) in
  let b := mb * 10 ^ (eb - e) in
  pm_ret (a * 10 ^ 53 + (b - a) * k * 5 ^ 53, e - 53).

(** ** [random.sample(population, k)] *)

(** [setsize = 21], plus [4 ** ceil(log(3k, 4))] when [k > 5]; as [3k]
    is never a power of 4, the ceiling is [ceil(ceil(log2(3k)) / 2)]. *)
Definition setsize (k : Z) : Z :=
  21 + (if 5 <? k then 4 ^ ((Z.log2_up (3 * k) + 1) / 2) else 0).

(** [for i in range(k): j = randbelow(n - i); result[i] = pool[j];
    pool[j] = pool[n - i - 1]], [todo] iterations left at [i]. *)
Fixpoint pool_loop {A} (n i : Z) (todo : nat) (pool : list A) : PM exn R (list A) :=
  match todo with
  | O => pm_ret []
  | S t =>
      j <- rand_below (n - i) ;;
      x <- pm_lift (py_index pool j) ;;
      y <- pm_lift (py_index pool (n - i - 1)) ;;
      pool' <- pm_lift (py_list_set pool j y) ;;
      rest <- pool_loop n (i + 1) t pool' ;;
      pm_ret (x :: rest)
  end.

(** [while j in selected: j = randbelow(n)], at most [fuel] redraws. *)
Fixpoint redraw (fuel : nat) (n : Z) (selected : gset Z) (j : Z) : PM exn R Z :=
  if bool_decide (j ∈ selected) then
    match fuel with
    | O => pm_raise OutOfFuel
    | S f => j' <- rand_below n ;; redraw f n selected j'
    end
  else pm_ret j.

(** [for i in range(k): j = randbelow(n); while ...; selected_add(j);
    result[i] = population[j]] *)
Fixpoint set_loop {A} (fuel : nat) (population : list A) (n : Z) (todo : nat)
         (selected : gset Z) : PM exn R (list A) :=
  match todo with
  | O => pm_ret []
  | S t =>
      j0 <- rand_below n ;;
      j <- redraw fuel n selected j0 ;;
      x <- pm_lift (py_index population j) ;;
      rest <- set_loop fuel population n t ({[j]} ∪ selected) ;;
      pm_ret (x :: rest)
  end.

Definition sample {A} (fuel : nat) (population : list A) (k : Z) : PM exn R (list A) :=
  let n := Z.of_nat (length population) in
  if negb ((0 <=? k) && (k <=? n)) then pm_raise ValueError
  else if n <=? setsize k then pool_loop n 0 (Z.to_nat k) population
  else set_loop fuel population n (Z.to_nat k) ∅.

End Module.

(** ** Running the draws *)

Section Runs.
Context `{RandomSource R}.

Lemma rand_below_run n r : rand_below n r = (inr (randbelow n r).1, (randbelow n r).2).
Proof. unfold rand_below. by destruct (randbelow n r). Qed.

Lemma rand_random_run r : rand_random r = (inr (random53 r).1, (random53 r).2).
Proof. unfold rand_random. by destruct (random53 r). Qed.

Lemma pm_lift_run {A} (x : exn + A) (r : R) : pm_lift x r = (x, r).
Proof. done. Qed.
End Runs.

#[export] Hint Rewrite @rand_below_run @rand_random_run @pm_lift_run : pm_rw.

Lemma py_index_in {A} (l : list A) i x :
  0 <= i -> l !! Z.to_nat i = Some x -> py_index l i = inr x.
Proof.
  intros Hi Hx. unfold py_index. rewrite (proj2 (Z.ltb_ge _ _) Hi), (proj2 (Z.leb_le _ _) Hi). by rewrite Hx.
Qed.

Lemma py_list_set_in {A} (l : list A) i x :
  0 <= i < Z.of_nat (length l) -> py_list_set l i x = inr (<[Z.to_nat i := x]> l).
Proof.
  intros Hi. unfold py_list_set. rewrite (proj2 (Z.ltb_ge _ _) (proj1 Hi)).
  by rewrite (proj2 (Z.leb_le _ _) (proj1 Hi)), (proj2 (Z.ltb_lt _ _) (proj2 Hi)).
Qed.

(** An in-range index of a list names an element. *)
Lemma lookup_in_range {A} (l : list A) i : 0 <= i < Z.of_nat (length l) -> exists x, l !! Z.to_nat i = Some x.
Proof. intros Hi. apply lookup_lt_is_Some_2. lia. Qed.

(** The pool step: the first [m] entries of [l] are, up to order, the
    entry [x] drawn at [j] and the first [m - 1] entries once the last of
    them has been moved into [j]. *)
Lemma take_swap_perm {A} (l : list A) m j x y :
  (j < m <= length l)%nat -> l !! j = Some x -> l !! (m - 1)%nat = Some y ->
  take m l ≡ₚ x :: take (m - 1) (<[j := y]> l).
Proof.
  intros Hj Hx Hy. replace m with (S (m - 1)) at 1 by lia. rewrite (take_S_r _ _ y Hy).
  destruct (decide (j = m - 1)%nat) as [->|Hne].
  - rewrite Hx in Hy. injection Hy as ->. rewrite list_insert_id by done. solve_Permutation.
  - rewrite take_insert_lt by lia.
    assert (take (m - 1) l !! j = Some x) as Hx' by (rewrite lookup_take_lt by lia; done).
    rewrite <-(take_drop_middle (take (m - 1) l) j x Hx') at 1.
    rewrite insert_take_drop by (rewrite length_take; lia). solve_Permutation.
Qed.

Lemma submseteq_NoDup {A} (l1 l2 : list A) : l1 ⊆+ l2 -> NoDup l2 -> NoDup l1.
Proof.
  intros [k Hk]%submseteq_Permutation Hnd. rewrite Hk in Hnd. by apply NoDup_app in Hnd as [? _].
Qed.

(** Distinct positions of a list pick a sub-multiset of it. *)
Lemma positions_submseteq {A} (pop xs : list A) (idx : list nat) :
  NoDup idx -> Forall2 (fun i x => pop !! i = Some x) idx xs -> xs ⊆+ pop.
Proof.
  intros Hnd Hf. destruct pop as [|x0 pop'].
  { destruct Hf as [|i x ? ? Hi]; [done|]. by rewrite lookup_nil in Hi. }
  set (pop := x0 :: pop') in *. pose proof (populate x0) as Hinh.
  assert (xs = (pop !!!.) <$> idx) as ->.
  { clear Hnd. induction Hf as [|i x idx' xs' Hi _ IH]; [done|]. simpl. f_equal; [|done].
    by rewrite list_lookup_total_alt, Hi. }
  assert (idx ⊆+ seq 0 (length pop)) as Hsub.
  { apply NoDup_submseteq; [done|]. intros i Hi. apply elem_of_seq. split; [lia|].
    apply list_elem_of_lookup in Hi as [p Hp]. destruct (Forall2_lookup_l _ _ _ _ _ Hf Hp) as (x & _ & Hx).
    apply lookup_lt_Some in Hx. lia. }
  etrans; [apply (fmap_submseteq _ _ _ Hsub)|]. apply reflexive_eq, list_eq. intros i.
  rewrite list_lookup_fmap. destruct (decide (i < length pop)%nat).
  - destruct (lookup_lt_is_Some_2 pop i) as [y Hy]; [done|].
    rewrite lookup_seq_lt by done. simpl. by rewrite list_lookup_total_alt, Hy.
  - rewrite lookup_seq_ge, lookup_ge_None_2 by lia. done.
Qed.

Lemma pm_lift_inr {E S A} (x : E + A) a (s : S) : x = inr a -> pm_lift x s = (inr a, s).
Proof. by intros ->. Qed.

Section Sample.
Context `{RandomSource R}.

(** A draw below [n > 0], named with its range. *)
Lemma rand_below_draw n r :
  0 < n -> exists j r', rand_below n r = (inr j, r') /\ 0 <= j < n.
Proof.
  intros Hn. pose proof (randbelow_range n r Hn) as Hj. unfold rand_below.
  destruct (randbelow n r) as [j r']. eauto.
Qed.

(** The pool loop never fails: each step draws [j] below [n - i], both
    indices it reads are in range, and it returns [todo] entries taken
    without replacement from the [n - i] entries not yet selected. *)
Lemma pool_loop_ok {A} (n : Z) todo : forall i (pool : list A) r,
  0 <= i -> Z.of_nat (length pool) = n -> Z.of_nat todo <= n - i ->
  exists xs r', pool_loop n i todo pool r = (inr xs, r') /\ length xs = todo /\
                xs ⊆+ take (Z.to_nat (n - i)) pool.
Proof.
  induction todo as [|t IH]; intros i pool r Hi Hlen Ht.
  { exists [], r. split_and!; [done|done|apply submseteq_nil_l]. }
  destruct (rand_below_draw (n - i) r) as (j & r1 & Hr & Hj); [lia|].
  destruct (lookup_in_range pool j) as [x Hx]; [lia|].
  destruct (lookup_in_range pool (n - i - 1)) as [y Hy]; [lia|].
  set (pool' := <[Z.to_nat j := y]> pool).
  destruct (IH (i + 1) pool' r1) as (xs & r' & Hrun & Hl & Hsub); [lia|unfold pool'; by rewrite length_insert|lia|].
  exists (x :: xs), r'. simpl. pm_run Hr.
  pm_run (pm_lift_inr _ _ r1 (py_index_in _ _ _ (proj1 Hj) Hx)).
  pm_run (pm_lift_inr _ _ r1 (py_index_in pool (n - i - 1) y ltac:(lia) Hy)).
  pm_run (pm_lift_inr _ _ r1 (py_list_set_in pool j y ltac:(lia))).
  pm_run Hrun. split_and!; [done|simpl; lia|].
  rewrite (take_swap_perm pool (Z.to_nat (n - i)) (Z.to_nat j) x y); [|lia|done|].
  - replace (Z.to_nat (n - i) - 1)%nat with (Z.to_nat (n - (i + 1))) by lia. by apply submseteq_skip.
  - by replace (Z.to_nat (n - i) - 1)%nat with (Z.to_nat (n - i - 1)) by lia.
Qed.

(** The redraw loop returns an index in range that was not selected,
    or runs out of fuel. *)
Lemma redraw_ok fuel n selected : forall j r,
  0 < n -> 0 <= j < n ->
  (exists j' r', redraw fuel n selected j r = (inr j', r') /\ (j' ∉ selected) /\ 0 <= j' < n) \/
  (exists r', redraw fuel n selected j r = (inl OutOfFuel, r')).
Proof.
  induction fuel as [|f IH]; intros j r Hn Hj; cbn [redraw]; case_bool_decide;
    try by (left; exists j, r).
  - right. eauto.
  - destruct (rand_below_draw n r) as (j1 & r1 & Hr & Hj1); [done|].
    destruct (IH j1 r1 Hn Hj1) as [(j' & r' & Hrun & Hs)|(r' & Hrun)];
      [left; exists j', r'|right; exists r']; by pm_run Hr.
Qed.

(** The set loop returns entries at distinct positions, none of them
    already selected, or runs out of fuel. *)
Lemma set_loop_ok {A} fuel (population : list A) todo : forall selected r,
  Z.of_nat (length population) > 0 ->
  (exists xs r' idx, set_loop fuel population (Z.of_nat (length population)) todo selected r = (inr xs, r') /\
     length xs = todo /\ NoDup idx /\ Forall (fun i => Z.of_nat i ∉ selected) idx /\
     Forall2 (fun i x => population !! i = Some x) idx xs) \/
  (exists r', set_loop fuel population (Z.of_nat (length population)) todo selected r = (inl OutOfFuel, r')).
Proof.
  set (n := Z.of_nat (length population)).
  induction todo as [|t IH]; intros sel r Hn; simpl.
  { left. exists [], r, []. split_and!; by constructor. }
  destruct (rand_below_draw n r) as (j0 & r0 & Hr & Hj0); [lia|]. pm_run Hr.
  destruct (redraw_ok fuel n sel j0 r0) as [(j & r1 & Hd & Hsel & Hj)|(r1 & Hd)]; [lia|lia| |by right; pm_run Hd; eauto].
  pm_run Hd. destruct (lookup_in_range population j) as [x Hx]; [done|].
  pm_run (pm_lift_inr _ _ r1 (py_index_in _ _ _ (proj1 Hj) Hx)).
  destruct (IH ({[j]} ∪ sel) r1 Hn) as [(xs & r' & idx & Hrun & Hl & Hnd & Hfr & Hf)|(r' & Hrun)];
    pm_run Hrun; [left|by right; eauto].
  exists (x :: xs), r', (Z.to_nat j :: idx). split_and!; [done|simpl; lia| | |by constructor].
  - constructor; [|done]. intros Hin. eapply Forall_forall in Hfr; [|exact Hin]. apply Hfr. set_solver by lia.
  - constructor; [by rewrite Z2Nat.id by lia|]. eapply Forall_impl; [exact Hfr|]. set_solver.
Qed.
End Sample.

Lemma setsize_ge k : 21 <= setsize k.
Proof. unfold setsize. case_match; [|lia]. pose proof (Z.pow_nonneg 4 ((Z.log2_up (3 * k) + 1) / 2)). lia. Qed.

Lemma pow10_53 : 10 ^ 53 = 2 ^ 53 * 5 ^ 53.
Proof. vm_compute. reflexivity. Qed.

(** [a <= a + (b - a) k c <= b] at scale [d c], for [0 <= k < d]. *)
Lemma scaled_between a b k c d :
  a <= b -> 0 <= k < d -> 0 < c -> a * (d * c) <= a * (d * c) + (b - a) * k * c <= b * (d * c).
Proof.
  intros Hab Hk Hc.
  assert (0 <= (b - a) * k * c) by (repeat apply Z.mul_nonneg_nonneg; lia).
  assert (0 <= (b - a) * (d - k) * c) by (repeat apply Z.mul_nonneg_nonneg; lia).
  nia.
Qed.

Lemma scaled_between_53 a b k :
  a <= b -> 0 <= k < 2 ^ 53 -> a * 10 ^ 53 <= a * 10 ^ 53 + (b - a) * k * 5 ^ 53 <= b * 10 ^ 53.
Proof.
  intros Hab Hk. rewrite pow10_53. apply scaled_between; [done|done|]. apply Z.pow_pos_nonneg; lia.
Qed.

Section Contracts.
Context `{RandomSource R}.

(** [random.sample(population, k)] with [0 <= k <= len(population)]
    returns [k] entries drawn without replacement (a sub-multiset of the
    population); only the set algorithm, used when the population is
    larger than [setsize k], can exhaust the fuel of its redraws. *)
Lemma sample_ok {A} fuel (population : list A) k r :
  0 <= k <= Z.of_nat (length population) ->
  (exists xs r', sample fuel population k r = (inr xs, r') /\
                 length xs = Z.to_nat k /\ xs ⊆+ population) \/
  (Z.of_nat (length population) > setsize k /\
   exists r', sample fuel population k r = (inl OutOfFuel, r')).
Proof.
  intros Hk. unfold sample. rewrite (proj2 (Z.leb_le _ _) (proj1 Hk)), (proj2 (Z.leb_le _ _) (proj2 Hk)). simpl.
  destruct (Z.leb_spec (Z.of_nat (length population)) (setsize k)).
  - left. destruct (pool_loop_ok (Z.of_nat (length population)) (Z.to_nat k) 0 population r)
      as (xs & r' & Hrun & Hl & Hsub); [lia|done|lia|].
    exists xs, r'. split_and!; [done|done|]. by rewrite Z.sub_0_r, Nat2Z.id, take_ge in Hsub.
  - destruct (set_loop_ok fuel population (Z.to_nat k) ∅ r)
      as [(xs & r' & idx & Hrun & Hl & Hnd & _ & Hf)|(r' & Hrun)].
    + pose proof (setsize_ge k). lia.
    + left. exists xs, r'. split_and!; [done|done|]. by eapply positions_submseteq.
    + right. split; [lia|eauto].
Qed.

(** Whatever the population and [k], a list [sample] returns has [k]
    entries. *)
Lemma sample_inr_length {A} fuel (population : list A) k r xs r' :
  sample fuel population k r = (inr xs, r') -> length xs = Z.to_nat k.
Proof.
  intros Hs. destruct (decide (0 <= k <= Z.of_nat (length population))) as [Hk|Hk].
  - destruct (sample_ok fuel population k r Hk) as [(xs' & r'' & Hs' & Hl & _)|(_ & r'' & Hs')];
      rewrite Hs in Hs'; congruence.
  - unfold sample in Hs.
    destruct (Z.leb_spec 0 k), (Z.leb_spec k (Z.of_nat (length population))); simpl in Hs; done || lia.
Qed.

(** [random.choice(seq)] returns an element of a non-empty sequence and
    raises IndexError on an empty one. *)
Lemma choice_ok {A} (seq : list A) r :
  (seq <> [] -> exists x r', choice seq r = (inr x, r') /\ x ∈ seq) /\
  (seq = [] -> choice seq r = (inl IndexError, r)).
Proof.
  unfold choice. split; intros Hs; case_bool_decide; try done.
  destruct (rand_below_draw (Z.of_nat (length seq)) r) as (j & r' & Hr & Hj).
  { destruct seq; [done|simpl; lia]. }
  destruct (lookup_in_range seq j) as [x Hx]; [lia|].
  exists x, r'. pm_run Hr. split; [|by eapply list_elem_of_lookup_2].
  by rewrite (pm_lift_inr _ _ _ (py_index_in _ _ _ (proj1 Hj) Hx)).
Qed.

(** [random.randint(a, b)] with [a <= b] returns a value in [[a, b]]. *)
Lemma randint_ok a b r :
  a <= b -> exists z r', randint a b r = (inr z, r') /\ a <= z <= b.
Proof.
  intros Hab. unfold randint, randrange. rewrite (proj2 (Z.ltb_lt _ _)) by lia.
  destruct (rand_below_draw (b + 1 - a) r) as (j & r' & Hr & Hj); [lia|].
  exists (a + j), r'. pm_run Hr. split; [done|lia].
Qed.

(** [random.uniform(a, b)] with [a <= b] returns [a + (b - a) k 2^-53]
    with [0 <= k < 2^53], a value in [[a, b)]. *)
Lemma uniform_dec_ok ma ea mb eb r :
  ma * 10 ^ (ea - Z.min ea eb) <= mb * 10 ^ (eb - Z.min ea eb) ->
  exists m r', uniform_dec ma ea mb eb r = (inr (m, Z.min ea eb - 53), r') /\
    ma * 10 ^ (ea - Z.min ea eb) * 10 ^ 53 <= m <= mb * 10 ^ (eb - Z.min ea eb) * 10 ^ 53.
Proof.
  intros Hab. unfold uniform_dec. pose proof (random53_range r) as Hk.
  rewrite (pm_bind_inr _ _ _ _ _ (rand_random_run r)).
  eexists _, _. split; [reflexivity|]. exact (scaled_between_53 _ _ _ Hab Hk).
Qed.
End Contracts.

(** ** A concrete source *)

(** A 64-bit linear congruential generator (Knuth's MMIX constants);
    the draws are the high 53 bits of the state. *)
Definition lcg_next (s : Z) : Z := (s * 6364136223846793005 + 1442695040888963407) mod 2 ^ 64.

Definition lcg_randbelow (n s : Z) : Z * Z := (Z.shiftr (lcg_next s) 11 mod n, lcg_next s).
Definition lcg_random53 (s : Z) : Z * Z := (Z.shiftr (lcg_next s) 11, lcg_next s).

Lemma lcg_randbelow_range n s : 0 < n -> 0 <= (lcg_randbelow n s).1 < n.
Proof. intros Hn. apply Z.mod_pos_bound. lia. Qed.

Lemma lcg_random53_range s : 0 <= (lcg_random53 s).1 < 2 ^ 53.
Proof.
  unfold lcg_random53, lcg_next. cbn [fst]. rewrite Z.shiftr_div_pow2 by lia.
  set (x := (s * 6364136223846793005 + 1442695040888963407) mod 2 ^ 64).
  assert (0 <= x < 2 ^ 64) by (apply Z.mod_pos_bound; lia).
  split; [apply Z.div_pos; lia|]. apply Z.div_lt_upper_bound; [lia|]. assert (2 ^ 11 * 2 ^ 53 = 2 ^ 64) as -> by (vm_compute; reflexivity). lia.
Qed.

#[export] Instance lcg_source : RandomSource Z :=
  { randbelow := lcg_randbelow; random53 := lcg_random53;
    randbelow_range := lcg_randbelow_range; random53_range := lcg_random53_range }.
