(* ===== verification/Store.v ===== *)
(** * The database behind the Django ORM, as the script uses it

    The ORM is a library the script only calls, so this file models its
    observable behaviour on the three models of [Schema.Fields]:
    constructing an instance ([Author( **data)]), [bulk_create],
    [objects.all()], [objects.create( **data)], the many-to-many
    [publisher.books.set(...)] and following a foreign key.  A table maps
    primary keys to rows; keys are handed out by an auto-increment counter;
    the many-to-many relation is a set of (publisher, book) key pairs.
    A row holds what [get_db_prep_save] makes of each field value
    ([prep_value]): dates are parsed, page counts go through [int()], a
    price becomes a Decimal rounded to 6 significant digits and then to 2
    places (Django 4.2's [format_number]), a foreign key becomes the
    referenced instance's key.  The database rejects NULLs, negative page
    counts, duplicate ISBNs and dangling keys with IntegrityError, and a
    [bulk_create] inserts all its rows or none.  Char values are stored as
    given (Django converts non-str values with [str()]; lengths are not
    checked, as on SQLite).  Rows come back in key order (SQL leaves the
    order of an unordered query unspecified).  The invariant [db_ok]
    (every book's author and every related pair refer to existing rows,
    ISBNs are unique, keys are below the counters) is preserved by every
    operation, and so is [db_typed] (every stored row has the columns of
    its model, each of the type [get_db_prep_save] produces). *)

From S2P Require Import Prelude PyValue PyNum Schema.
Import Fields.

Local Open Scope Z_scope.

(** ** Tables *)

Definition row := list (string * val).

Record table := mkTable { t_rows : gmap Z row; t_next : Z }.

Record db := mkDb {
  db_authors : table;
  db_books : table;
  db_publishers : table;
  db_pub_books : gset (Z * Z)
}.

Definition empty_table : table := mkTable ∅ 1.
Definition empty_db : db := mkDb empty_table empty_table empty_table ∅.

Definition db_table (d : db) (m : model) : table :=
  match m with MAuthor => db_authors d | MBook => db_books d | MPublisher => db_publishers d end.

Definition set_table (d : db) (m : model) (t : table) : db :=
  match m with
  | MAuthor => mkDb t (db_books d) (db_publishers d) (db_pub_books d)
  | MBook => mkDb (db_authors d) t (db_publishers d) (db_pub_books d)
  | MPublisher => mkDb (db_authors d) (db_books d) t (db_pub_books d)
  end.

(** The process state besides the heap: the database, the state [R]
    of the random sources (Python's [random] module and Faker) and the
    files written, by path. *)
Record env (R : Type) := mkEnv { e_db : db; e_rng : R; e_files : gmap string string }.
Arguments mkEnv {R} _ _ _.
Arguments e_db {R} _.
Arguments e_rng {R} _.
Arguments e_files {R} _.

Abbreviation DbM R A := (PyM (env R) A).

Definition model_class (m : model) : string :=
  match m with MAuthor => "Author" | MBook => "Book" | MPublisher => "Publisher" end.

(** The column a field is stored in. *)
Definition column (f : field) : string :=
  match f_type f with FForeignKey _ => f_name f +:+ "_id" | _ => f_name f end.

(** ** Constructing an instance: [Model( **kwargs)] *)

(** The value of a field not given: '' for char and text fields, None
    otherwise. *)
Definition field_default (f : field) : val :=
  match f_type f with FChar _ | FText => VStr "" | _ => VNone end.

(** A foreign key may only be assigned an instance of its model (or None). *)
Definition fk_assignable (h : heap) (target : model) (v : val) : bool :=
  match v with
  | VNone => true
  | VRef l =>
      match heap_get h l with
      | Some (OInst c _) => String.eqb c (model_class target)
      | _ => false
      end
  | _ => false
  end.

(** The attributes of [Model( **kwargs)]: an unknown keyword is a
    TypeError, a foreign key given something other than an instance a
    ValueError; the primary key is None until the instance is saved. *)
Definition construct (h : heap) (m : model) (kwargs : list (string * val)) : exn + list (string * val) :=
  if negb (forallb (fun kv => bool_decide (kv.1 ∈ field_names m)) kwargs) then inl TypeError
  else
    let attrs := map (fun f => (f_name f, default (field_default f) (assoc_lookup (f_name f) kwargs)))
                     (model_fields m) in
    if forallb (fun f => match f_type f with
                         | FForeignKey t => fk_assignable h t (default VNone (assoc_lookup (f_name f) attrs))
                         | _ => true
                         end) (model_fields m)
    then inr (("id", VNone) :: attrs) else inl ValueError.

(** ** Column values: [get_db_prep_save] and the NOT NULL constraint *)

(** [Decimal(v)] under Django's DecimalField.to_python: a float is first
    rounded to [max_digits] significant digits; non-finite values are a
    ValidationError. *)
Definition to_decimal (max_digits : Z) (v : val) : exn + (Z * Z) :=
  match v with
  | VFloat (PFin m e) => inr (round_sig m e max_digits)
  | VFloat _ => inl ValidationError
  | VInt z => inr (z, 0)
  | VBool b => inr (if b then 1 else 0, 0)
  | VDecimal m e => inr (m, e)
  | VStr s =>
      match float_body (strip (String.list_ascii_of_string s)) with
      | Some (FNum m e) => inr (m, e)
      | _ => inl ValidationError
      end
  | _ => inl ValidationError
  end.

(** [format_number]: quantize to [places]; more than [max_digits] digits
    is decimal.InvalidOperation. *)
Definition quantize (max_digits places : Z) (de : Z * Z) : exn + val :=
  let n := round_places de.1 de.2 places in
  if ndigits n <=? max_digits then inr (VDecimal n (- places)) else inl InvalidOperation.

(** A date given as a str must read YYYY-MM-DD. *)
Definition parse_iso_date (s : string) : option date :=
  match String.list_ascii_of_string s with
  | [y1; y2; y3; y4; "-"%char; m1; m2; "-"%char; d1; d2] =>
      match mapM digit_val [y1; y2; y3; y4], mapM digit_val [m1; m2], mapM digit_val [d1; d2] with
      | Some ys, Some ms, Some ds =>
          let d := mkDate (digits_value ys) (digits_value ms) (digits_value ds) in
          if date_valid d then Some d else None
      | _, _, _ => None
      end
  | _ => None
  end.

Definition prep_value (h : heap) (ft : ftype) (v : val) : exn + val :=
  match v with
  | VNone => inl IntegrityError
  | _ =>
      match ft with
      | FChar _ | FText => inr v
      | FDate =>
          match v with
          | VDate d => inr v
          | VStr s => match parse_iso_date s with Some d => inr (VDate d) | None => inl ValidationError end
          | _ => inl TypeError
          end
      | FPosInt =>
          match py_int v with
          | inr n => if n <? 0 then inl IntegrityError else inr (VInt n)
          | inl e => inl e
          end
      | FDecimal digits places =>
          match to_decimal digits v with
          | inr de => quantize digits places de
          | inl e => inl e
          end
      | FForeignKey _ =>
          match v with
          | VRef l =>
              match heap_get h l with
              | Some (OInst _ attrs) =>
                  match assoc_lookup "id" attrs with
                  | Some (VInt pk) => inr (VInt pk)
                  | _ => inl ValueError
                  end
              | _ => inl ValueError
              end
          | _ => inl ValueError
          end
      end
  end.

(** The row of an instance with attributes [attrs]. *)
Definition prep_row (h : heap) (m : model) (attrs : list (string * val)) : exn + row :=
  mapE (fun f => match prep_value h (f_type f) (default VNone (assoc_lookup (f_name f) attrs)) with
                 | inr c => inr (column f, c)
                 | inl e => inl e
                 end) (model_fields m).

(** ** Inserting rows *)

(** The values a unique column takes in [rows]. *)
Definition col_values (c : string) (rows : list row) : list val := omap (assoc_lookup c) rows.

Definition table_rows (t : table) : list row := snd <$> map_to_list (t_rows t).

(** What the database checks of an INSERT of [rs] into the table of [m]:
    every foreign key names an existing row, and the values of a unique
    column are distinct among themselves and from the stored ones. *)
Definition insert_ok (d : db) (m : model) (rs : list row) : bool :=
  forallb (fun f =>
    match f_type f with
    | FForeignKey t =>
        forallb (fun r => match assoc_lookup (column f) r with
                          | Some (VInt k) => bool_decide (is_Some (t_rows (db_table d t) !! k))
                          | _ => false
                          end) rs
    | _ =>
        if f_unique f then
          let news := col_values (column f) rs in
          bool_decide (NoDup news) &&
          forallb (fun v => bool_decide (v ∉ col_values (column f) (table_rows (db_table d m)))) news
        else true
    end) (model_fields m).

(** Auto-increment keys for the new rows, in order. *)
Fixpoint insert_rows (t : table) (rs : list row) : table * list Z :=
  match rs with
  | [] => (t, [])
  | r :: rs' =>
      let '(t', ks) := insert_rows (mkTable (<[t_next t := r]> (t_rows t)) (t_next t + 1)) rs' in
      (t', t_next t :: ks)
  end.

(** One INSERT statement: all rows or none. *)
Definition db_insert (d : db) (m : model) (rs : list row) : exn + (db * list Z) :=
  if insert_ok d m rs then
    let '(t', ks) := insert_rows (db_table d m) rs in inr (set_table d m t', ks)
  else inl IntegrityError.

(** The rows of a table in key order, keys 1 .. next-1. *)
Definition rows_in_order (t : table) : list (Z * row) :=
  omap (fun k => pair k <$> t_rows t !! k) (seqZ 1 (t_next t - 1)).

(** ** Instances in the heap *)

Definition inst_of (h : heap) (m : model) (v : val) : exn + (loc * list (string * val)) :=
  match v with
  | VRef l =>
      match heap_get h l with
      | Some (OInst c attrs) => if String.eqb c (model_class m) then inr (l, attrs) else inl TypeError
      | _ => inl TypeError
      end
  | _ => inl TypeError
  end.

(** The primary key of a saved instance; an unsaved one is a ValueError. *)
Definition inst_pk (h : heap) (m : model) (v : val) : exn + Z :=
  match inst_of h m v with
  | inr (_, attrs) => match assoc_lookup "id" attrs with Some (VInt k) => inr k | _ => inl ValueError end
  | inl e => inl e
  end.

(** ** The ORM calls *)

Section Ops.
Context {R : Type}.

Definition get_heap : DbM R heap := fun w => (inr (w_heap w), w).
Definition get_db : DbM R db := fun w => (inr (e_db (w_ext w)), w).
Definition put_db (d : db) : DbM R unit :=
  fun w => (inr tt, mkWorld (w_heap w) (mkEnv d (e_rng (w_ext w)) (e_files (w_ext w)))).

(** [inst.attr = v] *)
Definition set_attr (l : loc) (a : string) (v : val) : DbM R unit :=
  o <- py_load l ;;
  match o with
  | OInst c attrs => py_store l (OInst c (assoc_set a v attrs))
  | _ => pm_raise AttributeError
  end.

(** [inst.attr] for a plain attribute *)
Definition get_attr (v : val) (a : string) : DbM R val :=
  match v with
  | VRef l =>
      o <- py_load l ;;
      match o with
      | OInst _ attrs => match assoc_lookup a attrs with Some x => pm_ret x | None => pm_raise AttributeError end
      | _ => pm_raise AttributeError
      end
  | _ => pm_raise AttributeError
  end.

(** [Model( **d)] *)
Definition py_new (m : model) (d : val) : DbM R val :=
  h <- get_heap ;;
  match d with
  | VRef l =>
      o <- py_load l ;;
      match o with
      | ODict kvs =>
          attrs <- py_lift (construct h m kvs) ;;
          l' <- py_alloc (OInst (model_class m) attrs) ;;
          pm_ret (VRef l')
      | _ => pm_raise TypeError
      end
  | _ => pm_raise TypeError
  end.

(** A new instance for a stored row. *)
Definition load_row (m : model) (kr : Z * row) : DbM R val :=
  l <- py_alloc (OInst (model_class m) (("id", VInt kr.1) :: kr.2)) ;; pm_ret (VRef l).

(** [list(Model.objects.all())] *)
Definition objects_all (m : model) : DbM R val :=
  d <- get_db ;;
  insts <- pm_map (load_row m) (rows_in_order (db_table d m)) ;;
  l <- py_alloc (OList insts) ;;
  pm_ret (VRef l).

(** [Model.objects.bulk_create(objs)]: prepare every row, run one
    INSERT, then give each instance its key. *)
Definition bulk_create (m : model) (objs : val) : DbM R val :=
  items <- py_iter objs ;;
  h <- get_heap ;;
  insts <- py_lift (mapE (inst_of h m) items) ;;
  rows <- py_lift (mapE (fun la => prep_row h m la.2) insts) ;;
  d <- get_db ;;
  dk <- py_lift (db_insert d m rows) ;;
  put_db dk.1 ;;
  pm_iter (fun lk => set_attr lk.1 "id" (VInt lk.2)) (zip (fst <$> insts) dk.2) ;;
  pm_ret objs.

(** [Model.objects.create( **d)]: construct, INSERT, set the key. *)
Definition objects_create (m : model) (dv : val) : DbM R val :=
  inst <- py_new m dv ;;
  h <- get_heap ;;
  la <- py_lift (inst_of h m inst) ;;
  r <- py_lift (prep_row h m la.2) ;;
  d <- get_db ;;
  dk <- py_lift (db_insert d m [r]) ;;
  put_db dk.1 ;;
  match dk.2 with
  | [k] => set_attr la.1 "id" (VInt k) ;; pm_ret inst
  | _ => pm_ret inst
  end.

(** The relation after [books.set]: the pairs of publisher [p] are
    replaced by [p] with each of [bs]. *)
Definition m2m_update (d : db) (p : Z) (bs : list Z) : db :=
  mkDb (db_authors d) (db_books d) (db_publishers d)
       (filter (fun pb => pb.1 <> p) (db_pub_books d) ∪ list_to_set (pair p <$> bs)).

(** [publisher.books.set(books)]: the relation of this publisher becomes
    exactly the given books; both ends must be saved and stored. *)
Definition m2m_set (pub : val) (books : val) : DbM R unit :=
  h <- get_heap ;;
  p <- py_lift (inst_pk h MPublisher pub) ;;
  items <- py_iter books ;;
  bs <- py_lift (mapE (inst_pk h MBook) items) ;;
  d <- get_db ;;
  if bool_decide (is_Some (t_rows (db_publishers d) !! p)) &&
     forallb (fun b => bool_decide (is_Some (t_rows (db_books d) !! b))) bs
  then put_db (m2m_update d p bs)
  else pm_raise IntegrityError.

(** [book.author]: fetch the row the foreign key names. *)
Definition fk_get (inst : val) (f : field) : DbM R val :=
  match f_type f with
  | FForeignKey t =>
      k <- get_attr inst (column f) ;;
      d <- get_db ;;
      match k with
      | VInt pk =>
          match t_rows (db_table d t) !! pk with
          | Some r => load_row t (pk, r)
          | None => pm_raise DoesNotExist
          end
      | _ => pm_raise DoesNotExist
      end
  | _ => pm_raise AttributeError
  end.

(** [list(publisher.books.all())] *)
Definition related_books (pub : val) : DbM R val :=
  h <- get_heap ;;
  p <- py_lift (inst_pk h MPublisher pub) ;;
  d <- get_db ;;
  insts <- pm_map (load_row MBook)
             (filter (fun kr => (p, kr.1) ∈ db_pub_books d) (rows_in_order (db_books d))) ;;
  l <- py_alloc (OList insts) ;;
  pm_ret (VRef l).
End Ops.

(** ** The invariant of the database *)

Definition keys_ok (t : table) : Prop :=
  1 <= t_next t /\ map_Forall (fun k _ => 1 <= k < t_next t) (t_rows t).

(** Every book names an existing author. *)
Definition fk_rows_ok (d : db) : Prop :=
  map_Forall (fun _ r => exists a, assoc_lookup "author_id" r = Some (VInt a) /\
                                   is_Some (t_rows (db_authors d) !! a))
             (t_rows (db_books d)).

Definition col_unique (c : string) (t : table) : Prop :=
  forall k1 k2 r1 r2 v, t_rows t !! k1 = Some r1 -> t_rows t !! k2 = Some r2 ->
    assoc_lookup c r1 = Some v -> assoc_lookup c r2 = Some v -> k1 = k2.

(** Every related pair names an existing publisher and book. *)
Definition m2m_ok (d : db) : Prop :=
  set_Forall (fun pb => is_Some (t_rows (db_publishers d) !! pb.1) /\
                        is_Some (t_rows (db_books d) !! pb.2)) (db_pub_books d).

Definition db_ok (d : db) : Prop :=
  keys_ok (db_authors d) /\ keys_ok (db_books d) /\ keys_ok (db_publishers d) /\
  fk_rows_ok d /\ col_unique "isbn" (db_books d) /\ m2m_ok d.

(** Where [insert_rows] puts the rows: below the old counter the old
    table, then the new rows in order, nothing beyond. *)
Lemma insert_rows_lookup t rs t' ks :
  insert_rows t rs = (t', ks) ->
  t_next t' = t_next t + Z.of_nat (length rs) /\ ks = seqZ (t_next t) (Z.of_nat (length rs)) /\
  forall k, t_rows t' !! k =
    if bool_decide (k < t_next t) then t_rows t !! k
    else if bool_decide (k < t_next t') then rs !! Z.to_nat (k - t_next t) else t_rows t !! k.
Proof.
  revert t ks. induction rs as [|r rs IH]; intros t ks; simpl.
  - intros [= <- <-]. split_and!; [lia|done|]. intros k. by repeat case_bool_decide.
  - destruct (insert_rows _ rs) as [t2 ks2] eqn:E. intros [= <- <-].
    destruct (IH _ _ E) as (Hn & Hks & Hl). simpl in *. split_and!.
    + lia.
    + rewrite Hks, (seqZ_cons (t_next t)) by lia. f_equal. f_equal; lia.
    + intros k. rewrite Hl. simpl. rewrite lookup_insert.
      repeat case_bool_decide; repeat case_decide; subst; try lia; try done.
      * by rewrite Z.sub_diag.
      * replace (Z.to_nat (k - t_next t)) with (S (Z.to_nat (k - (t_next t + 1)))) by lia. done.
Qed.

Lemma insert_rows_grow t rs t' ks :
  keys_ok t -> insert_rows t rs = (t', ks) ->
  keys_ok t' /\ (forall k r, t_rows t !! k = Some r -> t_rows t' !! k = Some r) /\
  (forall k r, t_rows t' !! k = Some r -> t_rows t !! k = Some r \/ r ∈ rs).
Proof.
  intros [H1 Hk] Hi. destruct (insert_rows_lookup _ _ _ _ Hi) as (Hn & _ & Hl).
  split_and!.
  - split; [lia|]. intros k r Hr. rewrite Hl in Hr. repeat case_bool_decide; try lia.
    + destruct (Hk k r Hr). lia.
    + pose proof (Hk k r Hr) as Hkr. simpl in Hkr. lia.
  - intros k r Hr. pose proof (Hk k r Hr) as Hkr. simpl in Hkr. rewrite Hl. case_bool_decide; [done|lia].
  - intros k r Hr. rewrite Hl in Hr. repeat case_bool_decide; auto.
    right. by eapply list_elem_of_lookup_2.
Qed.

Lemma col_values_elem c t k r v :
  t_rows t !! k = Some r -> assoc_lookup c r = Some v -> v ∈ col_values c (table_rows t).
Proof.
  intros Hr Hv. unfold col_values, table_rows. apply list_elem_of_omap. exists r. split; [|done].
  apply list_elem_of_fmap. exists (k, r). split; [done|]. by apply elem_of_map_to_list.
Qed.

(** Two rows at different positions of [rs] with the same value in a
    column contradict [NoDup] of that column. *)
Lemma NoDup_col_values c rs i j r1 r2 v :
  NoDup (col_values c rs) -> rs !! i = Some r1 -> rs !! j = Some r2 ->
  assoc_lookup c r1 = Some v -> assoc_lookup c r2 = Some v -> i = j.
Proof.
  unfold col_values. revert i j. induction rs as [|r rs IH]; intros i j Hnd Hi Hj H1 H2; [done|].
  simpl in Hnd. destruct (assoc_lookup c r) as [v'|] eqn:Hr.
  - apply NoDup_cons in Hnd as [Hnin Hnd].
    destruct i as [|i], j as [|j]; simpl in Hi, Hj; [done| | |f_equal; eauto]; exfalso; apply Hnin.
    + injection Hi as <-. rewrite H1 in Hr. injection Hr as <-.
      apply list_elem_of_omap. exists r2. split; [by eapply list_elem_of_lookup_2|done].
    + injection Hj as <-. rewrite H2 in Hr. injection Hr as <-.
      apply list_elem_of_omap. exists r1. split; [by eapply list_elem_of_lookup_2|done].
  - destruct i as [|i], j as [|j]; simpl in Hi, Hj.
    + done.
    + injection Hi as <-. congruence.
    + injection Hj as <-. congruence.
    + f_equal. eauto.
Qed.

Lemma insert_rows_unique c t rs t' ks :
  keys_ok t -> col_unique c t -> insert_rows t rs = (t', ks) ->
  NoDup (col_values c rs) -> (forall v, v ∈ col_values c rs -> v ∉ col_values c (table_rows t)) ->
  col_unique c t'.
Proof.
  intros [_ Hk] U Hi Hnd Hfresh. destruct (insert_rows_lookup _ _ _ _ Hi) as (Hn & _ & Hl).
  assert (forall k r, t_rows t !! k = Some r -> k < t_next t) as Hbelow.
  { intros k r Hr. pose proof (Hk k r Hr) as Hkr. simpl in Hkr. lia. }
  assert (forall i r v, rs !! i = Some r -> assoc_lookup c r = Some v -> v ∈ col_values c rs) as Hin.
  { intros i r v Hr Hv. apply list_elem_of_omap. exists r. split; [by eapply list_elem_of_lookup_2|done]. }
  intros k1 k2 r1 r2 v H1 H2 Hv1 Hv2. rewrite Hl in H1, H2.
  repeat case_bool_decide; try by (eapply U; eauto);
    try (pose proof (Hbelow _ _ H1); lia); try (pose proof (Hbelow _ _ H2); lia).
  all: first [ solve [destruct (Hfresh v (Hin _ _ _ H2 Hv2)); eapply col_values_elem; eauto]
             | solve [destruct (Hfresh v (Hin _ _ _ H1 Hv1)); eapply col_values_elem; eauto]
             | pose proof (NoDup_col_values _ _ _ _ _ _ _ Hnd H1 H2 Hv1 Hv2); lia ].
Qed.

Lemma insert_ok_field d m rs f :
  insert_ok d m rs = true -> f ∈ model_fields m ->
  match f_type f with
  | FForeignKey t =>
      forall r, r ∈ rs -> exists k, assoc_lookup (column f) r = Some (VInt k) /\
                                    is_Some (t_rows (db_table d t) !! k)
  | _ =>
      f_unique f = true -> NoDup (col_values (column f) rs) /\
      forall v, v ∈ col_values (column f) rs -> v ∉ col_values (column f) (table_rows (db_table d m))
  end.
Proof.
  unfold insert_ok. intros Hok Hf. rewrite forallb_forall in Hok.
  specialize (Hok f ltac:(by apply list_elem_of_In)).
  destruct (f_type f).
  6: { intros r Hr. rewrite forallb_forall in Hok. specialize (Hok r ltac:(by apply list_elem_of_In)).
       destruct (assoc_lookup _ r) as [[]|]; try done. apply bool_decide_eq_true in Hok. eauto. }
  all: intros Hu; rewrite Hu in Hok; apply andb_prop in Hok as [H1 H2];
       apply bool_decide_eq_true in H1; split; [done|]; intros v Hv;
       rewrite forallb_forall in H2; apply (bool_decide_eq_true_1 _), H2, list_elem_of_In, Hv.
Qed.

Definition author_fk : field := mkField "author" (FForeignKey MAuthor) false.
Definition isbn_field : field := mkField "isbn" (FChar 13) true.

(** Every INSERT keeps the database consistent: the key counters, the
    books' authors, the uniqueness of ISBNs and the related pairs. *)
Lemma db_insert_ok d m rs d' ks : db_ok d -> db_insert d m rs = inr (d', ks) -> db_ok d'.
Proof.
  unfold db_insert. destruct (insert_ok d m rs) eqn:Hok; [|done].
  destruct (insert_rows (db_table d m) rs) as [t' ks'] eqn:Hi. intros Hd [= <- <-].
  destruct Hd as (Ka & Kb & Kp & Fk & U & M).
  destruct m; simpl in Hi |- *.
  - destruct (insert_rows_grow _ _ _ _ Ka Hi) as (Ka' & Hgrow & _).
    split_and!; try done.
    intros k r Hr. destruct (Fk k r Hr) as (a & Ha & [ra Hra]). exists a. split; [done|]. eexists. by apply Hgrow.
  - destruct (insert_rows_grow _ _ _ _ Kb Hi) as (Kb' & Hgrow & Hnew).
    pose proof (insert_ok_field _ _ _ author_fk Hok ltac:(set_solver)) as Hfk.
    pose proof (insert_ok_field _ _ _ isbn_field Hok ltac:(set_solver) eq_refl) as [Hnd Hfr].
    split_and!; try done.
    + intros k r Hr. destruct (Hnew k r Hr) as [Hold|Hin]; [by apply Fk in Hold|].
      destruct (Hfk r Hin) as (a & Ha & Hex). eauto.
    + exact (insert_rows_unique _ _ _ _ _ Kb U Hi Hnd Hfr).
    + intros pb Hpb. destruct (M pb Hpb) as [Hp [rb Hrb]]. split; [done|]. eexists. by apply Hgrow.
  - destruct (insert_rows_grow _ _ _ _ Kp Hi) as (Kp' & Hgrow & _).
    split_and!; try done.
    intros pb Hpb. destruct (M pb Hpb) as [[rp Hrp] Hb]. split; [|done]. eexists. by apply Hgrow.
Qed.

(** Replacing a publisher's related books by stored books keeps the
    database consistent. *)
Lemma m2m_update_ok d p bs :
  db_ok d -> is_Some (t_rows (db_publishers d) !! p) ->
  Forall (fun b => is_Some (t_rows (db_books d) !! b)) bs ->
  db_ok (m2m_update d p bs).
Proof.
  intros (Ka & Kb & Kp & Fk & U & M) Hp Hbs. split_and!; try done.
  intros pb Hpb. apply elem_of_union in Hpb as [Hpb|Hpb].
  - apply elem_of_filter in Hpb as [_ Hpb]. by apply M.
  - apply elem_of_list_to_set, list_elem_of_fmap in Hpb as (b & -> & Hb). simpl.
    split; [done|]. by eapply Forall_forall in Hbs.
Qed.

(** ** Invariants of the database kept by the ORM calls *)

(** Invariants an INSERT into the table of [m] keeps, every INSERT
    keeps, and every [books.set] that passed its checks keeps. *)
Definition insert_closed_at (m : model) (I : db -> Prop) : Prop :=
  forall d rows d' ks, I d -> db_insert d m rows = inr (d', ks) -> I d'.

Definition insert_closed (I : db -> Prop) : Prop := forall m, insert_closed_at m I.

Definition m2m_closed (I : db -> Prop) : Prop :=
  forall d p bs, I d -> is_Some (t_rows (db_publishers d) !! p) ->
    Forall (fun b => is_Some (t_rows (db_books d) !! b)) bs -> I (m2m_update d p bs).

Lemma insert_closed_db_ok : insert_closed db_ok.
Proof. intros d m rows d' ks. apply db_insert_ok. Qed.

Lemma m2m_closed_db_ok : m2m_closed db_ok.
Proof. intros d p bs. apply m2m_update_ok. Qed.

Section Keeps.
Context {R : Type}.

(** [c] keeps [I], whether it returns or raises. *)
Definition keeps {A} (I : db -> Prop) (c : DbM R A) : Prop :=
  forall w, I (e_db (w_ext w)) -> I (e_db (w_ext (c w).2)).

Lemma keeps_ret {A} I (a : A) : keeps I (pm_ret a).
Proof. by intros w. Qed.

Lemma keeps_raise {A} I e : keeps I (pm_raise (A := A) e).
Proof. by intros w. Qed.

Lemma keeps_lift {A} I (x : exn + A) : keeps I (py_lift x).
Proof. destruct x; intros w; done. Qed.

Lemma keeps_bind {A B} I (c : DbM R A) (k : A -> DbM R B) :
  keeps I c -> (forall a, keeps I (k a)) -> keeps I (pm_bind c k).
Proof.
  intros Hc Hk w Hw. unfold pm_bind. specialize (Hc w Hw).
  destruct (c w) as [[e|a] w']; simpl in *; [done|]. by apply Hk.
Qed.

Lemma keeps_iter {A} I (body : A -> DbM R unit) l :
  (forall x, keeps I (body x)) -> keeps I (pm_iter body l).
Proof. intros Hb. induction l; simpl; [apply keeps_ret|by apply keeps_bind]. Qed.

Lemma keeps_map {A B} I (f : A -> DbM R B) l :
  (forall x, keeps I (f x)) -> keeps I (pm_map f l).
Proof.
  intros Hf. induction l; simpl; [apply keeps_ret|].
  apply keeps_bind; [done|]. intros. apply keeps_bind; [done|]. intros. apply keeps_ret.
Qed.

Lemma keeps_py_load I l : keeps I (py_load (X := env R) l).
Proof. intros w. unfold py_load. by case_match. Qed.

Lemma keeps_py_store I l o : keeps I (py_store (X := env R) l o).
Proof. by intros w. Qed.

Lemma keeps_py_alloc I o : keeps I (py_alloc (X := env R) o).
Proof. intros w. unfold py_alloc. by destruct (heap_alloc _ _). Qed.

Lemma keeps_get_heap I : keeps I get_heap.
Proof. by intros w. Qed.

Lemma keeps_get_db I : keeps I get_db.
Proof. by intros w. Qed.

(** Reading the database, then writing what an INSERT of it gives. *)
Lemma keeps_insert {A} I m (rows : list row) (k : db * list Z -> DbM R A) :
  insert_closed_at m I -> (forall dk, keeps I (k dk)) ->
  keeps I (d <- get_db ;; dk <- py_lift (db_insert d m rows) ;; put_db dk.1 ;; k dk).
Proof.
  intros HI Hk w Hw. unfold pm_bind at 1. simpl.
  destruct (db_insert (e_db (w_ext w)) m rows) as [e|[d' ks]] eqn:E; simpl; [done|].
  apply Hk. simpl. by eapply HI.
Qed.

(** An INSERT of rows known to keep [I]. *)
Lemma keeps_insert_rows {A} I m (rows : list row) (k : db * list Z -> DbM R A) :
  (forall d d' ks, I d -> db_insert d m rows = inr (d', ks) -> I d') -> (forall dk, keeps I (k dk)) ->
  keeps I (d <- get_db ;; dk <- py_lift (db_insert d m rows) ;; put_db dk.1 ;; k dk).
Proof.
  intros HI Hk w Hw. unfold pm_bind at 1. simpl.
  destruct (db_insert (e_db (w_ext w)) m rows) as [e|[d' ks]] eqn:E; simpl; [done|].
  apply Hk. simpl. by eapply HI.
Qed.

(** A step that only continues with the value of [x]. *)
Lemma keeps_lift_bind {A B} I (x : exn + A) (k : A -> DbM R B) :
  (forall a, x = inr a -> keeps I (k a)) -> keeps I (a <- py_lift x ;; k a).
Proof. intros Hk. destruct x as [e|a]; [apply keeps_raise|by apply Hk]. Qed.
End Keeps.

(** [c] keeps the consistency of the database. *)
Abbreviation preserves := (keeps db_ok).

Create HintDb store discriminated.
#[export] Hint Resolve keeps_ret keeps_raise keeps_lift keeps_py_load keeps_py_store keeps_py_alloc
  keeps_get_heap keeps_get_db insert_closed_db_ok m2m_closed_db_ok : store.

Lemma insert_closed_at_all I m : insert_closed I -> insert_closed_at m I.
Proof. intros HI. apply HI. Qed.
#[export] Hint Resolve insert_closed_at_all : store.

(** Decompose a program into the steps [keeps] is known for, trying
    [ext] first on every step (a program-specific rule). *)
Ltac keeps_tac_with ext :=
  repeat match goal with
  | |- forall _, _ => intros ?
  | |- keeps _ _ => ext
  | |- keeps _ (pm_bind get_db _) => apply keeps_insert; [solve [eauto with store]|]
  | |- keeps _ (pm_bind _ _) => apply keeps_bind
  | |- keeps _ (pm_iter _ _) => apply keeps_iter
  | |- keeps _ (pm_map _ _) => apply keeps_map
  | |- keeps _ _ => first [solve [eauto with store] | case_match]
  end.

Ltac keeps_tac := keeps_tac_with ltac:(fail).

Lemma keeps_py_iter {R} I v : keeps I (py_iter (X := env R) v).
Proof. unfold py_iter. keeps_tac. Qed.
#[export] Hint Resolve keeps_py_iter : store.

Lemma keeps_py_getitem {R} I v k : keeps I (py_getitem (X := env R) v k).
Proof. unfold py_getitem. keeps_tac. Qed.
#[export] Hint Resolve keeps_py_getitem : store.

Lemma keeps_py_setitem {R} I v k x : keeps I (py_setitem (X := env R) v k x).
Proof. unfold py_setitem. keeps_tac. Qed.
#[export] Hint Resolve keeps_py_setitem : store.

Lemma keeps_py_append {R} I v x : keeps I (py_append (X := env R) v x).
Proof. unfold py_append. keeps_tac. Qed.
#[export] Hint Resolve keeps_py_append : store.

Lemma keeps_set_attr {R} I l a v : keeps I (set_attr (R := R) l a v).
Proof. unfold set_attr. keeps_tac. Qed.
#[export] Hint Resolve keeps_set_attr : store.

Lemma keeps_get_attr {R} I v a : keeps I (get_attr (R := R) v a).
Proof. unfold get_attr. keeps_tac. Qed.
#[export] Hint Resolve keeps_get_attr : store.

Lemma keeps_py_new {R} I m d : keeps I (py_new (R := R) m d).
Proof. unfold py_new. keeps_tac. Qed.
#[export] Hint Resolve keeps_py_new : store.

Lemma keeps_load_row {R} I m kr : keeps I (load_row (R := R) m kr).
Proof. unfold load_row. keeps_tac. Qed.
#[export] Hint Resolve keeps_load_row : store.

Lemma keeps_objects_all {R} I m : keeps I (objects_all (R := R) m).
Proof. unfold objects_all. keeps_tac. Qed.
#[export] Hint Resolve keeps_objects_all : store.

Lemma keeps_bulk_create {R} I m objs : insert_closed_at m I -> keeps I (bulk_create (R := R) m objs).
Proof. intros HI. unfold bulk_create. keeps_tac. Qed.
#[export] Hint Resolve keeps_bulk_create : store.

Lemma keeps_objects_create {R} I m d : insert_closed_at m I -> keeps I (objects_create (R := R) m d).
Proof. intros HI. unfold objects_create. keeps_tac. Qed.
#[export] Hint Resolve keeps_objects_create : store.

(** What the check of [books.set] before its write establishes. *)
Lemma m2m_guard_ok d p bs :
  bool_decide (is_Some (t_rows (db_publishers d) !! p)) &&
  forallb (fun b => bool_decide (is_Some (t_rows (db_books d) !! b))) bs = true ->
  is_Some (t_rows (db_publishers d) !! p) /\ Forall (fun b => is_Some (t_rows (db_books d) !! b)) bs.
Proof.
  intros [Hp Hb]%andb_prop. apply bool_decide_eq_true in Hp. split; [done|].
  apply Forall_forall. intros b Hb'.
  apply forallb_forall with (x := b) in Hb; [by apply bool_decide_eq_true in Hb|by apply list_elem_of_In].
Qed.

Lemma keeps_m2m_set {R} I pub books : m2m_closed I -> keeps I (m2m_set (R := R) pub books).
Proof.
  intros HI. unfold m2m_set. do 4 (apply keeps_bind; [solve [eauto with store]|intros ?]).
  intros w Hw. unfold pm_bind at 1. simpl. case_match eqn:Hg; [|done].
  apply m2m_guard_ok in Hg as [Hp Hb]. by apply HI.
Qed.
#[export] Hint Resolve keeps_m2m_set : store.

Lemma keeps_fk_get {R} I inst f : keeps I (fk_get (R := R) inst f).
Proof. unfold fk_get. keeps_tac. Qed.
#[export] Hint Resolve keeps_fk_get : store.

Lemma keeps_related_books {R} I pub : keeps I (related_books (R := R) pub).
Proof. unfold related_books. keeps_tac. Qed.
#[export] Hint Resolve keeps_related_books : store.

(** ** The number of books of a publisher *)

(** The books related to publisher [p]. *)
Definition related_count (d : db) (p : Z) : nat := size (filter (fun pb => pb.1 = p) (db_pub_books d)).

(** [books.set(bs)] of publisher [k] replaces its pairs and no others. *)
Lemma pub_books_m2m_update d k bs k' :
  filter (fun pb => pb.1 = k') (db_pub_books (m2m_update d k bs)) =
  if decide (k' = k) then list_to_set (pair k <$> bs) else filter (fun pb => pb.1 = k') (db_pub_books d).
Proof.
  apply set_eq. intros [a b]. unfold m2m_update. simpl.
  rewrite elem_of_filter, elem_of_union, elem_of_filter, elem_of_list_to_set, list_elem_of_fmap.
  destruct (decide (k' = k)) as [->|Hk]; [rewrite elem_of_list_to_set, list_elem_of_fmap|rewrite elem_of_filter];
    simpl; naive_solver.
Qed.

(** Every publisher is related to at most [n] books. *)
Definition rel_bounded (n : nat) (d : db) : Prop := forall p, (related_count d p <= n)%nat.

Lemma db_insert_pub_books d m rows d' ks :
  db_insert d m rows = inr (d', ks) -> db_pub_books d' = db_pub_books d.
Proof.
  unfold db_insert. case_match; [|done]. destruct (insert_rows _ _). intros [= <- _]. by destruct m.
Qed.

Lemma insert_closed_bounded n : insert_closed (rel_bounded n).
Proof. intros d m rows d' ks Hb Hi p. unfold related_count. rewrite (db_insert_pub_books _ _ _ _ _ Hi). apply Hb. Qed.
#[export] Hint Resolve insert_closed_bounded : store.

(** After [books.set], publisher [p] has the distinct books of [bs], the
    others keep theirs. *)
Lemma related_count_update d p bs p' :
  related_count (m2m_update d p bs) p' =
    if decide (p' = p) then size (list_to_set (C := gset (Z * Z)) (pair p <$> bs)) else related_count d p'.
Proof.
  unfold related_count, m2m_update. simpl. rewrite filter_union_L by typeclasses eauto. case_decide as Hp; f_equal.
  - subst. apply set_eq. intros [q b].
    rewrite elem_of_union, !elem_of_filter, elem_of_list_to_set, list_elem_of_fmap. naive_solver.
  - apply set_eq. intros [q b].
    rewrite elem_of_union, !elem_of_filter, elem_of_list_to_set, list_elem_of_fmap.
    simpl. setoid_rewrite pair_equal_spec.
    split; [intros [(-> & _ & ?)|(-> & x & [? _] & _)]; [done|congruence]|naive_solver].
Qed.

(** A publisher has no more related books than there are stored books. *)
Lemma related_count_le_books d p : m2m_ok d -> (related_count d p <= size (t_rows (db_books d)))%nat.
Proof.
  intros Hm. unfold related_count. rewrite <-(size_dom (D := gset Z)).
  etrans; [|apply (size_set_map_le (pair p))]. apply subseteq_size. intros [q b] Hqb.
  apply elem_of_filter in Hqb as [Hq Hqb]. simpl in Hq. subst q. apply elem_of_map. exists b.
  split; [done|]. apply elem_of_dom. by destruct (Hm _ Hqb).
Qed.

(** Invariants every [books.set] of at most [n] books keeps, once its
    check has passed. *)
Definition m2m_closed_len (n : nat) (I : db -> Prop) : Prop :=
  forall d p bs, I d -> (length bs <= n)%nat -> is_Some (t_rows (db_publishers d) !! p) ->
    Forall (fun b => is_Some (t_rows (db_books d) !! b)) bs -> I (m2m_update d p bs).

Lemma m2m_closed_len_bounded n : m2m_closed_len n (rel_bounded n).
Proof.
  intros d p bs Hd Hn _ _ p'. rewrite related_count_update. case_decide; [|apply Hd].
  etrans; [apply size_list_to_set_le|]. by rewrite length_fmap.
Qed.

(** [publisher.books.set(l)] on a list object of at most [n] entries
    keeps an invariant closed under such updates, also when it raises. *)
Lemma m2m_set_len {R} n I pub l ys (w : world (env R)) :
  m2m_closed_len n I -> heap_get (w_heap w) l = Some (OList ys) -> (length ys <= n)%nat ->
  I (e_db (w_ext w)) -> I (e_db (w_ext (m2m_set pub (VRef l) w).2)).
Proof.
  intros HI Hl Hn Hw. unfold m2m_set. rewrite !pm_bind_run. simpl.
  destruct (inst_pk _ _ pub); simpl; [done|]. rewrite pm_bind_ret, pm_bind_run, (py_iter_list _ _ _ Hl).
  destruct (mapE _ ys) as [e|bs] eqn:Hm; simpl; [done|].
  rewrite pm_bind_ret. unfold pm_bind. simpl. case_match eqn:Hg; [|done]. apply m2m_guard_ok in Hg as [Hp Hb].
  apply HI; [done| |done|done]. by rewrite (mapE_length _ _ _ Hm).
Qed.

(** ** Runs on empty inputs *)

Lemma set_table_id d m : set_table d m (db_table d m) = d.
Proof. by destruct d, m. Qed.

(** An INSERT of no rows changes nothing. *)
Lemma db_insert_nil d m : db_insert d m [] = inr (d, []).
Proof. unfold db_insert. destruct d, m; reflexivity. Qed.

Lemma rows_in_order_empty t : t_rows t = ∅ -> rows_in_order t = [].
Proof.
  intros Ht. unfold rows_in_order. rewrite Ht. generalize (seqZ 1 (t_next t - 1)).
  induction l; simpl; [done|]. by rewrite lookup_empty.
Qed.

Section EmptyRuns.
Context {R : Type}.
Implicit Types (h : heap) (d : db) (r : R).

(** [Model.objects.bulk_create([])] does nothing. *)
Lemma bulk_create_empty m l h d r fs :
  heap_get h l = Some (OList []) ->
  bulk_create m (VRef l) (mkWorld h (mkEnv d r fs)) = (inr (VRef l), mkWorld h (mkEnv d r fs)).
Proof.
  intros Hl. unfold bulk_create. pm_run (py_iter_list _ _ (mkWorld h (mkEnv d r fs)) Hl).
  cbn. by rewrite db_insert_nil.
Qed.

(** [list(Model.objects.all())] on an empty table is a new empty list. *)
Lemma objects_all_empty m h d r fs :
  t_rows (db_table d m) = ∅ ->
  objects_all m (mkWorld h (mkEnv d r fs))
  = (inr (VRef (hnext h)), mkWorld (with_obj h (hnext h) (OList [])) (mkEnv d r fs)).
Proof. intros Ht. unfold objects_all. cbn. by rewrite rows_in_order_empty. Qed.
End EmptyRuns.

(** The empty database is consistent. *)
Lemma empty_db_ok : db_ok empty_db.
Proof.
  unfold db_ok, keys_ok, fk_rows_ok, col_unique, m2m_ok. simpl.
  split_and!; try lia; try apply map_Forall_empty; try apply set_Forall_empty.
  intros k1 k2 r1 r2 v Hk1. by rewrite lookup_empty in Hk1.
Qed.

(** ** Runs of the reading calls *)

(** The value [v] is an instance of [m] loaded from the row [kr]. *)
Definition inst_at (h : heap) (m : model) (v : val) (kr : Z * row) : Prop :=
  exists l, v = VRef l /\ heap_get h l = Some (OInst (model_class m) (("id", VInt kr.1) :: kr.2)).

Lemma inst_at_ext M h h' m v kr : heap_ext M h h' -> (forall l, v = VRef l -> l ∉ M) ->
  inst_at h m v kr -> inst_at h' m v kr.
Proof. intros [_ Hext] HM (l & -> & Hl). exists l. split; [done|]. by apply Hext; [apply HM|]. Qed.

Section ReadRuns.
Context {R : Type}.
Implicit Types (h : heap) (d : db) (e : env R) (r : R).

Lemma load_row_run m kr h e :
  load_row m kr (mkWorld h e)
  = (inr (VRef (hnext h)), mkWorld (with_obj h (hnext h) (OInst (model_class m) (("id", VInt kr.1) :: kr.2))) e).
Proof. reflexivity. Qed.

(** A new instance for each row, in order, each at a new location. *)
Lemma load_rows_run m krs : forall h e, heap_wf h ->
  exists h' vs, pm_map (load_row m) krs (mkWorld h e) = (inr vs, mkWorld h' e) /\
    heap_ext ∅ h h' /\ Forall2 (inst_at h' m) vs krs.
Proof.
  induction krs as [|kr krs IH]; intros h e Hwf.
  - exists h, []. split_and!; [done|by apply heap_ext_refl|constructor].
  - set (o := OInst (model_class m) (("id", VInt kr.1) :: kr.2)).
    destruct (IH (with_obj h (hnext h) o) e ltac:(by apply heap_wf_with_obj)) as (h' & vs & Hrun & Hext & HF).
    exists h', (VRef (hnext h) :: vs). split_and!.
    + simpl. rewrite pm_bind_run, load_row_run. simpl. rewrite pm_bind_run. fold o. by rewrite Hrun.
    + eapply heap_ext_trans; [by apply heap_ext_alloc|exact Hext].
    + constructor; [|done]. exists (hnext h). split; [done|].
      destruct Hext as [_ Hext]. apply Hext; [set_solver|apply heap_get_with_obj_eq].
Qed.

(** [list(Model.objects.all())]: a new list of new instances, one per
    stored row in key order. *)
Lemma objects_all_run m h d r fs : heap_wf h ->
  exists h' q vs, objects_all m (mkWorld h (mkEnv d r fs)) = (inr (VRef q), mkWorld h' (mkEnv d r fs)) /\
    heap_ext ∅ h h' /\ heap_get h' q = Some (OList vs) /\ Forall2 (inst_at h' m) vs (rows_in_order (db_table d m)).
Proof.
  intros Hwf. destruct (load_rows_run m (rows_in_order (db_table d m)) h (mkEnv d r fs) Hwf)
    as (h1 & vs & Hrun & Hext & HF).
  pose proof (heap_ext_wf _ _ _ Hext) as Hwf1.
  exists (with_obj h1 (hnext h1) (OList vs)), (hnext h1), vs. split_and!.
  - unfold objects_all. rewrite pm_bind_run. simpl. rewrite pm_bind_run, Hrun. simpl.
    by rewrite pm_bind_run, py_alloc_run.
  - eapply heap_ext_trans; [exact Hext|by apply heap_ext_alloc].
  - apply heap_get_with_obj_eq.
  - eapply Forall2_impl; [exact HF|]. intros v kr. apply (inst_at_ext ∅); [by apply heap_ext_alloc|set_solver].
Qed.

Lemma get_attr_run l c attrs a v (w : world (env R)) :
  heap_get (w_heap w) l = Some (OInst c attrs) -> assoc_lookup a attrs = Some v ->
  get_attr (VRef l) a w = (inr v, w).
Proof. intros Hl Ha. unfold get_attr. rewrite pm_bind_run, (py_load_run _ _ _ Hl). by rewrite Ha. Qed.

(** [book.author] on a book whose [author_id] names a stored author:
    a new instance of that author's row. *)
Lemma fk_get_author_run i c attrs a (ra : row) h d r fs :
  heap_get h i = Some (OInst c attrs) -> assoc_lookup "author_id" attrs = Some (VInt a) ->
  t_rows (db_authors d) !! a = Some ra ->
  fk_get (VRef i) author_fk (mkWorld h (mkEnv d r fs))
  = (inr (VRef (hnext h)), mkWorld (with_obj h (hnext h) (OInst "Author" (("id", VInt a) :: ra))) (mkEnv d r fs)).
Proof.
  intros Hi Ha Hra. unfold fk_get. change (f_type author_fk) with (FForeignKey MAuthor). cbv iota beta.
  change (column author_fk) with "author_id"%string.
  rewrite pm_bind_run, (get_attr_run i c attrs "author_id" (VInt a) (mkWorld h (mkEnv d r fs)) Hi Ha).
  simpl. rewrite pm_bind_run. simpl. rewrite Hra. reflexivity.
Qed.

(** [list(publisher.books.all())] on a saved publisher with key [p]: new
    instances of the books related to [p], in key order. *)
Lemma related_books_run i attrs p h d r fs : heap_wf h ->
  heap_get h i = Some (OInst "Publisher" attrs) -> assoc_lookup "id" attrs = Some (VInt p) ->
  exists h' q vs, related_books (VRef i) (mkWorld h (mkEnv d r fs)) = (inr (VRef q), mkWorld h' (mkEnv d r fs)) /\
    heap_ext ∅ h h' /\ heap_get h' q = Some (OList vs) /\
    Forall2 (inst_at h' MBook) vs (filter (fun kr => (p, kr.1) ∈ db_pub_books d) (rows_in_order (db_books d))).
Proof.
  intros Hwf Hi Hp.
  destruct (load_rows_run MBook (filter (fun kr => (p, kr.1) ∈ db_pub_books d) (rows_in_order (db_books d)))
              h (mkEnv d r fs) Hwf) as (h1 & vs & Hrun & Hext & HF).
  pose proof (heap_ext_wf _ _ _ Hext) as Hwf1.
  exists (with_obj h1 (hnext h1) (OList vs)), (hnext h1), vs. split_and!.
  - unfold related_books. rewrite pm_bind_run. simpl. unfold inst_pk, inst_of. rewrite Hi. simpl. rewrite Hp.
    rewrite pm_bind_run. simpl. rewrite pm_bind_run. unfold get_db. simpl.
    rewrite pm_bind_run, Hrun. simpl. by rewrite pm_bind_run, py_alloc_run.
  - eapply heap_ext_trans; [exact Hext|by apply heap_ext_alloc].
  - apply heap_get_with_obj_eq.
  - eapply Forall2_impl; [exact HF|]. intros v kr. apply (inst_at_ext ∅); [by apply heap_ext_alloc|set_solver].
Qed.
End ReadRuns.

(** ** The rows in key order *)

Lemma rows_in_order_elem t kr : kr ∈ rows_in_order t -> t_rows t !! kr.1 = Some kr.2.
Proof.
  unfold rows_in_order. intros (k & _ & Hk)%list_elem_of_omap.
  destruct (t_rows t !! k) eqn:E; simpl in Hk; [|done]. by injection Hk as <-.
Qed.

Lemma rows_in_order_keys t :
  fst <$> rows_in_order t = filter (fun k => is_Some (t_rows t !! k)) (seqZ 1 (t_next t - 1)).
Proof.
  unfold rows_in_order. induction (seqZ 1 (t_next t - 1)) as [|k ks IH]; [done|].
  rewrite filter_cons. simpl. change (list_omap _ _ ?f ks) with (omap f ks).
  destruct (t_rows t !! k) eqn:E; simpl; [by f_equal|done].
Qed.

Lemma rows_in_order_NoDup t : NoDup (fst <$> rows_in_order t).
Proof. rewrite rows_in_order_keys. apply NoDup_filter, NoDup_seqZ. Qed.

Lemma rows_in_order_forall (P : row -> Prop) t :
  map_Forall (fun _ => P) (t_rows t) -> Forall (fun kr => P kr.2) (rows_in_order t).
Proof. intros HP. apply Forall_forall. intros kr Hkr. exact (HP _ _ (rows_in_order_elem _ _ Hkr)). Qed.

Lemma length_omap {A B} (f : A -> option B) l : length (omap f l) = length (filter (fun x => is_Some (f x)) l).
Proof.
  induction l as [|x l IH]; [done|]. rewrite filter_cons. simpl.
  change (list_omap _ _ f l) with (omap f l). destruct (f x) eqn:E.
  - rewrite decide_True by done. simpl. by f_equal.
  - rewrite decide_False by (intros []; congruence). done.
Qed.

(** With every key below the counter, the rows in key order are all the
    rows of the table. *)
Lemma rows_in_order_length t : keys_ok t -> length (rows_in_order t) = size (t_rows t).
Proof.
  intros [Hn Hk]. unfold rows_in_order. rewrite length_omap, <-(size_dom (D := gset Z)).
  unfold size, set_size. simpl. apply Permutation_length, NoDup_Permutation.
  - apply NoDup_filter, NoDup_seqZ.
  - apply NoDup_elements.
  - intros k. rewrite list_elem_of_filter, elem_of_seqZ, elem_of_elements, elem_of_dom, fmap_is_Some.
    split; [by intros []|].
    intros [r Hr]. split; [by exists r|]. pose proof (Hk k r Hr). simpl in *. lia.
Qed.

(** ** The reading calls raise only Python exceptions *)

Lemma inst_pk_python h m v e : inst_pk h m v = inl e -> python_exn e.
Proof. unfold inst_pk, inst_of. repeat case_match; intros Heq; simplify_eq; by unfold python_exn. Qed.

Section ReadRaises.
Context {R : Type}.

Lemma python_raises_get_heap : python_raises (get_heap (R := R)).
Proof. by intros w. Qed.

Lemma python_raises_get_db : python_raises (get_db (R := R)).
Proof. by intros w. Qed.

Lemma python_raises_inst_pk h m v : python_raises (py_lift (X := env R) (inst_pk h m v)).
Proof. apply python_raises_lift. intros e. apply inst_pk_python. Qed.
End ReadRaises.

#[export] Hint Resolve python_raises_get_heap python_raises_get_db python_raises_inst_pk : raises.

Lemma python_raises_get_attr {R} v a : python_raises (get_attr (R := R) v a).
Proof. unfold get_attr. raises_tac. Qed.

Lemma python_raises_load_row {R} m kr : python_raises (load_row (R := R) m kr).
Proof. unfold load_row. raises_tac. Qed.

#[export] Hint Resolve python_raises_get_attr python_raises_load_row : raises.

Lemma python_raises_objects_all {R} m : python_raises (objects_all (R := R) m).
Proof. unfold objects_all. raises_tac. Qed.

Lemma python_raises_fk_get {R} inst f : python_raises (fk_get (R := R) inst f).
Proof. unfold fk_get. raises_tac. Qed.

Lemma python_raises_related_books {R} pub : python_raises (related_books (R := R) pub).
Proof. unfold related_books. raises_tac. Qed.

#[export] Hint Resolve python_raises_objects_all python_raises_fk_get python_raises_related_books : raises.

(** ** Reads leave the environment as it is *)

Section ReadWithin.
Context {R : Type} (RX : relation (env R)) `{!PreOrder RX}.

Lemma within_get_heap : within (ext_rel RX) (get_heap (R := R)).
Proof. intros w. red. simpl. reflexivity. Qed.

Lemma within_get_db : within (ext_rel RX) (get_db (R := R)).
Proof. intros w. red. simpl. reflexivity. Qed.
End ReadWithin.

#[export] Hint Resolve within_get_heap within_get_db : within.

Lemma within_get_attr {R} (RX : relation (env R)) `{!PreOrder RX} v a : within (ext_rel RX) (get_attr v a).
Proof. unfold get_attr. within_tac. Qed.

Lemma within_load_row {R} (RX : relation (env R)) `{!PreOrder RX} m kr : within (ext_rel RX) (load_row m kr).
Proof. unfold load_row. within_tac. Qed.

#[export] Hint Resolve within_get_attr within_load_row : within.

Lemma within_objects_all {R} (RX : relation (env R)) `{!PreOrder RX} m : within (ext_rel RX) (objects_all m).
Proof. unfold objects_all. within_tac. Qed.

Lemma within_fk_get {R} (RX : relation (env R)) `{!PreOrder RX} inst f : within (ext_rel RX) (fk_get inst f).
Proof. unfold fk_get. within_tac. Qed.

Lemma within_related_books {R} (RX : relation (env R)) `{!PreOrder RX} pub : within (ext_rel RX) (related_books pub).
Proof. unfold related_books. within_tac. Qed.

#[export] Hint Resolve within_objects_all within_fk_get within_related_books : within.

(** ** The order of the rows after an INSERT *)

Lemma omap_seqZ_zip {A} (a : Z) (rs : list A) :
  omap (fun k => pair k <$> rs !! Z.to_nat (k - a)) (seqZ a (Z.of_nat (length rs))) = zip (seqZ a (Z.of_nat (length rs))) rs.
Proof.
  revert a. induction rs as [|x rs IH]; intros a; [done|].
  rewrite seqZ_cons by (simpl; lia). simpl. rewrite Z.sub_diag. simpl. f_equal.
  replace (Z.pred (Z.of_nat (S (length rs)))) with (Z.of_nat (length rs)) by lia. rewrite <-IH.
  apply list_omap_ext, Forall_Forall2_diag, Forall_forall. intros k Hk%elem_of_seqZ.
  by replace (Z.to_nat (k - a)) with (S (Z.to_nat (k - Z.succ a))) by lia.
Qed.

(** [objects.all()] after an INSERT: the old rows, then the new ones
    with the keys they were given. *)
Lemma rows_in_order_insert t rs t' ks :
  keys_ok t -> insert_rows t rs = (t', ks) -> rows_in_order t' = rows_in_order t ++ zip ks rs.
Proof.
  intros [H1 _] Hi. destruct (insert_rows_lookup _ _ _ _ Hi) as (Hn & -> & Hl). rewrite Hn in Hl.
  unfold rows_in_order. rewrite Hn.
  replace (t_next t + Z.of_nat (length rs) - 1) with ((t_next t - 1) + Z.of_nat (length rs)) by lia.
  rewrite seqZ_app, omap_app by lia. f_equal.
  - apply list_omap_ext, Forall_Forall2_diag, Forall_forall. intros k Hk%elem_of_seqZ.
    rewrite Hl. case_bool_decide; [done|lia].
  - replace (1 + (t_next t - 1)) with (t_next t) by lia. rewrite <-omap_seqZ_zip.
    apply list_omap_ext, Forall_Forall2_diag, Forall_forall. intros k Hk%elem_of_seqZ.
    rewrite Hl. repeat case_bool_decide; try lia. done.
Qed.

(** ** The column types of the stored rows

    What [get_db_prep_save] guarantees of a stored value: never NULL; a
    date column holds a date, a PositiveIntegerField a non-negative int,
    a DecimalField a decimal with exactly [decimal_places] places and at
    most [max_digits] digits, a foreign key an int.  Char and text
    columns hold the value as given. *)
Definition has_type (ft : ftype) (v : val) : bool :=
  match ft, v with
  | _, VNone => false
  | FChar _, _ | FText, _ => true
  | FDate, VDate _ => true
  | FPosInt, VInt n => bool_decide (0 <= n)
  | FDecimal digits places, VDecimal n e => bool_decide (e = - places) && bool_decide (ndigits n <= digits)
  | FForeignKey _, VInt _ => true
  | _, _ => false
  end.

(** A row has the columns of the fields, in order, each of its type. *)
Fixpoint cols_typed (fs : list field) (r : row) : bool :=
  match fs, r with
  | [], [] => true
  | f :: fs', (c, v) :: r' => String.eqb c (column f) && has_type (f_type f) v && cols_typed fs' r'
  | _, _ => false
  end.

Definition row_typed (m : model) (r : row) : bool := cols_typed (model_fields m) r.

Definition db_typed (d : db) : Prop :=
  forall m, map_Forall (fun _ r => row_typed m r = true) (t_rows (db_table d m)).

Lemma prep_value_typed h ft v c : prep_value h ft v = inr c -> has_type ft c = true.
Proof.
  unfold prep_value. intros Hp. destruct v; try discriminate.
  all: destruct ft; repeat case_match; simplify_eq; try done.
  all: try (simpl; by apply bool_decide_eq_true; lia).
  all: unfold quantize in *; case_match; simplify_eq; simpl.
  all: apply andb_true_intro; split; apply bool_decide_eq_true; [done|lia].
Qed.

Lemma prep_row_typed h m attrs r : prep_row h m attrs = inr r -> row_typed m r = true.
Proof.
  unfold prep_row, row_typed. generalize (model_fields m) as fs. intros fs. revert r.
  induction fs as [|f fs IH]; intros r; simpl; [by intros [= <-]|].
  destruct (prep_value h (f_type f) _) as [e|c] eqn:Hv; [done|].
  destruct (mapE _ fs) as [e|cs] eqn:Hm; [done|]. intros [= <-]. simpl.
  rewrite String.eqb_refl, (prep_value_typed _ _ _ _ Hv). by apply IH.
Qed.

Lemma db_table_set d m t m' : db_table (set_table d m t) m' = if decide (m = m') then t else db_table d m'.
Proof. by destruct m, m'. Qed.

(** An INSERT of typed rows keeps every stored row typed. *)
Lemma db_insert_typed d m rows d' ks :
  db_typed d -> Forall (fun r => row_typed m r = true) rows -> db_insert d m rows = inr (d', ks) -> db_typed d'.
Proof.
  unfold db_insert. intros Hd Hr. case_match; [|done].
  destruct (insert_rows (db_table d m) rows) as [t' ks'] eqn:Ei. intros [= <- _] m' k r.
  rewrite db_table_set. case_decide; [subst m'|by apply Hd].
  intros Hk. destruct (insert_rows_lookup _ _ _ _ Ei) as (_ & _ & Hl). rewrite Hl in Hk.
  repeat case_bool_decide.
  - by apply (Hd m k).
  - rewrite Forall_forall in Hr. apply Hr. by eapply list_elem_of_lookup_2.
  - by apply (Hd m k).
Qed.

(** Every row [bulk_create] and [objects.create] insert comes from
    [prep_row], so they keep the stored rows typed. *)
Lemma keeps_bulk_create_typed {R} m objs : keeps db_typed (bulk_create (R := R) m objs).
Proof.
  unfold bulk_create. do 3 (apply keeps_bind; [solve [eauto with store]|intros ?]).
  apply keeps_lift_bind. intros rows Hrows. apply keeps_insert_rows; [|intros; keeps_tac].
  intros d d' ks Hd. apply db_insert_typed; [done|]. revert Hrows. apply mapE_Forall_inr.
  intros la r. apply prep_row_typed.
Qed.

Lemma keeps_objects_create_typed {R} m dv : keeps db_typed (objects_create (R := R) m dv).
Proof.
  unfold objects_create. do 3 (apply keeps_bind; [solve [eauto with store]|intros ?]).
  apply keeps_lift_bind. intros row Hrow. apply keeps_insert_rows; [|intros; keeps_tac].
  intros d d' ks Hd. apply db_insert_typed; [done|]. repeat constructor. by eapply prep_row_typed.
Qed.

Lemma m2m_closed_typed : m2m_closed db_typed.
Proof. intros d p bs Hd _ _ m. by destruct m; apply Hd. Qed.

#[export] Hint Resolve keeps_bulk_create_typed keeps_objects_create_typed m2m_closed_typed : store.

(** An INSERT into a consistent table adds exactly its rows. *)
Lemma insert_rows_size t rs t' ks :
  keys_ok t -> insert_rows t rs = (t', ks) -> size (t_rows t') = (size (t_rows t) + length rs)%nat.
Proof.
  intros Hk Hi. destruct (insert_rows_grow _ _ _ _ Hk Hi) as (Hk' & _ & _).
  destruct (insert_rows_lookup _ _ _ _ Hi) as (_ & Hks & _).
  rewrite <-(rows_in_order_length _ Hk'), <-(rows_in_order_length _ Hk), (rows_in_order_insert _ _ _ _ Hk Hi).
  rewrite length_app, length_zip, Hks, length_seqZ. lia.
Qed.
