(* ===== verification/Json.v ===== *)
(** * [json.dump(obj, f, ensure_ascii=False, indent=2)]

    The exporter writes its document with the standard library's
    encoder.  With an indent, [json.dump] always runs the pure-Python
    [_make_iterencode] (Lib/json/encoder.py) and writes each chunk it
    yields as soon as it is produced, so an error half-way leaves the
    chunks before it in the file.  [dump] follows that generator: it
    returns the text written and the exception that stopped it, if any.
    Strings are escaped as [py_encode_basestring] does (quote, backslash,
    the control characters); ints are printed by [int.__repr__], which
    refuses more than 4300 digits; floats by [float.__repr__] on the
    exact decimal (fixed notation when the decimal point falls between
    -4 and 16 digits, exponent notation otherwise), with Infinity and
    NaN spelled as JSON's extension does; a container already on the
    path being encoded is a ValueError (circular reference), any other
    object a TypeError.  [dump] recurses over containers with fuel:
    [json_dump] gives it the number of heap objects plus one, more than
    the length of any path of nested containers without a repeated one
    (a repeated one is the circular-reference error).

    A JSON document is the tree [jv]; [jprint] prints it the way the
    encoder does with indent 2, and [repr h L v j] says the heap value
    [v] is the tree [j] with no container of [L] on the path.  [dump] of
    a value that represents a tree writes [jprint] of that tree, and
    with [json_dump]'s depth it never runs out of fuel. *)

From S2P Require Import Prelude PyValue PyNum.

Local Open Scope Z_scope.

(** ** Decimal digits *)

Fixpoint dec_digits_fuel (fuel : nat) (n : Z) (acc : list ascii) : list ascii :=
  match fuel with
  | O => acc
  | S f =>
      let acc' := ascii_of_nat (48 + Z.to_nat (n mod 10)) :: acc in
      if n <? 10 then acc' else dec_digits_fuel f (n / 10) acc'
  end.

(** The decimal digits of [n >= 0]. *)
Definition dec_digits (n : Z) : list ascii := dec_digits_fuel (S (Z.to_nat (Z.log2 n))) n [].

(** [str(z)] / [int.__repr__], with the 4300-digit limit. *)
Definition int_repr (z : Z) : exn + string :=
  let ds := dec_digits (Z.abs z) in
  if (max_str_digits <? length ds)%nat then inl ValueError
  else inr (String.string_of_list_ascii (if z <? 0 then "-"%char :: ds else ds)).

Definition zeros (n : nat) : list ascii := repeat "0"%char n.

(** [float.__repr__] of [m * 10^e]. *)
Definition float_repr_dec (m e : Z) : string :=
  match dnorm m e with
  | PFin m' e' =>
      if m' =? 0 then "0.0"%string else
      let ds := dec_digits (Z.abs m') in
      let n := Z.of_nat (length ds) in
      let decpt := n + e' in
      let body :=
        if (-4 <? decpt) && (decpt <=? 16) then
          if decpt <=? 0 then ["0"; "."]%char ++ zeros (Z.to_nat (- decpt)) ++ ds
          else if n <=? decpt then ds ++ zeros (Z.to_nat (decpt - n)) ++ ["."; "0"]%char
          else take (Z.to_nat decpt) ds ++ "."%char :: drop (Z.to_nat decpt) ds
        else
          let x := decpt - 1 in
          let xd := dec_digits (Z.abs x) in
          take 1 ds ++ (if 1 <? n then "."%char :: drop 1 ds else []) ++
          "e"%char :: (if x <? 0 then "-"%char else "+"%char) ::
          (if (length xd <? 2)%nat then "0"%char :: xd else xd) in
      String.string_of_list_ascii (if m' <? 0 then "-"%char :: body else body)
  | _ => "0.0"%string
  end.

(** [_floatstr] *)
Definition json_float (f : pyfloat) : string :=
  match f with
  | PFin m e => float_repr_dec m e
  | PInf false => "Infinity"
  | PInf true => "-Infinity"
  | PNaN => "NaN"
  end.

(** ** Strings *)

Definition dq : ascii := ascii_of_nat 34.
Definition bsl : ascii := ascii_of_nat 92.

Definition hex_digit (n : nat) : ascii :=
  if (n <? 10)%nat then ascii_of_nat (48 + n) else ascii_of_nat (87 + n).

Definition escape_char (c : ascii) : list ascii :=
  let n := nat_of_ascii c in
  if (n =? 34)%nat then [bsl; dq]
  else if (n =? 92)%nat then [bsl; bsl]
  else if (n =? 10)%nat then [bsl; "n"%char]
  else if (n =? 13)%nat then [bsl; "r"%char]
  else if (n =? 9)%nat then [bsl; "t"%char]
  else if (n =? 8)%nat then [bsl; "b"%char]
  else if (n =? 12)%nat then [bsl; "f"%char]
  else if (n <? 32)%nat then [bsl; "u"%char; "0"%char; "0"%char; hex_digit (n / 16); hex_digit (n mod 16)]
  else [c].

(** [py_encode_basestring(s)] *)
Definition encode_str (s : string) : string :=
  String.string_of_list_ascii (dq :: flat_map escape_char (String.list_ascii_of_string s) ++ [dq]).

(** ** The encoder *)

Definition newline_indent (lvl : nat) : string :=
  String.string_of_list_ascii ("010"%char :: repeat " "%char (2 * lvl)).

(** Text written, and the exception that stopped the encoder. *)
Abbreviation out := (string * option exn)%type.

Definition emit (s : string) (k : out) : out := ((s +:+ k.1)%string, k.2).

Definition stop (s : string) (e : exn) : out := (s, Some e).

(** The chunk of a value encoded without recursion ([str], None, bools,
    ints, floats), or [None] for containers and other objects. *)
Definition scalar (v : val) : option (exn + string) :=
  match v with
  | VStr s => Some (inr (encode_str s))
  | VNone => Some (inr "null"%string)
  | VBool b => Some (inr (if b then "true" else "false")%string)
  | VInt z => Some (int_repr z)
  | VFloat f => Some (inr (json_float f))
  | _ => None
  end.

Section Encoder.
Variable h : heap.

(** The loop of [_iterencode_list] over a non-empty list, after the
    opening bracket: [rec] encodes a nested container. *)
Fixpoint list_items (rec : val -> out) (lvl : nat) (buf : string) (xs : list val) : out :=
  match xs with
  | [] => emit (newline_indent lvl) (emit "]" ("", None))
  | x :: xs' =>
      let next := ("," +:+ newline_indent (S lvl))%string in
      match scalar x with
      | Some (inr s) => emit (buf +:+ s) (list_items rec lvl next xs')
      | Some (inl e) => stop "" e
      | None =>
          let r := rec x in
          match r.2 with
          | Some e => (buf +:+ r.1, Some e)
          | None => emit (buf +:+ r.1) (list_items rec lvl next xs')
          end
      end
  end.

(** The loop of [_iterencode_dict] over a non-empty dict. *)
Fixpoint dict_items (rec : val -> out) (lvl : nat) (first : bool) (kvs : list (string * val)) : out :=
  match kvs with
  | [] => emit (newline_indent lvl) (emit "}" ("", None))
  | (k, x) :: kvs' =>
      let pre := ((if first then "" else "," +:+ newline_indent (S lvl)) +:+
                  encode_str k +:+ ": ")%string in
      match scalar x with
      | Some (inr s) => emit (pre +:+ s) (dict_items rec lvl false kvs')
      | Some (inl e) => stop pre e
      | None =>
          let r := rec x in
          match r.2 with
          | Some e => (pre +:+ r.1, Some e)
          | None => emit (pre +:+ r.1) (dict_items rec lvl false kvs')
          end
      end
  end.

(** [_iterencode(o)] for a non-scalar [o]: a list, a dict, or another
    object (TypeError from [default], after the circularity check). *)
Fixpoint dump (fuel : nat) (stack : list loc) (lvl : nat) (v : val) : out :=
  match fuel with
  | O => stop "" OutOfFuel
  | S f =>
      match v with
      | VRef l =>
          match heap_get h l with
          | None => stop "" Dangling
          | Some (OList []) => ("[]"%string, None)
          | Some (ODict []) => ("{}"%string, None)
          | Some o =>
              if bool_decide (l ∈ stack) then stop "" ValueError else
              match o with
              | OList xs => list_items (dump f (l :: stack) (S lvl)) lvl ("[" +:+ newline_indent (S lvl)) xs
              | ODict kvs => emit ("{" +:+ newline_indent (S lvl)) (dict_items (dump f (l :: stack) (S lvl)) lvl true kvs)
              | OInst _ _ => stop "" TypeError
              end
          end
      | _ => stop "" TypeError
      end
  end.

(** [json.dump(v, f, indent=2)]: the text written and the error. *)
Definition json_dump (v : val) : out :=
  match scalar v with
  | Some (inr s) => (s, None)
  | Some (inl e) => ("", Some e)
  | None => dump (S (length (map_to_list (hmap h)))) [] 0 v
  end.
End Encoder.

(** ** Documents: the reference printer

    A JSON document as a tree, without the heap: a scalar value, an array
    or an object.  [jprint lvl j] is the text [json.dump] writes for it,
    written directly over the tree; [repr h L v j] says that the value [v]
    of heap [h] is the document [j], using the locations of [L] with no
    container inside itself. *)

Unset Elimination Schemes.
Inductive jv := JAtom (v : val) | JArr (js : list jv) | JObj (kvs : list (string * jv)).
Set Elimination Schemes.

(** The induction principle of documents, with a hypothesis for every
    element of an array or an object. *)
Section JvInd.
Variable P : jv -> Prop.
Hypothesis Hatom : forall v, P (JAtom v).
Hypothesis Harr : forall js, Forall P js -> P (JArr js).
Hypothesis Hobj : forall kvs, Forall (fun kv => P kv.2) kvs -> P (JObj kvs).

Fixpoint jv_ind (j : jv) : P j :=
  match j with
  | JAtom v => Hatom v
  | JArr js =>
      Harr js ((fix go (js : list jv) : Forall P js :=
                  match js with [] => Forall_nil_2 _ | j :: js' => Forall_cons_2 _ _ _ (jv_ind j) (go js') end) js)
  | JObj kvs =>
      Hobj kvs ((fix go (kvs : list (string * jv)) : Forall (fun kv => P kv.2) kvs :=
                   match kvs with
                   | [] => Forall_nil_2 _
                   | kv :: kvs' => Forall_cons_2 _ _ _ (jv_ind kv.2) (go kvs')
                   end) kvs)
  end.
End JvInd.

Definition atom_text (v : val) : string := match scalar v with Some (inr s) => s | _ => "" end.

Fixpoint jitems (pr : jv -> string) (lvl : nat) (buf : string) (js : list jv) : string :=
  match js with
  | [] => newline_indent lvl +:+ "]"
  | j :: js' => buf +:+ pr j +:+ jitems pr lvl ("," +:+ newline_indent (S lvl)) js'
  end.

Fixpoint jfields (pr : jv -> string) (lvl : nat) (first : bool) (kvs : list (string * jv)) : string :=
  match kvs with
  | [] => newline_indent lvl +:+ "}"
  | (k, j) :: kvs' =>
      (if first then "" else "," +:+ newline_indent (S lvl)) +:+ encode_str k +:+ ": " +:+ pr j +:+
      jfields pr lvl false kvs'
  end.

Fixpoint jprint (lvl : nat) (j : jv) : string :=
  match j with
  | JAtom v => atom_text v
  | JArr [] => "[]"
  | JArr js => jitems (jprint (S lvl)) lvl ("[" +:+ newline_indent (S lvl)) js
  | JObj [] => "{}"
  | JObj kvs => "{" +:+ newline_indent (S lvl) +:+ jfields (jprint (S lvl)) lvl true kvs
  end.

Inductive repr (h : heap) : gset loc -> val -> jv -> Prop :=
| repr_atom L v s : scalar v = Some (inr s) -> repr h L v (JAtom v)
| repr_arr L l xs js : heap_get h l = Some (OList xs) -> l ∈ L ->
    Forall2 (repr h (L ∖ {[l]})) xs js -> repr h L (VRef l) (JArr js)
| repr_obj L l kvs jkvs : heap_get h l = Some (ODict kvs) -> l ∈ L ->
    Forall2 (fun kv jkv => kv.1 = jkv.1 /\ repr h (L ∖ {[l]}) kv.2 jkv.2) kvs jkvs ->
    repr h L (VRef l) (JObj jkvs).

(** ** The encoder prints the document a value represents *)

Lemma repr_scalar h L v j s : repr h L v j -> scalar v = Some s -> j = JAtom v /\ s = inr (atom_text v).
Proof. intros Hr Hs. inversion Hr; subst; [|done|done]. unfold atom_text. rewrite Hs in *. by simplify_eq. Qed.

Lemma repr_scalar_inl h L v j e : repr h L v j -> scalar v = Some (inl e) -> False.
Proof. intros Hr Hs. by destruct (repr_scalar _ _ _ _ _ Hr Hs). Qed.

(** Moving to a larger set of locations and a heap that keeps the
    objects of the value. *)
Lemma repr_weaken h h' L L' v j :
  repr h L v j -> L ⊆ L' -> (forall l o, l ∈ L -> heap_get h l = Some o -> heap_get h' l = Some o) ->
  repr h' L' v j.
Proof.
  revert L L' v. induction j as [a|js IH|kvs IH]; intros L L' v Hr HL Hh;
    inversion Hr as [? ? s Hs|? l xs ? Hl Hin HF|? l kvs' ? Hl Hin HF]; subst.
  - by econstructor.
  - apply (repr_arr _ _ l xs); [by apply Hh|set_solver|].
    apply (Forall2_Forall_r_impl _ _ _ _ _ IH HF). intros x j Hj Hxj.
    apply (Hj _ _ _ Hxj); [set_solver|]. intros l' o Hl'. apply Hh. set_solver.
  - apply (repr_obj _ _ l kvs'); [by apply Hh|set_solver|].
    apply (Forall2_Forall_r_impl _ _ _ _ _ IH HF). intros kv jkv Hj [Hk Hkv]. split; [done|].
    apply (Hj _ _ _ Hkv); [set_solver|]. intros l' o Hl'. apply Hh. set_solver.
Qed.

Section Print.
Variable h : heap.

Lemma list_items_repr L rec lvl xs js :
  (forall x j, repr h L x j -> scalar x = None -> rec x = (jprint (S lvl) j, None)) ->
  Forall2 (repr h L) xs js ->
  forall buf, list_items rec lvl buf xs = (jitems (jprint (S lvl)) lvl buf js, None).
Proof.
  intros Hrec HF. induction HF as [|x j xs js Hxj HF IH]; intros buf.
  - unfold list_items, emit. simpl. by rewrite str_app_nil_r.
  - simpl. destruct (scalar x) as [[e|s]|] eqn:Hx.
    + by destruct (repr_scalar_inl _ _ _ _ _ Hxj Hx).
    + destruct (repr_scalar _ _ _ _ _ Hxj Hx) as [-> [= ->]]. rewrite IH. unfold emit. simpl.
      by rewrite str_app_assoc.
    + rewrite (Hrec x j Hxj Hx). simpl. rewrite IH. unfold emit. simpl. by rewrite str_app_assoc.
Qed.

Lemma dict_items_repr L rec lvl kvs jkvs :
  (forall x j, repr h L x j -> scalar x = None -> rec x = (jprint (S lvl) j, None)) ->
  Forall2 (fun kv jkv => kv.1 = jkv.1 /\ repr h L kv.2 jkv.2) kvs jkvs ->
  forall first, dict_items rec lvl first kvs = (jfields (jprint (S lvl)) lvl first jkvs, None).
Proof.
  intros Hrec HF. induction HF as [|[k x] [k' j] kvs jkvs [Hk Hxj] HF IH]; intros first.
  - unfold dict_items, emit. simpl. by rewrite str_app_nil_r.
  - simpl in Hk, Hxj |- *. subst k'. destruct (scalar x) as [[e|s]|] eqn:Hx.
    + by destruct (repr_scalar_inl _ _ _ _ _ Hxj Hx).
    + destruct (repr_scalar _ _ _ _ _ Hxj Hx) as [-> [= ->]]. rewrite IH. unfold emit. simpl.
      by rewrite !str_app_assoc.
    + rewrite (Hrec x j Hxj Hx). simpl. rewrite IH. unfold emit. simpl. by rewrite !str_app_assoc.
Qed.

(** With more fuel than locations, and none of them on the stack, the
    encoder writes the document's text and raises nothing. *)
Lemma dump_repr fuel : forall L v j st lvl,
  repr h L v j -> scalar v = None -> (size L < fuel)%nat -> (forall l, l ∈ L -> l ∉ st) ->
  dump h fuel st lvl v = (jprint lvl j, None).
Proof.
  induction fuel as [|f IH]; intros L v j st lvl Hr Hs Hf Hst; [lia|].
  assert (Hrec : forall l, l ∈ L -> forall x j, repr h (L ∖ {[l]}) x j -> scalar x = None ->
                   dump h f (l :: st) (S lvl) x = (jprint (S lvl) j, None)).
  { intros l Hl x j' Hxj Hx. apply (IH (L ∖ {[l]})); [done|done| |set_solver].
    pose proof (subseteq_size {[l]} L ltac:(set_solver)) as Hsz.
    rewrite size_singleton in Hsz. rewrite size_difference, size_singleton by set_solver. lia. }
  inversion Hr as [? ? s Hsc|? l xs js Hl Hin HF|? l kvs jkvs Hl Hin HF]; subst; [congruence| |];
    simpl; rewrite Hl.
  - destruct xs as [|x xs]; [by inversion HF|]. destruct js as [|j js]; [by inversion HF|].
    rewrite bool_decide_false by (apply Hst; done).
    by apply (list_items_repr (L ∖ {[l]}) _ _ (x :: xs) (j :: js)); [apply Hrec|].
  - destruct kvs as [|kv kvs]; [by inversion HF|]. destruct jkvs as [|jkv jkvs]; [by inversion HF|].
    rewrite bool_decide_false by (apply Hst; done).
    rewrite (dict_items_repr (L ∖ {[l]}) _ _ (kv :: kvs) (jkv :: jkvs)); [|by apply Hrec|done]. unfold emit. simpl. by rewrite str_app_assoc.
Qed.

(** [json.dump] of a value representing [j], with locations of the
    heap, writes [jprint 0 j]. *)
Lemma json_dump_repr L v j : repr h L v j -> L ⊆ dom (hmap h) -> json_dump h v = (jprint 0 j, None).
Proof.
  intros Hr HL. unfold json_dump. destruct (scalar v) as [[e|s]|] eqn:Hs.
  - by destruct (repr_scalar_inl _ _ _ _ _ Hr Hs).
  - by destruct (repr_scalar _ _ _ _ _ Hr Hs) as [-> [= ->]].
  - apply (dump_repr _ L); [done|done| |set_solver].
    rewrite length_map_to_list, <-(size_dom (D := gset loc)). apply subseteq_size in HL. lia.
Qed.
End Print.

(** ** Documents kept by a growing heap

    [stable M h v j]: [v] represents [j] in [h] with locations of [h]
    outside [M]; a computation that only mutates objects of [M] keeps it. *)
Definition stable (M : gset loc) (h : heap) (v : val) (j : jv) : Prop :=
  exists F, repr h F v j /\ F ⊆ dom (hmap h) /\ F ## M.

Lemma stable_ext M0 M h h' v j : stable M0 h v j -> heap_ext M h h' -> M ⊆ M0 -> stable M0 h' v j.
Proof.
  intros (F & Hr & HF & Hd) Hext HM. exists F. split_and!; [| |done].
  - apply (repr_weaken h h' F F v j Hr); [done|]. intros l o Hl Ho. apply Hext; [set_solver|done].
  - pose proof (heap_ext_dom _ _ _ Hext). set_solver.
Qed.

Lemma stable_atom M h v s : scalar v = Some (inr s) -> stable M h v (JAtom v).
Proof. intros Hs. exists ∅. split_and!; [by econstructor|set_solver|set_solver]. Qed.

(** A list object of [h] whose entries are stable documents is the
    array of them, inside any [L] holding it and every location of [h]
    outside [M]. *)
Lemma repr_list_stable M h L l xs js :
  heap_get h l = Some (OList xs) -> l ∈ L -> dom (hmap h) ∖ M ⊆ L ∖ {[l]} ->
  Forall2 (stable M h) xs js -> repr h L (VRef l) (JArr js).
Proof.
  intros Hl HL Hdom HF. apply (repr_arr _ _ l xs); [done|done|].
  eapply Forall2_impl; [exact HF|]. intros x j (F & Hr & HFd & Hd).
  apply (repr_weaken h h F); [done|set_solver|done].
Qed.

Lemma Forall2_stable_ext M0 M h h' xs js :
  Forall2 (stable M0 h) xs js -> heap_ext M h h' -> M ⊆ M0 -> Forall2 (stable M0 h') xs js.
Proof. intros HF Hext HM. eapply Forall2_impl; [exact HF|]. intros x j Hx. by eapply stable_ext. Qed.

(** ** The depth given to the encoder is enough *)

Lemma dec_digits_fuel_length f : forall n acc, (length (dec_digits_fuel f n acc) <= f + length acc)%nat.
Proof.
  induction f as [|f IH]; intros n acc; simpl; [lia|].
  destruct (n <? 10); simpl; [lia|]. specialize (IH (n / 10) (ascii_of_nat (48 + Z.to_nat (n mod 10)) :: acc)).
  simpl in IH. lia.
Qed.

(** [str(z)] succeeds below the 4300-digit limit. *)
Lemma int_repr_ok z : Z.log2 (Z.abs z) < 4299 -> exists s, int_repr z = inr s.
Proof.
  intros Hz. unfold int_repr, dec_digits.
  pose proof (dec_digits_fuel_length (S (Z.to_nat (Z.log2 (Z.abs z)))) (Z.abs z) []) as Hl.
  cbn [length] in Hl.
  rewrite (proj2 (Nat.ltb_ge _ _)); [by eexists|]. unfold max_str_digits. lia.
Qed.

Lemma scalar_error v e : scalar v = Some (inl e) -> e = ValueError.
Proof. destruct v; simpl; try discriminate. unfold int_repr. case_match; congruence. Qed.

Section Fuel.
Variable h : heap.

Lemma list_items_no_fuel_error rec lvl buf xs :
  (forall x, (rec x).2 <> Some OutOfFuel) -> (list_items rec lvl buf xs).2 <> Some OutOfFuel.
Proof.
  intros Hrec. revert buf. induction xs as [|x xs IH]; intros buf; [done|]. simpl.
  destruct (scalar x) as [[e|s]|] eqn:Hx; simpl; [by rewrite (scalar_error _ _ Hx)|apply IH|].
  specialize (Hrec x). destruct (rec x) as [t [e|]]; simpl in *; [done|apply IH].
Qed.

Lemma dict_items_no_fuel_error rec lvl first kvs :
  (forall x, (rec x).2 <> Some OutOfFuel) -> (dict_items rec lvl first kvs).2 <> Some OutOfFuel.
Proof.
  intros Hrec. revert first. induction kvs as [|[k x] kvs IH]; intros first; [done|]. simpl.
  destruct (scalar x) as [[e|s]|] eqn:Hx; simpl; [by rewrite (scalar_error _ _ Hx)|apply IH|].
  specialize (Hrec x). destruct (rec x) as [t [e|]]; simpl in *; [done|apply IH].
Qed.

(** A stack of distinct allocated containers is no longer than the
    heap, so fuel above the heap's size less the stack never runs out. *)
Lemma dump_no_fuel_error fuel : forall st lvl v,
  NoDup st -> (forall l, l ∈ st -> l ∈ dom (hmap h)) -> (size (hmap h) < fuel + length st)%nat ->
  (dump h fuel st lvl v).2 <> Some OutOfFuel.
Proof.
  induction fuel as [|f IH]; intros st lvl v Hnd Hst Hf.
  - pose proof (subseteq_size (list_to_set (C := gset loc) st) (dom (hmap h)) ltac:(intros l; rewrite elem_of_list_to_set; apply Hst)).
    rewrite size_list_to_set, size_dom in H by done. lia.
  - destruct v as [| | | | | | |l]; simpl; try done.
    destruct (heap_get h l) as [o|] eqn:Hl; [|done].
    destruct (decide (l ∈ st)) as [Hin|Hnin].
    { destruct o as [[|x xs]|[|kv kvs]|c a]; try done; by rewrite bool_decide_true. }
    assert (Hrec : forall x, (dump h f (l :: st) (S lvl) x).2 <> Some OutOfFuel).
    { intros x. apply IH; [by constructor| |simpl; lia].
      intros l' [->|Hl']%elem_of_cons; [apply elem_of_dom; by eexists|by apply Hst]. }
    destruct o as [[|x xs]|[|kv kvs]|c a]; try done; rewrite bool_decide_false by done.
    + exact (dict_items_no_fuel_error _ _ _ _ Hrec).
    + by apply list_items_no_fuel_error.
    + done.
Qed.

(** [json.dump] with the depth [json_dump] gives it never runs out: its
    only errors are those of Python (circular reference, an object it
    cannot encode, an int of more than 4300 digits) and a dangling
    reference, which a closed heap has not. *)
Lemma json_dump_no_fuel_error v : (json_dump h v).2 <> Some OutOfFuel.
Proof.
  unfold json_dump. destruct (scalar v) as [[e|s]|] eqn:Hs; [simpl; by rewrite (scalar_error _ _ Hs)|done|].
  apply dump_no_fuel_error; [constructor|set_solver|]. rewrite length_map_to_list. simpl. lia.
Qed.
End Fuel.
