(* ===== verification/Importer.v ===== *)
(** * [import_to_database] (src/data_import_export.py, lines 90-122)

    The importer builds one model instance per input record, bulk-inserts
    the authors, gives every book a random stored author and bulk-inserts
    the books, then creates the publishers one by one and relates each to
    a random sample of at most 10 stored books.  It runs in [DbM R]: the
    heap of Python objects, the database of [Store] and the random state
    [R] (drawn from through [Random]).  The theorems show

    - that the database invariant [db_ok] holds after every run, also
      after a failed one ([import_preserves], used by the later files);
    - that, given a list instead of a dict (as [main] does), it fails
      with TypeError without touching the database;
    - that with no authors, stored or given, and a book to import, it
      fails with IndexError in [random.choice] before any book is stored;
    - that every publisher stays related to at most 10 books and to no
      more books than the table holds ([rel_bounded]), after every run. *)

From S2P Require Import Prelude PyValue PyNum Schema Random Store.
Import Fields.

Local Open Scope Z_scope.

(** [random.sample] is given this many redraws per element when it uses
    its set algorithm (populations of more than 85 books). *)
Definition sample_fuel : nat := 1000%nat.

Section Importer.
Context `{RandomSource R}.

(** Run a draw of the [random] module on the random state. *)
Definition rng {A} (c : PM exn R A) : DbM R A :=
  pm_zoom (fun w => e_rng (w_ext w))
          (fun r w => mkWorld (w_heap w) (mkEnv (e_db (w_ext w)) r (e_files (w_ext w)))) c.

(** The elements of a list object. *)
Definition py_list (v : val) : DbM R (list val) :=
  match v with
  | VRef l => o <- py_load l ;; match o with OList xs => pm_ret xs | _ => pm_raise TypeError end
  | _ => pm_raise TypeError
  end.

(** [len(v)] of a list or a dict. *)
Definition py_len (v : val) : DbM R Z :=
  match v with
  | VRef l =>
      o <- py_load l ;;
      match o with
      | OList xs => pm_ret (Z.of_nat (length xs))
      | ODict kvs => pm_ret (Z.of_nat (length kvs))
      | OInst _ _ => pm_raise TypeError
      end
  | VStr s => pm_ret (Z.of_nat (String.length s))
  | _ => pm_raise TypeError
  end.

(** [random.choice(xs)] on a list object. *)
Definition py_choice (v : val) : DbM R val := xs <- py_list v ;; rng (choice xs).

(** [random.sample(xs, k)] on a list object: a new list. *)
Definition py_sample (v : val) (k : Z) : DbM R val :=
  xs <- py_list v ;;
  ys <- rng (sample sample_fuel xs k) ;;
  l <- py_alloc (OList ys) ;;
  pm_ret (VRef l).

(** Lines 93-97 *)
Definition import_authors (data : val) : DbM R val :=
  author_objs <- py_alloc (OList []) ;;
  ads <- (x <- py_getitem data "authors" ;; py_iter x) ;;
  pm_iter (fun author_data =>
             author <- py_new MAuthor author_data ;;
             py_append (VRef author_objs) author) ads ;;
  _ <- bulk_create MAuthor (VRef author_objs) ;;
  pm_ret (VRef author_objs).

(** Lines 100-106 *)
Definition import_books (data : val) : DbM R val :=
  all_authors <- objects_all MAuthor ;;
  book_objs <- py_alloc (OList []) ;;
  bds <- (x <- py_getitem data "books" ;; py_iter x) ;;
  pm_iter (fun book_data =>
             a <- py_choice all_authors ;;
             py_setitem book_data "author" a ;;
             book <- py_new MBook book_data ;;
             py_append (VRef book_objs) book) bds ;;
  _ <- bulk_create MBook (VRef book_objs) ;;
  pm_ret (VRef book_objs).

(** Lines 109-116 *)
Definition import_publishers (data : val) : DbM R val :=
  all_books <- objects_all MBook ;;
  publisher_objs <- py_alloc (OList []) ;;
  pds <- (x <- py_getitem data "publishers" ;; py_iter x) ;;
  pm_iter (fun publisher_data =>
             publisher <- objects_create MPublisher publisher_data ;;
             n <- py_len all_books ;;
             books_to_assign <- py_sample all_books (Z.min 10 n) ;;
             m2m_set publisher books_to_assign ;;
             py_append (VRef publisher_objs) publisher) pds ;;
  pm_ret (VRef publisher_objs).

(** [import_to_database(data)], lines 90-122 *)
Definition import_to_database (data : val) : DbM R val :=
  author_objs <- import_authors data ;;
  book_objs <- import_books data ;;
  publisher_objs <- import_publishers data ;;
  na <- py_len author_objs ;;
  nb <- py_len book_objs ;;
  np <- py_len publisher_objs ;;
  d <- py_alloc (ODict [("authors", VInt na); ("books", VInt nb); ("publishers", VInt np)]) ;;
  pm_ret (VRef d).

End Importer.

(** ** The database stays consistent *)

Section Invariant.
Context `{RandomSource R}.

Lemma keeps_rng {A} I (c : PM exn R A) : keeps I (rng c).
Proof. intros w. unfold rng, pm_zoom. by destruct (c _). Qed.

Lemma keeps_py_list I v : keeps I (py_list (R := R) v).
Proof. unfold py_list. keeps_tac. Qed.

Lemma keeps_py_len I v : keeps I (py_len (R := R) v).
Proof. unfold py_len. keeps_tac. Qed.
End Invariant.

#[export] Hint Resolve keeps_rng keeps_py_list keeps_py_len : store.

Lemma python_raises_py_list `{RandomSource R} v : python_raises (py_list (R := R) v).
Proof. unfold py_list. raises_tac. Qed.

Lemma python_raises_py_len `{RandomSource R} v : python_raises (py_len (R := R) v).
Proof. unfold py_len. raises_tac. Qed.

#[export] Hint Resolve python_raises_py_list python_raises_py_len : raises.

Lemma within_py_list `{RandomSource R} (RX : relation (env R)) `{!PreOrder RX} v : within (ext_rel RX) (py_list v).
Proof. unfold py_list. within_tac. Qed.

Lemma within_py_len `{RandomSource R} (RX : relation (env R)) `{!PreOrder RX} v : within (ext_rel RX) (py_len v).
Proof. unfold py_len. within_tac. Qed.

#[export] Hint Resolve within_py_list within_py_len : within.

Lemma keeps_py_choice `{RandomSource R} I v : keeps I (py_choice (R := R) v).
Proof. unfold py_choice. keeps_tac. Qed.

Lemma keeps_py_sample `{RandomSource R} I v k : keeps I (py_sample (R := R) v k).
Proof. unfold py_sample. keeps_tac. Qed.

#[export] Hint Resolve keeps_py_choice keeps_py_sample : store.

Lemma import_preserves `{RandomSource R} data : preserves (import_to_database (R := R) data).
Proof. unfold import_to_database, import_authors, import_books, import_publishers. keeps_tac. Qed.

(** ** Runs *)

Lemma py_choice_empty `{RandomSource R} l (w : world (env R)) :
  heap_get (w_heap w) l = Some (OList []) -> py_choice (VRef l) w = (inl IndexError, w).
Proof.
  intros Hl. unfold py_choice, py_list. rewrite pm_bind_assoc. pm_run (py_load_run _ _ _ Hl).
  destruct w as [h [d r fs]]. reflexivity.
Qed.

Lemma import_list_run `{RandomSource R} l xs (w : world (env R)) :
  heap_wf (w_heap w) -> heap_get (w_heap w) l = Some (OList xs) ->
  import_to_database (VRef l) w
  = (inl TypeError, mkWorld (with_obj (w_heap w) (hnext (w_heap w)) (OList [])) (w_ext w)).
Proof.
  intros Hwf Hl. destruct w as [h x]. simpl in *. unfold import_to_database, import_authors.
  pm_step (py_alloc_run (OList []) h x).
  by pm_step (py_getitem_list l xs "authors" (mkWorld (with_obj h (hnext h) (OList [])) x)
              ltac:(simpl; eauto with heap)).
Qed.

(** C18. Given a list, as [main] passes it the cleaned list of keys,
    [import_to_database] raises TypeError at [data['authors']] (line 94):
    only the empty [author_objs] list has been allocated, and the
    database, the random state and the files are untouched. *)
Theorem import_rejects_list `{RandomSource R} l xs (w : world (env R)) :
  heap_wf (w_heap w) -> heap_get (w_heap w) l = Some (OList xs) ->
  import_to_database (VRef l) w
  = (inl TypeError, mkWorld (with_obj (w_heap w) (hnext (w_heap w)) (OList [])) (w_ext w)).
Proof. intros; eapply import_list_run; eassumption. Qed.

(** C21. With no author stored and none given, and at least one book
    to import, [import_to_database] raises IndexError in
    [random.choice(all_authors)] (line 103) for the first book, before
    [Book.objects.bulk_create] (line 106): the database is unchanged. *)
Theorem import_no_authors `{RandomSource R} ld kvs la lb b bs (w : world (env R)) :
  heap_wf (w_heap w) -> heap_get (w_heap w) ld = Some (ODict kvs) ->
  assoc_lookup "authors" kvs = Some (VRef la) -> heap_get (w_heap w) la = Some (OList []) ->
  assoc_lookup "books" kvs = Some (VRef lb) -> heap_get (w_heap w) lb = Some (OList (b :: bs)) ->
  t_rows (db_authors (e_db (w_ext w))) = ∅ ->
  (import_to_database (VRef ld) w).1 = inl IndexError /\
  e_db (w_ext (import_to_database (VRef ld) w).2) = e_db (w_ext w).
Proof.
  intros Hwf Hd Ha Hla Hb Hlb Hempty. destruct w as [h [d r fs]]. simpl in *.
  set (h1 := with_obj h (hnext h) (OList [])).
  assert (heap_wf h1) as Hwf1 by (eauto with heap).
  assert (import_authors (VRef ld) (mkWorld h (mkEnv d r fs))
          = (inr (VRef (hnext h)), mkWorld h1 (mkEnv d r fs))) as Hia.
  { unfold import_authors. pm_step (py_alloc_run (OList []) h (mkEnv d r fs)).
    pm_step (py_getitem_dict "authors" ld kvs _ (mkWorld h1 (mkEnv d r fs)) ltac:(simpl; eauto with heap) Ha).
    pm_step (py_iter_list la [] (mkWorld h1 (mkEnv d r fs)) ltac:(simpl; eauto with heap)). simpl.
    by pm_step (bulk_create_empty MAuthor (hnext h) h1 d r fs ltac:(apply heap_get_with_obj_eq)). }
  set (h2 := with_obj h1 (hnext h1) (OList [])). set (h3 := with_obj h2 (hnext h2) (OList [])).
  assert (heap_wf h2 /\ heap_wf h3) as [Hwf2 Hwf3] by (split; eauto with heap).
  assert (import_books (VRef ld) (mkWorld h1 (mkEnv d r fs)) = (inl IndexError, mkWorld h3 (mkEnv d r fs))) as Hib.
  { unfold import_books. pm_step (objects_all_empty MAuthor h1 d r fs Hempty).
    pm_step (py_alloc_run (OList []) h2 (mkEnv d r fs)). rewrite pm_bind_assoc.
    pm_step (py_getitem_dict "books" ld kvs _ (mkWorld h3 (mkEnv d r fs)) ltac:(simpl; eauto 6 with heap) Hb).
    pm_step (py_iter_list lb (b :: bs) (mkWorld h3 (mkEnv d r fs)) ltac:(simpl; eauto 6 with heap)).
    simpl.
    by pm_step (py_choice_empty (hnext h1) (mkWorld h3 (mkEnv d r fs)) ltac:(simpl; eauto with heap)). }
  unfold import_to_database. pm_step Hia. by pm_step Hib.
Qed.

(** An input with no author, no book and one publisher whose fields
    are the strings [n], [a], [u], [e]: the dict at location 1. *)
Definition one_publisher_heap (n a u e : string) : heap :=
  heap_of [ODict [("authors", VRef 2); ("books", VRef 3); ("publishers", VRef 4)];
           OList []; OList []; OList [VRef 5];
           ODict [("name", VStr n); ("address", VStr a); ("website", VStr u); ("contact_email", VStr e)]].

Lemma rng_run `{RandomSource R} {A} (c : PM exn R A) h d (r : R) fs :
  rng c (mkWorld h (mkEnv d r fs)) = ((c r).1, mkWorld h (mkEnv d (c r).2 fs)).
Proof. unfold rng, pm_zoom. simpl. by destruct (c r). Qed.

Lemma py_list_run `{RandomSource R} l xs (w : world (env R)) :
  heap_get (w_heap w) l = Some (OList xs) -> py_list (VRef l) w = (inr xs, w).
Proof. intros Hl. unfold py_list. by rewrite pm_bind_run, (py_load_run _ _ _ Hl). Qed.

Lemma py_len_list `{RandomSource R} l xs (w : world (env R)) :
  heap_get (w_heap w) l = Some (OList xs) -> py_len (VRef l) w = (inr (Z.of_nat (length xs)), w).
Proof. intros Hl. unfold py_len. by rewrite pm_bind_run, (py_load_run _ _ _ Hl). Qed.

Lemma py_choice_run `{RandomSource R} l xs h d (r : R) fs :
  heap_get h l = Some (OList xs) ->
  py_choice (VRef l) (mkWorld h (mkEnv d r fs))
  = ((choice xs r).1, mkWorld h (mkEnv d (choice xs r).2 fs)).
Proof.
  intros Hl. unfold py_choice, py_list. rewrite pm_bind_assoc.
  pm_run (py_load_run l (mkWorld h (mkEnv d r fs)) _ Hl). apply rng_run.
Qed.

(** ** The books related to each publisher *)

(** [random.sample(v, k)] gives a new list object of [k] entries and
    leaves the database as it was. *)
Lemma py_sample_inr `{RandomSource R} v k b (w w' : world (env R)) :
  py_sample v k w = (inr b, w') ->
  exists l ys, b = VRef l /\ heap_get (w_heap w') l = Some (OList ys) /\
               length ys = Z.to_nat k /\ e_db (w_ext w') = e_db (w_ext w).
Proof.
  unfold py_sample. rewrite pm_bind_run.
  pose proof (keeps_py_list (fun d => d = e_db (w_ext w)) v w eq_refl) as D.
  destruct (py_list v w) as [[e|xs] [h [d r fs]]]; [done|]. simpl in D. subst d.
  rewrite pm_bind_run, rng_run.
  destruct (sample sample_fuel xs k r) as [[e|ys] r'] eqn:Hs; [done|]. simpl.
  rewrite pm_bind_run, py_alloc_run. intros [= <- <-].
  exists (hnext h), ys. split_and!; [done|apply heap_get_with_obj_eq|by eapply sample_inr_length|done].
Qed.

(** Lines 113-114: relating a publisher to a sample of at most [n]
    books keeps an invariant closed under [books.set] of [n] books. *)
Lemma keeps_sample_set `{RandomSource R} {A} n I v k pub (rest : DbM R A) :
  m2m_closed_len n I -> (Z.to_nat k <= n)%nat -> keeps I rest ->
  keeps I (b <- py_sample v k ;; m2m_set pub b ;; rest).
Proof.
  intros HI Hk Hr w Hw. pose proof (keeps_py_sample I v k w Hw) as H1.
  rewrite pm_bind_run. destruct (py_sample v k w) as [[e|b] w1] eqn:E; [done|].
  destruct (py_sample_inr _ _ _ _ _ E) as (l & ys & -> & Hl & Hlen & Hd).
  pose proof (m2m_set_len n I pub l ys w1 HI Hl ltac:(lia) ltac:(by rewrite Hd)) as H2.
  rewrite pm_bind_run. destruct (m2m_set pub (VRef l) w1) as [[e|[]] w2]; [done|]. by apply Hr.
Qed.

Lemma import_keeps_bounded `{RandomSource R} data : keeps (rel_bounded 10) (import_to_database (R := R) data).
Proof.
  unfold import_to_database, import_authors, import_books, import_publishers.
  keeps_tac_with ltac:(apply (keeps_sample_set 10); [apply m2m_closed_len_bounded|lia|]).
Qed.

(** C19. Whatever the input and the random draws, and also when it
    raises, [import_to_database] leaves every publisher related to at
    most 10 books, and to no more books than are stored, if the database
    was consistent and no publisher had more than 10 books before: each
    publisher is given [random.sample(all_books, min(10, len(all_books)))]
    (line 113), a list of at most 10 stored books. *)
Theorem import_publisher_books_bounded `{RandomSource R} data (w : world (env R)) :
  db_ok (e_db (w_ext w)) -> rel_bounded 10 (e_db (w_ext w)) ->
  forall p, (related_count (e_db (w_ext (import_to_database data w).2)) p <= 10)%nat /\
            (related_count (e_db (w_ext (import_to_database data w).2)) p <=
             size (t_rows (db_books (e_db (w_ext (import_to_database data w).2)))))%nat.
Proof.
  intros Hok Hb p. split; [by apply import_keeps_bounded|].
  apply related_count_le_books. by destruct (import_preserves data w Hok) as (_ & _ & _ & _ & _ & ?).
Qed.

(** ** Witnesses, with the LCG source *)

Definition list_input_heap : heap := heap_of [OList [VStr "authors"; VStr "books"; VStr "publishers"]].

Lemma import_rejects_list_witness :
  heap_wf list_input_heap /\
  heap_get list_input_heap 1 = Some (OList [VStr "authors"; VStr "books"; VStr "publishers"]) /\
  import_to_database (VRef 1) (mkWorld list_input_heap (mkEnv empty_db 0 ∅))
  = (inl TypeError, mkWorld (with_obj list_input_heap (hnext list_input_heap) (OList []))
                            (mkEnv empty_db 0 ∅)).
Proof.
  assert (Hwf : heap_wf list_input_heap) by (apply heap_closed_wf; decide_by_compute).
  split; [exact Hwf|]. split; [reflexivity|].
  exact (import_rejects_list 1 _ (mkWorld list_input_heap (mkEnv empty_db 0 ∅)) Hwf eq_refl).
Defined.

Definition no_author_heap : heap :=
  heap_of [ODict [("authors", VRef 2); ("books", VRef 3); ("publishers", VRef 2)]; OList []; OList [VNone]].

Lemma import_no_authors_witness :
  heap_wf no_author_heap /\
  heap_get no_author_heap 1 = Some (ODict [("authors", VRef 2); ("books", VRef 3); ("publishers", VRef 2)]) /\
  heap_get no_author_heap 2 = Some (OList []) /\ heap_get no_author_heap 3 = Some (OList [VNone]) /\
  t_rows (db_authors empty_db) = ∅ /\
  (import_to_database (VRef 1) (mkWorld no_author_heap (mkEnv empty_db 0 ∅))).1 = inl IndexError /\
  e_db (w_ext (import_to_database (VRef 1) (mkWorld no_author_heap (mkEnv empty_db 0 ∅))).2) = empty_db.
Proof.
  assert (Hwf : heap_wf no_author_heap) by (apply heap_closed_wf; decide_by_compute).
  destruct (import_no_authors 1 _ 2 3 VNone [] (mkWorld no_author_heap (mkEnv empty_db 0 ∅)) Hwf
              eq_refl eq_refl eq_refl eq_refl eq_refl eq_refl) as [H1 H2].
  split_and!; [exact Hwf|reflexivity|reflexivity|reflexivity|reflexivity|exact H1|exact H2].
Defined.

Definition one_publisher_world : world (env Z) :=
  mkWorld (one_publisher_heap "P" "A" "W" "E") (mkEnv empty_db 0 ∅).

Lemma import_publisher_books_bounded_witness :
  db_ok (e_db (w_ext one_publisher_world)) /\ rel_bounded 10 (e_db (w_ext one_publisher_world)) /\
  (related_count (e_db (w_ext (import_to_database (VRef 1) one_publisher_world).2)) 1 <= 10)%nat.
Proof.
  assert (Hb : rel_bounded 10 (e_db (w_ext one_publisher_world))) by (intros p; vm_compute; lia).
  split_and!; [exact empty_db_ok|exact Hb|].
  exact (proj1 (import_publisher_books_bounded (VRef 1) one_publisher_world empty_db_ok Hb 1)).
Defined.
