(* ===== verification/Generator.v ===== *)
(** * [generate_sample_data] (src/data_import_export.py, lines 45-88)

    The generator draws every field from Faker ([fake = Faker('zh_CN')],
    line 18) and from the [random] module.  Faker is a library: its
    providers are the class [Faker] below, with what the script relies
    on (a date of birth and a publication date are real dates, a text is
    at most [max_nb_chars] long).  Both sources live in the random state
    [R] of the environment.  The records are new dicts in the heap,
    appended to three new lists, returned in a new dict.  A price is
    [round(random.uniform(5.99, 99.99), 2)]: [uniform] draws a double
    between the bounds (exact decimal of 55 places), and rounding to two
    places keeps it a multiple of 0.01 in the interval. *)

From S2P Require Import Prelude PyValue PyNum Schema Random Store Json Importer.
Import Fields.

Local Open Scope Z_scope.

(** ** The data provider *)

Class Faker (R : Type) := {
  fake_name : R -> string * R;
  fake_date_of_birth (minimum_age maximum_age : Z) : R -> date * R;
  fake_country : R -> string * R;
  fake_text (max_nb_chars : Z) : R -> string * R;
  fake_catch_phrase : R -> string * R;
  fake_date_between (start_date end_date : string) : R -> date * R;
  fake_isbn13 : R -> string * R;
  fake_company : R -> string * R;
  fake_address : R -> string * R;
  fake_url : R -> string * R;
  fake_company_email : R -> string * R;
  fake_date_of_birth_valid a b r : date_valid (fake_date_of_birth a b r).1 = true;
  fake_date_between_valid s e r : date_valid (fake_date_between s e r).1 = true;
  fake_text_length n r : (String.length (fake_text n r).1 <= Z.to_nat n)%nat
}.

Section Generator.
Context `{RandomSource R, Faker R}.

(** A call [fake.provider(...)]. *)
Definition fake {A} (f : R -> A * R) : DbM R A :=
  rng (fun r => let '(a, r') := f r in (inr a, r')).

(** [round(random.uniform(5.99, 99.99), 2)] *)
Definition random_price : DbM R pyfloat :=
  u <- rng (uniform_dec 599 (-2) 9999 (-2)) ;;
  pm_ret (py_round (round_dec u.1 u.2) 2).

(** Lines 52-59: one author record. *)
Definition gen_author (authors : loc) : DbM R unit :=
  nm <- fake fake_name ;;
  bd <- fake (fake_date_of_birth 25 85) ;;
  c <- fake fake_country ;;
  bio <- fake (fake_text 500) ;;
  a <- py_alloc (ODict [("name", VStr nm); ("birth_date", VDate bd); ("country", VStr c);
                        ("biography", VStr bio)]) ;;
  py_append (VRef authors) (VRef a).

(** Lines 63-72: one book record. *)
Definition gen_book (genres books : loc) : DbM R unit :=
  t <- fake fake_catch_phrase ;;
  pd <- fake (fake_date_between "-30y" "today") ;;
  g <- py_choice (VRef genres) ;;
  isbn <- fake fake_isbn13 ;;
  pages <- rng (randint 100 800) ;;
  price <- random_price ;;
  b <- py_alloc (ODict [("title", VStr t); ("publication_date", VDate pd); ("genre", g);
                        ("isbn", VStr isbn); ("pages", VInt pages); ("price", VFloat price)]) ;;
  py_append (VRef books) (VRef b).

(** Lines 75-82: one publisher record. *)
Definition gen_publisher (publishers : loc) : DbM R unit :=
  nm <- fake fake_company ;;
  ad <- fake fake_address ;;
  url <- fake fake_url ;;
  em <- fake fake_company_email ;;
  p <- py_alloc (ODict [("name", VStr nm); ("address", VStr ad); ("website", VStr url);
                        ("contact_email", VStr em)]) ;;
  py_append (VRef publishers) (VRef p).

Definition genre_codes : list string := ["FIC"; "SCI"; "HIS"; "BIO"; "EDU"].

(** [generate_sample_data(num_records)] *)
Definition generate_sample_data (num_records : Z) : DbM R val :=
  authors <- py_alloc (OList []) ;;
  books <- py_alloc (OList []) ;;
  publishers <- py_alloc (OList []) ;;
  pm_iter (fun _ => gen_author authors) (seqZ 0 num_records) ;;
  genres <- py_alloc (OList (VStr <$> genre_codes)) ;;
  pm_iter (fun _ => gen_book genres books) (seqZ 0 num_records) ;;
  pm_iter (fun _ => gen_publisher publishers) (seqZ 0 (Z.min 5 num_records)) ;;
  d <- py_alloc (ODict [("authors", VRef authors); ("books", VRef books); ("publishers", VRef publishers)]) ;;
  pm_ret (VRef d).

End Generator.

(** ** What the generator produces *)

(** The price a book gets: a multiple of 0.01 between 5.99 and 99.99. *)
Definition price_in_range (p : pyfloat) : Prop := two_places 599 9999 p.

(** A dict of the heap whose items satisfy [P]. *)
Definition dict_rec (P : list (string * val) -> Prop) (h : heap) (v : val) : Prop :=
  exists l kvs, v = VRef l /\ heap_get h l = Some (ODict kvs) /\ P kvs.

Definition author_ok (kvs : list (string * val)) : Prop :=
  exists nm bd c bio, kvs = [("name", VStr nm); ("birth_date", VDate bd); ("country", VStr c);
                             ("biography", VStr bio)] /\
    date_valid bd = true /\ (String.length bio <= 500)%nat.

Definition book_ok (kvs : list (string * val)) : Prop :=
  exists t pd g isbn pages price,
    kvs = [("title", VStr t); ("publication_date", VDate pd); ("genre", VStr g);
           ("isbn", VStr isbn); ("pages", VInt pages); ("price", VFloat price)] /\
    date_valid pd = true /\ g ∈ genre_codes /\ 100 <= pages <= 800 /\ price_in_range price.

Definition publisher_ok (kvs : list (string * val)) : Prop :=
  exists nm ad url em, kvs = [("name", VStr nm); ("address", VStr ad); ("website", VStr url);
                              ("contact_email", VStr em)].

Lemma dict_rec_kept P h h' v : dicts_kept h h' -> dict_rec P h v -> dict_rec P h' v.
Proof. intros Hk (l & kvs & -> & Hl & HP). exists l, kvs. eauto. Qed.

Section Contract.
Context `{RandomSource R, Faker R}.

Lemma fake_run {A} (f : R -> A * R) h d r fs :
  fake f (mkWorld h (mkEnv d r fs)) = (inr (f r).1, mkWorld h (mkEnv d (f r).2 fs)).
Proof. unfold fake. rewrite rng_run. by destruct (f r). Qed.

(** A loop body that appends to the list at [l] a new dict whose items
    satisfy [P], keeping [Q], the closedness of the heap, its dicts and
    its other lists, and the database and files. *)
Definition appends (l : loc) (Q : heap -> Prop) (P : list (string * val) -> Prop)
    (c : DbM R unit) : Prop :=
  forall h d r fs xs, heap_closed h -> Q h -> heap_get h l = Some (OList xs) ->
  exists v h' r', c (mkWorld h (mkEnv d r fs)) = (inr tt, mkWorld h' (mkEnv d r' fs)) /\
    heap_closed h' /\ Q h' /\ heap_get h' l = Some (OList (xs ++ [v])) /\ dict_rec P h' v /\
    dicts_kept h h' /\
    (forall l' ys, l' <> l -> heap_get h l' = Some (OList ys) -> heap_get h' l' = Some (OList ys)).

(** [for _ in ks: body] with such a body appends one dict per round. *)
Lemma appends_loop {A} l Q P c (ks : list A) :
  appends l Q P c ->
  forall h d r fs xs, heap_closed h -> Q h -> heap_get h l = Some (OList xs) ->
  exists vs h' r', pm_iter (fun _ => c) ks (mkWorld h (mkEnv d r fs)) = (inr tt, mkWorld h' (mkEnv d r' fs)) /\
    heap_closed h' /\ Q h' /\ heap_get h' l = Some (OList (xs ++ vs)) /\ length vs = length ks /\
    Forall (dict_rec P h') vs /\ dicts_kept h h' /\
    (forall l' ys, l' <> l -> heap_get h l' = Some (OList ys) -> heap_get h' l' = Some (OList ys)).
Proof.
  intros Hc. induction ks as [|k ks IH]; intros h d r fs xs Hcl HQ Hl.
  { exists [], h, r. rewrite app_nil_r. split_and!; auto using dicts_kept_refl. }
  destruct (Hc h d r fs xs Hcl HQ Hl) as (v & h1 & r1 & Hrun & Hcl1 & HQ1 & Hl1 & Hv & Hk1 & Ho1).
  destruct (IH h1 d r1 fs _ Hcl1 HQ1 Hl1) as (vs & h' & r' & Hrun' & Hcl' & HQ' & Hl' & Hlen & Hvs & Hk' & Ho').
  exists (v :: vs), h', r'. simpl. pm_run Hrun. rewrite <-app_assoc in Hl'.
  split_and!; try (simpl; lia); eauto using dicts_kept_trans, dict_rec_kept.
Qed.

(** Run the leading [fake.provider()] calls of the goal. *)
Ltac fake_steps :=
  repeat (repeat (rewrite pm_bind_assoc || (rewrite pm_bind_ret; cbv beta));
          match goal with
          | |- context [pm_bind (fake ?f) _ (mkWorld ?h (mkEnv ?d ?r ?fs))] => pm_run (fake_run f h d r fs)
          end).

(** Run the closing [a = {...}; xs.append(a)] of a loop body. *)
Ltac alloc_append Hcl Hl :=
  match goal with
  | |- context [pm_bind (py_alloc ?o) _ (mkWorld ?h ?x)] =>
      let Hrun := fresh "Hrun" in
      destruct (alloc_append_run _ _ o h x Hcl Hl eq_refl) as (Hrun & ? & ? & ? & ? & ?);
      eexists _, _, _; split; [exact Hrun|]
  end.

Lemma gen_author_appends la : appends la (fun _ => True) author_ok (gen_author la).
Proof.
  intros h d r fs xs Hcl _ Hl. unfold gen_author. fake_steps. alloc_append Hcl Hl.
  split_and!; try done. eexists _, _. split_and!; [done|eassumption|].
  eexists _, _, _, _. split_and!; [reflexivity|apply fake_date_of_birth_valid|apply fake_text_length].
Qed.

Lemma gen_publisher_appends lp : appends lp (fun _ => True) publisher_ok (gen_publisher lp).
Proof.
  intros h d r fs xs Hcl _ Hl. unfold gen_publisher. fake_steps. alloc_append Hcl Hl.
  split_and!; try done. eexists _, _. split_and!; [done|eassumption|]. by eexists _, _, _, _.
Qed.

(** [random.uniform(5.99, 99.99)] is the exact decimal [m * 10^-55] of
    a finite, non-zero double. *)
Lemma uniform_price_round_dec m :
  599 * 10 ^ 53 <= m <= 9999 * 10 ^ 53 -> round_dec m (-55) = dnorm m (-55).
Proof.
  intros Hm. unfold round_dec. pose proof (Z.log2_nonneg m) as Hlog.
  assert (Hbig : 9999 * 10 ^ 53 < float_overflow_bound * 10 ^ 55) by (vm_compute; reflexivity).
  assert (Htiny : 10 ^ 55 < 599 * 10 ^ 53 * 2 ^ 1075) by (vm_compute; reflexivity).
  assert (Hpos : 0 < 2 ^ 1075) by (vm_compute; reflexivity).
  assert (H53 : 0 < 10 ^ 53) by (vm_compute; reflexivity).
  rewrite (proj2 (Z.eqb_neq m 0)) by lia. rewrite Z.abs_eq by lia. unfold dec_big, dec_tiny.
  rewrite (proj2 (Z.ltb_ge 400 (-55))), (proj2 (Z.leb_gt 0 (-55))) by lia. change (- -55) with 55.
  rewrite (proj2 (Z.ltb_ge (Z.log2 m + 1100) 55)) by lia.
  rewrite (proj2 (Z.leb_gt _ _)) by lia. rewrite (proj2 (Z.leb_gt _ _)) by nia. done.
Qed.

(** [round(x, 2)] of the decimal [m * 10^e] between 5.99 and 99.99. *)
Lemma round_price_range m e :
  -55 <= e -> 599 * 10 ^ 53 <= m * 10 ^ (e + 55) <= 9999 * 10 ^ 53 -> price_in_range (py_round (PFin m e) 2).
Proof.
  intros He Hm. simpl. unfold round_places. change (Z.opp 2) with (Zneg 2).
  assert (Hq : 599 <= (if -2 <=? e then m * 10 ^ (e + 2) else round_half_even m (10 ^ (- 2 - e))) <= 9999).
  { destruct (Z.leb_spec (-2) e).
    - replace (e + 55) with ((e + 2) + 53) in Hm by lia. rewrite Z.pow_add_r in Hm by lia.
      pose proof (Z.pow_pos_nonneg 10 53 ltac:(lia) ltac:(lia)). nia.
    - apply round_half_even_between; [apply Z.pow_pos_nonneg; lia|].
      replace (10 ^ 53) with (10 ^ (- 2 - e) * 10 ^ (e + 55)) in Hm by (rewrite <-Z.pow_add_r by lia; f_equal; lia).
      pose proof (Z.pow_pos_nonneg 10 (e + 55) ltac:(lia) ltac:(lia)). nia. }
  eexists. split; [exact Hq|reflexivity].
Qed.

(** [round(random.uniform(5.99, 99.99), 2)] (line 70) *)
Lemma random_price_spec h d r fs :
  exists p r', random_price (mkWorld h (mkEnv d r fs)) = (inr p, mkWorld h (mkEnv d r' fs)) /\ price_in_range p.
Proof.
  unfold random_price. destruct (uniform_dec_ok 599 (-2) 9999 (-2) r) as (m & r' & Hu & Hm); [lia|].
  rewrite Z.min_id in Hu, Hm. change (-2 - -2) with 0 in Hm. rewrite Z.pow_0_r, Z.mul_1_r in Hm.
  eexists _, _. split; [rewrite pm_bind_run, rng_run, Hu; reflexivity|]. simpl.
  change (-2 - 53) with (-55). rewrite uniform_price_round_dec by lia.
  destruct (dnorm_value m (-55) ltac:(lia)) as (m' & e' & -> & He & Hv).
  apply round_price_range; [done|]. replace (e' + 55) with (e' - -55) by lia. lia.
Qed.

(** C20. [round(random.uniform(5.99, 99.99), 2)] (line 70) always
    returns a finite float [m * 10^e] with [e >= -2], that is a multiple
    of 0.01, between 5.99 and 99.99, for every state of the random
    source: the double that [uniform] draws lies in the interval, and
    rounding to two places cannot leave it because both ends are
    multiples of 0.01.  Only the random source advances. *)
Theorem random_price_bounds h d (r : R) fs :
  exists m e r', random_price (mkWorld h (mkEnv d r fs)) = (inr (PFin m e), mkWorld h (mkEnv d r' fs)) /\
    -2 <= e /\ 599 <= m * 10 ^ (e + 2) <= 9999.
Proof.
  destruct (random_price_spec h d r fs) as (p & r' & Hrun & Hp).
  destruct (two_places_value 599 9999 p ltac:(lia) Hp) as (q & m & e & -> & _ & He & -> & Hm).
  by exists m, e, r'.
Qed.

Lemma genre_codes_nonempty : VStr <$> genre_codes <> [].
Proof. discriminate. Qed.

Lemma gen_book_appends lg lb :
  lg <> lb -> appends lb (fun h => heap_get h lg = Some (OList (VStr <$> genre_codes))) book_ok (gen_book lg lb).
Proof.
  intros Hne h d r fs xs Hcl Hg Hl. unfold gen_book. fake_steps.
  match goal with |- context [pm_bind (py_choice (VRef lg)) _ (mkWorld h (mkEnv d ?r2 fs))] =>
    destruct (proj1 (choice_ok (VStr <$> genre_codes) r2) genre_codes_nonempty) as (gv & r3 & Hc & Hgin);
    assert (py_choice (VRef lg) (mkWorld h (mkEnv d r2 fs)) = (inr gv, mkWorld h (mkEnv d r3 fs))) as Hch
      by (rewrite (py_choice_run _ _ _ _ _ _ Hg), Hc; done) end.
  pm_step Hch. fake_steps.
  match goal with |- context [pm_bind (rng (randint 100 800)) _ (mkWorld h (mkEnv d ?r4 fs))] =>
    destruct (randint_ok 100 800 r4) as (pages & r5 & Hri & Hpages); [lia|];
    assert (rng (randint 100 800) (mkWorld h (mkEnv d r4 fs)) = (inr pages, mkWorld h (mkEnv d r5 fs))) as Hr
      by (rewrite rng_run, Hri; done) end.
  pm_step Hr. destruct (random_price_spec h d r5 fs) as (price & r6 & Hp & Hprice). pm_step Hp.
  apply list_elem_of_fmap in Hgin as (g & -> & Hgin).
  alloc_append Hcl Hl. split_and!; try done; [eauto|].
  eexists _, _. split_and!; [done|eassumption|].
  eexists _, _, _, _, _, _. split_and!; [reflexivity|apply fake_date_between_valid|done|lia|lia|done].
Qed.
End Contract.

Lemma alloc_closed h o :
  heap_closed h -> Forall (fun r => (r < hnext h)%positive) (obj_refs o) ->
  heap_closed (with_obj h (hnext h) o) /\ heap_get (with_obj h (hnext h) o) (hnext h) = Some o /\
  dicts_kept h (with_obj h (hnext h) o) /\
  (forall l o', heap_get h l = Some o' -> heap_get (with_obj h (hnext h) o) l = Some o').
Proof.
  intros Hcl Ho. pose proof (heap_closed_wf _ Hcl). split_and!; eauto with heap.
Qed.

Lemma closed_ne h l o : heap_closed h -> heap_get h l = Some o -> l <> hnext h.
Proof. intros Hcl Hl ->. by rewrite heap_closed_fresh in Hl. Qed.

Lemma generate_sample_data_spec `{RandomSource R, Faker R} n h d r fs :
  heap_closed h ->
  exists l la lb lp h' r' aus bs ps,
    generate_sample_data n (mkWorld h (mkEnv d r fs)) = (inr (VRef l), mkWorld h' (mkEnv d r' fs)) /\
    heap_closed h' /\
    heap_get h' l = Some (ODict [("authors", VRef la); ("books", VRef lb); ("publishers", VRef lp)]) /\
    heap_get h' la = Some (OList aus) /\ length aus = Z.to_nat n /\ Forall (dict_rec author_ok h') aus /\
    heap_get h' lb = Some (OList bs) /\ length bs = Z.to_nat n /\ Forall (dict_rec book_ok h') bs /\
    heap_get h' lp = Some (OList ps) /\ length ps = Z.to_nat (Z.min 5 n) /\
    Forall (dict_rec publisher_ok h') ps.
Proof.
  intros Hcl. unfold generate_sample_data.
  set (la := hnext h). destruct (alloc_closed h (OList []) Hcl ltac:(constructor)) as (Hc1 & Ha1 & _ & _).
  set (h1 := with_obj h la (OList [])). pm_step (py_alloc_run (OList []) h (mkEnv d r fs)).
  destruct (alloc_closed h1 (OList []) Hc1 ltac:(constructor)) as (Hc2 & Hb2 & _ & Ho2).
  set (h2 := with_obj h1 (hnext h1) (OList [])). pm_step (py_alloc_run (OList []) h1 (mkEnv d r fs)).
  destruct (alloc_closed h2 (OList []) Hc2 ltac:(constructor)) as (Hc3 & Hp3 & _ & Ho3).
  set (h3 := with_obj h2 (hnext h2) (OList [])). pm_step (py_alloc_run (OList []) h2 (mkEnv d r fs)).
  destruct (appends_loop _ _ _ _ (seqZ 0 n) (gen_author_appends la) h3 d r fs []) as
    (aus & h4 & r4 & Hrun4 & Hc4 & _ & Ha4 & Hla & Haus & Hk4 & Ho4); [done|done|eauto|].
  pm_step Hrun4.
  assert (Hgr : Forall (fun r => (r < hnext h4)%positive) (obj_refs (OList (VStr <$> genre_codes))))
    by (cbn; constructor).
  destruct (alloc_closed h4 (OList (VStr <$> genre_codes)) Hc4 Hgr) as (Hc5 & Hg5 & Hk5 & Ho5).
  set (lg := hnext h4). set (h5 := with_obj h4 lg (OList (VStr <$> genre_codes))).
  pm_step (py_alloc_run (OList (VStr <$> genre_codes)) h4 (mkEnv d r4 fs)).
  assert (Hb4 : heap_get h4 (hnext h1) = Some (OList [])) by (apply Ho4; [simpl; lia|auto]).
  destruct (appends_loop _ _ _ _ (seqZ 0 n) (gen_book_appends lg (hnext h1) (not_eq_sym (closed_ne _ _ _ Hc4 Hb4))) h5 d r4 fs [])
    as (bs & h6 & r6 & Hrun6 & Hc6 & _ & Hb6 & Hlb & Hbs & Hk6 & Ho6); [done|done|auto|].
  pm_step Hrun6.
  assert (Hp6 : heap_get h6 (hnext h2) = Some (OList [])) by (apply Ho6, Ho5, Ho4; simpl; auto; lia).
  destruct (appends_loop _ _ _ _ (seqZ 0 (Z.min 5 n)) (gen_publisher_appends (hnext h2)) h6 d r6 fs [])
    as (ps & h7 & r7 & Hrun7 & Hc7 & _ & Hp7 & Hlp & Hps & Hk7 & Ho7); [done|done|auto|].
  pm_step Hrun7.
  assert (Ha7 : heap_get h7 la = Some (OList aus)) by (apply Ho7, Ho6, Ho5; simpl; auto; lia).
  assert (Hb7 : heap_get h7 (hnext h1) = Some (OList bs)) by (apply Ho7; simpl; auto; lia).
  set (o := ODict [("authors", VRef la); ("books", VRef (hnext h1)); ("publishers", VRef (hnext h2))]).
  destruct (alloc_closed h7 o Hc7) as (Hc8 & Hd8 & Hk8 & Ho8).
  { destruct (Hc7 _ _ Ha7), (Hc7 _ _ Hb7), (Hc7 _ _ Hp7). cbn in *.
    repeat first [apply Forall_nil_2 | apply Forall_cons_2; [lia|]]. }
  pm_step (py_alloc_run o h7 (mkEnv d r7 fs)).
  rewrite !length_seqZ in *. simpl in *.
  eexists _, _, _, _, _, _, aus, bs, ps. split; [reflexivity|]. split_and!; eauto.
  all: eapply Forall_impl; [eassumption|]; intros; eauto 7 using dict_rec_kept, dicts_kept_trans.
Qed.

(** C7. [generate_sample_data(n)] returns a new dict with the keys
    'authors', 'books' and 'publishers', bound to new lists of [n], [n]
    and [min(5, n)] new dicts: an author has a name, a valid birth date,
    a country and a biography of at most 500 characters; a book has a
    title, a valid publication date, a genre among FIC, SCI, HIS, BIO,
    EDU, an ISBN, a page count in [100, 800] and a price that is a
    multiple of 0.01 between 5.99 and 99.99; a
    publisher has a name, an address, a website and an e-mail.  This
    holds for every Faker and random source and state; the database and
    the files are not touched and the heap stays closed. *)
Theorem generate_sample_data_ok `{RandomSource R, Faker R} n h d r fs :
  heap_closed h ->
  exists l la lb lp h' r' aus bs ps,
    generate_sample_data n (mkWorld h (mkEnv d r fs)) = (inr (VRef l), mkWorld h' (mkEnv d r' fs)) /\
    heap_closed h' /\
    heap_get h' l = Some (ODict [("authors", VRef la); ("books", VRef lb); ("publishers", VRef lp)]) /\
    heap_get h' la = Some (OList aus) /\ length aus = Z.to_nat n /\ Forall (dict_rec author_ok h') aus /\
    heap_get h' lb = Some (OList bs) /\ length bs = Z.to_nat n /\ Forall (dict_rec book_ok h') bs /\
    heap_get h' lp = Some (OList ps) /\ length ps = Z.to_nat (Z.min 5 n) /\
    Forall (dict_rec publisher_ok h') ps.
Proof. intros; eapply generate_sample_data_spec; eassumption. Qed.

(** ** A concrete provider *)

(** Fixed strings and dates, advancing the state like [lcg_source]. *)
Definition const_fake {A} (a : A) (s : Z) : A * Z := (a, lcg_next s).

(** An ISBN-13 with Faker's separators, its last nine digits from the
    state. *)
Definition state_isbn (s : Z) : string * Z :=
  let ds := dec_digits (s mod 10 ^ 9) in
  (String.string_of_list_ascii (["9"; "7"; "8"; "-"]%char ++ zeros (9 - length ds) ++ ds), lcg_next s).

#[export] Instance sample_faker : Faker Z := {
  fake_name := const_fake "Li Lei";
  fake_date_of_birth _ _ := const_fake (mkDate 1970 1 1);
  fake_country := const_fake "China";
  fake_text _ := const_fake "";
  fake_catch_phrase := const_fake "Robust systems";
  fake_date_between _ _ := const_fake (mkDate 2001 2 28);
  fake_isbn13 := state_isbn;
  fake_company := const_fake "Acme";
  fake_address := const_fake "1 Main St";
  fake_url := const_fake "https://acme.example";
  fake_company_email := const_fake "info@acme.example";
  fake_date_of_birth_valid _ _ _ := eq_refl;
  fake_date_between_valid _ _ _ := eq_refl;
  fake_text_length n _ := Nat.le_0_l _
}.

Lemma generate_sample_data_ok_witness :
  heap_closed (mkHeap ∅ 1) /\
  exists l la lb lp h' r' aus bs ps,
    generate_sample_data 2 (mkWorld (mkHeap ∅ 1) (mkEnv empty_db 7 ∅)) = (inr (VRef l), mkWorld h' (mkEnv empty_db r' ∅)) /\
    heap_closed h' /\
    heap_get h' l = Some (ODict [("authors", VRef la); ("books", VRef lb); ("publishers", VRef lp)]) /\
    heap_get h' la = Some (OList aus) /\ length aus = Z.to_nat 2 /\ Forall (dict_rec author_ok h') aus /\
    heap_get h' lb = Some (OList bs) /\ length bs = Z.to_nat 2 /\ Forall (dict_rec book_ok h') bs /\
    heap_get h' lp = Some (OList ps) /\ length ps = Z.to_nat (Z.min 5 2) /\
    Forall (dict_rec publisher_ok h') ps.
Proof.
  assert (Hc : heap_closed (mkHeap ∅ 1)) by decide_by_compute.
  split; [exact Hc|]. exact (generate_sample_data_ok 2 (mkHeap ∅ 1) empty_db 7 ∅ Hc).
Defined.
