(* ===== verification/ImportRun.v ===== *)
(** * [import_to_database] on well-formed input

    The success path of the importer (src/data_import_export.py, lines
    90-122) on records of the shape [generate_sample_data] builds: each
    phase runs to its end, stores one row per record, in order, and the
    later phases leave the tables of the earlier ones alone.  The dicts
    of the input are described by records ([author_data], [book_data],
    [publisher_data]); [authors_input] and [import_input] say where the
    lists of [data] lie in the heap, [import_allowed] what the store
    must accept (storable books with new, distinct isbns, an author for
    every book, at most 85 books so that [random.sample] takes its pool
    branch).  [import_to_database_run] composes the three phase runs;
    [import_succeeds] is the liveness theorem on top of it.  The
    publisher loop also records, in [sampled_books], which books
    [books.set] relates to each new publisher. *)

From S2P Require Import Prelude PyValue PyNum Schema Random Store Importer.
Import Fields.

Local Open Scope Z_scope.

(** ** Author records *)

Record author_data := mkAuthorData { ad_name : string; ad_birth : date; ad_country : string; ad_bio : string }.

(** The dict of lines 53-58 as [generate_sample_data] builds it. *)
Definition author_dict (a : author_data) : list (string * val) :=
  [("name", VStr (ad_name a)); ("birth_date", VDate (ad_birth a)); ("country", VStr (ad_country a));
   ("biography", VStr (ad_bio a))].

(** [Author( **author_data)] before [bulk_create]. *)
Definition author_inst (a : author_data) : obj := OInst "Author" (("id", VNone) :: author_dict a).

(** [data['authors']] is a list of author dicts. *)
Definition authors_input (h : heap) (data : val) (ads : list author_data) : Prop :=
  exists ld kvs la ls, data = VRef ld /\ heap_get h ld = Some (ODict kvs) /\
    assoc_lookup "authors" kvs = Some (VRef la) /\ heap_get h la = Some (OList (VRef <$> ls)) /\
    Forall2 (fun l a => heap_get h l = Some (ODict (author_dict a))) ls ads.

Section Run.
Context `{RandomSource R}.
Implicit Types (e : env R).

(** [Model( **d)] on a dict the constructor accepts. *)
Lemma py_new_run m l kvs attrs h e :
  heap_get h l = Some (ODict kvs) -> construct h m kvs = inr attrs ->
  py_new m (VRef l) (mkWorld h e) = (inr (VRef (hnext h)), mkWorld (with_obj h (hnext h) (OInst (model_class m) attrs)) e).
Proof.
  intros Hl Hc. unfold py_new. rewrite pm_bind_run. unfold get_heap. cbv beta iota.
  rewrite pm_bind_run, (py_load_run l (mkWorld h e) _ Hl). cbv beta iota. cbn [w_heap]. by rewrite Hc.
Qed.

(** [author = Author( **author_data); author_objs.append(author)] *)
Lemma author_step lo insts l a hk e :
  heap_wf hk -> heap_get hk lo = Some (OList (VRef <$> insts)) -> heap_get hk l = Some (ODict (author_dict a)) ->
  let hk' := heap_set (with_obj hk (hnext hk) (author_inst a)) lo (OList ((VRef <$> insts) ++ [VRef (hnext hk)])) in
  (author <- py_new MAuthor (VRef l) ;; py_append (VRef lo) author) (mkWorld hk e) = (inr tt, mkWorld hk' e) /\
  heap_ext {[lo]} hk hk' /\ heap_get hk' (hnext hk) = Some (author_inst a) /\
  forall j o, heap_get hk j = Some o -> j <> lo -> heap_get hk' j = Some o.
Proof.
  intros Hwf Hlo Hl hk'.
  assert (Hlo1 : heap_get (with_obj hk (hnext hk) (author_inst a)) lo = Some (OList (VRef <$> insts)))
    by (by apply heap_get_alloc_old).
  assert (Hne : lo <> hnext hk) by (pose proof (heap_wf_lt _ _ _ Hwf Hlo); lia).
  split_and!.
  - pm_step (py_new_run MAuthor l _ _ hk e Hl eq_refl). exact (py_append_run _ _ _ _ _ Hlo1).
  - eapply heap_ext_trans; [apply heap_ext_alloc, Hwf|].
    eapply heap_ext_set; [by apply heap_wf_with_obj|set_solver|exact Hlo1].
  - unfold hk'. rewrite heap_get_set_ne by done. apply heap_get_with_obj_eq.
  - intros j o Hj Hjne. unfold hk'. rewrite heap_get_set_ne by congruence. by apply heap_get_alloc_old.
Qed.

(** The loop of lines 94-96: one new instance per dict, in order; only
    the list [lo] of the old objects changes. *)
Lemma author_loop lo ls ads h0 e :
  heap_wf h0 -> heap_get h0 lo = Some (OList []) ->
  Forall2 (fun l a => heap_get h0 l = Some (ODict (author_dict a))) ls ads ->
  exists h' insts,
    pm_iter (fun author_data => author <- py_new MAuthor author_data ;; py_append (VRef lo) author)
      (VRef <$> ls) (mkWorld h0 e) = (inr tt, mkWorld h' e) /\
    heap_ext {[lo]} h0 h' /\ heap_get h' lo = Some (OList (VRef <$> insts)) /\
    Forall2 (fun i a => heap_get h' i = Some (author_inst a)) insts ads /\ Forall (fun i => (hnext h0 <= i)%positive) insts.
Proof.
  intros Hwf Hlo Hin.
  destruct (pm_iter_forall2 (E := exn) (fun x a => exists l, x = VRef l /\ heap_get h0 l = Some (ODict (author_dict a)))
     (fun pre w => exists hk insts, w = mkWorld hk e /\ heap_ext {[lo]} h0 hk /\
        heap_get hk lo = Some (OList (VRef <$> insts)) /\
        Forall2 (fun i a => heap_get hk i = Some (author_inst a)) insts pre /\
        (hnext h0 <= hnext hk)%positive /\ Forall (fun i => (hnext h0 <= i)%positive) insts)
     (fun author_data => author <- py_new MAuthor author_data ;; py_append (VRef lo) author)
     (VRef <$> ls) ads (mkWorld h0 e)) as (w' & Hrun & hk & insts & -> & Hext & Hl & Hf & _ & Hn).
  - apply Forall2_fmap_l. eapply Forall2_impl; [exact Hin|]. eauto.
  - exists h0, []. split_and!; [done|by apply heap_ext_refl|done|constructor|lia|constructor].
  - intros pre x a w1 (l & -> & Hl) (hk & insts & -> & Hext & Hlo' & Hf & Hnk & Hn).
    assert (Hlk : heap_get hk l = Some (ODict (author_dict a))).
    { apply Hext; [|done]. intros ->%elem_of_singleton. congruence. }
    pose proof (heap_ext_wf _ _ _ Hext) as Hwfk.
    destruct (author_step lo insts l a hk e Hwfk Hlo' Hlk) as (Hrun & Hext' & Hnew & Hold).
    eexists. split; [exact Hrun|]. eexists _, (insts ++ [hnext hk]). split_and!.
    + done.
    + by eapply heap_ext_trans.
    + rewrite fmap_app. apply heap_get_set_eq.
    + apply Forall2_app; [|by repeat constructor].
      eapply Forall2_impl; [exact Hf|]. intros j b Hj. apply Hold; [done|]. intros ->. unfold author_inst in Hj. congruence.
    + simpl. lia.
    + apply Forall_app. split; [done|]. repeat constructor. lia.
  - exists hk, insts. split_and!; [exact Hrun|done|done|done|done].
Qed.

(** The rows [bulk_create] prepares from the instances. *)
Lemma author_insts_rows h insts ads :
  Forall2 (fun i a => heap_get h i = Some (author_inst a)) insts ads ->
  mapE (inst_of h MAuthor) (VRef <$> insts) = inr (zip insts ((fun a => ("id", VNone) :: author_dict a) <$> ads)) /\
  mapE (fun la => prep_row h MAuthor la.2) (zip insts ((fun a => ("id", VNone) :: author_dict a) <$> ads))
    = inr (author_dict <$> ads).
Proof.
  intros Hf. split; apply mapE_Forall2.
  all: induction Hf as [|i a insts ads Hi _ IH]; csimpl; [constructor|constructor; [|done]].
  - unfold inst_of. by rewrite Hi.
  - reflexivity.
Qed.

(** [for obj, pk in zip(objs, ids): obj.id = pk] on saved instances:
    only the instances change. *)
Lemma set_ids_run (pairs : list (loc * Z)) h e :
  heap_wf h -> Forall (fun lk => exists c attrs, heap_get h lk.1 = Some (OInst c attrs)) pairs ->
  exists h', pm_iter (fun lk => set_attr lk.1 "id" (VInt lk.2)) pairs (mkWorld h e) = (inr tt, mkWorld h' e) /\
    heap_ext (list_to_set pairs.*1) h h'.
Proof.
  revert h. induction pairs as [|[l k] pairs IH]; intros h Hwf Hf; [exists h; split; [done|by apply heap_ext_refl]|].
  inversion Hf as [|? ? (c & attrs & Hl) Hf']; subst. simpl in Hl.
  set (h1 := heap_set h l (OInst c (assoc_set "id" (VInt k) attrs))).
  assert (Hext1 : heap_ext {[l]} h h1) by (eapply heap_ext_set; [done|set_solver|exact Hl]).
  destruct (IH h1 (heap_ext_wf _ _ _ Hext1)) as (h' & Hrun & Hext').
  { eapply Forall_impl; [exact Hf'|]. intros [j kj] (cj & aj & Hj). simpl in *.
    destruct (decide (l = j)) as [->|Hne]; [by do 2 eexists; apply heap_get_set_eq|].
    exists cj, aj. unfold h1. by rewrite heap_get_set_ne. }
  exists h'. split.
  - simpl. unfold set_attr. rewrite pm_bind_assoc, pm_bind_run, (py_load_run l (mkWorld h e) _ Hl). exact Hrun.
  - eapply heap_ext_trans; eapply heap_ext_mono; [|exact Hext1| |exact Hext']; simpl; set_solver.
Qed.

Lemma Forall_zip_fst {A B} (P : A -> Prop) (l : list A) (k : list B) :
  Forall P l -> Forall (fun x => P x.1) (zip l k).
Proof. intros Hl. revert k. induction Hl; intros [|y k]; simpl; constructor; auto. Qed.

(** [Model.objects.bulk_create(objs)] on instances the database
    accepts: one INSERT of their rows, then each instance gets its key;
    only the instances change in the heap. *)
Lemma bulk_create_run m lo insts pairs rows h d (r : R) fs :
  heap_wf h -> heap_get h lo = Some (OList (VRef <$> insts)) ->
  Forall (fun i => exists c attrs, heap_get h i = Some (OInst c attrs)) insts ->
  mapE (inst_of h m) (VRef <$> insts) = inr pairs -> pairs.*1 = insts ->
  mapE (fun la => prep_row h m la.2) pairs = inr rows -> insert_ok d m rows = true ->
  exists h', bulk_create m (VRef lo) (mkWorld h (mkEnv d r fs)) =
    (inr (VRef lo), mkWorld h' (mkEnv (set_table d m (insert_rows (db_table d m) rows).1) r fs)) /\
    heap_ext (list_to_set insts) h h'.
Proof.
  intros Hwf Hlo Hinst Hi Hp1 Hp Hok. unfold bulk_create.
  pm_step (py_iter_list lo _ (mkWorld h (mkEnv d r fs)) Hlo).
  rewrite pm_bind_run. unfold get_heap. cbv beta iota. cbn [w_heap]. rewrite Hi. cbn [py_lift].
  rewrite pm_bind_ret, Hp. cbn [py_lift]. rewrite pm_bind_ret, pm_bind_run. unfold get_db. cbv beta iota. simpl e_db.
  unfold db_insert. rewrite Hok. destruct (insert_rows (db_table d m) rows) as [t' ks] eqn:Ei.
  cbn [py_lift]. rewrite pm_bind_ret. unfold put_db. rewrite pm_bind_run. cbv beta iota. simpl.
  assert (Hlen : length insts = length ks).
  { destruct (insert_rows_lookup _ _ _ _ Ei) as (_ & -> & _). rewrite length_seqZ, Nat2Z.id, (mapE_length _ _ _ Hp), <-Hp1.
    by rewrite length_fmap. }
  rewrite Hp1. destruct (set_ids_run (zip insts ks) h (mkEnv (set_table d m t') r fs) Hwf) as (h' & Hrun & Hext).
  { by apply (Forall_zip_fst (fun l => exists c attrs, heap_get h l = Some (OInst c attrs))). }
  exists h'. split; [by rewrite (pm_bind_inr _ _ _ _ _ Hrun)|]. by rewrite fst_zip in Hext by lia.
Qed.

(** The same call when the database refuses the rows: IntegrityError,
    nothing stored, no key set. *)
Lemma bulk_create_fail m lo insts pairs rows h d (r : R) fs :
  heap_get h lo = Some (OList (VRef <$> insts)) ->
  mapE (inst_of h m) (VRef <$> insts) = inr pairs -> mapE (fun la => prep_row h m la.2) pairs = inr rows ->
  insert_ok d m rows = false ->
  bulk_create m (VRef lo) (mkWorld h (mkEnv d r fs)) = (inl IntegrityError, mkWorld h (mkEnv d r fs)).
Proof.
  intros Hlo Hi Hp Hok. unfold bulk_create.
  pm_step (py_iter_list lo _ (mkWorld h (mkEnv d r fs)) Hlo).
  rewrite pm_bind_run. unfold get_heap. cbv beta iota. cbn [w_heap]. rewrite Hi. cbn [py_lift].
  rewrite pm_bind_ret, Hp. cbn [py_lift]. rewrite pm_bind_ret, pm_bind_run. unfold get_db. cbv beta iota. simpl e_db.
  unfold db_insert. by rewrite Hok.
Qed.

(** [Author.objects.bulk_create(author_objs)] *)
Lemma bulk_create_authors_run lo insts ads h d (r : R) fs :
  heap_wf h -> heap_get h lo = Some (OList (VRef <$> insts)) ->
  Forall2 (fun i a => heap_get h i = Some (author_inst a)) insts ads ->
  exists h', bulk_create MAuthor (VRef lo) (mkWorld h (mkEnv d r fs)) =
    (inr (VRef lo), mkWorld h' (mkEnv (set_table d MAuthor (insert_rows (db_authors d) (author_dict <$> ads)).1) r fs)) /\
    heap_ext (list_to_set insts) h h'.
Proof.
  intros Hwf Hlo Hf. destruct (author_insts_rows _ _ _ Hf) as [Hi Hp].
  eapply (bulk_create_run MAuthor lo insts _ (author_dict <$> ads) h d r fs Hwf Hlo); [|exact Hi| |exact Hp|reflexivity].
  - eapply Forall2_Forall_l; [exact Hf|]. apply Forall_true. intros a i Hi'. by do 2 eexists.
  - rewrite fst_zip; [done|]. rewrite length_fmap. by rewrite (Forall2_length _ _ _ Hf).
Qed.

(** Lines 93-97 on author dicts: always succeed, the authors table gets
    one row per dict, in order, and every object of the heap before is
    still there. *)
Lemma import_authors_run h data ads d (r : R) fs :
  heap_wf h -> authors_input h data ads ->
  exists h' lo insts, import_authors data (mkWorld h (mkEnv d r fs)) =
    (inr (VRef lo), mkWorld h' (mkEnv (set_table d MAuthor (insert_rows (db_authors d) (author_dict <$> ads)).1) r fs)) /\
    heap_get h' lo = Some (OList (VRef <$> insts)) /\ length insts = length ads /\ heap_ext ∅ h h'.
Proof.
  intros Hwf (ld & kvs & la & ls & -> & Hd & Hk & Hla & Hin). unfold import_authors.
  pm_step (py_alloc_run (OList []) h (mkEnv d r fs)).
  set (h1 := with_obj h (hnext h) (OList [])).
  assert (Hwf1 : heap_wf h1) by (by apply heap_wf_with_obj).
  pm_step (py_getitem_dict "authors" ld kvs _ (mkWorld h1 (mkEnv d r fs)) ltac:(by apply heap_get_alloc_old) Hk).
  pm_step (py_iter_list la _ (mkWorld h1 (mkEnv d r fs)) ltac:(by apply heap_get_alloc_old)).
  destruct (author_loop (hnext h) ls ads h1 (mkEnv d r fs) Hwf1 (heap_get_with_obj_eq _ _ _))
    as (h2 & insts & Hrun & Hext2 & Hlo & Hf & Hn).
  { eapply Forall2_impl; [exact Hin|]. intros l a Hl. by apply heap_get_alloc_old. }
  pm_step Hrun. destruct (bulk_create_authors_run _ _ _ _ d r fs (heap_ext_wf _ _ _ Hext2) Hlo Hf) as (h3 & Hb & Hext3).
  pm_step Hb. eexists _, _, insts. split_and!; [done| |by eapply Forall2_length|].
  { apply Hext3; [|done]. intros Hlo_in%elem_of_list_to_set. destruct (list_elem_of_lookup_1 _ _ Hlo_in) as [j Hj].
    destruct (Forall2_lookup_l _ _ _ _ _ Hf Hj) as (a & _ & Ha). unfold author_inst in Ha. congruence. }
  assert (Hext1 : heap_ext ∅ h h1) by (by apply heap_ext_alloc).
  eapply heap_ext_new; [|exact Hext3|].
  - eapply heap_ext_new; [exact Hext1|exact Hext2|]. intros l ->%elem_of_singleton. right. by apply heap_wf_fresh.
  - intros l Hl%elem_of_list_to_set. right. rewrite Forall_forall in Hn. specialize (Hn l Hl). simpl in Hn.
    destruct (heap_get h l) eqn:E; [|done]. pose proof (heap_wf_lt _ _ _ Hwf E). lia.
Qed.
End Run.

(** ** The later phases leave the authors table alone *)

Definition authors_are (A : table) (d : db) : Prop := db_authors d = A.

Lemma db_insert_authors d m rows d' ks :
  m <> MAuthor -> db_insert d m rows = inr (d', ks) -> db_authors d' = db_authors d.
Proof.
  intros Hm. unfold db_insert. destruct (insert_ok d m rows); [|done].
  destruct (insert_rows _ _). intros [= <- _]. by destruct m.
Qed.

Lemma authors_closed_book A : insert_closed_at MBook (authors_are A).
Proof. intros d rows d' ks HA Hi. unfold authors_are. by rewrite (db_insert_authors d MBook rows d' ks ltac:(discriminate) Hi). Qed.

Lemma authors_closed_publisher A : insert_closed_at MPublisher (authors_are A).
Proof. intros d rows d' ks HA Hi. unfold authors_are. by rewrite (db_insert_authors d MPublisher rows d' ks ltac:(discriminate) Hi). Qed.

Lemma authors_closed_m2m A : m2m_closed (authors_are A).
Proof. by intros d p bs. Qed.

#[local] Hint Resolve authors_closed_book authors_closed_publisher authors_closed_m2m : store.

(** Lines 100-122: whatever they return or raise. *)
Lemma import_rest_keeps_authors `{RandomSource R} A data (author_objs : val) :
  keeps (authors_are A)
    (book_objs <- import_books (R := R) data ;;
     publisher_objs <- import_publishers data ;;
     na <- py_len author_objs ;; nb <- py_len book_objs ;; np <- py_len publisher_objs ;;
     d <- py_alloc (ODict [("authors", VInt na); ("books", VInt nb); ("publishers", VInt np)]) ;;
     pm_ret (VRef d)).
Proof. unfold import_books, import_publishers. keeps_tac. Qed.

(** ** Book records *)

Record book_data := mkBookData {
  bk_title : string; bk_date : date; bk_genre : string; bk_isbn : string; bk_pages : Z; bk_price : pyfloat }.

(** The dict of lines 64-71 as [generate_sample_data] builds it. *)
Definition book_dict (b : book_data) : list (string * val) :=
  [("title", VStr (bk_title b)); ("publication_date", VDate (bk_date b)); ("genre", VStr (bk_genre b));
   ("isbn", VStr (bk_isbn b)); ("pages", VInt (bk_pages b)); ("price", VFloat (bk_price b))].

(** The dict after [book_data['author'] = a] (line 103), from the dict
    as built or as left by an earlier round that set the key. *)
Definition author_set (extra : list (string * val)) : Prop := extra = [] \/ exists a', extra = [("author", a')].

Definition book_attrs (b : book_data) (a : val) : list (string * val) :=
  [("title", VStr (bk_title b)); ("author", a); ("publication_date", VDate (bk_date b));
   ("genre", VStr (bk_genre b)); ("isbn", VStr (bk_isbn b)); ("pages", VInt (bk_pages b));
   ("price", VFloat (bk_price b))].

(** [Book( **book_data)] *)
Definition book_inst (b : book_data) (a : val) : obj := OInst "Book" (("id", VNone) :: book_attrs b a).

(** DecimalField(max_digits=6, decimal_places=2) of a float. *)
Definition decimal_price (p : pyfloat) : exn + val :=
  match to_decimal 6 (VFloat p) with inr de => quantize 6 2 de | inl e => inl e end.

(** The row Django stores for the book, its author's key [k] and the
    price [pv] the DecimalField makes of the float. *)
Definition book_row (b : book_data) (k : Z) (pv : val) : row :=
  [("title", VStr (bk_title b)); ("author_id", VInt k); ("publication_date", VDate (bk_date b));
   ("genre", VStr (bk_genre b)); ("isbn", VStr (bk_isbn b)); ("pages", VInt (bk_pages b)); ("price", pv)].

(** What the database accepts of a book: a non-negative page count and a
    price with at most six digits once rounded to cents. *)
Definition book_storable (b : book_data) : bool :=
  bool_decide (0 <= bk_pages b) && match decimal_price (bk_price b) with inr _ => true | inl _ => false end.

Lemma book_dict_inj b b' e e' : book_dict b ++ e = book_dict b' ++ e' -> b = b'.
Proof. destruct b, b'. simpl. intros [= -> -> -> -> -> ->]. done. Qed.

(** A price [round(x, 2)] gives below 10000 goes through the
    DecimalField(max_digits=6, decimal_places=2) unchanged: the stored
    Decimal is its number of hundredths, and [float()] of it is the
    price again. *)
Lemma decimal_price_two_places lo hi p :
  0 < lo -> hi < 10 ^ 6 -> two_places lo hi p ->
  exists q, decimal_price p = inr (VDecimal q (-2)) /\ py_float (VDecimal q (-2)) = inr p.
Proof.
  intros Hlo Hhi Hp. destruct (two_places_value lo hi p Hlo Hp) as (q & m & e & Hm & Hd & He & Hq & Hr).
  exists q. split; [|by rewrite Hd; simpl; rewrite round_dec_two_places by lia].
  assert (Hpos : 0 < 10 ^ (e + 2)) by (apply Z.pow_pos_nonneg; lia).
  unfold decimal_price. rewrite Hm. unfold to_decimal, round_sig.
  rewrite (proj2 (Z.leb_le (ndigits m) 6)) by (apply ndigits_le; nia).
  unfold quantize, round_places. cbn [fst snd]. change (Z.opp 2) with (-2).
  rewrite (proj2 (Z.leb_le (-2) e)), <-Hq by lia.
  by rewrite (proj2 (Z.leb_le (ndigits q) 6)) by (apply ndigits_le; lia).
Qed.

Lemma assoc_set_author b a extra :
  author_set extra -> assoc_set "author" a (book_dict b ++ extra) = book_dict b ++ [("author", a)].
Proof. by intros [->|[a' ->]]. Qed.

Lemma construct_book h b ai c attrs :
  heap_get h ai = Some (OInst c attrs) -> c = "Author"%string ->
  construct h MBook (book_dict b ++ [("author", VRef ai)]) = inr (("id", VNone) :: book_attrs b (VRef ai)).
Proof. intros Hai ->. unfold construct. simpl. by rewrite Hai. Qed.

#[local] Arguments to_decimal : simpl never.

Lemma prep_row_book h b ai k ra pv :
  heap_get h ai = Some (OInst "Author" (("id", VInt k) :: ra)) -> book_storable b = true ->
  decimal_price (bk_price b) = inr pv ->
  prep_row h MBook (("id", VNone) :: book_attrs b (VRef ai)) = inr (book_row b k pv).
Proof.
  intros Hai [Hp _]%andb_prop Hd. apply bool_decide_eq_true in Hp. unfold prep_row. simpl.
  rewrite Hai. simpl. rewrite (proj2 (Z.ltb_ge _ _) Hp). unfold decimal_price in Hd.
  destruct (to_decimal 6 (VFloat (bk_price b))); [done|]. simpl. by rewrite Hd.
Qed.

Section Books.
Context `{RandomSource R}.

(** The heap after one round of the loop of lines 102-105. *)
Definition book_heap (hk : heap) (l lb : loc) (insts : list loc) (b : book_data) (ai : loc) : heap :=
  let hk1 := heap_set hk l (ODict (book_dict b ++ [("author", VRef ai)])) in
  heap_set (with_obj hk1 (hnext hk1) (book_inst b (VRef ai))) lb (OList ((VRef <$> insts) ++ [VRef (hnext hk1)])).

(** [book_data['author'] = random.choice(all_authors); book =
    Book( **book_data); book_objs.append(book)] *)
Lemma book_step lA avs krs lb insts l b extra hk d (r : R) fs :
  heap_wf hk -> heap_get hk lA = Some (OList avs) -> avs <> [] -> Forall2 (inst_at hk MAuthor) avs krs ->
  heap_get hk lb = Some (OList (VRef <$> insts)) -> lb <> l ->
  heap_get hk l = Some (ODict (book_dict b ++ extra)) -> author_set extra ->
  exists r' ai kr,
    (a <- py_choice (VRef lA) ;; py_setitem (VRef l) "author" a ;;
     book <- py_new MBook (VRef l) ;; py_append (VRef lb) book) (mkWorld hk (mkEnv d r fs))
      = (inr tt, mkWorld (book_heap hk l lb insts b ai) (mkEnv d r' fs)) /\
    VRef ai ∈ avs /\ kr ∈ krs /\ inst_at hk MAuthor (VRef ai) kr.
Proof.
  intros Hwf HA Hne Hinst Hlb Hlbl Hl Hx.
  destruct (proj1 (choice_ok avs r) Hne) as (x & r' & Hc & Hx_in).
  destruct (Forall2_elem_l _ _ _ _ Hinst Hx_in) as (kr & Hkr & ai & -> & Hai).
  exists r', ai, kr. split_and!; [|done|done|by exists ai].
  rewrite pm_bind_run, (py_choice_run _ _ _ _ _ _ HA), Hc. cbn [fst snd].
  rewrite pm_bind_run, (py_setitem_dict "author" l _ (VRef ai) (mkWorld hk (mkEnv d r' fs)) Hl), assoc_set_author by done. cbn [w_heap w_ext].
  set (hk1 := heap_set hk l _).
  assert (Hai1 : heap_get hk1 ai = Some (OInst "Author" (("id", VInt kr.1) :: kr.2))).
  { unfold hk1. rewrite heap_get_set_ne; [done|]. intros ->. congruence. }
  rewrite pm_bind_run, (py_new_run MBook l _ _ hk1 _ (heap_get_set_eq _ _ _) (construct_book _ b ai _ _ Hai1 eq_refl)).
  cbv beta iota. rewrite (py_append_run lb (VRef <$> insts)); [reflexivity|].
  assert (Hlt : (lb < hnext hk)%positive) by (eapply heap_wf_lt; eassumption).
  rewrite heap_get_with_obj_ne by (simpl; lia). unfold hk1. by rewrite heap_get_set_ne.
Qed.
Lemma book_heap_other hk l lb insts b ai j :
  j <> l -> j <> lb -> j <> hnext hk -> heap_get (book_heap hk l lb insts b ai) j = heap_get hk j.
Proof.
  intros Hl Hlb Hn. unfold book_heap. rewrite heap_get_set_ne by congruence.
  rewrite heap_get_with_obj_ne by done. by rewrite heap_get_set_ne by congruence.
Qed.

Lemma book_heap_new hk l lb insts b ai :
  heap_wf hk -> heap_get hk lb <> None -> heap_get (book_heap hk l lb insts b ai) (hnext hk) = Some (book_inst b (VRef ai)).
Proof.
  intros Hwf Hlb. unfold book_heap. rewrite heap_get_set_ne.
  - apply heap_get_with_obj_eq.
  - intros Heq. rewrite Heq, heap_wf_fresh in Hlb; [done|done].
Qed.

Lemma book_heap_dict hk l lb insts b ai o :
  heap_wf hk -> lb <> l -> heap_get hk l = Some o ->
  heap_get (book_heap hk l lb insts b ai) l = Some (ODict (book_dict b ++ [("author", VRef ai)])).
Proof.
  intros Hwf Hne Hl. unfold book_heap. rewrite heap_get_set_ne by done.
  rewrite heap_get_with_obj_ne by (pose proof (heap_wf_lt _ _ _ Hwf Hl); simpl; lia). apply heap_get_set_eq.
Qed.

Lemma book_heap_ext M hk l lb insts b ai o :
  heap_wf hk -> lb ∈ M -> l ∈ M -> lb <> l -> heap_get hk l = Some o -> heap_get hk lb = Some (OList (VRef <$> insts)) ->
  heap_ext M hk (book_heap hk l lb insts b ai).
Proof.
  intros Hwf HlbM HlM Hne Hl Hlb. eapply heap_ext_trans; [by eapply heap_ext_set|].
  assert (Hwf1 : heap_wf (heap_set hk l (ODict (book_dict b ++ [("author", VRef ai)])))) by (by eapply heap_ext_wf, heap_ext_set).
  eapply heap_ext_trans; [by apply heap_ext_alloc|]. eapply heap_ext_set; [by apply heap_wf_with_obj|done|].
  rewrite heap_get_with_obj_ne; [rewrite heap_get_set_ne by done; exact Hlb|].
  pose proof (heap_wf_lt _ _ _ Hwf Hlb). simpl. lia.
Qed.

(** The loop of lines 102-105, from the heap [h0] at its start. *)
Section BookLoop.
Variables (lA lb : loc) (avs : list val) (krs : list (Z * row)) (ls : list loc) (bks : list book_data).
Variables (h0 : heap) (d : db) (fs : gmap string string).
Hypothesis Hwf0 : heap_wf h0.
Hypothesis HA0 : heap_get h0 lA = Some (OList avs).
Hypothesis Havs : avs <> [].
Hypothesis Hinst0 : Forall2 (inst_at h0 MAuthor) avs krs.
Hypothesis Hlb0 : heap_get h0 lb = Some (OList []).
Hypothesis HlAlb : lA <> lb.
Hypothesis Hls0 : Forall2 (fun l b => heap_get h0 l = Some (ODict (book_dict b))) ls bks.

Let M : gset loc := {[lb]} ∪ list_to_set ls.

Definition books_inv (hk : heap) (insts : list loc) (dn : list book_data) : Prop :=
  heap_wf hk /\ heap_ext M h0 hk /\ heap_get hk lb = Some (OList (VRef <$> insts)) /\
  Forall2 (fun l b => exists extra, author_set extra /\ heap_get hk l = Some (ODict (book_dict b ++ extra))) ls bks /\
  Forall2 (fun i b => exists ai kr, heap_get hk i = Some (book_inst b (VRef ai)) /\ kr ∈ krs /\
                                    inst_at h0 MAuthor (VRef ai) kr) insts dn /\
  Forall (fun i => heap_get h0 i = None) insts.

(** Only the list [lb] and the input dicts change. *)
Lemma not_in_M x c attrs : heap_get h0 x = Some (OInst c attrs) -> x ∉ M.
Proof.
  intros Hx [->%elem_of_singleton|Hin%elem_of_list_to_set]%elem_of_union; [congruence|].
  destruct (list_elem_of_lookup_1 _ _ Hin) as [j Hj].
  destruct (Forall2_lookup_l _ _ _ _ _ Hls0 Hj) as (b & _ & Hb). congruence.
Qed.
(** The objects that change are there all along. *)
Lemma M_present hk insts dn : books_inv hk insts dn -> forall l, l ∈ M -> heap_get hk l <> None.
Proof.
  intros (_ & _ & Hlb & Hls & _) l [->%elem_of_singleton|Hin%elem_of_list_to_set]%elem_of_union; [congruence|].
  destruct (list_elem_of_lookup_1 _ _ Hin) as [j Hj].
  destruct (Forall2_lookup_l _ _ _ _ _ Hls Hj) as (b & _ & e & _ & Hl). congruence.
Qed.

Lemma input_dict_at l b : (l, b) ∈ zip ls bks -> heap_get h0 l = Some (ODict (book_dict b)).
Proof. apply (Forall2_zip_elem _ _ _ _ _ Hls0). Qed.

Lemma books_inv_step hk insts dn l b (r : R) :
  books_inv hk insts dn -> (l, b) ∈ zip ls bks ->
  exists r' ai,
    (a <- py_choice (VRef lA) ;; py_setitem (VRef l) "author" a ;;
     book <- py_new MBook (VRef l) ;; py_append (VRef lb) book) (mkWorld hk (mkEnv d r fs))
      = (inr tt, mkWorld (book_heap hk l lb insts b ai) (mkEnv d r' fs)) /\
    books_inv (book_heap hk l lb insts b ai) (insts ++ [hnext hk]) (dn ++ [b]).
Proof.
  intros (Hwf & Hext & Hlb & Hls & Hi & Hfr) Hlbin.
  pose proof (input_dict_at _ _ Hlbin) as Hl0.
  destruct (Forall2_zip_elem _ _ _ _ _ Hls Hlbin) as (extra & Hx & Hl).
  assert (HlM : l ∈ M) by (apply elem_of_union_r, elem_of_list_to_set; by eapply elem_of_zip_l).
  assert (Hlbl : lb <> l) by (intros ->; congruence).
  assert (HAk : heap_get hk lA = Some (OList avs)).
  { apply Hext; [|done]. intros [->%elem_of_singleton|Hin%elem_of_list_to_set]%elem_of_union; [done|].
    destruct (list_elem_of_lookup_1 _ _ Hin) as [j Hj].
    destruct (Forall2_lookup_l _ _ _ _ _ Hls0 Hj) as (b' & _ & Hb'). congruence. }
  assert (Hinstk : Forall2 (inst_at hk MAuthor) avs krs).
  { eapply Forall2_impl; [exact Hinst0|]. intros v kr Hv. eapply inst_at_ext; [exact Hext| |exact Hv].
    intros l' ->. destruct Hv as (l2 & [= <-] & Hl2). by eapply not_in_M. }
  destruct (book_step lA avs krs lb insts l b extra hk d r fs Hwf HAk Havs Hinstk Hlb Hlbl Hl Hx)
    as (r' & ai & kr & Hrun & Hai & _ & _).
  destruct (Forall2_elem_l _ _ _ _ Hinst0 Hai) as (kr0 & Hkr0 & Hat0).
  assert (Hbe : heap_ext M hk (book_heap hk l lb insts b ai)).
  { eapply book_heap_ext; [done|set_solver|done|done|exact Hl|exact Hlb]. }
  assert (Hfresh : forall j o, heap_get hk j = Some o -> j <> hnext hk).
  { intros j o Hj ->. by rewrite heap_wf_fresh in Hj. }
  exists r', ai. split; [exact Hrun|]. split_and!.
  - by eapply heap_ext_wf.
  - by eapply heap_ext_trans.
  - rewrite fmap_app. apply heap_get_set_eq.
  - eapply (Forall2_impl2 _ _ _ _ _ Hls0 Hls).
    intros l' b' Hl0' (e' & He' & Hl'). destruct (decide (l' = l)) as [->|Hne].
    + assert (b' = b) as -> by (eapply book_dict_inj; rewrite !app_nil_r; congruence).
      exists [("author", VRef ai)]. split; [by right; eexists|]. by eapply book_heap_dict.
    + exists e'. split; [done|]. rewrite book_heap_other; [done|done| |by eapply Hfresh].
      intros ->. congruence.
  - apply Forall2_app; [|constructor; [|constructor]].
    + eapply Forall2_impl; [exact Hi|]. intros i b' (ai' & kr' & Hi' & Hkr' & Hat').
      exists ai', kr'. split_and!; [|done|done]. unfold book_inst in Hi'.
      rewrite book_heap_other; [done|intros ->; congruence|intros ->; congruence|by eapply Hfresh].
    + exists ai, kr0. split_and!; [|done|done]. apply book_heap_new; [done|congruence].
  - apply Forall_app. split; [done|]. repeat constructor.
    destruct (heap_get h0 (hnext hk)) as [o|] eqn:E; [|done]. exfalso.
    destruct (decide (hnext hk ∈ M)) as [HM|HM].
    + by apply (M_present hk insts dn (conj Hwf (conj Hext (conj Hlb (conj Hls (conj Hi Hfr))))) _ HM), heap_wf_fresh.
    + by apply (Hfresh _ _ (proj2 Hext _ _ HM E)).
Qed.
Lemma books_inv_init : books_inv h0 [] [].
Proof.
  split_and!; [done|by apply heap_ext_refl|done| |constructor|constructor].
  eapply Forall2_impl; [exact Hls0|]. intros l b Hl. exists []. rewrite app_nil_r. by split; [left|].
Qed.

Lemma books_loop todo : (forall p, p ∈ todo -> p ∈ zip ls bks) ->
  forall hk insts dn (r : R), books_inv hk insts dn ->
  exists hk' r' insts',
    pm_iter (fun book_data => a <- py_choice (VRef lA) ;; py_setitem book_data "author" a ;;
                              book <- py_new MBook book_data ;; py_append (VRef lb) book)
      (VRef <$> todo.*1) (mkWorld hk (mkEnv d r fs)) = (inr tt, mkWorld hk' (mkEnv d r' fs)) /\
    books_inv hk' (insts ++ insts') (dn ++ todo.*2).
Proof.
  induction todo as [|[l b] todo IH]; intros Htodo hk insts dn r Hinv.
  { exists hk, r, []. rewrite !app_nil_r. by split. }
  destruct (books_inv_step hk insts dn l b r Hinv (Htodo _ (list_elem_of_here _ _))) as (r1 & ai & Hrun & Hinv1).
  destruct (IH (fun p Hp => Htodo p (list_elem_of_further _ _ _ Hp)) _ _ _ r1 Hinv1) as (hk' & r' & insts' & Hrun' & Hinv').
  exists hk', r', (hnext hk :: insts'). simpl. rewrite (pm_bind_inr _ _ _ _ _ Hrun).
  rewrite <-!app_assoc in Hinv'. by split.
Qed.
End BookLoop.
End Books.

(** ** [Book.objects.bulk_create(book_objs)] *)

(** The rows prepared from the book instances: each names its author's
    key and holds the price the DecimalField makes of the float. *)
Lemma book_rows h insts bks (krs : list (Z * row)) :
  Forall (fun b => book_storable b = true) bks ->
  Forall2 (fun i b => exists ai kr, heap_get h i = Some (book_inst b (VRef ai)) /\ kr ∈ krs /\
                                    inst_at h MAuthor (VRef ai) kr) insts bks ->
  exists pairs rows, mapE (inst_of h MBook) (VRef <$> insts) = inr pairs /\ pairs.*1 = insts /\
    mapE (fun la => prep_row h MBook la.2) pairs = inr rows /\
    Forall2 (fun r b => exists k ra pv, r = book_row b k pv /\ (k, ra) ∈ krs /\ decimal_price (bk_price b) = inr pv) rows bks.
Proof.
  intros Hst Hf. induction Hf as [|i b insts bks (ai & [k ra] & Hi & Hkr & ai' & [= <-] & Hai) _ IH]; [by exists [], []|].
  inversion Hst as [|? ? Hb Hst']; subst. destruct (IH Hst') as (pairs & rows & Hp & Hp1 & Hr & Hrows).
  assert (Hb' := Hb). apply andb_prop in Hb' as [_ Hd]. destruct (decimal_price (bk_price b)) as [e|pv] eqn:Hpv; [done|].
  exists ((i, ("id", VNone) :: book_attrs b (VRef ai)) :: pairs), (book_row b k pv :: rows). split_and!.
  - csimpl. rewrite Hp. unfold inst_of. by rewrite Hi.
  - simpl. by f_equal.
  - simpl. by rewrite (prep_row_book h b ai k ra pv Hai Hb Hpv), Hr.
  - constructor; [|done]. by exists k, ra, pv.
Qed.

(** What the INSERT of the book rows checks: every author key is stored
    and the ISBNs are new and distinct. *)
Lemma book_rows_isbns rows bks (P : book_data -> Z -> row -> val -> Prop) :
  Forall2 (fun r b => exists k ra pv, r = book_row b k pv /\ P b k ra pv) rows bks ->
  col_values "isbn" rows = (fun b => VStr (bk_isbn b)) <$> bks.
Proof. induction 1 as [|r b rows bks (k & ra & pv & -> & _) _ IH]; [done|]. simpl. by rewrite IH. Qed.

Lemma insert_ok_books d rows bks :
  Forall2 (fun r b => exists k ra pv, r = book_row b k pv /\ t_rows (db_authors d) !! k = Some ra) rows bks ->
  NoDup (bk_isbn <$> bks) -> Forall (fun b => VStr (bk_isbn b) ∉ col_values "isbn" (table_rows (db_books d))) bks ->
  insert_ok d MBook rows = true.
Proof.
  intros Hf Hnd Hnew.
  pose proof (book_rows_isbns _ _ _ Hf) as Hcol.
  unfold insert_ok. simpl. unfold column. simpl. change ("author" +:+ "_id")%string with "author_id"%string.
  rewrite Hcol. repeat (apply andb_true_intro; split); try done.
  - clear Hcol Hnd Hnew. induction Hf as [|r b rows bks (k & ra & pv & -> & Hk) _ IH]; [done|].
    simpl. rewrite Hk. simpl. by rewrite IH.
  - apply bool_decide_eq_true.
    assert (E : (fun b => VStr (bk_isbn b)) <$> bks = VStr <$> (bk_isbn <$> bks)) by (by rewrite <-list_fmap_compose).
    rewrite E. apply NoDup_fmap_2_strong; [by intros x y _ _ [= ->]|done].
  - apply forallb_forall. intros v Hv%list_elem_of_In. apply list_elem_of_fmap in Hv as (b & -> & Hb).
    apply bool_decide_eq_true. rewrite Forall_forall in Hnew. by apply Hnew.
Qed.

(** The INSERT of the book rows is refused exactly on an ISBN the batch
    repeats or the table already holds (the unique isbn field). *)
Definition isbn_clash (d : db) (bks : list book_data) : Prop :=
  ~ NoDup (bk_isbn <$> bks) \/ exists b, b ∈ bks /\ VStr (bk_isbn b) ∈ col_values "isbn" (table_rows (db_books d)).

Lemma insert_ok_books_clash d rows bks (P : book_data -> Z -> row -> val -> Prop) :
  Forall2 (fun r b => exists k ra pv, r = book_row b k pv /\ P b k ra pv) rows bks ->
  isbn_clash d bks -> insert_ok d MBook rows = false.
Proof.
  intros Hf Hc. apply not_true_iff_false. intros Hok. pose proof (book_rows_isbns _ _ _ Hf) as Hcol.
  unfold insert_ok in Hok. simpl in Hok. unfold column in Hok. simpl in Hok. rewrite Hcol in Hok.
  rewrite !andb_true_iff in Hok. destruct_and! Hok.
  lazymatch goal with
  | H1 : bool_decide (NoDup _) = true, H2 : forallb _ _ = true |- _ => rename H1 into Hnd; rename H2 into Hnew
  end.
  apply bool_decide_eq_true in Hnd. rewrite forallb_forall in Hnew. destruct Hc as [Hc|(b & Hb & Hin)].
  - apply Hc. apply (NoDup_fmap_1 VStr). by rewrite <-list_fmap_compose.
  - specialize (Hnew (VStr (bk_isbn b)) ltac:(apply list_elem_of_In, list_elem_of_fmap; by exists b)).
    by apply bool_decide_eq_true in Hnew.
Qed.

Lemma bulk_create_books_run `{RandomSource R} lb insts bks (krs : list (Z * row)) h d (r : R) fs :
  heap_wf h -> heap_get h lb = Some (OList (VRef <$> insts)) -> Forall (fun b => book_storable b = true) bks ->
  Forall2 (fun i b => exists ai kr, heap_get h i = Some (book_inst b (VRef ai)) /\ kr ∈ krs /\
                                    inst_at h MAuthor (VRef ai) kr) insts bks ->
  (forall kr, kr ∈ krs -> t_rows (db_authors d) !! kr.1 = Some kr.2) ->
  NoDup (bk_isbn <$> bks) -> Forall (fun b => VStr (bk_isbn b) ∉ col_values "isbn" (table_rows (db_books d))) bks ->
  exists h' rows, bulk_create MBook (VRef lb) (mkWorld h (mkEnv d r fs)) =
    (inr (VRef lb), mkWorld h' (mkEnv (set_table d MBook (insert_rows (db_books d) rows).1) r fs)) /\
    heap_ext (list_to_set insts) h h' /\
    Forall2 (fun r b => exists k ra pv, r = book_row b k pv /\ t_rows (db_authors d) !! k = Some ra /\
                                        decimal_price (bk_price b) = inr pv) rows bks.
Proof.
  intros Hwf Hlb Hst Hf Hkrs Hnd Hnew.
  destruct (book_rows h insts bks krs Hst Hf) as (pairs & rows & Hi & Hp1 & Hp & Hrows).
  assert (Hrows' : Forall2 (fun r b => exists k ra pv, r = book_row b k pv /\ t_rows (db_authors d) !! k = Some ra /\
                                        decimal_price (bk_price b) = inr pv) rows bks).
  { eapply Forall2_impl; [exact Hrows|]. intros rw b (k & ra & pv & -> & Hkr & Hpv). exists k, ra, pv.
    split_and!; [done|exact (Hkrs _ Hkr)|done]. }
  assert (Hinst : Forall (fun i => exists c attrs, heap_get h i = Some (OInst c attrs)) insts).
  { eapply Forall2_Forall_l; [exact Hf|]. apply Forall_true. intros b i (ai & _ & Hi' & _). by do 2 eexists. }
  destruct (bulk_create_run MBook lb insts pairs rows h d r fs Hwf Hlb Hinst Hi Hp1 Hp) as (h' & Hrun & Hext).
  { apply (insert_ok_books d rows bks); [|done|done]. eapply Forall2_impl; [exact Hrows'|]. naive_solver. }
  by exists h', rows.
Qed.

(** The loop of lines 102-105 over all the book dicts; with no book it
    does not draw an author. *)
Lemma books_loop_run `{RandomSource R} lA lb avs krs ls bks h0 d fs (r : R) :
  heap_wf h0 -> heap_get h0 lA = Some (OList avs) -> (bks <> [] -> avs <> []) -> Forall2 (inst_at h0 MAuthor) avs krs ->
  heap_get h0 lb = Some (OList []) -> lA <> lb -> Forall2 (fun l b => heap_get h0 l = Some (ODict (book_dict b))) ls bks ->
  exists hF r' insts,
    pm_iter (fun book_data => a <- py_choice (VRef lA) ;; py_setitem book_data "author" a ;;
                              book <- py_new MBook book_data ;; py_append (VRef lb) book)
      (VRef <$> ls) (mkWorld h0 (mkEnv d r fs)) = (inr tt, mkWorld hF (mkEnv d r' fs)) /\
    books_inv lb krs ls bks h0 hF insts bks.
Proof.
  intros Hwf HA Havs Hinst Hlb HlAlb Hls. destruct bks as [|b bks'].
  { inversion Hls; subst. exists h0, r, []. split; [done|]. by apply books_inv_init. }
  destruct (books_loop lA lb avs krs ls (b :: bks') h0 d fs Hwf HA (Havs ltac:(done)) Hinst Hlb HlAlb Hls
              (zip ls (b :: bks')) (fun p Hp => Hp) h0 [] [] r) as (hF & r' & insts & Hrun & Hinv).
  { by apply books_inv_init. }
  pose proof (Forall2_length _ _ _ Hls) as Hlen.
  rewrite fst_zip in Hrun by lia. rewrite snd_zip in Hinv by lia. by exists hF, r', insts.
Qed.

(** Lines 100-106 on book dicts up to the [bulk_create] call: the loop
    runs to its end when there is an author to draw; each book dict gets
    the key 'author' and an unsaved instance; of the old objects only
    the book dicts change. *)
Lemma import_books_loop `{RandomSource R} h ld kvs lbk ls bks d (r : R) fs :
  heap_wf h -> heap_get h ld = Some (ODict kvs) -> assoc_lookup "books" kvs = Some (VRef lbk) ->
  heap_get h lbk = Some (OList (VRef <$> ls)) -> Forall2 (fun l b => heap_get h l = Some (ODict (book_dict b))) ls bks ->
  keys_ok (db_authors d) -> (bks <> [] -> t_rows (db_authors d) <> ∅) ->
  exists hF r' lb insts,
    import_books (VRef ld) (mkWorld h (mkEnv d r fs)) =
      pm_bind (bulk_create MBook (VRef lb)) (fun _ => pm_ret (VRef lb)) (mkWorld hF (mkEnv d r' fs)) /\
    heap_wf hF /\ heap_get hF lb = Some (OList (VRef <$> insts)) /\
    Forall2 (fun i b => exists ai kr, heap_get hF i = Some (book_inst b (VRef ai)) /\
               kr ∈ rows_in_order (db_table d MAuthor) /\ inst_at hF MAuthor (VRef ai) kr) insts bks /\
    heap_ext (list_to_set ls) h hF /\ Forall (fun i => heap_get h i = None) insts.
Proof.
  intros Hwf Hd Hk Hlbk Hls HkA HA. unfold import_books.
  destruct (objects_all_run MAuthor h d r fs Hwf) as (h1 & q & vs & Hrun1 & Hext1 & Hq & Hvs).
  pose proof (heap_ext_wf _ _ _ Hext1) as Hwf1. pm_step Hrun1.
  pm_step (py_alloc_run (OList []) h1 (mkEnv d r fs)). set (lb := hnext h1). set (h2 := with_obj h1 lb (OList [])).
  assert (Hext2 : heap_ext ∅ h h2) by (eapply heap_ext_trans; [exact Hext1|by apply heap_ext_alloc]).
  assert (Hold : forall l o, heap_get h l = Some o -> heap_get h2 l = Some o) by (intros l o; apply Hext2; set_solver).
  pm_step (py_getitem_dict "books" ld kvs _ (mkWorld h2 (mkEnv d r fs)) (Hold _ _ Hd) Hk).
  pm_step (py_iter_list lbk _ (mkWorld h2 (mkEnv d r fs)) (Hold _ _ Hlbk)).
  assert (Hvs2 : Forall2 (inst_at h2 MAuthor) vs (rows_in_order (db_table d MAuthor))).
  { eapply Forall2_impl; [exact Hvs|]. intros v kr. apply (inst_at_ext ∅); [by apply heap_ext_alloc|set_solver]. }
  assert (Hne : bks <> [] -> vs <> []).
  { intros Hb ->. apply Forall2_length in Hvs. rewrite rows_in_order_length in Hvs by done.
    apply (HA Hb), map_size_empty_iff. simpl in Hvs. lia. }
  assert (Hls2 : Forall2 (fun l b => heap_get h2 l = Some (ODict (book_dict b))) ls bks)
    by (eapply Forall2_impl; [exact Hls|]; eauto).
  destruct (books_loop_run q lb vs _ ls bks h2 d fs r (heap_ext_wf _ _ _ Hext2) ltac:(by apply heap_get_alloc_old)
              Hne Hvs2 (heap_get_with_obj_eq _ _ _) ltac:(pose proof (heap_wf_lt _ _ _ Hwf1 Hq); unfold lb; lia) Hls2)
    as (hF & r' & insts & Hrun & HwfF & HextF & HlbF & _ & Hi & Hfr).
  pm_step Hrun. exists hF, r', lb, insts. split_and!; [reflexivity|done|done| | |].
  - eapply Forall2_impl; [exact Hi|]. intros i b (ai & kr & Hi' & Hkr & Hat). exists ai, kr. split_and!; [done|done|].
    eapply inst_at_ext; [exact HextF| |exact Hat]. intros l [= <-]. destruct Hat as (? & [= <-] & Hat).
    eapply (not_in_M lb ls bks h2); [apply heap_get_with_obj_eq|exact Hls2|exact Hat].
  - eapply heap_ext_new; [eapply heap_ext_mono; [|exact Hext2]; set_solver|exact HextF|].
    intros l [->%elem_of_singleton|Hl]%elem_of_union; [right|by left].
    destruct (heap_get h lb) eqn:E; [|done]. apply Hext1 in E; [|set_solver]. by rewrite heap_wf_fresh in E.
  - eapply Forall_impl; [exact Hfr|]. intros l Hl. destruct (heap_get h l) eqn:E; [|done].
    pose proof (Hold _ _ E). unfold h2, lb in *. congruence.
Qed.

Lemma bulk_create_books_fail `{RandomSource R} lb insts bks (krs : list (Z * row)) h d (r : R) fs :
  heap_get h lb = Some (OList (VRef <$> insts)) -> Forall (fun b => book_storable b = true) bks ->
  Forall2 (fun i b => exists ai kr, heap_get h i = Some (book_inst b (VRef ai)) /\ kr ∈ krs /\
                                    inst_at h MAuthor (VRef ai) kr) insts bks ->
  isbn_clash d bks ->
  bulk_create MBook (VRef lb) (mkWorld h (mkEnv d r fs)) = (inl IntegrityError, mkWorld h (mkEnv d r fs)).
Proof.
  intros Hlb Hst Hf Hc. destruct (book_rows h insts bks krs Hst Hf) as (pairs & rows & Hi & _ & Hp & Hrows).
  exact (bulk_create_fail MBook lb insts pairs rows h d r fs Hlb Hi Hp (insert_ok_books_clash _ _ _ _ Hrows Hc)).
Qed.

(** Lines 100-106 on book dicts: succeeds when there is an author to
    draw, the prices fit the DecimalField and the ISBNs are new and
    distinct; each book gets a stored author, the books table one row
    per dict, in order, and of the old objects only the book dicts
    change (they get the key 'author'). *)
Lemma import_books_run `{RandomSource R} h ld kvs lbk ls bks d (r : R) fs :
  heap_wf h -> heap_get h ld = Some (ODict kvs) -> assoc_lookup "books" kvs = Some (VRef lbk) ->
  heap_get h lbk = Some (OList (VRef <$> ls)) -> Forall2 (fun l b => heap_get h l = Some (ODict (book_dict b))) ls bks ->
  keys_ok (db_authors d) -> (bks <> [] -> t_rows (db_authors d) <> ∅) ->
  Forall (fun b => book_storable b = true) bks -> NoDup (bk_isbn <$> bks) ->
  Forall (fun b => VStr (bk_isbn b) ∉ col_values "isbn" (table_rows (db_books d))) bks ->
  exists h' r' lb insts rows,
    import_books (VRef ld) (mkWorld h (mkEnv d r fs)) =
      (inr (VRef lb), mkWorld h' (mkEnv (set_table d MBook (insert_rows (db_books d) rows).1) r' fs)) /\
    heap_get h' lb = Some (OList (VRef <$> insts)) /\ length insts = length bks /\
    Forall2 (fun r b => exists k ra pv, r = book_row b k pv /\ t_rows (db_authors d) !! k = Some ra /\
                                        decimal_price (bk_price b) = inr pv) rows bks /\
    heap_ext (list_to_set ls) h h'.
Proof.
  intros Hwf Hd Hk Hlbk Hls HkA HA Hst Hnd Hnew.
  destruct (import_books_loop h ld kvs lbk ls bks d r fs Hwf Hd Hk Hlbk Hls HkA HA)
    as (hF & r' & lb & insts & -> & HwfF & HlbF & HiF & HextF & Hfr).
  destruct (bulk_create_books_run lb insts bks (rows_in_order (db_table d MAuthor)) hF d r' fs HwfF HlbF Hst HiF
              (fun kr => rows_in_order_elem _ kr) Hnd Hnew) as (h' & rows & Hb & Hext' & Hrows).
  pm_step Hb. exists h', r', lb, insts, rows. split_and!; [done| |by eapply Forall2_length|done|].
  - apply Hext'; [|done]. intros Hin%elem_of_list_to_set. destruct (list_elem_of_lookup_1 _ _ Hin) as [j Hj].
    destruct (Forall2_lookup_l _ _ _ _ _ HiF Hj) as (b & _ & ai & _ & Hlb' & _). unfold book_inst in Hlb'. congruence.
  - eapply heap_ext_new; [exact HextF|exact Hext'|].
    intros l Hl%elem_of_list_to_set. right. rewrite Forall_forall in Hfr. by apply Hfr.
Qed.

(** ** Publisher records *)

Record publisher_data := mkPublisherData { pb_name : string; pb_address : string; pb_website : string; pb_email : string }.

(** The dict of lines 76-81 as [generate_sample_data] builds it, which
    is also the row Django stores. *)
Definition publisher_dict (p : publisher_data) : list (string * val) :=
  [("name", VStr (pb_name p)); ("address", VStr (pb_address p)); ("website", VStr (pb_website p));
   ("contact_email", VStr (pb_email p))].

(** [Model.objects.create( **d)] on a dict the constructor and the
    database accept: a new instance that gets the next key. *)
Lemma objects_create_run `{RandomSource R} m l kvs attrs row h d (r : R) fs :
  heap_get h l = Some (ODict kvs) -> construct h m kvs = inr (("id", VNone) :: attrs) ->
  prep_row (with_obj h (hnext h) (OInst (model_class m) (("id", VNone) :: attrs))) m (("id", VNone) :: attrs) = inr row ->
  insert_ok d m [row] = true ->
  objects_create m (VRef l) (mkWorld h (mkEnv d r fs)) =
    (inr (VRef (hnext h)),
     mkWorld (with_obj h (hnext h) (OInst (model_class m) (("id", VInt (t_next (db_table d m))) :: attrs)))
             (mkEnv (set_table d m (insert_rows (db_table d m) [row]).1) r fs)).
Proof.
  intros Hl Hc Hp Hok. unfold objects_create.
  pm_step (py_new_run m l kvs _ h (mkEnv d r fs) Hl Hc).
  rewrite pm_bind_run. unfold get_heap. cbv beta iota. cbn [w_heap].
  unfold inst_of at 1. rewrite heap_get_with_obj_eq, String.eqb_refl. cbn [py_lift]. rewrite pm_bind_ret.
  cbn [snd]. rewrite Hp. cbn [py_lift]. rewrite pm_bind_ret, pm_bind_run. unfold get_db. cbv beta iota. simpl e_db.
  unfold db_insert. rewrite Hok. cbn [py_lift insert_rows]. rewrite pm_bind_ret. unfold put_db. rewrite pm_bind_run.
  cbv beta iota. simpl. unfold set_attr, pm_bind, py_load. simpl. rewrite heap_get_with_obj_eq. simpl.
  unfold py_store. simpl. by rewrite heap_set_with_obj_eq.
Qed.

(** With at most 85 books, [random.sample(all_books, min(10, n))] takes
    the pool algorithm of CPython, which needs no redraw. *)
Lemma setsize_min10 n : 0 <= n <= 85 -> n <= setsize (Z.min 10 n).
Proof.
  intros Hn. destruct (Z.le_gt_cases n 5) as [H5|H5].
  { unfold setsize. rewrite Z.min_r by lia. rewrite (proj2 (Z.ltb_ge 5 n)) by lia. lia. }
  destruct (Z.le_gt_cases n 10) as [H10|H10].
  - rewrite Z.min_r by lia. assert (n = 6 \/ n = 7 \/ n = 8 \/ n = 9 \/ n = 10) as Hc by lia.
    destruct_or! Hc; subst; vm_compute; discriminate.
  - rewrite Z.min_l by lia. change (setsize 10) with 85. lia.
Qed.

Lemma py_sample_pool `{RandomSource R} q xs k h d (r : R) fs :
  heap_get h q = Some (OList xs) -> 0 <= k <= Z.of_nat (length xs) -> Z.of_nat (length xs) <= setsize k ->
  exists ys r', py_sample (VRef q) k (mkWorld h (mkEnv d r fs)) =
    (inr (VRef (hnext h)), mkWorld (with_obj h (hnext h) (OList ys)) (mkEnv d r' fs)) /\ ys ⊆+ xs /\
    length ys = Z.to_nat k.
Proof.
  intros Hq Hk Hs. destruct (sample_ok sample_fuel xs k r Hk) as [(ys & r' & Hrun & Hlen & Hsub)|[? _]]; [|lia].
  exists ys, r'. split_and!; [|done|done]. unfold py_sample.
  pm_step (py_list_run q xs (mkWorld h (mkEnv d r fs)) Hq). rewrite pm_bind_run, rng_run, Hrun. reflexivity.
Qed.

(** [publisher.books.set(books_to_assign)] with a stored publisher and
    stored books. *)
Lemma m2m_set_run `{RandomSource R} i pattrs kp lsb ys krs h d (r : R) fs :
  heap_get h i = Some (OInst "Publisher" (("id", VInt kp) :: pattrs)) -> heap_get h lsb = Some (OList ys) ->
  Forall2 (inst_at h MBook) ys krs -> Forall (fun kr => kr ∈ rows_in_order (db_books d)) krs ->
  is_Some (t_rows (db_publishers d) !! kp) ->
  m2m_set (VRef i) (VRef lsb) (mkWorld h (mkEnv d r fs)) = (inr tt, mkWorld h (mkEnv (m2m_update d kp (fst <$> krs)) r fs)).
Proof.
  intros Hi Hl Hys Hkrs Hp.
  assert (Hbs : mapE (inst_pk h MBook) ys = inr (fst <$> krs)).
  { apply mapE_Forall2, Forall2_fmap_r. eapply Forall2_impl; [exact Hys|].
    intros y [k ra] (l & -> & Hy). unfold inst_pk, inst_of. rewrite Hy. reflexivity. }
  unfold m2m_set. rewrite pm_bind_run. unfold get_heap. cbv beta iota. cbn [w_heap].
  unfold inst_pk at 1, inst_of at 1. rewrite Hi. simpl. rewrite pm_bind_ret.
  pm_step (py_iter_list lsb ys (mkWorld h (mkEnv d r fs)) Hl). rewrite Hbs. cbn [py_lift]. rewrite pm_bind_ret.
  rewrite pm_bind_run. unfold get_db. cbv beta iota. cbn [w_ext e_db].
  assert (Hg : bool_decide (is_Some (t_rows (db_publishers d) !! kp)) &&
               forallb (fun b => bool_decide (is_Some (t_rows (db_books d) !! b))) (fst <$> krs) = true).
  { apply andb_true_intro. split; [by apply bool_decide_eq_true|]. apply forallb_forall.
    intros b (kr & -> & Hkr)%list_elem_of_In%list_elem_of_fmap. apply bool_decide_eq_true.
    rewrite Forall_forall in Hkrs. eexists. by apply rows_in_order_elem, Hkrs. }
  rewrite Hg. reflexivity.
Qed.

Lemma insert_rows_app t rs1 rs2 : (insert_rows (insert_rows t rs1).1 rs2).1 = (insert_rows t (rs1 ++ rs2)).1.
Proof.
  revert t. induction rs1 as [|r rs1 IH]; intros t; [done|]. simpl.
  specialize (IH (mkTable (<[t_next t := r]> (t_rows t)) (t_next t + 1))).
  destruct (insert_rows _ rs1) as [t1 k1]. destruct (insert_rows _ (rs1 ++ rs2)) as [t2 k2]. exact IH.
Qed.

(** The publishers with keys [k0], ..., [k0 + n - 1] are each related to
    [m] distinct books stored in [d0]: [books.set] of a sample of them. *)
Definition sampled_books (d d0 : db) (k0 : Z) (m n : nat) : Prop :=
  forall i, (i < n)%nat -> exists krs, krs ⊆+ rows_in_order (db_books d0) /\ length krs = m /\
    filter (fun pb => pb.1 = k0 + Z.of_nat i) (db_pub_books d) = list_to_set (pair (k0 + Z.of_nat i) <$> (fst <$> krs)).

Lemma sampled_books_step dk d0 k0 m n T krs :
  sampled_books dk d0 k0 m n -> krs ⊆+ rows_in_order (db_books d0) -> length krs = m ->
  sampled_books (m2m_update (set_table dk MPublisher T) (k0 + Z.of_nat n) (fst <$> krs)) d0 k0 m (S n).
Proof.
  intros Hs Hk Hl i Hi. rewrite pub_books_m2m_update.
  destruct (decide (i = n)) as [->|Hne]; [rewrite decide_True by done; by exists krs|].
  rewrite decide_False by lia. apply Hs. lia.
Qed.

Lemma sampled_books_books d d0 d1 k0 m n :
  db_books d0 = db_books d1 -> sampled_books d d0 k0 m n -> sampled_books d d1 k0 m n.
Proof. intros Hb Hs i Hi. rewrite <-Hb. by apply Hs. Qed.

Lemma insert_rows_next t rs : t_next (insert_rows t rs).1 = t_next t + Z.of_nat (length rs).
Proof. destruct (insert_rows t rs) eqn:E. apply (insert_rows_lookup _ _ _ _ E). Qed.

(** One round of the loop of lines 111-116: the publisher is stored with
    the next key and related to a sample of the stored books; the heap
    gets the new instance and the sample list, and the list [lpo] the
    instance. *)
Lemma publisher_step `{RandomSource R} qB vsB lpo pis l p hk dk (r : R) fs :
  heap_wf hk -> heap_get hk qB = Some (OList vsB) -> Forall2 (inst_at hk MBook) vsB (rows_in_order (db_books dk)) ->
  (length vsB <= 85)%nat -> heap_get hk lpo = Some (OList (VRef <$> pis)) ->
  heap_get hk l = Some (ODict (publisher_dict p)) ->
  exists hk' r' krs,
    (publisher <- objects_create MPublisher (VRef l) ;; n <- py_len (VRef qB) ;;
     books_to_assign <- py_sample (VRef qB) (Z.min 10 n) ;; m2m_set publisher books_to_assign ;;
     py_append (VRef lpo) publisher) (mkWorld hk (mkEnv dk r fs)) =
    (inr tt, mkWorld hk' (mkEnv (m2m_update (set_table dk MPublisher (insert_rows (db_publishers dk) [publisher_dict p]).1)
                                            (t_next (db_publishers dk)) (fst <$> krs)) r' fs)) /\
    heap_ext {[lpo]} hk hk' /\ heap_get hk' lpo = Some (OList (VRef <$> (pis ++ [hnext hk]))) /\
    krs ⊆+ rows_in_order (db_books dk) /\ length krs = Z.to_nat (Z.min 10 (Z.of_nat (length vsB))).
Proof.
  intros Hwf HqB HvsB Hn Hlpo Hl.
  set (k := t_next (db_publishers dk)).
  set (pi := OInst "Publisher" (("id", VInt k) :: publisher_dict p)).
  set (d1 := set_table dk MPublisher (insert_rows (db_publishers dk) [publisher_dict p]).1).
  set (h1 := with_obj hk (hnext hk) pi).
  pm_step (objects_create_run MPublisher l (publisher_dict p) (publisher_dict p) (publisher_dict p) hk dk r fs
             Hl eq_refl eq_refl eq_refl).
  fold k pi h1 d1.
  assert (Hwf1 : heap_wf h1) by (by apply heap_wf_with_obj).
  assert (Hq1 : heap_get h1 qB = Some (OList vsB)) by (by apply heap_get_alloc_old).
  pm_step (py_len_list qB vsB (mkWorld h1 (mkEnv d1 r fs)) Hq1).
  destruct (py_sample_pool qB vsB (Z.min 10 (Z.of_nat (length vsB))) h1 d1 r fs Hq1) as (ys & r' & Hs & Hsub & Hlen);
    [lia|apply setsize_min10; lia|].
  destruct (Forall2_submseteq_l _ _ _ _ Hsub HvsB) as (krs & Hyk & Hkrs).
  pm_step Hs. set (h2 := with_obj h1 (hnext h1) (OList ys)).
  assert (Hwf2 : heap_wf h2) by (by apply heap_wf_with_obj).
  assert (Hext12 : heap_ext ∅ hk h2) by (eapply heap_ext_trans; apply heap_ext_alloc; done).
  pm_step (m2m_set_run (hnext hk) (publisher_dict p) k (hnext h1) ys krs h2 d1 r' fs
    ltac:(by apply heap_get_alloc_old; [|apply heap_get_with_obj_eq]) (heap_get_with_obj_eq _ _ _)
    ltac:(eapply Forall2_impl; [exact Hyk|]; intros y kr Hat; eapply inst_at_ext; [exact Hext12|set_solver|exact Hat])
    ltac:(apply Forall_forall; intros kr Hkr; exact (elem_of_submseteq _ _ _ Hkr Hkrs))
    ltac:(unfold d1; simpl; rewrite lookup_insert_eq; by eexists)).
  exists (heap_set h2 lpo (OList ((VRef <$> pis) ++ [VRef (hnext hk)]))), r', krs. split_and!; [..|done|].
  - rewrite (py_append_run lpo (VRef <$> pis)); [reflexivity|]. apply Hext12; [set_solver|exact Hlpo].
  - eapply heap_ext_trans; [eapply heap_ext_mono; [|exact Hext12]; set_solver|].
    eapply heap_ext_set; [done|set_solver|]. apply Hext12; [set_solver|exact Hlpo].
  - rewrite fmap_app. apply heap_get_set_eq.
  - rewrite <-(Forall2_length _ _ _ Hyk). exact Hlen.
Qed.

(** The loop of lines 111-116 over all the publisher dicts. *)
Lemma publishers_loop `{RandomSource R} qB vsB lpo lps pbs h0 d0 (r : R) fs :
  heap_wf h0 -> heap_get h0 qB = Some (OList vsB) -> Forall2 (inst_at h0 MBook) vsB (rows_in_order (db_books d0)) ->
  (length vsB <= 85)%nat -> heap_get h0 lpo = Some (OList []) -> qB <> lpo ->
  Forall2 (fun l p => heap_get h0 l = Some (ODict (publisher_dict p))) lps pbs ->
  exists hF dF r' pis,
    pm_iter (fun publisher_data =>
               publisher <- objects_create MPublisher publisher_data ;; n <- py_len (VRef qB) ;;
               books_to_assign <- py_sample (VRef qB) (Z.min 10 n) ;; m2m_set publisher books_to_assign ;;
               py_append (VRef lpo) publisher) (VRef <$> lps) (mkWorld h0 (mkEnv d0 r fs)) =
      (inr tt, mkWorld hF (mkEnv dF r' fs)) /\
    heap_ext {[lpo]} h0 hF /\ heap_get hF lpo = Some (OList (VRef <$> pis)) /\ length pis = length pbs /\
    db_authors dF = db_authors d0 /\ db_books dF = db_books d0 /\
    db_publishers dF = (insert_rows (db_publishers d0) (publisher_dict <$> pbs)).1 /\
    sampled_books dF d0 (t_next (db_publishers d0)) (Z.to_nat (Z.min 10 (Z.of_nat (length vsB)))) (length pbs).
Proof.
  intros Hwf HqB HvsB Hn Hlpo Hne Hlps.
  destruct (pm_iter_forall2 (E := exn) (fun x p => exists l, x = VRef l /\ heap_get h0 l = Some (ODict (publisher_dict p)))
     (fun pre w => exists hk dk rk pis, w = mkWorld hk (mkEnv dk rk fs) /\ heap_ext {[lpo]} h0 hk /\
        heap_get hk lpo = Some (OList (VRef <$> pis)) /\ length pis = length pre /\
        db_authors dk = db_authors d0 /\ db_books dk = db_books d0 /\
        db_publishers dk = (insert_rows (db_publishers d0) (publisher_dict <$> pre)).1 /\
        sampled_books dk d0 (t_next (db_publishers d0)) (Z.to_nat (Z.min 10 (Z.of_nat (length vsB)))) (length pre))
     (fun publisher_data =>
        publisher <- objects_create MPublisher publisher_data ;; n <- py_len (VRef qB) ;;
        books_to_assign <- py_sample (VRef qB) (Z.min 10 n) ;; m2m_set publisher books_to_assign ;;
        py_append (VRef lpo) publisher) (VRef <$> lps) pbs (mkWorld h0 (mkEnv d0 r fs)))
    as (w' & Hrun & hF & dF & r' & pis & -> & HextF & HlF & HlenF & HaF & HbF & HpF & HsF).
  - apply Forall2_fmap_l. eapply Forall2_impl; [exact Hlps|]. eauto.
  - exists h0, d0, r, []. split_and!; [done|by apply heap_ext_refl|done|done|done|done|done|intros i Hi; simpl in Hi; lia].
  - intros pre x p w1 (l & -> & Hl) (hk & dk & rk & pis & -> & Hext & Hlk & Hlen & Ha & Hb & Hp & Hs).
    pose proof (heap_ext_wf _ _ _ Hext) as Hwfk.
    assert (Hkeep : forall j o, heap_get h0 j = Some o -> j <> lpo -> heap_get hk j = Some o)
      by (intros j o Hj Hjn; apply Hext; [set_solver|done]).
    destruct (publisher_step qB vsB lpo pis l p hk dk rk fs Hwfk) as (hk' & r2 & krs & Hrun & Hext' & Hl' & Hkrs & Hm).
    + apply Hkeep; [done|done].
    + rewrite Hb. eapply Forall2_impl; [exact HvsB|]. intros v kr Hat.
      eapply inst_at_ext; [exact Hext| |exact Hat]. intros l' -> ->%elem_of_singleton.
      destruct Hat as (? & [= <-] & Hat). congruence.
    + done.
    + done.
    + apply Hkeep; [done|]. intros ->. congruence.
    + eexists. split; [exact Hrun|]. eexists _, _, r2, (pis ++ [hnext hk]). split_and!; [done|by eapply heap_ext_trans|done| | | | |].
      * rewrite !length_app. simpl. lia.
      * done.
      * done.
      * simpl. by rewrite fmap_app, <-insert_rows_app, Hp.
      * rewrite length_app, Nat.add_1_r, Hp, insert_rows_next, length_fmap.
        apply sampled_books_step; [done| |done]. by rewrite <-Hb.
  - by exists hF, dF, r', pis.
Qed.

(** Lines 109-116 on publisher dicts, with at most 85 stored books:
    always succeed; the publishers table gets one row per dict, in
    order, the authors and books tables stay, and every object of the
    heap before is still there. *)
Lemma import_publishers_run `{RandomSource R} h ld kvs lpk lps pbs d (r : R) fs :
  heap_wf h -> heap_get h ld = Some (ODict kvs) -> assoc_lookup "publishers" kvs = Some (VRef lpk) ->
  heap_get h lpk = Some (OList (VRef <$> lps)) -> Forall2 (fun l p => heap_get h l = Some (ODict (publisher_dict p))) lps pbs ->
  keys_ok (db_books d) -> (size (t_rows (db_books d)) <= 85)%nat ->
  exists h' d' r' lpo pis,
    import_publishers (VRef ld) (mkWorld h (mkEnv d r fs)) = (inr (VRef lpo), mkWorld h' (mkEnv d' r' fs)) /\
    heap_get h' lpo = Some (OList (VRef <$> pis)) /\ length pis = length pbs /\
    db_authors d' = db_authors d /\ db_books d' = db_books d /\
    db_publishers d' = (insert_rows (db_publishers d) (publisher_dict <$> pbs)).1 /\ heap_ext ∅ h h' /\
    sampled_books d' d (t_next (db_publishers d)) (Z.to_nat (Z.min 10 (Z.of_nat (size (t_rows (db_books d)))))) (length pbs).
Proof.
  intros Hwf Hd Hk Hlpk Hlps HkB Hsz. unfold import_publishers.
  destruct (objects_all_run MBook h d r fs Hwf) as (h1 & q & vs & Hrun1 & Hext1 & Hq & Hvs).
  pose proof (heap_ext_wf _ _ _ Hext1) as Hwf1. pm_step Hrun1.
  pm_step (py_alloc_run (OList []) h1 (mkEnv d r fs)). set (lpo := hnext h1). set (h2 := with_obj h1 lpo (OList [])).
  assert (Hext2 : heap_ext ∅ h h2) by (eapply heap_ext_trans; [exact Hext1|by apply heap_ext_alloc]).
  assert (Hold : forall l o, heap_get h l = Some o -> heap_get h2 l = Some o) by (intros l o; apply Hext2; set_solver).
  pm_step (py_getitem_dict "publishers" ld kvs _ (mkWorld h2 (mkEnv d r fs)) (Hold _ _ Hd) Hk).
  pm_step (py_iter_list lpk _ (mkWorld h2 (mkEnv d r fs)) (Hold _ _ Hlpk)).
  destruct (publishers_loop q vs lpo lps pbs h2 d r fs (heap_ext_wf _ _ _ Hext2) ltac:(by apply heap_get_alloc_old))
    as (hF & dF & r' & pis & Hrun & HextF & HlF & Hlen & Ha & Hb & Hp & Hs).
  - eapply Forall2_impl; [exact Hvs|]. intros v kr. apply (inst_at_ext ∅); [by apply heap_ext_alloc|set_solver].
  - apply Forall2_length in Hvs. rewrite rows_in_order_length in Hvs by done. simpl in Hvs. lia.
  - apply heap_get_with_obj_eq.
  - pose proof (heap_wf_lt _ _ _ Hwf1 Hq). unfold lpo. lia.
  - eapply Forall2_impl; [exact Hlps|]. eauto.
  - pm_step Hrun. exists hF, dF, r', lpo, pis. split_and!; try done.
    2: { pose proof (Forall2_length _ _ _ Hvs) as Hl. rewrite rows_in_order_length in Hl by done. simpl in Hl.
         by rewrite Hl in Hs. }
    eapply heap_ext_new; [exact Hext2|exact HextF|]. intros l ->%elem_of_singleton. right.
    destruct (heap_get h lpo) eqn:E; [|done]. apply Hext1 in E; [|set_solver]. by rewrite heap_wf_fresh in E.
Qed.

(** ** The whole import *)

(** [data] is a dict whose 'authors', 'books' and 'publishers' are lists
    of dicts of the generator's shape. *)
Definition import_input (h : heap) (data : val) (ads : list author_data) (bks : list book_data)
    (pbs : list publisher_data) : Prop :=
  exists ld kvs la lb lp las lbs lps, data = VRef ld /\ heap_get h ld = Some (ODict kvs) /\
    assoc_lookup "authors" kvs = Some (VRef la) /\ assoc_lookup "books" kvs = Some (VRef lb) /\
    assoc_lookup "publishers" kvs = Some (VRef lp) /\
    heap_get h la = Some (OList (VRef <$> las)) /\ heap_get h lb = Some (OList (VRef <$> lbs)) /\
    heap_get h lp = Some (OList (VRef <$> lps)) /\
    Forall2 (fun l a => heap_get h l = Some (ODict (author_dict a))) las ads /\
    Forall2 (fun l b => heap_get h l = Some (ODict (book_dict b))) lbs bks /\
    Forall2 (fun l p => heap_get h l = Some (ODict (publisher_dict p))) lps pbs.

(** What the database must allow: an author to draw for the books,
    prices that fit, new and distinct ISBNs, and at most 85 books so
    that [random.sample] takes its pool algorithm. *)
Definition import_allowed (d : db) (ads : list author_data) (bks : list book_data) : Prop :=
  (bks <> [] -> ads <> [] \/ t_rows (db_authors d) <> ∅) /\
  Forall (fun b => book_storable b = true) bks /\ NoDup (bk_isbn <$> bks) /\
  Forall (fun b => VStr (bk_isbn b) ∉ col_values "isbn" (table_rows (db_books d))) bks /\
  (size (t_rows (db_books d)) + length bks <= 85)%nat.

(** Only the book dicts change in the book phase. *)
Lemma not_book_dict h lbs bks l o :
  Forall2 (fun l b => heap_get h l = Some (ODict (book_dict b))) lbs bks -> heap_get h l = Some o ->
  (forall b, o <> ODict (book_dict b)) -> l ∉ list_to_set (C := gset loc) lbs.
Proof.
  intros Hf Hl Ho Hin%elem_of_list_to_set. destruct (list_elem_of_lookup_1 _ _ Hin) as [j Hj].
  destruct (Forall2_lookup_l _ _ _ _ _ Hf Hj) as (b & _ & Hb). apply (Ho b). congruence.
Qed.

Lemma kept_after_books h1 h2 h3 (N : gset loc) l o :
  heap_ext N h1 h2 -> heap_ext ∅ h2 h3 -> l ∉ N -> heap_get h1 l = Some o -> heap_get h3 l = Some o.
Proof. intros [_ H12] [_ H23] HN Hl. apply H23; [set_solver|]. by apply H12. Qed.

(** What the books phase leaves alone: every object that is not a book
    dict of the input. *)
Lemma kept_by_books h1 h2 lbs bks l o :
  Forall2 (fun l b => heap_get h1 l = Some (ODict (book_dict b))) lbs bks ->
  heap_ext (list_to_set lbs) h1 h2 -> heap_get h1 l = Some o -> (forall b, o <> ODict (book_dict b)) ->
  heap_get h2 l = Some o.
Proof. intros Hf [_ Hx] Hl Ho. apply Hx; [|done]. by eapply not_book_dict. Qed.

Lemma publisher_not_book p b : ODict (publisher_dict p) <> ODict (book_dict b).
Proof. by intros [=]. Qed.

Lemma nonempty_after_insert t rs t' ks :
  keys_ok t -> insert_rows t rs = (t', ks) -> rs <> [] \/ t_rows t <> ∅ -> t_rows t' <> ∅.
Proof.
  intros Hk Hi Hne He. pose proof (insert_rows_size _ _ _ _ Hk Hi) as Hs.
  rewrite He, map_size_empty in Hs. destruct Hne as [Hr|Ht]; [destruct rs; [done|simpl in Hs; lia]|].
  apply Ht, map_size_empty_iff. lia.
Qed.

(** After the authors phase there is an author to draw for every book. *)
Lemma authors_for_books d ads (bks : list book_data) tA ksA :
  keys_ok (db_authors d) -> insert_rows (db_authors d) (author_dict <$> ads) = (tA, ksA) ->
  (bks <> [] -> ads <> [] \/ t_rows (db_authors d) <> ∅) -> bks <> [] -> t_rows tA <> ∅.
Proof.
  intros KA EA Hauth Hb. eapply nonempty_after_insert; [exact KA|exact EA|].
  destruct (Hauth Hb) as [Ha|Ha]; [left|by right]. by destruct ads.
Qed.

Lemma import_to_database_run `{RandomSource R} h data ads bks pbs d (r : R) fs :
  heap_wf h -> db_ok d -> import_input h data ads bks pbs -> import_allowed d ads bks ->
  exists h' d' r' l,
    import_to_database data (mkWorld h (mkEnv d r fs)) = (inr (VRef l), mkWorld h' (mkEnv d' r' fs)) /\
    heap_wf h' /\ heap_get h' l = Some (ODict [("authors", VInt (Z.of_nat (length ads))); ("books", VInt (Z.of_nat (length bks)));
                                 ("publishers", VInt (Z.of_nat (length pbs)))]) /\
    db_authors d' = (insert_rows (db_authors d) (author_dict <$> ads)).1 /\
    (exists rows, Forall2 (fun r b => exists k ra pv, r = book_row b k pv /\ t_rows (db_authors d') !! k = Some ra /\
                                        decimal_price (bk_price b) = inr pv) rows bks /\
                  db_books d' = (insert_rows (db_books d) rows).1) /\
    db_publishers d' = (insert_rows (db_publishers d) (publisher_dict <$> pbs)).1 /\
    sampled_books d' d' (t_next (db_publishers d)) (Z.to_nat (Z.min 10 (Z.of_nat (size (t_rows (db_books d')))))) (length pbs).
Proof.
  intros Hwf (KA & KB & KP & _) (ld & kvs & la & lb & lp & las & lbs & lps & -> & Hd & Hka & Hkb & Hkp & Hla & Hlb & Hlp & Has & Hbs & Hps)
    (Hauth & Hst & Hnd & Hnew & Hsz).
  destruct (import_authors_run h (VRef ld) ads d r fs Hwf) as (h1 & lo & ainsts & Hrun1 & Hlo1 & Hlen1 & Hext1).
  { by exists ld, kvs, la, las. }
  destruct (insert_rows (db_authors d) (author_dict <$> ads)) as [tA ksA] eqn:EA.
  assert (Hh1 : forall l o, heap_get h l = Some o -> heap_get h1 l = Some o) by (intros l o; apply Hext1; set_solver).
  assert (Hbs1 := Forall2_impl _ _ _ _ Hbs (fun l b Hl => Hh1 _ _ Hl)).
  pose proof (authors_for_books _ _ _ _ _ KA EA Hauth) as HA1.
  unfold import_to_database. pm_step Hrun1.
  destruct (import_books_run h1 ld kvs lb lbs bks (set_table d MAuthor tA) r fs (heap_ext_wf _ _ _ Hext1) (Hh1 _ _ Hd) Hkb
              (Hh1 _ _ Hlb) Hbs1 (proj1 (insert_rows_grow _ _ _ _ KA EA)) HA1 Hst Hnd Hnew)
    as (h2 & r2 & lbo & binsts & rowsB & Hrun2 & Hlbo2 & Hlen2 & Hrows & Hext2).
  change (db_books (set_table d MAuthor tA)) with (db_books d) in Hrun2.
  pm_step Hrun2. destruct (insert_rows (db_books d) rowsB) as [tB ksB] eqn:EB. cbn [fst] in *.
  assert (Hh2 : forall l o, heap_get h l = Some o -> (forall b, o <> ODict (book_dict b)) -> heap_get h2 l = Some o)
    by (intros; eapply kept_by_books; eauto).
  assert (HsB := insert_rows_size _ _ _ _ KB EB). rewrite (Forall2_length _ _ _ Hrows) in HsB.
  destruct (import_publishers_run h2 ld kvs lp lps pbs (set_table (set_table d MAuthor tA) MBook tB) r2 fs
              (heap_ext_wf _ _ _ Hext2) (Hh2 _ _ Hd ltac:(intros b [= Hb]; rewrite Hb in Hka; discriminate Hka)) Hkp
              (Hh2 _ _ Hlp ltac:(discriminate))
              (Forall2_impl _ _ _ _ Hps (fun l p Hl => Hh2 _ _ Hl (publisher_not_book p)))
              (proj1 (insert_rows_grow _ _ _ _ KB EB)) ltac:(simpl; lia))
    as (h3 & d3 & r3 & lpo & pis & Hrun3 & Hlpo3 & Hlen3 & HA3 & HB3 & HP3 & Hext3 & Hs3).
  pm_step Hrun3.
  pm_step (py_len_list lo _ (mkWorld h3 (mkEnv d3 r3 fs))
             (proj2 Hext3 lo _ ltac:(set_solver) (kept_by_books _ _ _ _ _ _ Hbs1 Hext2 Hlo1 ltac:(discriminate)))).
  pm_step (py_len_list lbo _ (mkWorld h3 (mkEnv d3 r3 fs)) (proj2 Hext3 lbo _ ltac:(set_solver) Hlbo2)).
  pm_step (py_len_list lpo _ (mkWorld h3 (mkEnv d3 r3 fs)) Hlpo3).
  pm_step (py_alloc_run (ODict [("authors", VInt (Z.of_nat (length (VRef <$> ainsts))));
    ("books", VInt (Z.of_nat (length (VRef <$> binsts)))); ("publishers", VInt (Z.of_nat (length (VRef <$> pis))))]) h3 (mkEnv d3 r3 fs)).
  rewrite !length_fmap, Hlen1, Hlen2, Hlen3.
  eexists _, d3, r3, _. split; [reflexivity|]. split; [apply heap_wf_with_obj, (heap_ext_wf _ _ _ Hext3)|].
  split; [apply heap_get_with_obj_eq|].
  rewrite HA3, HP3. split_and!; [done|by exists rowsB; rewrite HB3, EB|done|].
  rewrite HB3. by apply (sampled_books_books _ _ _ _ _ _ (eq_sym HB3)).
Qed.

(** C11. The import succeeds on input of the generator's shape: when the
    heap is well formed, the store consistent, the dict [data] holds
    lists of author, book and publisher dicts as [generate_sample_data]
    builds them, every book can be stored (pages not negative, the price
    quantizes to two places), the isbns are new and distinct, an author
    exists when a book does and at most 85 books are stored in the end,
    then [import_to_database(data)] returns the dict of the counts of the
    input lists, and each table has grown by the length of its list. *)
Theorem import_succeeds `{RandomSource R} h data ads bks pbs d (r : R) fs :
  heap_wf h -> db_ok d -> import_input h data ads bks pbs -> import_allowed d ads bks ->
  exists h' d' r' l,
    import_to_database data (mkWorld h (mkEnv d r fs)) = (inr (VRef l), mkWorld h' (mkEnv d' r' fs)) /\
    heap_get h' l = Some (ODict [("authors", VInt (Z.of_nat (length ads))); ("books", VInt (Z.of_nat (length bks)));
                                 ("publishers", VInt (Z.of_nat (length pbs)))]) /\
    size (t_rows (db_authors d')) = (size (t_rows (db_authors d)) + length ads)%nat /\
    size (t_rows (db_books d')) = (size (t_rows (db_books d)) + length bks)%nat /\
    size (t_rows (db_publishers d')) = (size (t_rows (db_publishers d)) + length pbs)%nat.
Proof.
  intros Hwf Hok Hin Hal. pose proof Hok as (KA & KB & KP & _).
  destruct (import_to_database_run h data ads bks pbs d r fs Hwf Hok Hin Hal)
    as (h' & d' & r' & l & Hrun & _ & Hl & HA & (rows & Hrows & HB) & HP & _).
  exists h', d', r', l. split_and!; [done|done|..].
  - rewrite HA, (insert_rows_size _ _ _ _ KA (surjective_pairing _)). by rewrite length_fmap.
  - rewrite HB, (insert_rows_size _ _ _ _ KB (surjective_pairing _)). by rewrite (Forall2_length _ _ _ Hrows).
  - rewrite HP, (insert_rows_size _ _ _ _ KP (surjective_pairing _)). by rewrite length_fmap.
Qed.

(** The dict [data] of [generate_sample_data(1)]: the author, book and
    publisher dicts at 1, 2, 3, the lists at 4, 5, 6, [data] at 7. *)
Definition one_of_each_author : author_data := mkAuthorData "Li Lei" (mkDate 1970 1 1) "China" "".
Definition one_of_each_book : book_data := mkBookData "Dune" (mkDate 1965 8 1) "Fiction" "9780441013593" 412 (PFin 1999 (-2)).
Definition one_of_each_publisher : publisher_data := mkPublisherData "Chilton" "Philadelphia" "chilton.com" "info@chilton.com".

Definition one_of_each_heap : heap :=
  heap_of [ODict (author_dict one_of_each_author); ODict (book_dict one_of_each_book);
           ODict (publisher_dict one_of_each_publisher); OList [VRef 1]; OList [VRef 2]; OList [VRef 3];
           ODict [("authors", VRef 4); ("books", VRef 5); ("publishers", VRef 6)]].

Lemma one_of_each_input :
  heap_wf one_of_each_heap /\
  import_input one_of_each_heap (VRef 7) [one_of_each_author] [one_of_each_book] [one_of_each_publisher] /\
  import_allowed empty_db [one_of_each_author] [one_of_each_book].
Proof.
  split_and!; [apply heap_closed_wf; decide_by_compute| |].
  - exists 7%positive, [("authors", VRef 4); ("books", VRef 5); ("publishers", VRef 6)],
      4%positive, 5%positive, 6%positive, [1%positive], [2%positive], [3%positive].
    split_and!; try reflexivity; repeat constructor.
  - split_and!; [by left| |apply NoDup_singleton| |vm_compute; lia].
    + apply Forall_singleton. vm_compute. reflexivity.
    + apply Forall_singleton. vm_compute. set_solver.
Qed.

Lemma import_succeeds_witness :
  heap_wf one_of_each_heap /\ db_ok empty_db /\
  import_input one_of_each_heap (VRef 7) [one_of_each_author] [one_of_each_book] [one_of_each_publisher] /\
  import_allowed empty_db [one_of_each_author] [one_of_each_book] /\
  exists h' d' r' l,
    import_to_database (VRef 7) (mkWorld one_of_each_heap (mkEnv empty_db (2024 : Z) ∅)) =
      (inr (VRef l), mkWorld h' (mkEnv d' r' ∅)) /\
    heap_get h' l = Some (ODict [("authors", VInt 1); ("books", VInt 1); ("publishers", VInt 1)]) /\
    size (t_rows (db_authors d')) = 1%nat /\ size (t_rows (db_books d')) = 1%nat /\
    size (t_rows (db_publishers d')) = 1%nat.
Proof.
  destruct one_of_each_input as (Hwf & Hin & Hal).
  split_and!; [exact Hwf|exact empty_db_ok|exact Hin|exact Hal|].
  exact (import_succeeds one_of_each_heap (VRef 7) [one_of_each_author] [one_of_each_book] [one_of_each_publisher]
           empty_db 2024 ∅ Hwf empty_db_ok Hin Hal).
Defined.

(** C12. The uniqueness failure of the spec (section 7), in general: on
    input of the generator's shape whose books can be stored and get an
    author, but where an ISBN repeats in the input or is already stored,
    [import_to_database(data)] raises IntegrityError at the
    [bulk_create] of line 106.  The authors are stored by then (Django
    commits each statement), no book and no publisher is. *)
Theorem import_isbn_clash `{RandomSource R} h data ads bks pbs d (r : R) fs :
  heap_wf h -> db_ok d -> import_input h data ads bks pbs ->
  (bks <> [] -> ads <> [] \/ t_rows (db_authors d) <> ∅) -> Forall (fun b => book_storable b = true) bks ->
  isbn_clash d bks ->
  exists h' r', import_to_database data (mkWorld h (mkEnv d r fs)) =
    (inl IntegrityError, mkWorld h' (mkEnv (set_table d MAuthor (insert_rows (db_authors d) (author_dict <$> ads)).1) r' fs)).
Proof.
  intros Hwf (KA & _) (ld & kvs & la & lb & lp & las & lbs & lps & -> & Hd & Hka & Hkb & Hkp & Hla & Hlb & Hlp & Has & Hbs & Hps)
    Hauth Hst Hc.
  destruct (import_authors_run h (VRef ld) ads d r fs Hwf) as (h1 & lo & ainsts & Hrun1 & _ & _ & Hext1).
  { by exists ld, kvs, la, las. }
  destruct (insert_rows (db_authors d) (author_dict <$> ads)) as [tA ksA] eqn:EA.
  assert (Hh1 : forall l o, heap_get h l = Some o -> heap_get h1 l = Some o) by (intros l o; apply Hext1; set_solver).
  destruct (import_books_loop h1 ld kvs lb lbs bks (set_table d MAuthor tA) r fs (heap_ext_wf _ _ _ Hext1) (Hh1 _ _ Hd) Hkb
              (Hh1 _ _ Hlb) (Forall2_impl _ _ _ _ Hbs (fun l b Hl => Hh1 _ _ Hl)) (proj1 (insert_rows_grow _ _ _ _ KA EA))
              (authors_for_books _ _ _ _ _ KA EA Hauth))
    as (hF & r' & lbo & insts & Hrun2 & _ & HlbF & HiF & _ & _).
  rewrite (pm_bind_inl _ _ _ _ _ (bulk_create_books_fail lbo insts bks _ hF (set_table d MAuthor tA) r' fs HlbF Hst HiF Hc))
    in Hrun2.
  unfold import_to_database. pm_step Hrun1. pm_step Hrun2. by exists hF, r'.
Qed.

(** The dict [data] whose 'books' list holds the same book dict twice:
    the author dict at 1, the book dict at 2, the lists at 3, 4, 5,
    [data] at 6. *)
Definition twice_book_heap : heap :=
  heap_of [ODict (author_dict one_of_each_author); ODict (book_dict one_of_each_book); OList [VRef 1];
           OList [VRef 2; VRef 2]; OList []; ODict [("authors", VRef 3); ("books", VRef 4); ("publishers", VRef 5)]].

Lemma import_isbn_clash_witness :
  heap_wf twice_book_heap /\ db_ok empty_db /\
  import_input twice_book_heap (VRef 6) [one_of_each_author] [one_of_each_book; one_of_each_book] [] /\
  ([one_of_each_book; one_of_each_book] <> [] -> [one_of_each_author] <> [] \/ t_rows (db_authors empty_db) <> ∅) /\
  Forall (fun b => book_storable b = true) [one_of_each_book; one_of_each_book] /\
  isbn_clash empty_db [one_of_each_book; one_of_each_book] /\
  exists h' r', import_to_database (VRef 6) (mkWorld twice_book_heap (mkEnv empty_db (2024 : Z) ∅)) =
    (inl IntegrityError,
     mkWorld h' (mkEnv (set_table empty_db MAuthor (insert_rows (db_authors empty_db) (author_dict <$> [one_of_each_author])).1) r' ∅)).
Proof.
  assert (Hwf : heap_wf twice_book_heap) by (apply heap_closed_wf; decide_by_compute).
  assert (Hin : import_input twice_book_heap (VRef 6) [one_of_each_author] [one_of_each_book; one_of_each_book] []).
  { exists 6%positive, [("authors", VRef 3); ("books", VRef 4); ("publishers", VRef 5)],
      3%positive, 4%positive, 5%positive, [1%positive], [2%positive; 2%positive], [].
    split_and!; try reflexivity; repeat constructor. }
  assert (Ha : [one_of_each_book; one_of_each_book] <> [] -> [one_of_each_author] <> [] \/ t_rows (db_authors empty_db) <> ∅)
    by (intros _; by left).
  assert (Hst : Forall (fun b => book_storable b = true) [one_of_each_book; one_of_each_book])
    by (repeat constructor; vm_compute; reflexivity).
  assert (Hc : isbn_clash empty_db [one_of_each_book; one_of_each_book]).
  { left. intros Hnd. apply NoDup_cons in Hnd as [Hn _]. apply Hn, list_elem_of_here. }
  split_and!; [exact Hwf|exact empty_db_ok|exact Hin|exact Ha|exact Hst|exact Hc|].
  exact (import_isbn_clash twice_book_heap (VRef 6) [one_of_each_author] [one_of_each_book; one_of_each_book] []
           empty_db 2024 ∅ Hwf empty_db_ok Hin Ha Hst Hc).
Defined.
