(* ===== verification/Exporter.v ===== *)
(** * [export_from_database] (src/data_import_export.py, lines 124-167)

    The exporter reads the three tables through the ORM, builds the
    document [data] as new dicts and lists in the heap (dates as ISO
    strings, a book's author by name, a price as a float, a publisher's
    books by title), writes it with [json.dump] ([Json]) to the file
    [filename] of the environment and returns the three lengths.  A file
    is a string; [open(filename, 'w')] empties it and every chunk the
    encoder yields is appended, so if encoding raises, the file keeps
    the text written so far.  Opening never fails in the model (an
    unwritable path is not modelled).

    The contract of the exporter is the pure document [export_doc d]
    (a [Json.jv] built from the tables) and the reference printer
    [Json.jprint].  Section [Steps] follows the loops: after each record
    the heap holds a new dict that represents ([Json.repr]) the entry of
    [export_doc], and earlier entries stay represented ([Json.stable]).
    The theorems show that on a database satisfying [db_ok] whose rows
    the exporter can print ([export_ok]: dates and prices of the stored
    kinds) the file holds exactly [jprint 0 (export_doc d)] and the
    three sizes are returned.  Measured with [Prelude.within], every step before
    [json.dump] only reads the environment, so the export changes no
    table, no random state and no file but [filename]; [write_json]
    writes the reference printing of the document it is given. *)

From S2P Require Import Prelude PyValue PyNum Schema Random Store Json Importer.
Import Fields.

Local Open Scope Z_scope.

(** [date.isoformat()]: [%04d-%02d-%02d]. *)
Definition pad (n : nat) (cs : list ascii) : list ascii := zeros (n - length cs) ++ cs.

Definition isoformat (d : date) : string :=
  String.string_of_list_ascii
    (pad 4 (dec_digits (year d)) ++ "-"%char :: pad 2 (dec_digits (month d)) ++
     "-"%char :: pad 2 (dec_digits (day d))).

Section Exporter.
Context `{RandomSource R}.

(** [v.isoformat()] *)
Definition py_isoformat (v : val) : DbM R val :=
  match v with
  | VDate d => pm_ret (VStr (isoformat d))
  | _ => pm_raise AttributeError
  end.

(** [float(v)] *)
Definition py_float_call (v : val) : DbM R val :=
  f <- py_lift (py_float v) ;; pm_ret (VFloat f).

(** [open(filename, 'w')] and [json.dump(data, f, ...)] inside [with]. *)
Definition write_json (filename : string) (data : val) : DbM R unit :=
  fun w =>
    let '(text, err) := json_dump (w_heap w) data in
    let w' := mkWorld (w_heap w) (mkEnv (e_db (w_ext w)) (e_rng (w_ext w))
                                         (<[filename := text]> (e_files (w_ext w)))) in
    match err with Some e => (inl e, w') | None => (inr tt, w') end.

(** Lines 133-139: one author entry. *)
Definition export_author (data : val) (author : val) : DbM R unit :=
  lst <- py_getitem data "authors" ;;
  nm <- get_attr author "name" ;;
  bd <- get_attr author "birth_date" ;;
  bds <- py_isoformat bd ;;
  c <- get_attr author "country" ;;
  bio <- get_attr author "biography" ;;
  d <- py_alloc (ODict [("name", nm); ("birth_date", bds); ("country", c); ("biography", bio)]) ;;
  py_append lst (VRef d).

(** Lines 142-151: one book entry. *)
Definition export_book (data : val) (book : val) : DbM R unit :=
  lst <- py_getitem data "books" ;;
  t <- get_attr book "title" ;;
  a <- fk_get book (mkField "author" (FForeignKey MAuthor) false) ;;
  an <- get_attr a "name" ;;
  pd <- get_attr book "publication_date" ;;
  pds <- py_isoformat pd ;;
  g <- get_attr book "genre" ;;
  isbn <- get_attr book "isbn" ;;
  pages <- get_attr book "pages" ;;
  pr <- get_attr book "price" ;;
  prf <- py_float_call pr ;;
  d <- py_alloc (ODict [("title", t); ("author", an); ("publication_date", pds); ("genre", g);
                        ("isbn", isbn); ("pages", pages); ("price", prf)]) ;;
  py_append lst (VRef d).

(** Lines 154-162: one publisher entry. *)
Definition export_publisher (data : val) (publisher : val) : DbM R unit :=
  nm <- get_attr publisher "name" ;;
  ad <- get_attr publisher "address" ;;
  web <- get_attr publisher "website" ;;
  em <- get_attr publisher "contact_email" ;;
  rb <- related_books publisher ;;
  bks <- py_list rb ;;
  titles <- pm_map (fun b => get_attr b "title") bks ;;
  tl <- py_alloc (OList titles) ;;
  pdict <- py_alloc (ODict [("name", nm); ("address", ad); ("website", web); ("contact_email", em);
                            ("books", VRef tl)]) ;;
  lst <- py_getitem data "publishers" ;;
  py_append lst (VRef pdict).

(** [export_from_database(filename)], lines 124-167 *)
Definition export_from_database (filename : string) : DbM R (Z * Z * Z) :=
  la <- py_alloc (OList []) ;;
  lb <- py_alloc (OList []) ;;
  lp <- py_alloc (OList []) ;;
  data <- py_alloc (ODict [("authors", VRef la); ("books", VRef lb); ("publishers", VRef lp)]) ;;
  aq <- objects_all MAuthor ;; authors <- py_list aq ;;
  pm_iter (export_author (VRef data)) authors ;;
  bq <- objects_all MBook ;; books <- py_list bq ;;
  pm_iter (export_book (VRef data)) books ;;
  pq <- objects_all MPublisher ;; publishers <- py_list pq ;;
  pm_iter (export_publisher (VRef data)) publishers ;;
  write_json filename (VRef data) ;;
  na <- (x <- py_getitem (VRef data) "authors" ;; py_len x) ;;
  nb <- (x <- py_getitem (VRef data) "books" ;; py_len x) ;;
  np <- (x <- py_getitem (VRef data) "publishers" ;; py_len x) ;;
  pm_ret (na, nb, np).

End Exporter.

(** ** The document the exporter writes

    [export_doc d] is the document of lines 127-162 computed from the
    database alone: the rows of each table in key order, the columns the
    loops read, a book's author by the name of its row, each publisher's
    related books by title. *)

(** The value of column [c] of a row. *)
Definition col (c : string) (r : row) : val := default VNone (assoc_lookup c r).

Definition date_text (v : val) : val := match v with VDate d => VStr (isoformat d) | _ => VNone end.

Definition float_of (v : val) : val := match py_float v with inr f => VFloat f | inl _ => VNone end.

Definition author_doc (r : row) : jv :=
  JObj [("name", JAtom (col "name" r)); ("birth_date", JAtom (date_text (col "birth_date" r)));
        ("country", JAtom (col "country" r)); ("biography", JAtom (col "biography" r))].

Definition author_name (d : db) (r : row) : val :=
  match col "author_id" r with
  | VInt a => match t_rows (db_authors d) !! a with Some ra => col "name" ra | None => VNone end
  | _ => VNone
  end.

Definition book_doc (d : db) (r : row) : jv :=
  JObj [("title", JAtom (col "title" r)); ("author", JAtom (author_name d r));
        ("publication_date", JAtom (date_text (col "publication_date" r))); ("genre", JAtom (col "genre" r));
        ("isbn", JAtom (col "isbn" r)); ("pages", JAtom (col "pages" r));
        ("price", JAtom (float_of (col "price" r)))].

Definition related_rows (d : db) (p : Z) : list (Z * row) :=
  filter (fun kr => (p, kr.1) ∈ db_pub_books d) (rows_in_order (db_books d)).

Definition publisher_doc (d : db) (kr : Z * row) : jv :=
  JObj [("name", JAtom (col "name" kr.2)); ("address", JAtom (col "address" kr.2));
        ("website", JAtom (col "website" kr.2)); ("contact_email", JAtom (col "contact_email" kr.2));
        ("books", JArr ((fun kb => JAtom (col "title" kb.2)) <$> related_rows d kr.1))].

Definition export_doc (d : db) : jv :=
  JObj [("authors", JArr ((fun kr => author_doc kr.2) <$> rows_in_order (db_authors d)));
        ("books", JArr ((fun kr => book_doc d kr.2) <$> rows_in_order (db_books d)));
        ("publishers", JArr (publisher_doc d <$> rows_in_order (db_publishers d)))].

(** What the export needs of the stored rows: the columns it reads are
    there, dates are dates, the price converts to a float and every value
    written is one [json] encodes (an int of at most 4300 digits, a str,
    ...).  Rows stored through the model's fields have the right types;
    a char column is stored as given, so its value must be encodable. *)
Definition col_ok (c : string) (r : row) : Prop :=
  exists v s, assoc_lookup c r = Some v /\ scalar v = Some (inr s).

Definition date_ok (c : string) (r : row) : Prop := exists dt, assoc_lookup c r = Some (VDate dt).

Definition price_ok (r : row) : Prop := exists v f, assoc_lookup "price" r = Some v /\ py_float v = inr f.

Definition author_row_ok (r : row) : Prop :=
  col_ok "name" r /\ date_ok "birth_date" r /\ col_ok "country" r /\ col_ok "biography" r.

Definition book_row_ok (r : row) : Prop :=
  col_ok "title" r /\ date_ok "publication_date" r /\ col_ok "genre" r /\ col_ok "isbn" r /\
  col_ok "pages" r /\ price_ok r.

Definition publisher_row_ok (r : row) : Prop :=
  col_ok "name" r /\ col_ok "address" r /\ col_ok "website" r /\ col_ok "contact_email" r.

Definition export_ok (d : db) : Prop :=
  map_Forall (fun _ => author_row_ok) (t_rows (db_authors d)) /\
  map_Forall (fun _ => book_row_ok) (t_rows (db_books d)) /\
  map_Forall (fun _ => publisher_row_ok) (t_rows (db_publishers d)).

(** ** Reading the columns of a loaded instance *)

Section Reads.
Context `{RandomSource R}.
Implicit Types (w : world (env R)).

Lemma col_lookup c r v : assoc_lookup c r = Some v -> col c r = v.
Proof. unfold col. by intros ->. Qed.

Lemma py_isoformat_run dt w : py_isoformat (VDate dt) w = (inr (VStr (isoformat dt)), w).
Proof. reflexivity. Qed.

Lemma py_float_call_col r w : price_ok r -> py_float_call (col "price" r) w = (inr (float_of (col "price" r)), w).
Proof.
  intros (v & f & Hv & Hf). rewrite (col_lookup _ _ _ Hv). unfold py_float_call, float_of. rewrite Hf. reflexivity.
Qed.

Lemma get_attr_col l cls k r c w :
  heap_get (w_heap w) l = Some (OInst cls (("id", VInt k) :: r)) -> String.eqb c "id" = false ->
  is_Some (assoc_lookup c r) -> get_attr (VRef l) c w = (inr (col c r), w).
Proof.
  intros Hl Hc [v Hv]. replace (col c r) with v by (unfold col; by rewrite Hv).
  apply (get_attr_run l cls _ c v w Hl). simpl. by rewrite Hc.
Qed.
End Reads.

Lemma col_ok_some c r : col_ok c r -> is_Some (assoc_lookup c r).
Proof. intros (v & s & Hv & _). by exists v. Qed.

Lemma date_ok_some c r : date_ok c r -> is_Some (assoc_lookup c r).
Proof. intros [dt Hdt]. by eexists. Qed.

Lemma repr_col h L c r : col_ok c r -> repr h L (col c r) (JAtom (col c r)).
Proof. intros (v & s & Hv & Hs). rewrite (col_lookup _ _ _ Hv). by econstructor. Qed.

Lemma repr_str h L s : repr h L (VStr s) (JAtom (VStr s)).
Proof. by econstructor. Qed.

Lemma repr_float_of h L r : price_ok r -> repr h L (float_of (col "price" r)) (JAtom (float_of (col "price" r))).
Proof. intros (v & f & Hv & Hf). rewrite (col_lookup _ _ _ Hv). unfold float_of. rewrite Hf. by econstructor. Qed.

Lemma date_text_col c r dt : assoc_lookup c r = Some (VDate dt) -> date_text (col c r) = VStr (isoformat dt).
Proof. intros Hdt. by rewrite (col_lookup _ _ _ Hdt). Qed.

Create HintDb export discriminated.
#[export] Hint Resolve repr_col repr_str repr_float_of col_ok_some date_ok_some : export.

(** The entries of a dict object against those of a document object. *)
Ltac doc_entries :=
  repeat (apply Forall2_cons_2; [split; [reflexivity|solve [eauto with export]]|]); apply Forall2_nil_2.

(** ** One iteration of each loop *)

(** The dict [data] of line 127. *)
Definition data_obj (la lb lp : loc) : obj :=
  ODict [("authors", VRef la); ("books", VRef lb); ("publishers", VRef lp)].

Section Steps.
Context `{RandomSource R}.
Variables (D la lb lp : loc).
Let M0 : gset loc := {[D; la; lb; lp]}.

(** A new dict at the next location, appended to the list [lst]: the
    heap extends the old one outside [lst], and the dict is a stable
    document if its entries are documents with locations [F0] of the old
    heap outside [M0]. *)
Lemma alloc_append_stable hc lst xs kvs jkvs F0 :
  heap_wf hc -> heap_get hc lst = Some (OList xs) -> M0 ⊆ dom (hmap hc) -> lst ∈ M0 ->
  F0 ⊆ dom (hmap hc) -> F0 ## M0 ->
  Forall2 (fun kv jkv => kv.1 = jkv.1 /\ repr hc F0 kv.2 jkv.2) kvs jkvs ->
  let hc' := heap_set (with_obj hc (hnext hc) (ODict kvs)) lst (OList (xs ++ [VRef (hnext hc)])) in
  heap_ext {[lst]} hc hc' /\ heap_get hc' lst = Some (OList (xs ++ [VRef (hnext hc)])) /\
  stable M0 hc' (VRef (hnext hc)) (JObj jkvs).
Proof.
  intros Hwf Hl HM Hlst HF0 HF0d HF hc'.
  pose proof (heap_wf_next_notin hc (dom (hmap hc)) Hwf ltac:(done)) as Ha.
  assert (Hne : lst <> hnext hc) by set_solver.
  assert (Hext : heap_ext {[lst]} hc hc').
  { eapply heap_ext_trans; [by apply heap_ext_alloc|].
    eapply heap_ext_set; [by apply heap_wf_with_obj|set_solver|]. rewrite heap_get_with_obj_ne by done. exact Hl. }
  assert (Hget : heap_get hc' (hnext hc) = Some (ODict kvs)).
  { unfold hc'. rewrite heap_get_set_ne by done. apply heap_get_with_obj_eq. }
  split_and!; [done|apply heap_get_set_eq|]. exists ({[hnext hc]} ∪ F0). split_and!.
  - apply (repr_obj _ _ (hnext hc) kvs); [done|set_solver|].
    eapply Forall2_impl; [exact HF|]. intros kv jkv [Hk Hr]. split; [done|].
    apply (repr_weaken hc hc' F0); [done|set_solver|]. intros l o Hl' Ho. apply (proj2 Hext); [set_solver|done].
  - pose proof (heap_ext_dom _ _ _ Hext). apply union_subseteq; split; [|set_solver].
    apply singleton_subseteq_l, elem_of_dom. by eexists.
  - pose proof (heap_wf_next_notin hc M0 Hwf HM). set_solver.
Qed.
(** Lines 133-139 on an author instance loaded from a row: the author's
    entry is appended to [data['authors']]. *)
Lemma export_author_step hc (e : env R) xs v kr :
  heap_wf hc -> heap_get hc D = Some (data_obj la lb lp) -> heap_get hc la = Some (OList xs) ->
  M0 ⊆ dom (hmap hc) -> inst_at hc MAuthor v kr -> author_row_ok kr.2 ->
  exists hc' x, export_author (VRef D) v (mkWorld hc e) = (inr tt, mkWorld hc' e) /\
    heap_ext {[la]} hc hc' /\ heap_get hc' la = Some (OList (xs ++ [x])) /\ stable M0 hc' x (author_doc kr.2).
Proof.
  intros Hwf HD Hla HM (i & -> & Hi) (Hn & [dt Hdt] & Hc & Hb).
  assert (HF : Forall2 (fun kv jkv => kv.1 = jkv.1 /\ repr hc ∅ kv.2 jkv.2)
    [("name", col "name" kr.2); ("birth_date", VStr (isoformat dt)); ("country", col "country" kr.2);
     ("biography", col "biography" kr.2)]
    [("name", JAtom (col "name" kr.2)); ("birth_date", JAtom (date_text (col "birth_date" kr.2)));
     ("country", JAtom (col "country" kr.2)); ("biography", JAtom (col "biography" kr.2))]).
  { rewrite (date_text_col _ _ _ Hdt). doc_entries. }
  destruct (alloc_append_stable hc la xs _ _ ∅ Hwf Hla HM ltac:(set_solver) ltac:(set_solver) ltac:(set_solver) HF)
    as (Hext & Hl' & Hst).
  eexists _, _. split_and!; [|exact Hext|exact Hl'|exact Hst].
  set (w := mkWorld hc e). unfold export_author.
  pm_step (py_getitem_dict "authors" D _ (VRef la) w HD eq_refl).
  pm_step (get_attr_col i _ _ _ "name" w Hi eq_refl ltac:(eauto with export)).
  pm_step (get_attr_col i _ _ _ "birth_date" w Hi eq_refl ltac:(eauto with export)).
  rewrite (col_lookup _ _ _ Hdt). pm_step (py_isoformat_run dt w).
  pm_step (get_attr_col i _ _ _ "country" w Hi eq_refl ltac:(eauto with export)).
  pm_step (get_attr_col i _ _ _ "biography" w Hi eq_refl ltac:(eauto with export)).
  unfold w. rewrite pm_bind_run, py_alloc_run. cbv beta iota.
  apply py_append_run. by apply heap_get_alloc_old.
Qed.
Lemma author_name_eq d r a ra :
  assoc_lookup "author_id" r = Some (VInt a) -> t_rows (db_authors d) !! a = Some ra ->
  author_name d r = col "name" ra.
Proof. intros Ha Hra. unfold author_name. by rewrite (col_lookup _ _ _ Ha), Hra. Qed.

(** Lines 142-151 on a book instance loaded from a row whose author row
    is stored: the book's entry is appended to [data['books']]. *)
Lemma export_book_step hc d (r : R) fs xs v kr a ra :
  heap_wf hc -> heap_get hc D = Some (data_obj la lb lp) -> heap_get hc lb = Some (OList xs) ->
  M0 ⊆ dom (hmap hc) -> inst_at hc MBook v kr -> book_row_ok kr.2 ->
  assoc_lookup "author_id" kr.2 = Some (VInt a) -> t_rows (db_authors d) !! a = Some ra -> col_ok "name" ra ->
  exists hc' x, export_book (VRef D) v (mkWorld hc (mkEnv d r fs)) = (inr tt, mkWorld hc' (mkEnv d r fs)) /\
    heap_ext {[lb]} hc hc' /\ heap_get hc' lb = Some (OList (xs ++ [x])) /\ stable M0 hc' x (book_doc d kr.2).
Proof.
  intros Hwf HD Hlb HM (i & -> & Hi) (Ht & [dt Hdt] & Hg & Hisbn & Hp & Hpr) Ha Hra Hn.
  set (h1 := with_obj hc (hnext hc) (OInst "Author" (("id", VInt a) :: ra))).
  assert (Hwf1 : heap_wf h1) by (by apply heap_wf_with_obj).
  assert (Hi1 : heap_get h1 i = Some (OInst (model_class MBook) (("id", VInt kr.1) :: kr.2))) by (by apply heap_get_alloc_old).
  assert (Hlb1 : heap_get h1 lb = Some (OList xs)) by (by apply heap_get_alloc_old).
  assert (HM1 : M0 ⊆ dom (hmap h1)) by (pose proof (heap_ext_dom ∅ hc h1 (heap_ext_alloc _ _ _ Hwf)); set_solver).
  assert (HF : Forall2 (fun kv jkv => kv.1 = jkv.1 /\ repr h1 ∅ kv.2 jkv.2)
    [("title", col "title" kr.2); ("author", col "name" ra); ("publication_date", VStr (isoformat dt));
     ("genre", col "genre" kr.2); ("isbn", col "isbn" kr.2); ("pages", col "pages" kr.2);
     ("price", float_of (col "price" kr.2))]
    [("title", JAtom (col "title" kr.2)); ("author", JAtom (author_name d kr.2));
     ("publication_date", JAtom (date_text (col "publication_date" kr.2))); ("genre", JAtom (col "genre" kr.2));
     ("isbn", JAtom (col "isbn" kr.2)); ("pages", JAtom (col "pages" kr.2));
     ("price", JAtom (float_of (col "price" kr.2)))]).
  { rewrite (date_text_col _ _ _ Hdt), (author_name_eq _ _ _ _ Ha Hra). doc_entries. }
  destruct (alloc_append_stable h1 lb xs _ _ ∅ Hwf1 Hlb1 HM1 ltac:(set_solver) ltac:(set_solver) ltac:(set_solver) HF)
    as (Hext & Hl' & Hst).
  eexists _, _. split_and!; [|eapply heap_ext_trans; [by apply heap_ext_alloc|exact Hext]|exact Hl'|exact Hst].
  set (w := mkWorld hc (mkEnv d r fs)). set (w1 := mkWorld h1 (mkEnv d r fs)). unfold export_book.
  pm_step (py_getitem_dict "books" D _ (VRef lb) w HD eq_refl).
  pm_step (get_attr_col i _ _ _ "title" w Hi eq_refl ltac:(eauto with export)).
  pm_step (fk_get_author_run i _ _ a ra hc d r fs Hi ltac:(simpl; exact Ha) Hra). fold h1 w1.
  pm_step (get_attr_col (hnext hc) _ _ _ "name" w1 (heap_get_with_obj_eq _ _ _) eq_refl ltac:(eauto with export)).
  pm_step (get_attr_col i _ _ _ "publication_date" w1 Hi1 eq_refl ltac:(eauto with export)).
  rewrite (col_lookup _ _ _ Hdt). pm_step (py_isoformat_run dt w1).
  pm_step (get_attr_col i _ _ _ "genre" w1 Hi1 eq_refl ltac:(eauto with export)).
  pm_step (get_attr_col i _ _ _ "isbn" w1 Hi1 eq_refl ltac:(eauto with export)).
  pm_step (get_attr_col i _ _ _ "pages" w1 Hi1 eq_refl ltac:(eauto with export)).
  pm_step (get_attr_col i _ _ _ "price" w1 Hi1 eq_refl ltac:(destruct Hpr as (? & ? & -> & _); by eexists)).
  pm_step (py_float_call_col kr.2 w1 Hpr).
  unfold w1. rewrite pm_bind_run, py_alloc_run. cbv beta iota.
  apply py_append_run. by apply heap_get_alloc_old.
Qed.
(** The books related to [p] are stored books. *)
Lemma related_rows_ok d p :
  map_Forall (fun _ => book_row_ok) (t_rows (db_books d)) -> Forall (fun kb => book_row_ok kb.2) (related_rows d p).
Proof.
  intros Hb. apply Forall_forall. intros kb [_ Hin]%list_elem_of_filter.
  exact (Hb _ _ (rows_in_order_elem _ _ Hin)).
Qed.

(** Lines 154-162 on a publisher instance loaded from a row: the
    publisher's entry, with the titles of its related books, is appended
    to [data['publishers']]. *)
Lemma export_publisher_step hc d (r : R) fs xs v kr :
  heap_wf hc -> heap_get hc D = Some (data_obj la lb lp) -> heap_get hc lp = Some (OList xs) ->
  M0 ⊆ dom (hmap hc) -> inst_at hc MPublisher v kr -> publisher_row_ok kr.2 ->
  map_Forall (fun _ => book_row_ok) (t_rows (db_books d)) ->
  exists hc' x, export_publisher (VRef D) v (mkWorld hc (mkEnv d r fs)) = (inr tt, mkWorld hc' (mkEnv d r fs)) /\
    heap_ext {[lp]} hc hc' /\ heap_get hc' lp = Some (OList (xs ++ [x])) /\ stable M0 hc' x (publisher_doc d kr).
Proof.
  intros Hwf HD Hlp HM (i & -> & Hi) (Hn & Ha & Hw & Hem) Hbooks.
  pose proof (related_rows_ok d kr.1 Hbooks) as Hrows.
  destruct (related_books_run i _ kr.1 hc d r fs Hwf Hi eq_refl) as (h1 & q & vs & Hrb & Hext1 & Hq & Hvs).
  set (titles := (fun kb : Z * row => col "title" kb.2) <$> related_rows d kr.1).
  set (h2 := with_obj h1 (hnext h1) (OList titles)).
  pose proof (heap_ext_wf _ _ _ Hext1) as Hwf1.
  assert (Hwf2 : heap_wf h2) by (by apply heap_wf_with_obj).
  assert (Hext2 : heap_ext ∅ hc h2) by (eapply heap_ext_trans; [exact Hext1|by apply heap_ext_alloc]).
  pose proof (heap_ext_dom _ _ _ Hext2) as Hdom2.
  assert (Hkeep : forall l o, heap_get hc l = Some o -> heap_get h2 l = Some o) by (intros; apply (proj2 Hext2); set_solver).
  assert (HM1 : M0 ⊆ dom (hmap h1)) by (pose proof (heap_ext_dom _ _ _ Hext1); set_solver).
  pose proof (heap_wf_next_notin h1 M0 Hwf1 HM1) as Htl.
  assert (Htl2 : heap_get h2 (hnext h1) = Some (OList titles)) by apply heap_get_with_obj_eq.
  assert (HF : Forall2 (fun kv jkv => kv.1 = jkv.1 /\ repr h2 {[hnext h1]} kv.2 jkv.2)
    [("name", col "name" kr.2); ("address", col "address" kr.2); ("website", col "website" kr.2);
     ("contact_email", col "contact_email" kr.2); ("books", VRef (hnext h1))]
    [("name", JAtom (col "name" kr.2)); ("address", JAtom (col "address" kr.2));
     ("website", JAtom (col "website" kr.2)); ("contact_email", JAtom (col "contact_email" kr.2));
     ("books", JArr ((fun kb => JAtom (col "title" kb.2)) <$> related_rows d kr.1))]).
  { repeat (apply Forall2_cons_2; [split; [reflexivity|solve [eauto with export]]|]).
    apply Forall2_cons_2; [split; [done|]|apply Forall2_nil_2].
    apply (repr_arr _ _ _ titles); [done|set_solver|].
    apply Forall2_fmap_2, Forall_Forall2_diag. eapply Forall_impl; [exact Hrows|].
    intros kb [Hti _]. by apply repr_col. }
  destruct (alloc_append_stable h2 lp xs _ _ {[hnext h1]} Hwf2 (Hkeep _ _ Hlp) ltac:(set_solver) ltac:(set_solver)
              ltac:(apply singleton_subseteq_l, elem_of_dom; by eexists) ltac:(set_solver) HF) as (Hext & Hl' & Hst).
  eexists _, _. split_and!; [|eapply heap_ext_trans; [apply (heap_ext_mono ∅); [set_solver|exact Hext2]|exact Hext]|exact Hl'|exact Hst].
  set (w := mkWorld hc (mkEnv d r fs)). set (w1 := mkWorld h1 (mkEnv d r fs)). unfold export_publisher.
  pm_step (get_attr_col i _ _ _ "name" w Hi eq_refl ltac:(eauto with export)).
  pm_step (get_attr_col i _ _ _ "address" w Hi eq_refl ltac:(eauto with export)).
  pm_step (get_attr_col i _ _ _ "website" w Hi eq_refl ltac:(eauto with export)).
  pm_step (get_attr_col i _ _ _ "contact_email" w Hi eq_refl ltac:(eauto with export)).
  pm_step Hrb. fold w1. pm_step (py_list_run q vs w1 Hq).
  assert (Htitles : pm_map (fun b => get_attr b "title") vs w1 = (inr titles, w1)).
  { apply (pm_map_forall2 (fun v kb => inst_at h1 MBook v kb /\ book_row_ok kb.2)).
    - exact (Forall2_Forall_r_impl _ _ _ _ _ Hrows Hvs (fun v kb Hok Hv => conj Hv Hok)).
    - intros b kb [(l & -> & Hl) [Hti _]]. exact (get_attr_col l _ _ _ "title" w1 Hl eq_refl (col_ok_some _ _ Hti)). }
  pm_step Htitles. unfold w1. rewrite pm_bind_run, py_alloc_run. cbv beta iota. fold h2.
  rewrite pm_bind_run, py_alloc_run. cbv beta iota.
  pm_step (py_getitem_dict "publishers" D _ (VRef lp) (mkWorld (with_obj h2 (hnext h2) (ODict [("name", col "name" kr.2); ("address", col "address" kr.2); ("website", col "website" kr.2);
     ("contact_email", col "contact_email" kr.2); ("books", VRef (hnext h1))])) (mkEnv d r fs))
     ltac:(simpl; apply heap_get_alloc_old; [done|by apply Hkeep]) eq_refl).
  apply py_append_run. apply heap_get_alloc_old; [done|by apply Hkeep].
Qed.
(** A loop of lines 132-162: each iteration appends the entry of its
    item to the list [lst] of [data]; [P] is what an item needs, kept as
    the heap grows outside [lst]. *)
Lemma export_phase {B} (step : val -> DbM R unit) lst (P : heap -> val -> B -> Prop) (doc : B -> jv)
    h0 e vs bs :
  heap_wf h0 -> heap_get h0 D = Some (data_obj la lb lp) -> heap_get h0 lst = Some (OList []) ->
  M0 ⊆ dom (hmap h0) -> lst ∈ M0 -> Forall2 (P h0) vs bs ->
  (forall h h' xs v b, heap_get h lst = Some (OList xs) -> heap_ext {[lst]} h h' -> P h v b -> P h' v b) ->
  (forall hc xs v b, heap_wf hc -> heap_get hc D = Some (data_obj la lb lp) -> heap_get hc lst = Some (OList xs) ->
     M0 ⊆ dom (hmap hc) -> P hc v b ->
     exists hc' x, step v (mkWorld hc e) = (inr tt, mkWorld hc' e) /\ heap_ext {[lst]} hc hc' /\
       heap_get hc' lst = Some (OList (xs ++ [x])) /\ stable M0 hc' x (doc b)) ->
  exists hc xs, pm_iter step vs (mkWorld h0 e) = (inr tt, mkWorld hc e) /\ heap_ext {[lst]} h0 hc /\
    heap_get hc lst = Some (OList xs) /\ Forall2 (stable M0 hc) xs (doc <$> bs).
Proof.
  intros Hwf HD Hl HM Hin HP Hkeep Hstep.
  assert (HDl : D <> lst) by (unfold data_obj in HD; intros ->; congruence).
  destruct (pm_iter_forall2 (P h0)
    (fun pre w => exists hc xs, w = mkWorld hc e /\ heap_ext {[lst]} h0 hc /\
       heap_get hc lst = Some (OList xs) /\ Forall2 (stable M0 hc) xs (doc <$> pre)) step vs bs (mkWorld h0 e) HP)
    as (w' & Hrun & hc & xs & -> & Hext & Hlst & HF).
  - exists h0, []. split_and!; [done|by apply heap_ext_refl|done|constructor].
  - intros pre v b w1 Hvb (hc & xs & -> & Hext & Hlst & HF).
    destruct (Hstep hc xs v b) as (hc' & x & Hrun & Hext' & Hlst' & Hx).
    + exact (heap_ext_wf _ _ _ Hext).
    + apply (proj2 Hext); [set_solver|done].
    + done.
    + pose proof (heap_ext_dom _ _ _ Hext). apply elem_of_subseteq. intros l Hl'.
      destruct (decide (l = lst)) as [->|Hne]; [apply elem_of_dom; by eexists|set_solver].
    + exact (Hkeep h0 hc [] v b Hl Hext Hvb).
    + exists (mkWorld hc' e). split; [done|]. exists hc', (xs ++ [x]). split_and!; [done| |done|].
      * by eapply heap_ext_trans.
      * rewrite fmap_app. apply Forall2_app; [|by repeat constructor].
        eapply Forall2_impl; [exact HF|]. intros y j Hy. apply (stable_ext _ _ _ _ _ _ Hy Hext'). set_solver.
  - by exists hc, xs.
Qed.
Lemma inst_at_keep h h' lst xs m v kr :
  heap_get h lst = Some (OList xs) -> heap_ext {[lst]} h h' -> inst_at h m v kr -> inst_at h' m v kr.
Proof.
  intros Hl Hext Hi. apply (inst_at_ext {[lst]} h h' m v kr Hext); [|done].
  destruct Hi as (l & -> & Hl'). intros l' [= <-] ->%elem_of_singleton. congruence.
Qed.

(** Instances of the rows of a table, each row satisfying [Q]. *)
Lemma insts_rows_ok h m vs t (Q : row -> Prop) :
  Forall2 (inst_at h m) vs (rows_in_order t) -> map_Forall (fun _ => Q) (t_rows t) ->
  Forall2 (fun v kr => inst_at h m v kr /\ Q kr.2) vs (rows_in_order t).
Proof.
  intros HF HQ. exact (Forall2_Forall_r_impl _ _ _ _ _ (rows_in_order_forall Q t HQ) HF (fun v kr Hq Hi => conj Hi Hq)).
Qed.

Lemma export_authors_phase h0 (e : env R) d vs :
  heap_wf h0 -> heap_get h0 D = Some (data_obj la lb lp) -> heap_get h0 la = Some (OList []) ->
  M0 ⊆ dom (hmap h0) -> Forall2 (inst_at h0 MAuthor) vs (rows_in_order (db_authors d)) ->
  map_Forall (fun _ => author_row_ok) (t_rows (db_authors d)) ->
  exists hc xs, pm_iter (export_author (VRef D)) vs (mkWorld h0 e) = (inr tt, mkWorld hc e) /\
    heap_ext {[la]} h0 hc /\ heap_get hc la = Some (OList xs) /\
    Forall2 (stable M0 hc) xs ((fun kr => author_doc kr.2) <$> rows_in_order (db_authors d)).
Proof.
  intros Hwf HD Hl HM HF Hok.
  apply (export_phase _ la (fun h v kr => inst_at h MAuthor v kr /\ author_row_ok kr.2)); try done.
  - unfold M0. set_solver.
  - by apply insts_rows_ok.
  - intros h h' xs v kr Hl' Hext [Hi Hr]. split; [|done]. by eapply inst_at_keep.
  - intros hc xs v kr Hwf' HD' Hl' HM' [Hi Hr]. by apply export_author_step.
Qed.

(** A book row ready for export: its columns, and its author's name. *)
Definition book_ready (d : db) (r : row) : Prop :=
  book_row_ok r /\ exists a ra, assoc_lookup "author_id" r = Some (VInt a) /\
                               t_rows (db_authors d) !! a = Some ra /\ col_ok "name" ra.

Lemma export_books_phase h0 d (r : R) fs vs :
  heap_wf h0 -> heap_get h0 D = Some (data_obj la lb lp) -> heap_get h0 lb = Some (OList []) ->
  M0 ⊆ dom (hmap h0) -> Forall2 (inst_at h0 MBook) vs (rows_in_order (db_books d)) ->
  map_Forall (fun _ => book_ready d) (t_rows (db_books d)) ->
  exists hc xs, pm_iter (export_book (VRef D)) vs (mkWorld h0 (mkEnv d r fs)) = (inr tt, mkWorld hc (mkEnv d r fs)) /\
    heap_ext {[lb]} h0 hc /\ heap_get hc lb = Some (OList xs) /\
    Forall2 (stable M0 hc) xs ((fun kr => book_doc d kr.2) <$> rows_in_order (db_books d)).
Proof.
  intros Hwf HD Hl HM HF Hok.
  apply (export_phase _ lb (fun h v kr => inst_at h MBook v kr /\ book_ready d kr.2)); try done.
  - unfold M0. set_solver.
  - by apply insts_rows_ok.
  - intros h h' xs v kr Hl' Hext [Hi Hr]. split; [|done]. by eapply inst_at_keep.
  - intros hc xs v kr Hwf' HD' Hl' HM' [Hi [Hb (a & ra & Ha & Hra & Hn)]]. by eapply export_book_step.
Qed.

Lemma export_publishers_phase h0 d (r : R) fs vs :
  heap_wf h0 -> heap_get h0 D = Some (data_obj la lb lp) -> heap_get h0 lp = Some (OList []) ->
  M0 ⊆ dom (hmap h0) -> Forall2 (inst_at h0 MPublisher) vs (rows_in_order (db_publishers d)) ->
  map_Forall (fun _ => publisher_row_ok) (t_rows (db_publishers d)) ->
  map_Forall (fun _ => book_row_ok) (t_rows (db_books d)) ->
  exists hc xs, pm_iter (export_publisher (VRef D)) vs (mkWorld h0 (mkEnv d r fs)) = (inr tt, mkWorld hc (mkEnv d r fs)) /\
    heap_ext {[lp]} h0 hc /\ heap_get hc lp = Some (OList xs) /\
    Forall2 (stable M0 hc) xs (publisher_doc d <$> rows_in_order (db_publishers d)).
Proof.
  intros Hwf HD Hl HM HF Hok Hbooks.
  apply (export_phase _ lp (fun h v kr => inst_at h MPublisher v kr /\ publisher_row_ok kr.2)); try done.
  - unfold M0. set_solver.
  - by apply insts_rows_ok.
  - intros h h' xs v kr Hl' Hext [Hi Hr]. split; [|done]. by eapply inst_at_keep.
  - intros hc xs v kr Hwf' HD' Hl' HM' [Hi Hr]. by apply export_publisher_step.
Qed.
(** The four objects of line 127: the lists at [la], [lb], [lp], below
    the dict [data] at [D]. *)
Definition frame (h : heap) (xsA xsB xsP : list val) : Prop :=
  (la < lb)%positive /\ (lb < lp)%positive /\ (lp < D)%positive /\ heap_wf h /\
  heap_get h D = Some (data_obj la lb lp) /\ heap_get h la = Some (OList xsA) /\
  heap_get h lb = Some (OList xsB) /\ heap_get h lp = Some (OList xsP).

Lemma frame_dom h xsA xsB xsP : frame h xsA xsB xsP -> M0 ⊆ dom (hmap h).
Proof.
  intros (_ & _ & _ & _ & HD & Ha & Hb & Hp) l Hl. apply elem_of_dom. unfold M0 in Hl.
  rewrite !elem_of_union, !elem_of_singleton in Hl. destruct_or! Hl; subst; eexists; eassumption.
Qed.

(** The loops of lines 130-162 leave the dict [data] and fill its three
    lists with the entries of the rows, in key order. *)
Definition export_state (d : db) (h : heap) : Prop :=
  exists xsA xsB xsP, frame h xsA xsB xsP /\
    Forall2 (stable M0 h) xsA ((fun kr => author_doc kr.2) <$> rows_in_order (db_authors d)) /\
    Forall2 (stable M0 h) xsB ((fun kr => book_doc d kr.2) <$> rows_in_order (db_books d)) /\
    Forall2 (stable M0 h) xsP (publisher_doc d <$> rows_in_order (db_publishers d)).

(** An object outside the mutated ones is kept. *)
Ltac keep Hext :=
  apply (proj2 Hext); [first [set_solver | rewrite elem_of_singleton; lia] | eassumption].

(** Carry stable documents back along the heap extensions of the context. *)
Ltac stable_back :=
  first [eassumption | eapply Forall2_stable_ext; [|eassumption|unfold M0; set_solver]; stable_back].

(** The frame after a step that extends the heap by [Hext]. *)
Ltac frame_next Hf Hext :=
  destruct Hf as (? & ? & ? & ? & ? & ? & ? & ?);
  split_and!; try done; first [exact (heap_ext_wf _ _ _ Hext) | keep Hext].

Lemma book_ready_of d : db_ok d -> export_ok d -> map_Forall (fun _ => book_ready d) (t_rows (db_books d)).
Proof.
  intros (_ & _ & _ & Fk & _ & _) (Ha & Hb & _) k r Hr. split; [exact (Hb _ _ Hr)|].
  destruct (Fk k r Hr) as (a & Hla & [ra Hra]). exists a, ra. split_and!; [done|done|]. exact (proj1 (Ha _ _ Hra)).
Qed.

Lemma export_loops h0 d (r : R) fs :
  frame h0 [] [] [] -> db_ok d -> export_ok d ->
  exists hP, export_state d hP /\ forall A (k : DbM R A),
    (aq <- objects_all MAuthor ;; authors <- py_list aq ;; pm_iter (export_author (VRef D)) authors ;;
     bq <- objects_all MBook ;; books <- py_list bq ;; pm_iter (export_book (VRef D)) books ;;
     pq <- objects_all MPublisher ;; publishers <- py_list pq ;; pm_iter (export_publisher (VRef D)) publishers ;; k)
    (mkWorld h0 (mkEnv d r fs)) = k (mkWorld hP (mkEnv d r fs)).
Proof.
  intros Hf Hdb Hok. pose proof Hok as (HokA & HokB & HokP). pose proof Hf as (Hab & Hbp & HpD & Hwf & _).
  destruct (objects_all_run MAuthor h0 d r fs Hwf) as (hA0 & qA & vsA & HrA & HeA & HqA & HFA).
  assert (FA0 : frame hA0 [] [] []) by frame_next Hf HeA.
  destruct (export_authors_phase hA0 (mkEnv d r fs) d vsA) as (hA & xsA & HiA & HeA' & HlA & HsA);
    try apply FA0; [exact (frame_dom _ _ _ _ FA0)|done|done|].
  assert (FA : frame hA xsA [] []) by frame_next FA0 HeA'.
  destruct (objects_all_run MBook hA d r fs (proj1 (proj2 (proj2 (proj2 FA))))) as (hB0 & qB & vsB & HrB & HeB & HqB & HFB).
  assert (FB0 : frame hB0 xsA [] []) by frame_next FA HeB.
  destruct (export_books_phase hB0 d r fs vsB) as (hB & xsB & HiB & HeB' & HlB & HsB);
    try apply FB0; [exact (frame_dom _ _ _ _ FB0)|done|by apply book_ready_of|].
  assert (FB : frame hB xsA xsB []) by frame_next FB0 HeB'.
  destruct (objects_all_run MPublisher hB d r fs (proj1 (proj2 (proj2 (proj2 FB))))) as (hP0 & qP & vsP & HrP & HeP & HqP & HFP).
  assert (FP0 : frame hP0 xsA xsB []) by frame_next FB HeP.
  destruct (export_publishers_phase hP0 d r fs vsP) as (hP & xsP & HiP & HeP' & HlP & HsP);
    try apply FP0; [exact (frame_dom _ _ _ _ FP0)|done|done|done|].
  exists hP. split.
  - exists xsA, xsB, xsP. split_and!; [by frame_next FP0 HeP'|stable_back|stable_back|done].
  - intros A k. pm_step HrA. pm_step (py_list_run qA vsA (mkWorld hA0 (mkEnv d r fs)) HqA). pm_step HiA.
    pm_step HrB. pm_step (py_list_run qB vsB (mkWorld hB0 (mkEnv d r fs)) HqB). pm_step HiB.
    pm_step HrP. pm_step (py_list_run qP vsP (mkWorld hP0 (mkEnv d r fs)) HqP). by pm_step HiP.
Qed.
(** One of the three lists of [data] is the array of its stable entries. *)
Lemma data_entry_repr h l xs js :
  heap_get h l = Some (OList xs) -> l <> D -> l ∈ M0 -> Forall2 (stable M0 h) xs js ->
  repr h (dom (hmap h) ∖ {[D]}) (VRef l) (JArr js).
Proof.
  intros Hl HlD HM HF. apply (repr_list_stable M0 h _ l xs); [done| |unfold M0 in *; set_solver|done].
  apply elem_of_difference. rewrite elem_of_dom, elem_of_singleton. split; [by eexists|done].
Qed.

(** After the loops, [data] is the document of the database. *)
Lemma export_state_repr d h : export_state d h -> repr h (dom (hmap h)) (VRef D) (export_doc d).
Proof.
  intros (xsA & xsB & xsP & (Hab & Hbp & HpD & Hwf & HD & Ha & Hb & Hp) & HA & HB & HP).
  apply (repr_obj _ _ D _ _ HD); [apply elem_of_dom; by eexists|]. unfold data_obj, export_doc.
  repeat apply Forall2_cons_2; try apply Forall2_nil_2;
    (split; [done|eapply data_entry_repr; [eassumption|lia|unfold M0; set_solver|eassumption]]).
Qed.
End Steps.

(** [open(filename, 'w')] and [json.dump] of a value the encoder prints
    without error: the file holds the text. *)
Lemma write_json_run `{RandomSource R} fn v h d (r : R) fs text :
  json_dump h v = (text, None) ->
  write_json fn v (mkWorld h (mkEnv d r fs)) = (inr tt, mkWorld h (mkEnv d r (<[fn := text]> fs))).
Proof. intros Hj. unfold write_json. simpl. by rewrite Hj. Qed.

Lemma export_state_length D la lb lp d h :
  export_state D la lb lp d h -> db_ok d ->
  exists xsA xsB xsP, frame D la lb lp h xsA xsB xsP /\
    length xsA = size (t_rows (db_authors d)) /\ length xsB = size (t_rows (db_books d)) /\
    length xsP = size (t_rows (db_publishers d)).
Proof.
  intros (xsA & xsB & xsP & Hf & HA & HB & HP) (Ka & Kb & Kp & _).
  exists xsA, xsB, xsP. split_and!; [done| | |].
  all: match goal with |- length ?xs = _ =>
         match goal with H : Forall2 _ xs _ |- _ => rewrite (Forall2_length _ _ _ H), length_fmap end end.
  all: by apply rows_in_order_length.
Qed.

(** Lines 127-128: the lists and the dict [data], at the next four
    locations. *)
Lemma export_frame_alloc h :
  heap_wf h ->
  let la := hnext h in let h1 := with_obj h la (OList []) in
  let lb := hnext h1 in let h2 := with_obj h1 lb (OList []) in
  let lp := hnext h2 in let h3 := with_obj h2 lp (OList []) in
  let D := hnext h3 in
  frame D la lb lp (with_obj h3 D (data_obj la lb lp)) [] [] [].
Proof.
  intros Hwf la h1 lb h2 lp h3 D.
  assert (heap_wf h1 /\ heap_wf h2 /\ heap_wf h3) as (W1 & W2 & W3) by (split_and!; by repeat apply heap_wf_with_obj).
  assert (Hlt : (la < lb)%positive /\ (lb < lp)%positive /\ (lp < D)%positive)
    by (unfold D, h3, lp, h2, lb, h1, la; simpl; lia).
  split_and!; try apply Hlt; [by apply heap_wf_with_obj|apply heap_get_with_obj_eq| | |].
  all: repeat first [apply heap_get_with_obj_eq | apply heap_get_alloc_old; [done|]].
Qed.

(** The run of the export on a consistent database it can print. *)
Lemma export_from_database_run `{RandomSource R} fn h d (r : R) fs :
  heap_wf h -> db_ok d -> export_ok d ->
  exists h', export_from_database fn (mkWorld h (mkEnv d r fs)) =
    (inr (Z.of_nat (size (t_rows (db_authors d))), Z.of_nat (size (t_rows (db_books d))),
          Z.of_nat (size (t_rows (db_publishers d)))),
     mkWorld h' (mkEnv d r (<[fn := jprint 0 (export_doc d)]> fs))).
Proof.
  intros Hwf Hdb Hok. pose proof (export_frame_alloc h Hwf) as Hf. cbv zeta in Hf.
  destruct (export_loops _ _ _ _ _ d r fs Hf Hdb Hok) as (hP & Hst & Hrun).
  destruct (export_state_length _ _ _ _ _ _ Hst Hdb) as (xsA & xsB & xsP & (_ & _ & _ & _ & HD & Ha & Hb & Hp) & LA & LB & LP).
  exists hP. unfold export_from_database.
  do 4 (rewrite pm_bind_run, py_alloc_run; cbv beta iota). rewrite Hrun.
  pm_step (write_json_run fn _ _ d r fs _ (json_dump_repr _ _ _ _ (export_state_repr _ _ _ _ _ _ Hst) ltac:(done))).
  set (w := mkWorld hP _).
  pm_step (py_getitem_dict "authors" _ _ _ w HD eq_refl). pm_step (py_len_list _ _ w Ha).
  pm_step (py_getitem_dict "books" _ _ _ w HD eq_refl). pm_step (py_len_list _ _ w Hb).
  pm_step (py_getitem_dict "publishers" _ _ _ w HD eq_refl). pm_step (py_len_list _ _ w Hp).
  by rewrite LA, LB, LP.
Qed.

(** C8. Refinement of [export_from_database(filename)] (lines 124-167):
    from a consistent database whose rows the export can read, it
    returns the numbers of stored authors, books and publishers, and the
    file [filename] then holds exactly [jprint 0 (export_doc d)], the
    indented JSON text of the document computed from the database alone
    (authors, books with their author's name, publishers with the titles
    of their related books, each table in key order).  The database and
    the random state are unchanged; for every random source. *)
Theorem export_writes_document `{RandomSource R} fn h d (r : R) fs :
  heap_wf h -> db_ok d -> export_ok d ->
  exists h', export_from_database fn (mkWorld h (mkEnv d r fs)) =
    (inr (Z.of_nat (size (t_rows (db_authors d))), Z.of_nat (size (t_rows (db_books d))),
          Z.of_nat (size (t_rows (db_publishers d)))),
     mkWorld h' (mkEnv d r (<[fn := jprint 0 (export_doc d)]> fs))).
Proof. intros Hwf Hdb Hok. exact (export_from_database_run fn h d r fs Hwf Hdb Hok). Qed.

Lemma export_writes_document_witness :
  heap_wf (mkHeap ∅ 1) /\ db_ok empty_db /\ export_ok empty_db /\
  exists h', export_from_database "library_export.json" (mkWorld (mkHeap ∅ 1) (mkEnv empty_db 2024 ∅)) =
    (inr (0, 0, 0), mkWorld h' (mkEnv empty_db 2024 (<["library_export.json" := jprint 0 (export_doc empty_db)]> ∅))).
Proof.
  assert (Hwf : heap_wf (mkHeap ∅ 1)) by (apply heap_closed_wf; decide_by_compute).
  assert (Hok : export_ok empty_db) by (split_and!; apply map_Forall_empty).
  split_and!; [exact Hwf|exact empty_db_ok|exact Hok|].
  exact (export_writes_document "library_export.json" (mkHeap ∅ 1) empty_db 2024 ∅ Hwf empty_db_ok Hok).
Defined.

(** ** The export always completes

    Whatever the heap and the database, [export_from_database] returns or
    raises an exception of Python: the depth [json_dump] gives the
    encoder is never exhausted, and no other call of the export has a
    bound. *)
Section Completes.
Context `{RandomSource R}.

Lemma python_raises_isoformat v : python_raises (py_isoformat (R := R) v).
Proof. unfold py_isoformat. raises_tac. Qed.

Lemma python_raises_float_call v : python_raises (py_float_call (R := R) v).
Proof. unfold py_float_call. raises_tac. apply python_raises_lift. intros e. apply py_float_python. Qed.

Lemma python_raises_write_json fn v : python_raises (write_json (R := R) fn v).
Proof.
  intros w. unfold write_json. pose proof (json_dump_no_fuel_error (w_heap w) v) as Hj.
  destruct (json_dump (w_heap w) v) as [t [e|]]; simpl in *; [|done]. intros ->. by apply Hj.
Qed.
End Completes.

#[export] Hint Resolve python_raises_isoformat python_raises_float_call python_raises_write_json : raises.

Lemma python_raises_export_steps `{RandomSource R} data v :
  python_raises (export_author (R := R) data v) /\ python_raises (export_book (R := R) data v) /\
  python_raises (export_publisher (R := R) data v).
Proof. unfold export_author, export_book, export_publisher. split_and!; raises_tac. Qed.

(** ** What the export may change

    [writes_only fn e e']: [e'] has the database and the random state of
    [e], and the same content for every file but [fn]. *)
Definition writes_only {R} (fn : string) (e e' : env R) : Prop :=
  e_db e' = e_db e /\ e_rng e' = e_rng e /\ forall f, f <> fn -> e_files e' !! f = e_files e !! f.

#[export] Instance writes_only_preorder {R} fn : PreOrder (writes_only (R := R) fn).
Proof.
  split; [by intros e|]. intros e1 e2 e3 (D1 & R1 & F1) (D2 & R2 & F2).
  split_and!; [congruence|congruence|]. intros f Hf. by rewrite F2, F1.
Qed.

Section Frame.
Context `{RandomSource R} (RX : relation (env R)) `{!PreOrder RX}.

Lemma within_isoformat v : within (ext_rel RX) (py_isoformat v).
Proof. unfold py_isoformat. within_tac. Qed.

Lemma within_float_call v : within (ext_rel RX) (py_float_call v).
Proof. unfold py_float_call. within_tac. Qed.
End Frame.

#[export] Hint Resolve within_isoformat within_float_call : within.

Lemma within_write_json {R} fn v : within (ext_rel (writes_only fn)) (write_json (R := R) fn v).
Proof.
  intros w. unfold write_json. destruct (json_dump (w_heap w) v) as [t [e|]]; red; simpl.
  all: split_and!; [done|done|]; intros f Hf; simpl; by rewrite lookup_insert_ne.
Qed.

#[export] Hint Resolve within_write_json : within.

(** Every step of the export before [json.dump] only reads the
    environment, whatever relation it is measured with. *)
Lemma within_export_steps `{RandomSource R} (RX : relation (env R)) `{!PreOrder RX} data v :
  within (ext_rel RX) (export_author data v) /\ within (ext_rel RX) (export_book data v) /\
  within (ext_rel RX) (export_publisher data v).
Proof. unfold export_author, export_book, export_publisher. split_and!; within_tac. Qed.

(** C9. Safety of [export_from_database(filename)]: whatever the heap,
    the database and the random state, and whether it returns or raises
    (a value the encoder refuses leaves a partly written file), the
    export never changes the database, never draws from the random
    source, and changes no file but [filename]. *)
Theorem export_writes_only `{RandomSource R} fn (w : world (env R)) :
  let w' := (export_from_database fn w).2 in
  e_db (w_ext w') = e_db (w_ext w) /\ e_rng (w_ext w') = e_rng (w_ext w) /\
  forall f, f <> fn -> e_files (w_ext w') !! f = e_files (w_ext w) !! f.
Proof.
  pose proof (fun data v => within_export_steps (R := R) (writes_only fn) data v) as Hs.
  assert (Hall : within (ext_rel (writes_only fn)) (export_from_database (R := R) fn)).
  { unfold export_from_database. within_tac; apply Hs. }
  exact (Hall w).
Qed.

(** C10. Equivalence of the streaming encoder with the reference
    printer: [open(filename, 'w')] followed by [json.dump(data, f,
    ensure_ascii=False, indent=2)], which writes chunk by chunk as the
    encoder yields them, leaves in [filename] exactly [jprint 0 j] for
    every heap value [data] that represents the JSON tree [j] (no
    container repeated on a path; containers may be shared), and
    changes nothing else. *)
Theorem write_json_prints `{RandomSource R} fn v j h d (r : R) fs :
  repr h (dom (hmap h)) v j ->
  write_json fn v (mkWorld h (mkEnv d r fs)) = (inr tt, mkWorld h (mkEnv d r (<[fn := jprint 0 j]> fs))).
Proof. intros Hr. apply write_json_run. by eapply json_dump_repr. Qed.

Definition shared_list_heap : heap :=
  heap_of [OList [VInt 1; VStr "a"]; ODict [("x", VRef 1); ("y", VRef 1)]].

Lemma write_json_prints_witness :
  let j1 := JArr [JAtom (VInt 1); JAtom (VStr "a")] in
  repr shared_list_heap (dom (hmap shared_list_heap)) (VRef 2) (JObj [("x", j1); ("y", j1)]) /\
  write_json "out.json" (VRef 2) (mkWorld shared_list_heap (mkEnv empty_db (7 : Z) ∅)) =
    (inr tt, mkWorld shared_list_heap (mkEnv empty_db 7 (<["out.json" := jprint 0 (JObj [("x", j1); ("y", j1)])]> ∅))).
Proof.
  intros j1.
  assert (Hr : repr shared_list_heap (dom (hmap shared_list_heap)) (VRef 2) (JObj [("x", j1); ("y", j1)])).
  { eapply repr_obj; [reflexivity|vm_compute; set_solver|].
    repeat (apply Forall2_cons_2 || apply Forall2_nil_2). all: split; [done|]; subst j1.
    all: eapply repr_arr; [reflexivity|vm_compute; set_solver|].
    all: repeat (apply Forall2_cons_2 || apply Forall2_nil_2). all: by eapply repr_atom. }
  split; [exact Hr|]. exact (write_json_prints "out.json" _ _ _ empty_db 7 ∅ Hr).
Defined.
