(* ===== verification/RoundTrip.v ===== *)
(** * From the importer to the exported document

    The spec's round trip: what [import_to_database] stores comes back
    out of [export_from_database].  This file follows the authors, the books and the publishers.  The
    input is the dict [data] of the script, whose 'authors' list holds
    author dicts of the shape [generate_sample_data] builds (a name, a
    [datetime.date] of birth, a country and a biography, all str but the
    date).  [import_authors] always succeeds on such input: each dict
    becomes an unsaved [Author] instance and one INSERT stores them in
    order; the book and publisher phases never write the authors table,
    and Django commits each statement on its own, so even when a later
    phase raises the authors stay.  Hence the 'authors' entry of
    [Exporter.export_doc] after the import is the old one followed by
    the input authors with their dates in ISO format, and by
    [Exporter.export_writes_document] that is what the export file
    holds.  For a successful import ([ImportRun.import_to_database_run])
    the 'books' array ends with
    one entry per input book ([book_json]) whose price survives the
    DecimalField and [float()] unchanged, and the 'publishers' array
    with one entry per input publisher ([publisher_json]) listing the
    titles of exactly [min(10, B)] stored books, not the 5 to 10 the
    comment of line 113 announces. *)

From S2P Require Import Prelude PyValue PyNum Schema Random Store Json Importer Exporter ImportRun.
Import Fields.

Local Open Scope Z_scope.

(** ** The exported author entries *)

(** The entry the export writes for an author (lines 134-139). *)
Definition author_json (a : author_data) : jv :=
  JObj [("name", JAtom (VStr (ad_name a))); ("birth_date", JAtom (VStr (isoformat (ad_birth a))));
        ("country", JAtom (VStr (ad_country a))); ("biography", JAtom (VStr (ad_bio a)))].

(** The 'authors' entry of the exported document. *)
Definition exported_authors (d : db) : list jv := (fun kr => author_doc kr.2) <$> rows_in_order (db_authors d).

(** ** The round trip *)

Lemma exported_rows_insert {A} (f : row -> A) t rs :
  keys_ok t -> (fun kr => f kr.2) <$> rows_in_order (insert_rows t rs).1 = ((fun kr => f kr.2) <$> rows_in_order t) ++ (f <$> rs).
Proof.
  intros Hk. destruct (insert_rows t rs) as [t' ks] eqn:Hi. destruct (insert_rows_lookup _ _ _ _ Hi) as (_ & Hks & _).
  simpl. rewrite (rows_in_order_insert _ _ _ _ Hk Hi), fmap_app. f_equal.
  change ((fun kr => f kr.2) <$> zip ks rs) with ((f ∘ snd) <$> zip ks rs).
  rewrite list_fmap_compose, snd_zip; [done|]. rewrite Hks, length_seqZ. lia.
Qed.

Lemma exported_authors_insert d t' ks ads :
  keys_ok (db_authors d) -> insert_rows (db_authors d) (author_dict <$> ads) = (t', ks) ->
  (fun kr => author_doc kr.2) <$> rows_in_order t' = exported_authors d ++ (author_json <$> ads).
Proof.
  intros Hk Hi. replace t' with (insert_rows (db_authors d) (author_dict <$> ads)).1 by by rewrite Hi.
  rewrite exported_rows_insert by done. f_equal. rewrite <-list_fmap_compose. by apply list_fmap_ext.
Qed.

(** C13. Round trip of the authors through the database: when the
    'authors' list of [data] holds author dicts of the generator's shape
    and the authors table is consistent, then after
    [import_to_database(data)], whether it returns or raises in the
    book or publisher phase, the 'authors' entry of the document
    [export_from_database] writes is the one before the import followed
    by the input authors, in the input order, each with its name,
    country and biography unchanged and its birth date in ISO format. *)
Theorem import_export_authors `{RandomSource R} h data ads d (r : R) fs :
  heap_wf h -> keys_ok (db_authors d) -> authors_input h data ads ->
  exists rest, export_doc (e_db (w_ext (import_to_database data (mkWorld h (mkEnv d r fs))).2)) =
    JObj (("authors", JArr (exported_authors d ++ (author_json <$> ads))) :: rest).
Proof.
  intros Hwf Hk Hin. destruct (import_authors_run h data ads d r fs Hwf Hin) as (h' & lo & insts & Hrun & _).
  destruct (insert_rows (db_authors d) (author_dict <$> ads)) as [t' ks] eqn:Ei.
  cbn [fst] in Hrun. unfold import_to_database. rewrite (pm_bind_inr _ _ _ _ _ Hrun).
  pose proof (import_rest_keeps_authors t' data (VRef lo) (mkWorld h' (mkEnv (set_table d MAuthor t') r fs)) eq_refl) as HA.
  unfold authors_are in HA.
  eexists. unfold export_doc. rewrite HA. simpl. by rewrite (exported_authors_insert d t' ks ads Hk Ei).
Qed.

Definition one_author : author_data := mkAuthorData "Li Lei" (mkDate 1970 1 1) "China" "".

(** The dict [data] of [generate_sample_data(1)] without books or
    publishers: the author dict at 1, the lists at 2, 3, 4, [data] at 5. *)
Definition one_author_heap : heap :=
  heap_of [ODict (author_dict one_author); OList [VRef 1]; OList []; OList [];
           ODict [("authors", VRef 2); ("books", VRef 3); ("publishers", VRef 4)]].

Lemma import_export_authors_witness :
  heap_wf one_author_heap /\ keys_ok (db_authors empty_db) /\ authors_input one_author_heap (VRef 5) [one_author] /\
  exists rest,
    export_doc (e_db (w_ext (import_to_database (VRef 5) (mkWorld one_author_heap (mkEnv empty_db (2024 : Z) ∅))).2)) =
    JObj (("authors", JArr (exported_authors empty_db ++ (author_json <$> [one_author]))) :: rest).
Proof.
  assert (Hwf : heap_wf one_author_heap) by (apply heap_closed_wf; decide_by_compute).
  assert (Hk : keys_ok (db_authors empty_db)) by (split; [simpl; lia|apply map_Forall_empty]).
  assert (Hin : authors_input one_author_heap (VRef 5) [one_author]).
  { exists 5%positive, [("authors", VRef 2); ("books", VRef 3); ("publishers", VRef 4)], 2%positive, [1%positive].
    split_and!; try reflexivity. repeat constructor. }
  split_and!; [exact Hwf|exact Hk|exact Hin|].
  exact (import_export_authors one_author_heap (VRef 5) [one_author] empty_db 2024 ∅ Hwf Hk Hin).
Defined.

(** ** The counts the importer returns and the exported arrays *)

(** ** The exported book entries *)

(** The entry the export writes for a book of the input (lines 143-151)
    whose author is [author]. *)
Definition book_json (b : book_data) (author : val) : jv :=
  JObj [("title", JAtom (VStr (bk_title b))); ("author", JAtom author);
        ("publication_date", JAtom (VStr (isoformat (bk_date b)))); ("genre", JAtom (VStr (bk_genre b)));
        ("isbn", JAtom (VStr (bk_isbn b))); ("pages", JAtom (VInt (bk_pages b))); ("price", JAtom (VFloat (bk_price b)))].

Lemma book_doc_row d b k pv ra :
  t_rows (db_authors d) !! k = Some ra -> py_float pv = inr (bk_price b) ->
  book_doc d (book_row b k pv) = book_json b (col "name" ra).
Proof. intros Hk Hf. unfold book_doc, author_name, float_of. cbn. by rewrite Hk, Hf. Qed.

(** The name of an author after the import: stored before, or of the input. *)
Definition author_known (d : db) (ads : list author_data) (nm : val) : Prop :=
  (exists k ra, t_rows (db_authors d) !! k = Some ra /\ nm = col "name" ra) \/ (exists a, a ∈ ads /\ nm = VStr (ad_name a)).

Lemma author_known_insert d ads k ra :
  keys_ok (db_authors d) -> t_rows (insert_rows (db_authors d) (author_dict <$> ads)).1 !! k = Some ra ->
  author_known d ads (col "name" ra).
Proof.
  intros Hk Hr. destruct (insert_rows (db_authors d) (author_dict <$> ads)) as [t' ks] eqn:Hi.
  destruct (proj2 (proj2 (insert_rows_grow _ _ _ _ Hk Hi)) k ra Hr) as [Ho|(a & -> & Ha)%list_elem_of_fmap].
  - left. by exists k, ra.
  - right. by exists a.
Qed.

(** C14. Round trip of the books: when [import_to_database(data)]
    succeeds and every input price is one [round(x, 2)] returns below
    10000, the 'books' entry of the document [export_from_database]
    writes right after it is the entries of the books stored before,
    followed by one entry per input book, in order, with its title,
    genre, isbn and pages unchanged, its date in ISO format, its price
    back as the same float after the DecimalField, and as author the
    name of an author stored before or of the input. *)
Theorem import_export_books `{RandomSource R} h data ads bks pbs d (r : R) fs :
  heap_wf h -> db_ok d -> import_input h data ads bks pbs -> import_allowed d ads bks ->
  Forall (fun b => two_places 1 999999 (bk_price b)) bks ->
  exists h' d' r' l xa xp news,
    import_to_database data (mkWorld h (mkEnv d r fs)) = (inr (VRef l), mkWorld h' (mkEnv d' r' fs)) /\
    export_doc d' = JObj [("authors", JArr xa);
                          ("books", JArr (((fun kr => book_doc d' kr.2) <$> rows_in_order (db_books d)) ++ news));
                          ("publishers", JArr xp)] /\
    Forall2 (fun j b => exists nm, j = book_json b nm /\ author_known d ads nm) news bks.
Proof.
  intros Hwf Hok Hin Hal Hp. pose proof Hok as (KA & KB & _).
  destruct (import_to_database_run h data ads bks pbs d r fs Hwf Hok Hin Hal)
    as (h' & d' & r' & l & Hrun & _ & _ & HA & (rows & Hrows & HB) & _ & _).
  exists h', d', r', l. eexists _, _, (book_doc d' <$> rows). split_and!; [exact Hrun| |].
  - unfold export_doc. by rewrite HB, exported_rows_insert.
  - apply Forall2_fmap_l. eapply Forall2_impl; [exact (Forall2_Forall_r _ _ _ _ Hrows Hp)|].
    intros ? b ((k & ra & pv & -> & Hk & Hd) & Hb).
    destruct (decimal_price_two_places 1 999999 (bk_price b) ltac:(lia) ltac:(lia) Hb) as (q & Hd' & Hf).
    rewrite Hd in Hd'. injection Hd' as ->. exists (col "name" ra). split; [by apply book_doc_row|].
    rewrite HA in Hk. by eapply author_known_insert.
Qed.

Lemma import_export_books_witness :
  heap_wf one_of_each_heap /\ db_ok empty_db /\
  import_input one_of_each_heap (VRef 7) [one_of_each_author] [one_of_each_book] [one_of_each_publisher] /\
  import_allowed empty_db [one_of_each_author] [one_of_each_book] /\
  Forall (fun b => two_places 1 999999 (bk_price b)) [one_of_each_book] /\
  exists h' d' r' l xa xp news,
    import_to_database (VRef 7) (mkWorld one_of_each_heap (mkEnv empty_db (2024 : Z) ∅)) =
      (inr (VRef l), mkWorld h' (mkEnv d' r' ∅)) /\
    export_doc d' = JObj [("authors", JArr xa);
                          ("books", JArr (((fun kr => book_doc d' kr.2) <$> rows_in_order (db_books empty_db)) ++ news));
                          ("publishers", JArr xp)] /\
    Forall2 (fun j b => exists nm, j = book_json b nm /\ author_known empty_db [one_of_each_author] nm) news [one_of_each_book].
Proof.
  destruct one_of_each_input as (Hwf & Hin & Hal).
  assert (Hp : Forall (fun b => two_places 1 999999 (bk_price b)) [one_of_each_book]).
  { apply Forall_singleton. exists 1999. split; [lia|reflexivity]. }
  split_and!; [exact Hwf|exact empty_db_ok|exact Hin|exact Hal|exact Hp|].
  exact (import_export_books one_of_each_heap (VRef 7) [one_of_each_author] [one_of_each_book] [one_of_each_publisher]
           empty_db 2024 ∅ Hwf empty_db_ok Hin Hal Hp).
Defined.

(** ** The exported publisher entries *)

(** The entry the export writes for a publisher of the input (lines
    155-161) whose related books have the titles [titles]. *)
Definition publisher_json (p : publisher_data) (titles : list jv) : jv :=
  JObj [("name", JAtom (VStr (pb_name p))); ("address", JAtom (VStr (pb_address p)));
        ("website", JAtom (VStr (pb_website p))); ("contact_email", JAtom (VStr (pb_email p)));
        ("books", JArr titles)].

Lemma NoDup_fst_eq (l : list (Z * row)) x y1 y2 : NoDup (fst <$> l) -> (x, y1) ∈ l -> (x, y2) ∈ l -> y1 = y2.
Proof.
  intros Hnd (i & Hi)%list_elem_of_lookup (j & Hj)%list_elem_of_lookup.
  assert (i = j) as <-; [|congruence].
  eapply NoDup_lookup; [exact Hnd| |]; rewrite list_lookup_fmap; [rewrite Hi|rewrite Hj]; reflexivity.
Qed.

(** The rows whose keys are those of a sub-multiset [krs] of rows with
    distinct keys: as many as [krs]. *)
Lemma filter_keys_length (rows krs : list (Z * row)) :
  NoDup (fst <$> rows) -> krs ⊆+ rows -> length (filter (fun kr => kr.1 ∈ fst <$> krs) rows) = length krs.
Proof.
  intros Hnd Hs. pose proof (NoDup_fmap_1 fst _ Hnd) as Hnd'. apply Permutation_length, NoDup_Permutation.
  - by apply NoDup_filter.
  - exact (NoDup_submseteq_inv _ _ Hs Hnd').
  - intros [k r]. rewrite list_elem_of_filter. split.
    + intros [([k' r'] & Hk & Hin)%list_elem_of_fmap Hr]. simpl in Hk. subst k'.
      by rewrite (NoDup_fst_eq _ _ _ _ Hnd Hr (elem_of_submseteq _ _ _ Hin Hs)).
    + intros Hin. split; [apply list_elem_of_fmap; by exists (k, r)|exact (elem_of_submseteq _ _ _ Hin Hs)].
Qed.

Lemma related_rows_keys d k bs :
  filter (fun pb => pb.1 = k) (db_pub_books d) = list_to_set (pair k <$> bs) ->
  related_rows d k = filter (fun kr => kr.1 ∈ bs) (rows_in_order (db_books d)).
Proof.
  intros Hrel. unfold related_rows. apply list_filter_iff. intros [b r]. simpl.
  trans ((k, b) ∈ filter (fun pb : Z * Z => pb.1 = k) (db_pub_books d)); [rewrite elem_of_filter; naive_solver|].
  rewrite Hrel, elem_of_list_to_set, list_elem_of_fmap. naive_solver.
Qed.

(** A publisher related by [books.set] to the books of [krs]. *)
Lemma sampled_publisher_doc d k p krs :
  krs ⊆+ rows_in_order (db_books d) ->
  filter (fun pb => pb.1 = k) (db_pub_books d) = list_to_set (pair k <$> (fst <$> krs)) ->
  exists titles, publisher_doc d (k, publisher_dict p) = publisher_json p titles /\ length titles = length krs /\
    Forall (fun t => exists kr, kr ∈ rows_in_order (db_books d) /\ t = JAtom (col "title" kr.2)) titles.
Proof.
  intros Hs Hrel. exists ((fun kb => JAtom (col "title" kb.2)) <$> related_rows d k).
  split; [reflexivity|]. rewrite (related_rows_keys _ _ _ Hrel). split.
  - rewrite length_fmap. apply filter_keys_length; [apply rows_in_order_NoDup|done].
  - apply Forall_fmap, Forall_forall. intros kr (_ & Hkr)%list_elem_of_filter. by exists kr.
Qed.

(** C15. Round trip of the publishers, and how many books each gets:
    when [import_to_database(data)] succeeds (input of the generator's
    shape, as in [ImportRun.import_succeeds]), the 'publishers' entry of
    the document [export_from_database] writes right after it is the
    entries of the publishers stored before, followed by one entry per
    input publisher, in order, with its name, address, website and e-mail
    unchanged and a 'books' list of exactly [min(10, B)] titles of stored
    books, [B] the number of books stored: [random.sample] draws that
    many distinct books and [books.set] relates exactly them.  This is
    not what the comment of line 113 says ("5-10 random books per
    publisher"): with [B < 5] stored books every publisher gets [B] of
    them (none when the table is empty), and with [B >= 10] always 10,
    never 5 to 9.  The witness is the case [B = 1]. *)
Theorem import_export_publishers `{RandomSource R} h data ads bks pbs d (r : R) fs :
  heap_wf h -> db_ok d -> import_input h data ads bks pbs -> import_allowed d ads bks ->
  exists h' d' r' l xa xb news,
    import_to_database data (mkWorld h (mkEnv d r fs)) = (inr (VRef l), mkWorld h' (mkEnv d' r' fs)) /\
    export_doc d' = JObj [("authors", JArr xa); ("books", JArr xb);
                          ("publishers", JArr ((publisher_doc d' <$> rows_in_order (db_publishers d)) ++ news))] /\
    Forall2 (fun j p => exists titles, j = publisher_json p titles /\
               length titles = Nat.min 10 (size (t_rows (db_books d'))) /\
               Forall (fun t => exists kr, kr ∈ rows_in_order (db_books d') /\ t = JAtom (col "title" kr.2)) titles)
            news pbs.
Proof.
  intros Hwf Hok Hin Hal. pose proof Hok as (KA & KB & KP & _).
  destruct (import_to_database_run h data ads bks pbs d r fs Hwf Hok Hin Hal)
    as (h' & d' & r' & l & Hrun & _ & _ & _ & _ & HP & Hs).
  destruct (insert_rows (db_publishers d) (publisher_dict <$> pbs)) as [tP ks] eqn:EP. simpl in HP.
  destruct (insert_rows_lookup _ _ _ _ EP) as (_ & Hks & _).
  exists h', d', r', l. eexists _, _, (publisher_doc d' <$> zip ks (publisher_dict <$> pbs)). split_and!; [exact Hrun| |].
  - unfold export_doc. rewrite HP, (rows_in_order_insert _ _ _ _ KP EP), fmap_app. reflexivity.
  - apply Forall2_same_length_lookup. split; [rewrite length_fmap, length_zip, Hks, length_seqZ, !length_fmap; lia|].
    intros i j p Hj Hp. rewrite list_lookup_fmap in Hj. apply fmap_Some in Hj as ([k pd] & Hz & ->).
    apply lookup_zip_Some in Hz as [Hk Hpd]. rewrite list_lookup_fmap, Hp in Hpd. injection Hpd as <-.
    rewrite Hks, lookup_seqZ, length_fmap in Hk. destruct Hk as [-> Hi].
    destruct (Hs i ltac:(lia)) as (krs & Hsub & Hlen & Hrel).
    destruct (sampled_publisher_doc d' _ p krs Hsub Hrel) as (titles & Hdoc & Hl & Hf).
    exists titles. split_and!; [done| |done]. rewrite Hl, Hlen. lia.
Qed.

Lemma import_export_publishers_witness :
  heap_wf one_of_each_heap /\ db_ok empty_db /\
  import_input one_of_each_heap (VRef 7) [one_of_each_author] [one_of_each_book] [one_of_each_publisher] /\
  import_allowed empty_db [one_of_each_author] [one_of_each_book] /\
  exists h' d' r' l xa xb news,
    import_to_database (VRef 7) (mkWorld one_of_each_heap (mkEnv empty_db (2024 : Z) ∅)) =
      (inr (VRef l), mkWorld h' (mkEnv d' r' ∅)) /\
    export_doc d' = JObj [("authors", JArr xa); ("books", JArr xb);
                          ("publishers", JArr ((publisher_doc d' <$> rows_in_order (db_publishers empty_db)) ++ news))] /\
    Forall2 (fun j p => exists titles, j = publisher_json p titles /\
               length titles = Nat.min 10 (size (t_rows (db_books d'))) /\
               Forall (fun t => exists kr, kr ∈ rows_in_order (db_books d') /\ t = JAtom (col "title" kr.2)) titles)
            news [one_of_each_publisher].
Proof.
  destruct one_of_each_input as (Hwf & Hin & Hal).
  split_and!; [exact Hwf|exact empty_db_ok|exact Hin|exact Hal|].
  exact (import_export_publishers one_of_each_heap (VRef 7) [one_of_each_author] [one_of_each_book] [one_of_each_publisher]
           empty_db 2024 ∅ Hwf empty_db_ok Hin Hal).
Defined.
