(* ===== verification/Pipeline.v ===== *)
(** * [main] (src/data_import_export.py, lines 169-188)

    [main] runs generate, clean, import and export in sequence and
    prints a progress line before each step.  Standard output is the
    entry [stdout] of the environment's files; [print] converts its
    argument with [str()] ([py_str]) and appends it and a newline.  The
    theorem
    [main_raises_type_error] shows that the sequence never gets past
    the import: [clean_raw_data] is given the dict [raw_data] instead of
    its record lists, iterates its keys and returns the list
    ['authors', 'books', 'publishers'], and [import_to_database] fails on
    [data['authors']] with TypeError.  No row is stored and no file is
    written: standard output holds the first three progress lines, for
    every random source, Faker and seed.  The section [Script] models the
    module body around [main] (lines 3-18 and 190-191):
    [script_stops_at_imports] shows that in this repository the script
    stops at an import before [main], [script_runs_main] that with the
    placeholders provided it runs [main]. *)

From S2P Require Import Prelude PyValue PyNum Cleaner Schema Random Store Json Importer Generator Exporter.
Import Fields.

Local Open Scope Z_scope.

(** ** Standard output

    [print(s)] writes [s] and a newline to [sys.stdout]; the model keeps
    standard output as the file [stdout] of the environment, so that the
    text printed before an exception stays visible.  Text is bytes: the
    UTF-8 encoding of the script's messages. *)
Definition stdout : string := "<stdout>".

Definition print_out (fs : gmap string string) (s : string) : gmap string string :=
  <[stdout := default "" (fs !! stdout) +:+ s +:+ String "010"%char EmptyString]> fs.

(** [str(v)], as an f-string formats the values [main] prints: the ints
    of [import_results] and [export_results], or a str.  Other values
    never reach these f-strings (TypeError stands for them). *)
Definition py_str (v : val) : exn + string :=
  match v with
  | VInt z => int_repr z
  | VStr s => inr s
  | _ => inl TypeError
  end.

Section Main.
Context `{RandomSource R, Faker R}.

Definition py_print (s : string) : DbM R unit :=
  fun w => (inr tt, mkWorld (w_heap w) (mkEnv (e_db (w_ext w)) (e_rng (w_ext w)) (print_out (e_files (w_ext w)) s))).

(** [f"..{a}..{b}..{c}.."] of lines 181 and 186: each expression
    formatted in turn. *)
Definition format3 (p1 p2 p3 p4 : string) (a b c : val) : DbM R string :=
  sa <- py_lift (py_str a) ;; sb <- py_lift (py_str b) ;; sc <- py_lift (py_str c) ;;
  pm_ret (p1 +:+ sa +:+ p2 +:+ sb +:+ p3 +:+ sc +:+ p4)%string.

(** [main()], lines 169-188 *)
Definition main : DbM R unit :=
  py_print "生成样本数据..." ;;
  raw_data <- generate_sample_data 25 ;;
  py_print "清理数据..." ;;
  cleaned_data <- clean_raw_data raw_data ;;
  py_print "导入数据库..." ;;
  import_results <- import_to_database cleaned_data ;;
  a <- py_getitem import_results "authors" ;;
  b <- py_getitem import_results "books" ;;
  c <- py_getitem import_results "publishers" ;;
  msg <- format3 "导入完成: " " 作者, " " 书籍, " " 出版社" a b c ;;
  py_print msg ;;
  py_print "导出数据到文件..." ;;
  export_results <- export_from_database "library_export.json" ;;
  let '(na, nb, np) := export_results in
  msg' <- format3 "导出完成: " " 作者, " " 书籍, " " 出版社" (VInt na) (VInt nb) (VInt np) ;;
  py_print msg' ;;
  py_print "操作完成！请在Django管理面板中检查数据".

End Main.

Lemma py_print_run `{RandomSource R} s h d (r : R) fs :
  py_print s (mkWorld h (mkEnv d r fs)) = (inr tt, mkWorld h (mkEnv d r (print_out fs s))).
Proof. reflexivity. Qed.

(** The run of [main], shared with the script around it. *)
Lemma main_run `{RandomSource R, Faker R} h d (r : R) fs :
  heap_closed h ->
  exists h' r', main (mkWorld h (mkEnv d r fs)) =
    (inl TypeError,
     mkWorld h' (mkEnv d r' (print_out (print_out (print_out fs "生成样本数据...") "清理数据...") "导入数据库..."))).
Proof.
  intros Hcl. unfold main. pm_step (py_print_run "生成样本数据..." h d r fs).
  destruct (generate_sample_data_spec 25 h d r (print_out fs "生成样本数据...") Hcl)
    as (l & la & lb & lp & h1 & r1 & _ & _ & _ & Hrun & Hcl1 & Hl & _).
  pm_step Hrun. pm_step (py_print_run "清理数据..." h1 d r1 (print_out fs "生成样本数据...")).
  set (fs2 := print_out (print_out fs _) _).
  pose proof (clean_raw_data_dict_run h1 (mkEnv d r1 fs2) l _ Hcl1 Hl ltac:(vm_compute; repeat constructor)) as Hc.
  pm_step Hc. simpl. set (h2 := with_obj h1 (hnext h1) _).
  pm_step (py_print_run "导入数据库..." h2 d r1 fs2).
  rewrite (pm_bind_inl _ _ _ _ _ (import_list_run (hnext h1) _ (mkWorld h2 (mkEnv d r1 (print_out fs2 "导入数据库...")))
             ltac:(simpl; eauto with heap) (heap_get_with_obj_eq _ _ _))).
  by eexists _, _.
Qed.

(** C1. [main()] prints its first three progress lines and then raises
    TypeError, from [data['authors']] in [import_to_database] (line 94),
    for every random source, Faker and state: [clean_raw_data(raw_data)]
    has turned the generated dict into the list of its keys.  The
    database is the one it started with and the only file written is
    standard output: nothing is imported and nothing is exported. *)
Theorem main_raises_type_error `{RandomSource R, Faker R} h d (r : R) fs :
  heap_closed h ->
  exists h' r', main (mkWorld h (mkEnv d r fs)) =
    (inl TypeError,
     mkWorld h' (mkEnv d r' (print_out (print_out (print_out fs "生成样本数据...") "清理数据...") "导入数据库..."))).
Proof. intros Hcl. exact (main_run h d r fs Hcl). Qed.

Lemma main_raises_type_error_witness :
  heap_closed (mkHeap ∅ 1) /\
  exists h' r', main (mkWorld (mkHeap ∅ 1) (mkEnv empty_db 2024 ∅)) =
    (inl TypeError,
     mkWorld h' (mkEnv empty_db r' (print_out (print_out (print_out ∅ "生成样本数据...") "清理数据...") "导入数据库..."))).
Proof.
  assert (Hc : heap_closed (mkHeap ∅ 1)) by decide_by_compute.
  split; [exact Hc|]. exact (main_raises_type_error (mkHeap ∅ 1) empty_db 2024 ∅ Hc).
Defined.

(** ** The script around [main]: lines 3-18 and 190-191

    Before [main] runs, the module body sets up Django: it imports its
    libraries (lines 3-9), appends the parent of the script's directory
    to [sys.path] (line 12), defaults [DJANGO_SETTINGS_MODULE] to
    ['your_project.settings'] (line 13), runs [django.setup()], which
    imports the settings module (line 14), imports the models from
    ['your_app.models'] (line 16) and builds the Faker provider (line
    18); lines 190-191 call [main()] when the file runs as a script.
    The process is modelled by its environment variables, its
    [sys.path] and the modules installed outside it; [tree d] is the
    set of modules a directory [d] of [sys.path] provides and [root] the
    directory line 12 appends.  A failed import is a
    ModuleNotFoundError, given with its line and module. *)

(** The imports of lines 3-9. *)
Definition script_imports : list (nat * string) :=
  [(3, "os"); (4, "sys"); (5, "django"); (6, "json"); (7, "random"); (8, "datetime"); (9, "faker")]%nat.

Record proc := mkProc { p_environ : gmap string string; p_path : list string; p_site : gset string }.

Definition settings_key : string := "DJANGO_SETTINGS_MODULE".

Section Script.
Variable tree : string -> gset string.
Variable root : string.

Definition importable (pr : proc) (m : string) : bool :=
  bool_decide (m ∈ p_site pr) || existsb (fun d => bool_decide (m ∈ tree d)) (p_path pr).

(** Import statements in order: the first module that cannot be found
    stops the module body. *)
Definition import_all (ms : list (nat * string)) (pr : proc) : (nat * string) + proc :=
  match find (fun lm => negb (importable pr lm.2)) ms with Some lm => inl lm | None => inr pr end.

(** Lines 12-13 *)
Definition setup_env (pr : proc) : proc :=
  mkProc (match p_environ pr !! settings_key with
          | Some _ => p_environ pr
          | None => <[settings_key := "your_project.settings"]> (p_environ pr)
          end) (p_path pr ++ [root]) (p_site pr).

(** Lines 3-18 *)
Definition bootstrap (pr : proc) : (nat * string) + proc :=
  match import_all script_imports pr with
  | inl e => inl e
  | inr pr1 =>
      let pr2 := setup_env pr1 in
      import_all [(14, default "" (p_environ pr2 !! settings_key)); (16, "your_app.models")]%nat pr2
  end.

(** Running the file under the module name [name]: the body, then
    [main()] if [name] is ['__main__'] (lines 190-191). *)
Definition run_script `{RandomSource R, Faker R} (name : string) (pr : proc) (w : world (env R))
  : (nat * string) + ((exn + unit) * world (env R)) :=
  match bootstrap pr with
  | inl e => inl e
  | inr _ => inr (if String.eqb name "__main__" then main w else (inr tt, w))
  end.

End Script.

Definition script_libs : list string := snd <$> script_imports.

Lemma import_all_ok tree pr ms : Forall (fun lm => importable tree pr lm.2 = true) ms -> import_all tree ms pr = inr pr.
Proof.
  intros Hf. unfold import_all. destruct (find _ ms) as [lm|] eqn:E; [|done].
  apply find_some in E as [Hin%list_elem_of_In Hn%negb_true_iff]. rewrite Forall_forall in Hf. by rewrite (Hf lm Hin) in Hn.
Qed.

Lemma bootstrap_libs tree root pr :
  Forall (fun m => importable tree pr m = true) script_libs ->
  bootstrap tree root pr = import_all tree [(14, default "" (p_environ (setup_env root pr) !! settings_key));
                                           (16, "your_app.models")]%nat (setup_env root pr).
Proof. intros Hl. unfold bootstrap. rewrite import_all_ok; [done|]. by apply Forall_fmap in Hl. Qed.

Lemma setup_env_settings root pr :
  default "" (p_environ (setup_env root pr) !! settings_key) = default "your_project.settings" (p_environ pr !! settings_key).
Proof. unfold setup_env. simpl. destruct (p_environ pr !! settings_key) eqn:E; [by rewrite E|by rewrite lookup_insert_eq]. Qed.

(** C2. Running data_import_export.py never reaches [main] when no
    directory of [sys.path] and no installed package provides
    ['your_app.models'], as in this repository, whose app is [myapp]:
    with its libraries installed, the module body stops with
    ModuleNotFoundError at line 14, [django.setup()], on the settings
    module ([DJANGO_SETTINGS_MODULE], defaulted by line 13 to the
    placeholder ['your_project.settings']) when that cannot be imported,
    and otherwise at line 16, [from your_app.models import ...].  For
    every environment, module name and state. *)
Theorem script_stops_at_imports `{RandomSource R, Faker R} tree root name pr (w : world (env R)) :
  Forall (fun m => importable tree pr m = true) script_libs ->
  importable tree (setup_env root pr) "your_app.models" = false ->
  run_script tree root name pr w =
    inl (if importable tree (setup_env root pr) (default "your_project.settings" (p_environ pr !! settings_key))
         then (16%nat, "your_app.models")
         else (14%nat, default "your_project.settings" (p_environ pr !! settings_key))).
Proof.
  intros Hl Hm. unfold run_script. rewrite bootstrap_libs by done. rewrite setup_env_settings.
  unfold import_all. simpl. rewrite Hm.
  by destruct (importable tree (setup_env root pr) (default "your_project.settings" (p_environ pr !! settings_key))).
Qed.

(** C3. With the placeholders resolved (a settings module and a
    ['your_app.models'] the process can import), the script runs [main]
    as the file's entry point, and [main] raises TypeError after its
    first three progress lines ([main_raises_type_error]); imported
    under another name, it runs nothing. *)
Theorem script_runs_main `{RandomSource R, Faker R} tree root pr h d (r : R) fs :
  Forall (fun m => importable tree pr m = true) script_libs ->
  importable tree (setup_env root pr) (default "your_project.settings" (p_environ pr !! settings_key)) = true ->
  importable tree (setup_env root pr) "your_app.models" = true ->
  heap_closed h ->
  (exists h' r', run_script tree root "__main__" pr (mkWorld h (mkEnv d r fs)) =
     inr (inl TypeError,
          mkWorld h' (mkEnv d r' (print_out (print_out (print_out fs "生成样本数据...") "清理数据...") "导入数据库...")))) /\
  run_script tree root "myapp.script" pr (mkWorld h (mkEnv d r fs)) = inr (inr tt, mkWorld h (mkEnv d r fs)).
Proof.
  intros Hl Hs Hm Hcl. unfold run_script. rewrite bootstrap_libs by done. rewrite setup_env_settings.
  rewrite import_all_ok by (repeat constructor; done). split; [|done].
  destruct (main_run h d r fs Hcl) as (h' & r' & Hrun). exists h', r'. simpl. by rewrite Hrun.
Qed.

(** This repository run as [python src/data_import_export.py]: [sys.path]
    starts with the script's directory [src], which provides [myapp];
    the libraries are installed; line 12 appends the repository root,
    which provides no module. *)
Definition repo_tree (d : string) : gset string :=
  if String.eqb d "src" then {[ "myapp"; "myapp.models"; "myapp.admin"; "data_import_export" ]} else ∅.

Definition repo_proc : proc := mkProc ∅ ["src"] (list_to_set script_libs).

Lemma script_stops_at_imports_witness :
  Forall (fun m => importable repo_tree repo_proc m = true) script_libs /\
  importable repo_tree (setup_env "." repo_proc) "your_app.models" = false /\
  run_script (R := Z) repo_tree "." "__main__" repo_proc (mkWorld (mkHeap ∅ 1) (mkEnv empty_db 2024 ∅)) =
    inl (if importable repo_tree (setup_env "." repo_proc)
              (default "your_project.settings" (p_environ repo_proc !! settings_key))
         then (16%nat, "your_app.models")
         else (14%nat, default "your_project.settings" (p_environ repo_proc !! settings_key))).
Proof.
  assert (Hl : Forall (fun m => importable repo_tree repo_proc m = true) script_libs) by (vm_compute; repeat constructor).
  assert (Hm : importable repo_tree (setup_env "." repo_proc) "your_app.models" = false) by (vm_compute; reflexivity).
  split_and!; [exact Hl|exact Hm|].
  exact (script_stops_at_imports repo_tree "." "__main__" repo_proc _ Hl Hm).
Defined.

(** The same run with the placeholders provided: a settings module
    named by the environment and a package [your_app] installed. *)
Definition deployed_proc : proc :=
  mkProc {[ settings_key := "mysite.settings" ]} ["src"] (list_to_set script_libs ∪ {[ "mysite.settings"; "your_app.models" ]}).

Lemma script_runs_main_witness :
  Forall (fun m => importable repo_tree deployed_proc m = true) script_libs /\
  importable repo_tree (setup_env "." deployed_proc)
    (default "your_project.settings" (p_environ deployed_proc !! settings_key)) = true /\
  importable repo_tree (setup_env "." deployed_proc) "your_app.models" = true /\
  heap_closed (mkHeap ∅ 1) /\
  (exists h' r', run_script repo_tree "." "__main__" deployed_proc (mkWorld (mkHeap ∅ 1) (mkEnv empty_db (2024 : Z) ∅)) =
     inr (inl TypeError,
          mkWorld h' (mkEnv empty_db r' (print_out (print_out (print_out ∅ "生成样本数据...") "清理数据...") "导入数据库...")))) /\
  run_script repo_tree "." "myapp.script" deployed_proc (mkWorld (mkHeap ∅ 1) (mkEnv empty_db (2024 : Z) ∅))
    = inr (inr tt, mkWorld (mkHeap ∅ 1) (mkEnv empty_db 2024 ∅)).
Proof.
  assert (Hl : Forall (fun m => importable repo_tree deployed_proc m = true) script_libs) by (vm_compute; repeat constructor).
  assert (Hs : importable repo_tree (setup_env "." deployed_proc)
                 (default "your_project.settings" (p_environ deployed_proc !! settings_key)) = true)
    by (vm_compute; reflexivity).
  assert (Hm : importable repo_tree (setup_env "." deployed_proc) "your_app.models" = true) by (vm_compute; reflexivity).
  assert (Hc : heap_closed (mkHeap ∅ 1)) by decide_by_compute.
  destruct (script_runs_main repo_tree "." deployed_proc (mkHeap ∅ 1) empty_db 2024 ∅ Hl Hs Hm Hc) as [H1 H2].
  split_and!; [exact Hl|exact Hs|exact Hm|exact Hc|exact H1|exact H2].
Defined.
