(* ===== verification/EndToEnd.v ===== *)
(** * Generate, import, export: the pipeline the script means

    [main] (lines 169-188) calls [generate_sample_data], then
    [clean_raw_data] on the whole dict, which breaks the run
    ([Pipeline.main_raises_type_error]).  This file composes the three
    components that fit together as the spec describes them, each
    taken as the code has it: [generate_sample_data(n)] builds the
    dict [data] ([Generator]); [import_to_database(data)] stores it
    ([ImportRun]); [export_from_database(filename)] writes the store
    ([Exporter]).  From an empty store and for [n <= 85] (so that
    [random.sample] takes its pool branch), whenever the ISBNs Faker
    drew are distinct, the import returns the counts [n], [n] and
    [min(5, n)], and the export returns the same counts and leaves in
    the file the JSON text of the document of the stored rows.  The
    bridge is [gen_import_input]: the generator's dicts are exactly the
    author, book and publisher dicts [ImportRun] runs on, with prices
    that survive the DecimalField. *)

From S2P Require Import Prelude PyValue PyNum Schema Random Store Json Importer Generator ImportRun Exporter.

Local Open Scope Z_scope.

(** ** From the generator's dicts to input records *)

Lemma records_of_dicts {A} (P : list (string * val) -> Prop) (f : A -> list (string * val)) (Q : A -> Prop) h vs :
  (forall kvs, P kvs -> exists a, kvs = f a /\ Q a) -> Forall (dict_rec P h) vs ->
  exists ls xs, vs = VRef <$> ls /\ Forall2 (fun l a => heap_get h l = Some (ODict (f a))) ls xs /\ Forall Q xs.
Proof.
  intros HP Hvs. induction Hvs as [|v vs (l & kvs & -> & Hl & Hk) _ (ls & xs & -> & Hf & HQ)]; [by exists [], []|].
  destruct (HP _ Hk) as (a & -> & Ha). exists (l :: ls), (a :: xs). split_and!; by constructor.
Qed.

Lemma author_ok_dict kvs : author_ok kvs -> exists a, kvs = author_dict a /\ True.
Proof. intros (nm & bd & c & bio & -> & _). by exists (mkAuthorData nm bd c bio). Qed.

Lemma book_ok_dict kvs :
  book_ok kvs -> exists b, kvs = book_dict b /\ (100 <= bk_pages b <= 800 /\ price_in_range (bk_price b)).
Proof. intros (t & pd & g & isbn & pages & price & -> & _ & _ & Hp & Hr). by exists (mkBookData t pd g isbn pages price). Qed.

Lemma publisher_ok_dict kvs : publisher_ok kvs -> exists p, kvs = publisher_dict p /\ True.
Proof. intros (nm & ad & url & em & ->). by exists (mkPublisherData nm ad url em). Qed.

(** A generated price goes through the DecimalField unchanged. *)
Lemma generated_price_decimal p :
  price_in_range p -> exists q, decimal_price p = inr (VDecimal q (-2)) /\ py_float (VDecimal q (-2)) = inr p.
Proof. apply decimal_price_two_places; lia. Qed.

Lemma generated_book_storable b : 100 <= bk_pages b <= 800 /\ price_in_range (bk_price b) -> book_storable b = true.
Proof.
  intros [Hp Hr]. destruct (generated_price_decimal _ Hr) as (q & Hd & _).
  unfold book_storable. rewrite Hd, bool_decide_eq_true_2 by lia. done.
Qed.

(** What [generate_sample_data(n)] leaves in the heap is input the
    importer runs on: [n] authors, [n] books, [min(5, n)] publishers. *)
Lemma gen_import_input h l la lb lp aus bs ps :
  heap_get h l = Some (ODict [("authors", VRef la); ("books", VRef lb); ("publishers", VRef lp)]) ->
  heap_get h la = Some (OList aus) -> Forall (dict_rec author_ok h) aus ->
  heap_get h lb = Some (OList bs) -> Forall (dict_rec book_ok h) bs ->
  heap_get h lp = Some (OList ps) -> Forall (dict_rec publisher_ok h) ps ->
  exists ads bks pbs, import_input h (VRef l) ads bks pbs /\
    length ads = length aus /\ length bks = length bs /\ length pbs = length ps /\
    Forall (fun b => 100 <= bk_pages b <= 800 /\ price_in_range (bk_price b)) bks.
Proof.
  intros Hl Hla Ha Hlb Hb Hlp Hp.
  destruct (records_of_dicts _ _ _ h aus author_ok_dict Ha) as (las & ads & -> & Has & _).
  destruct (records_of_dicts _ _ _ h bs book_ok_dict Hb) as (lbs & bks & -> & Hbs & Hbk).
  destruct (records_of_dicts _ _ _ h ps publisher_ok_dict Hp) as (lps & pbs & -> & Hps & _).
  exists ads, bks, pbs. rewrite !length_fmap, <-(Forall2_length _ _ _ Has), <-(Forall2_length _ _ _ Hbs),
    <-(Forall2_length _ _ _ Hps).
  split_and!; [|done..]. exists l. eexists. by exists la, lb, lp, las, lbs, lps.
Qed.

(** ** The stored rows can be exported *)

Lemma insert_rows_forall (Q : row -> Prop) t rs :
  keys_ok t -> map_Forall (fun _ => Q) (t_rows t) -> Forall Q rs -> map_Forall (fun _ => Q) (t_rows (insert_rows t rs).1).
Proof.
  intros Hk Ht Hrs k r Hr. destruct (insert_rows t rs) as [t' ks] eqn:Hi. simpl in Hr.
  destruct (proj2 (proj2 (insert_rows_grow _ _ _ _ Hk Hi)) k r Hr) as [Ho|Hin]; [exact (Ht k r Ho)|].
  by eapply Forall_forall.
Qed.

Lemma col_ok_str c r s : assoc_lookup c r = Some (VStr s) -> col_ok c r.
Proof. intros H. by exists (VStr s), (encode_str s). Qed.

Lemma author_dict_ok a : author_row_ok (author_dict a).
Proof. split_and!; [eapply col_ok_str; reflexivity|by eexists|eapply col_ok_str; reflexivity..]. Qed.

Lemma publisher_dict_ok p : publisher_row_ok (publisher_dict p).
Proof. split_and!; eapply col_ok_str; reflexivity. Qed.

Lemma book_row_export_ok b k pv :
  100 <= bk_pages b <= 800 -> price_in_range (bk_price b) -> decimal_price (bk_price b) = inr pv ->
  book_row_ok (book_row b k pv).
Proof.
  intros Hp Hr Hd. destruct (generated_price_decimal _ Hr) as (q & Hd' & Hf). rewrite Hd in Hd'. injection Hd' as ->.
  assert (Hl : Z.log2 (Z.abs (bk_pages b)) <= Z.log2 800) by (apply Z.log2_le_mono; lia).
  destruct (int_repr_ok (bk_pages b)) as (s & Hs); [simpl in Hl; lia|].
  split_and!; [eapply col_ok_str; reflexivity|by eexists|eapply col_ok_str; reflexivity..| |].
  - exists (VInt (bk_pages b)), s. split; [reflexivity|by simpl; rewrite Hs].
  - by exists (VDecimal q (-2)), (bk_price b).
Qed.

(** After a successful import of generated data the store still holds
    only rows the export can print. *)
Lemma import_export_ok d d' ads bks rows pbs :
  keys_ok (db_authors d) -> keys_ok (db_books d) -> keys_ok (db_publishers d) -> export_ok d ->
  Forall (fun b => 100 <= bk_pages b <= 800 /\ price_in_range (bk_price b)) bks ->
  Forall2 (fun r b => exists k ra pv, r = book_row b k pv /\ t_rows (db_authors d') !! k = Some ra /\
                                      decimal_price (bk_price b) = inr pv) rows bks ->
  db_authors d' = (insert_rows (db_authors d) (author_dict <$> ads)).1 ->
  db_books d' = (insert_rows (db_books d) rows).1 ->
  db_publishers d' = (insert_rows (db_publishers d) (publisher_dict <$> pbs)).1 ->
  export_ok d'.
Proof.
  intros KA KB KP (OA & OB & OP) Hbk Hrows HA HB HP. unfold export_ok. rewrite HA, HB, HP.
  split_and!; apply insert_rows_forall; try done.
  - apply Forall_fmap, Forall_forall. intros a _. apply author_dict_ok.
  - apply Forall_forall. intros r Hr.
    destruct (Forall2_elem_l _ _ _ _ (Forall2_Forall_r _ _ _ _ Hrows Hbk) Hr) as (b & _ & (k & ra & pv & -> & _ & Hd) & Hp & Hpr).
    by apply book_row_export_ok.
  - apply Forall_fmap, Forall_forall. intros p _. apply publisher_dict_ok.
Qed.

(** ** The composed run *)

Lemma empty_db_export_ok : export_ok empty_db.
Proof. split_and!; apply map_Forall_empty. Qed.

(** Generated data is input the empty store accepts, once its ISBNs are
    distinct and there are at most 85 books. *)
Lemma gen_import_allowed ads bks :
  length ads = length bks -> (length bks <= 85)%nat -> NoDup (bk_isbn <$> bks) ->
  Forall (fun b => 100 <= bk_pages b <= 800 /\ price_in_range (bk_price b)) bks ->
  import_allowed empty_db ads bks.
Proof.
  intros Hl H85 Hnd Hbk. split_and!; [|by eapply Forall_impl; [exact Hbk|apply generated_book_storable]|done| |done].
  - intros Hb. left. intros ->. destruct bks; [done|discriminate].
  - apply Forall_forall. intros b _. unfold table_rows, col_values. simpl. rewrite map_to_list_empty. apply not_elem_of_nil.
Qed.

Lemma size_insert_empty_table rs : size (t_rows (insert_rows empty_table rs).1) = length rs.
Proof. rewrite (insert_rows_size _ _ _ _ (proj1 empty_db_ok) (surjective_pairing _)). reflexivity. Qed.

(** C4. The pipeline the spec describes, generate then import then
    export, composed from the script's own functions: from an empty
    store and a closed heap, [generate_sample_data(n)] for
    [0 <= n <= 85] returns a dict [data] of [n] author, [n] book and
    [min(5, n)] publisher dicts; when the ISBNs Faker drew for the books
    are distinct, [import_to_database(data)] returns the counts [n], [n]
    and [min(5, n)], and [export_from_database(filename)] then returns
    the same three numbers and leaves in [filename] the JSON text of the
    document of the store.  For every random source, Faker and seed. *)
Theorem generate_import_export `{RandomSource R, Faker R} n fn h (r : R) fs :
  heap_closed h -> 0 <= n <= 85 ->
  exists l h1 r1 ads bks pbs,
    generate_sample_data n (mkWorld h (mkEnv empty_db r fs)) = (inr (VRef l), mkWorld h1 (mkEnv empty_db r1 fs)) /\
    import_input h1 (VRef l) ads bks pbs /\
    (NoDup (bk_isbn <$> bks) ->
     exists l2 h2 d2 r2 h3,
       import_to_database (VRef l) (mkWorld h1 (mkEnv empty_db r1 fs)) = (inr (VRef l2), mkWorld h2 (mkEnv d2 r2 fs)) /\
       heap_get h2 l2 = Some (ODict [("authors", VInt n); ("books", VInt n); ("publishers", VInt (Z.min 5 n))]) /\
       export_from_database fn (mkWorld h2 (mkEnv d2 r2 fs)) =
         (inr (n, n, Z.min 5 n), mkWorld h3 (mkEnv d2 r2 (<[fn := jprint 0 (export_doc d2)]> fs)))).
Proof.
  intros Hcl Hn.
  destruct (generate_sample_data_spec n h empty_db r fs Hcl)
    as (l & la & lb & lp & h1 & r1 & aus & bs & ps & Hgen & Hcl1 & Hl & Hla & Hna & Ha & Hlb & Hnb & Hb & Hlp & Hnp & Hp).
  destruct (gen_import_input h1 l la lb lp aus bs ps Hl Hla Ha Hlb Hb Hlp Hp) as (ads & bks & pbs & Hin & LA & LB & LP & Hbk).
  exists l, h1, r1, ads, bks, pbs. split_and!; [done|done|]. intros Hnd.
  assert (Hal : import_allowed empty_db ads bks) by (apply gen_import_allowed; [lia|lia|done|done]).
  destruct (import_to_database_run h1 (VRef l) ads bks pbs empty_db r1 fs (heap_closed_wf _ Hcl1) empty_db_ok Hin Hal)
    as (h2 & d2 & r2 & l2 & Hrun & Hwf2 & Hl2 & HA & (rows & Hrows & HB) & HP & _).
  pose proof (import_preserves (VRef l) (mkWorld h1 (mkEnv empty_db r1 fs)) empty_db_ok) as Hok2.
  rewrite Hrun in Hok2. cbn [snd w_ext e_db] in Hok2.
  pose proof empty_db_ok as (KA & KB & KP & _).
  destruct (export_from_database_run fn h2 d2 r2 fs Hwf2 Hok2
              (import_export_ok _ _ ads bks rows pbs KA KB KP empty_db_export_ok Hbk Hrows HA HB HP)) as (h3 & Hexp).
  exists l2, h2, d2, r2, h3. rewrite Hexp, HA, HB, HP. cbn [db_authors db_books db_publishers empty_db].
  rewrite !size_insert_empty_table, !length_fmap, (Forall2_length _ _ _ Hrows), LA, LB, LP, Hna, Hnb, Hnp in *.
  rewrite !Z2Nat.id in * by lia. split_and!; done.
Qed.

Lemma generate_import_export_witness :
  heap_closed (mkHeap ∅ 1) /\ 0 <= 2 <= 85 /\
  exists l h1 r1 ads bks pbs,
    generate_sample_data 2 (mkWorld (mkHeap ∅ 1) (mkEnv empty_db 7 ∅)) = (inr (VRef l), mkWorld h1 (mkEnv empty_db r1 ∅)) /\
    import_input h1 (VRef l) ads bks pbs /\
    (NoDup (bk_isbn <$> bks) ->
     exists l2 h2 d2 r2 h3,
       import_to_database (VRef l) (mkWorld h1 (mkEnv empty_db r1 ∅)) = (inr (VRef l2), mkWorld h2 (mkEnv d2 r2 ∅)) /\
       heap_get h2 l2 = Some (ODict [("authors", VInt 2); ("books", VInt 2); ("publishers", VInt (Z.min 5 2))]) /\
       export_from_database "library_export.json" (mkWorld h2 (mkEnv d2 r2 ∅)) =
         (inr (2, 2, Z.min 5 2), mkWorld h3 (mkEnv d2 r2 (<["library_export.json" := jprint 0 (export_doc d2)]> ∅)))).
Proof.
  assert (Hc : heap_closed (mkHeap ∅ 1)) by decide_by_compute.
  split_and!; [exact Hc|lia|lia|].
  exact (generate_import_export 2 "library_export.json" (mkHeap ∅ 1) 7 ∅ Hc ltac:(lia)).
Defined.
